(** * topic-explainer-agent: the critique/revision pipeline

    A shallow embedding of the Python sources under
    [topic-explainer-agent/src] (planner.py, orchestrator.py, explainer.py,
    critic.py, notes_creator.py) and the properties of the slug function,
    the backend adapter, the stages and the iteration controller.

    Conventions of the embedding:
    - a Python [str] is a list of Unicode code points ([pystr]);
    - the file system is a finite map from resolved (absolute) POSIX paths
      to the text of the file, so that reading never fails to decode;
      writing encodes in UTF-8: [open(path, "w")] empties the file, and
      [write] raises UnicodeEncodeError on a lone surrogate; disk errors
      are not modelled;
    - [print] of what a run receives from the backend or reads from a
      file raises UnicodeEncodeError when the standard output of the
      environment cannot encode it; the messages of the scripts
      themselves (fixed text, paths and command-line arguments) are taken
      to be printable, and what is printed is not kept;
    - [sys.exit] and uncaught exceptions are the failure results of an
      error/state monad over the [world]. *)

From Stdlib Require Import NArith ZArith Ascii String List Lia Bool.
From Stdlib Require Import DecimalString DecimalNat.
From stdpp Require Import base option list numbers gmap.

Import ListNotations.
Local Open Scope N_scope.

(* ===================================================================== *)
(** ** Python strings *)
(* ===================================================================== *)

(** A code point. *)
Abbreviation char := N.
Abbreviation pystr := (list N).

(** An ASCII literal of the source as a list of code points. *)
Definition str (s : string) : pystr := map N_of_ascii (list_ascii_of_string s).

Definition c_space : char := 32.
Definition c_hyphen : char := 45.
Definition c_underscore : char := 95.
Definition c_slash : char := 47.
Definition c_dot : char := 46.
Definition c_colon : char := 58.
Definition c_lf : char := 10.
Definition c_cr : char := 13.
Definition c_eq : char := 61.

(** [x == y] on strings. *)
Fixpoint str_eqb (a b : pystr) : bool :=
  match a, b with
  | [], [] => true
  | x :: a', y :: b' => (x =? y) && str_eqb a' b'
  | _, _ => false
  end.

(** [str.isspace] of one code point: the characters [str.strip] removes
    (CPython's [_PyUnicode_IsWhitespace]). *)
Definition isspace (c : char) : bool :=
  ((9 <=? c) && (c <=? 13)) || ((28 <=? c) && (c <=? 32))
  || (c =? 133) || (c =? 160) || (c =? 5760)
  || ((8192 <=? c) && (c <=? 8202))
  || (c =? 8232) || (c =? 8233) || (c =? 8239) || (c =? 8287) || (c =? 12288).

Fixpoint lstrip (s : pystr) : pystr :=
  match s with
  | [] => []
  | c :: s' => if isspace c then lstrip s' else s
  end.

Definition rstrip (s : pystr) : pystr := rev (lstrip (rev s)).

(** [s.strip()] *)
Definition strip (s : pystr) : pystr := rstrip (lstrip s).

(** [s.startswith(p)] *)
Fixpoint startswith (p s : pystr) : bool :=
  match p, s with
  | [], _ => true
  | x :: p', y :: s' => (x =? y) && startswith p' s'
  | _ :: _, [] => false
  end.

(** [s.endswith(p)] *)
Definition endswith (p s : pystr) : bool := startswith (rev p) (rev s).

(** [p in s]: [p] occurs in [s] as a contiguous substring. *)
Fixpoint contains (p s : pystr) : bool :=
  startswith p s ||
  match s with
  | [] => false
  | _ :: s' => contains p s'
  end.

(** [s.replace(" ", "-")] *)
Definition replace_space_hyphen (s : pystr) : pystr :=
  map (fun c => if c =? c_space then c_hyphen else c) s.

(** A surrogate code point (U+D800..U+DFFF): a [str] may hold one, for
    instance from the JSON escape [\udc80], but UTF-8 has no encoding
    for it. *)
Definition is_surrogate (c : char) : bool := (55296 <=? c) && (c <=? 57343).

(** [s.encode("utf-8")] succeeds. *)
Definition encodable (s : pystr) : bool :=
  forallb (fun c => negb (is_surrogate c)) s.

(** [a or b] on strings: the empty string is falsy. *)
Definition str_or (a b : pystr) : pystr :=
  match a with [] => b | _ => a end.

(** *** Character classes *)

Definition is_ascii (c : char) : bool := c <? 128.

Definition ascii_isdigit (c : char) : bool := (48 <=? c) && (c <=? 57).
Definition ascii_isupper (c : char) : bool := (65 <=? c) && (c <=? 90).
Definition ascii_islower (c : char) : bool := (97 <=? c) && (c <=? 122).
Definition ascii_isalnum (c : char) : bool :=
  ascii_isdigit c || ascii_isupper c || ascii_islower c.
Definition ascii_lower (c : char) : char :=
  if ascii_isupper c then c + 32 else c.

(** The part of Python's Unicode database the slug functions consult
    beyond ASCII: [str.isalnum] of a code point above U+007F, and
    [str.lower] of a string that is not pure ASCII (CPython lower-cases
    pure-ASCII strings on a separate fast path). *)
Record unicode_db := {
  unicode_isalnum : char -> bool;
  unicode_lower : pystr -> pystr
}.

(** [c.isalnum()] *)
Definition isalnum (U : unicode_db) (c : char) : bool :=
  if is_ascii c then ascii_isalnum c else unicode_isalnum U c.

(** [s.lower()] *)
Definition lower (U : unicode_db) (s : pystr) : pystr :=
  if forallb is_ascii s then map ascii_lower s else unicode_lower U s.

(** The Unicode database restricted to Latin-1 (U+0080..U+00FF), where it
    is small enough to write down: the letters and the digit-like
    superscripts and fractions are alphanumeric, and the capital letters
    U+00C0..U+00DE (without the multiplication sign U+00D7) lower-case by
    adding 32. Code points above U+00FF are left alone. *)
Definition latin1_isalnum (c : char) : bool :=
  (c =? 170) || (c =? 178) || (c =? 179) || (c =? 181) || (c =? 185)
  || (c =? 186) || ((188 <=? c) && (c <=? 190))
  || ((192 <=? c) && (c <=? 214)) || ((216 <=? c) && (c <=? 246))
  || ((248 <=? c) && (c <=? 255)).

Definition latin1_lower_char (c : char) : char :=
  if ascii_isupper c then c + 32
  else if (192 <=? c) && (c <=? 222) && negb (c =? 215) then c + 32
  else c.

Definition latin1 : unicode_db :=
  {| unicode_isalnum := latin1_isalnum;
     unicode_lower := map latin1_lower_char |}.

(* ===================================================================== *)
(** ** More of [str]: slicing at a separator, lines, decimal numbers *)
(* ===================================================================== *)

(** [s.rfind(c) + 1]: the index just after the last [c] in [s], and 0
    when [c] does not occur. *)
Fixpoint after_last (c : char) (s : pystr) : nat :=
  match s with
  | [] => O
  | x :: s' =>
      match after_last c s' with
      | O => if x =? c then 1%nat else O
      | S n => S (S n)
      end
  end.

(** [s.rstrip(c)] for a single character [c]. *)
Fixpoint lstrip_char (c : char) (s : pystr) : pystr :=
  match s with
  | [] => []
  | x :: s' => if x =? c then lstrip_char c s' else s
  end.

Definition rstrip_char (c : char) (s : pystr) : pystr :=
  rev (lstrip_char c (rev s)).

(** [s.split(sep)] for a single character separator. *)
Fixpoint split_on (sep : char) (s : pystr) : list pystr :=
  match s with
  | [] => [[]]
  | c :: s' =>
      if c =? sep then [] :: split_on sep s'
      else match split_on sep s' with
           | [] => [[c]]
           | w :: ws => (c :: w) :: ws
           end
  end.

(** [sep.join(parts)] for a single character separator. *)
Fixpoint join_with (sep : char) (parts : list pystr) : pystr :=
  match parts with
  | [] => []
  | [w] => w
  | w :: ws => w ++ sep :: join_with sep ws
  end.

(** [line.split(":", 1)[1]]: the text after the first colon; [None]
    stands for the [IndexError] of a line without a colon. *)
Fixpoint after_first (c : char) (s : pystr) : option pystr :=
  match s with
  | [] => None
  | x :: s' => if x =? c then Some s' else after_first c s'
  end.

(** The line boundaries of [str.splitlines]. *)
Definition is_linebreak (c : char) : bool :=
  ((10 <=? c) && (c <=? 13)) || ((28 <=? c) && (c <=? 30))
  || (c =? 133) || (c =? 8232) || (c =? 8233).

(** [s.splitlines()]; [cur] is the line being read, last character
    first. A carriage return followed by a line feed is one boundary, and
    a final boundary opens no empty line. *)
Fixpoint splitlines_from (cur : pystr) (s : pystr) : list pystr :=
  match s with
  | [] => match cur with [] => [] | _ => [rev cur] end
  | c :: s' =>
      if c =? c_cr then
        match s' with
        | d :: s'' =>
            if d =? c_lf then rev cur :: splitlines_from [] s''
            else rev cur :: splitlines_from [] s'
        | [] => rev cur :: splitlines_from [] s'
        end
      else if is_linebreak c then rev cur :: splitlines_from [] s'
      else splitlines_from (c :: cur) s'
  end.

Definition splitlines (s : pystr) : list pystr := splitlines_from [] s.

(** [str(n)] of a non-negative integer. *)
Definition str_of_nat (n : nat) : pystr :=
  str (NilEmpty.string_of_uint (Nat.to_uint n)).

(** [int(s)] on what [str_of_nat] prints. *)
Definition nat_of_str (s : pystr) : option nat :=
  match NilEmpty.uint_of_string
          (string_of_list_ascii (map ascii_of_N s)) with
  | Some d => Some (Nat.of_uint d)
  | None => None
  end.

(** A two-digit, zero-padded field of [strftime]. *)
Definition pad2 (n : nat) : pystr :=
  if (n <? 10)%nat then 48 :: str_of_nat n else str_of_nat n.

(** A reading of [datetime.now()]. *)
Record datetime := {
  year : nat; month : nat; day : nat;
  hour : nat; minute : nat; second : nat
}.

(** [t.strftime("%Y-%m-%d %H:%M:%S")] (years of four digits). *)
Definition strftime (t : datetime) : pystr :=
  str_of_nat (year t) ++ c_hyphen :: pad2 (month t) ++ c_hyphen :: pad2 (day t)
  ++ c_space :: pad2 (hour t) ++ c_colon :: pad2 (minute t)
  ++ c_colon :: pad2 (second t).

(* ===================================================================== *)
(** ** [os.path] (posixpath) *)
(* ===================================================================== *)

Module Path.

(** [os.path.basename(p)]: [p[i:]] with [i = p.rfind('/') + 1]. *)
Definition basename (p : pystr) : pystr := drop (after_last c_slash p) p.

(** [os.path.dirname(p)]: [p[:i]], without its trailing slashes unless
    it consists of slashes only. *)
Definition dirname (p : pystr) : pystr :=
  let head := take (after_last c_slash p) p in
  if forallb (N.eqb c_slash) head then head else rstrip_char c_slash head.

(** One step of [os.path.join]: an absolute component restarts the
    path, any other is appended after exactly one separator. *)
Definition join2 (path b : pystr) : pystr :=
  if startswith [c_slash] b then b
  else match path with
       | [] => b
       | _ => if endswith [c_slash] path then path ++ b
              else path ++ c_slash :: b
       end.

(** [os.path.join(a, *ps)] *)
Definition join (a : pystr) (ps : list pystr) : pystr := fold_left join2 ps a.

(** The body of the loop of [normpath]; [new_comps] is kept last
    component first. *)
Definition normpath_step (initial_slashes : nat) (new_comps : list pystr)
    (comp : pystr) : list pystr :=
  if str_eqb comp [] || str_eqb comp [c_dot] then new_comps
  else if negb (str_eqb comp [c_dot; c_dot])
          || ((initial_slashes =? 0)%nat
              && match new_comps with [] => true | _ => false end)
          || match new_comps with
             | last :: _ => str_eqb last [c_dot; c_dot]
             | [] => false
             end
  then comp :: new_comps
  else match new_comps with
       | _ :: rest => rest
       | [] => []
       end.

(** POSIX allows exactly two leading slashes to be kept. *)
Definition initial_slashes (path : pystr) : nat :=
  if startswith [c_slash] path then
    if startswith [c_slash; c_slash] path
       && negb (startswith [c_slash; c_slash; c_slash] path)
    then 2%nat else 1%nat
  else O.

(** [os.path.normpath(path)] *)
Definition normpath (path : pystr) : pystr :=
  match path with
  | [] => [c_dot]
  | _ =>
      let k := initial_slashes path in
      let comps := split_on c_slash path in
      let new_comps := fold_left (normpath_step k) comps [] in
      let path := join_with c_slash (rev new_comps) in
      let path := repeat c_slash k ++ path in
      str_or path [c_dot]
  end.

(** [os.path.abspath(path)] in the working directory [cwd]
    ([os.getcwd()]). *)
Definition abspath (cwd path : pystr) : pystr :=
  normpath (if startswith [c_slash] path then path else join2 cwd path).

(** The loop of [genericpath._splitext] that skips the leading dots of
    the file name: [true] when a character other than a dot stands
    between [filenameIndex] and [dotIndex]. *)
Definition has_stem (p : pystr) (filenameIndex dotIndex : nat) : bool :=
  existsb (fun c => negb (c =? c_dot))
          (take (dotIndex - filenameIndex) (drop filenameIndex p)).

(** [os.path.splitext(p)[0]] *)
Definition splitext_root (p : pystr) : pystr :=
  let sepIndex := after_last c_slash p in
  let dotIndex := after_last c_dot p in
  if (sepIndex <? dotIndex)%nat && has_stem p sepIndex (dotIndex - 1)
  then take (dotIndex - 1) p
  else p.

End Path.

(* ===================================================================== *)
(** ** The slug function and the outline path (planner.py, orchestrator.py) *)
(* ===================================================================== *)

(** The fallback token of [safe or "lecture"]. *)
Definition lecture : pystr := str "lecture".

(** The test of the generator expression:
    [c.isalnum() or c in ("-", "_")]. *)
Definition keeps (U : unicode_db) (c : char) : bool :=
  isalnum U c || ((c =? c_hyphen) || (c =? c_underscore)).

Module Planner.
Section WithUnicode.
Context (U : unicode_db).

(** planner.py, [sanitize_filename]. *)
Definition sanitize_filename (topic : pystr) : pystr :=
  let safe := strip (lower U topic) in
  let safe := replace_space_hyphen safe in
  let safe := List.filter (keeps U) safe in
  str_or safe lecture.

(** The topic of [main], from the command line:
    [" ".join(sys.argv[1:]).strip()]. *)
Definition topic_of (args : list pystr) : pystr :=
  strip (join_with c_space args).

(** [os.path.abspath(os.path.join(os.path.dirname(__file__), ".."))],
    the project root of [save_outline], in the working directory
    [cwd]. *)
Definition project_root (cwd file__ : pystr) : pystr :=
  Path.abspath cwd (Path.join (Path.dirname file__) [[c_dot; c_dot]]).

(** The file [save_outline] writes. *)
Definition outline_file (cwd file__ topic : pystr) : pystr :=
  let slug := sanitize_filename topic in
  let output_dir := Path.join (project_root cwd file__) [str "outputs"; slug] in
  Path.join output_dir [str "outline.txt"].
End WithUnicode.
End Planner.

Module Orchestrator.
Section WithUnicode.
Context (U : unicode_db).

(** orchestrator.py, [sanitize_filename]. *)
Definition sanitize_filename (topic : pystr) : pystr :=
  let safe := strip (lower U topic) in
  let safe := replace_space_hyphen safe in
  let safe := List.filter (keeps U) safe in
  str_or safe lecture.

(** The topic of [main], from the command line. *)
Definition topic_of (args : list pystr) : pystr :=
  strip (join_with c_space args).

(** [os.path.abspath(os.path.join(os.path.dirname(__file__), ".."))],
    the project root of [main]. *)
Definition project_root (cwd file__ : pystr) : pystr :=
  Path.abspath cwd (Path.join (Path.dirname file__) [[c_dot; c_dot]]).

(** The planner script [main] starts: [src/planner.py] under the
    project root. *)
Definition planner_py (cwd file__ : pystr) : pystr :=
  let src_dir := Path.join (project_root cwd file__) [str "src"] in
  Path.join src_dir [str "planner.py"].

(** The outline path [main] checks after the planner has run. *)
Definition outline_path (cwd file__ topic : pystr) : pystr :=
  let slug := sanitize_filename topic in
  let output_dir := Path.join (project_root cwd file__) [str "outputs"; slug] in
  Path.join output_dir [str "outline.txt"].

(** The arguments [main] gives to planner.py after the script name. *)
Definition planner_args (topic : pystr) : list pystr := [topic].
End WithUnicode.
End Orchestrator.

(** The character set [a-z0-9_-] of the slug. *)
Definition slug_char (c : char) : bool :=
  ascii_islower c || ascii_isdigit c || (c =? c_underscore) || (c =? c_hyphen).

(** The characters a pure-ASCII topic must avoid for nothing of it to
    survive in the slug: letters, digits, hyphen, underscore and space. *)
Definition slug_relevant (c : char) : bool :=
  ascii_isalnum c || (c =? c_hyphen) || (c =? c_underscore) || (c =? c_space).

(* ===================================================================== *)
(** ** The backend: streamed chunks *)
(* ===================================================================== *)

(** What [json.loads] returns. A float is kept as its truth value, the
    only thing the adapter observes of it; [JObj] lists the items of the
    resulting [dict]. *)
#[warning="-register-all"]
Inductive json :=
| JNull
| JBool (b : bool)
| JInt (z : Z)
| JFloat (nonzero : bool)
| JStr (s : pystr)
| JArr (items : list json)
| JObj (fields : list (pystr * json)).

(** The exceptions that nothing under [src] catches. *)
Inductive exn :=
| AttributeError
| TypeError
| IndexError
| TimeoutError
| UnicodeDecodeError
| UnicodeEncodeError.

(** How a process ends other than by returning. *)
Inductive failure :=
| SysExit (code : Z)
| Uncaught (e : exn).

(** The exit status of the process: an uncaught exception gives 1. *)
Definition exit_code (f : failure) : Z :=
  match f with
  | SysExit code => code
  | Uncaught _ => 1%Z
  end.

(** One line of the response body, as
    [raw_line.decode("utf-8").strip()] and [json.loads] see it. *)
Inductive response_line :=
| BadBytes                (* [decode] raises UnicodeDecodeError *)
| Blank                   (* the line strips to the empty string *)
| Malformed               (* [json.loads] raises JSONDecodeError *)
| Chunk (chunk : json).   (* [json.loads] returns [chunk] *)

Inductive stream_end :=
| EndOfStream
| ReadTimeout.            (* the socket times out while the body is read *)

(** What [urllib.request.urlopen] gives: a [URLError] (connection refused,
    time-out while connecting, HTTP error status), or a body read line by
    line. *)
Inductive response :=
| Unreachable
| Stream (lines : list response_line) (ending : stream_end).

(** Truth value of a Python object. *)
Definition truthy (j : json) : bool :=
  match j with
  | JNull => false
  | JBool b => b
  | JInt z => negb (z =? 0)%Z
  | JFloat nonzero => nonzero
  | JStr s => match s with [] => false | _ => true end
  | JArr items => match items with [] => false | _ => true end
  | JObj fields => match fields with [] => false | _ => true end
  end.

Fixpoint lookup_field (key : pystr) (fields : list (pystr * json)) : option json :=
  match fields with
  | [] => None
  | (k, v) :: rest => if str_eqb k key then Some v else lookup_field key rest
  end.

(** [obj.get(key, default)]: only a [dict] has the method. *)
Definition py_get (obj : json) (key : pystr) (default : json) : exn + json :=
  match obj with
  | JObj fields =>
      inr (match lookup_field key fields with
           | Some v => v
           | None => default
           end)
  | _ => inl AttributeError
  end.

(** The [for raw_line in response] loop of [query_ollama], the same text
    in planner.py, explainer.py and critic.py. [tokens] is the list being
    appended to; the result is that list when the loop is left by [break]
    or at the end of the body. [out obj] tells whether [print(obj)]
    succeeds on the standard output of the run: a token is appended and
    then printed, and the UnicodeEncodeError of a token that cannot be
    printed is caught by neither [except] clause. *)
Fixpoint read_stream (out : json -> bool) (lines : list response_line)
    (ending : stream_end) (tokens : list json) : exn + list json :=
  match lines with
  | [] =>
      match ending with
      | EndOfStream => inr tokens
      | ReadTimeout => inl TimeoutError
      end
  | BadBytes :: _ => inl UnicodeDecodeError
  | Blank :: rest => read_stream out rest ending tokens
  | Malformed :: rest => read_stream out rest ending tokens
  | Chunk chunk :: rest =>
      match py_get chunk (str "message") (JObj []) with
      | inl e => inl e
      | inr message =>
          match py_get message (str "content") (JStr []) with
          | inl e => inl e
          | inr token =>
              if truthy token && negb (out token) then inl UnicodeEncodeError
              else
                let tokens := if truthy token then tokens ++ [token] else tokens in
                match py_get chunk (str "done") (JBool false) with
                | inl e => inl e
                | inr done =>
                    if truthy done then inr tokens
                    else read_stream out rest ending tokens
                end
          end
      end
  end.

(** ["".join(tokens)]: a [TypeError] unless every item is a [str]. *)
Fixpoint join_tokens (tokens : list json) : exn + pystr :=
  match tokens with
  | [] => inr []
  | JStr s :: rest =>
      match join_tokens rest with
      | inr t => inr (s ++ t)
      | inl e => inl e
      end
  | _ :: _ => inl TypeError
  end.

(** The request of one backend call: the payload, and the label the
    caller prints for it. *)
Record request := {
  req_model : pystr;
  req_system : pystr;
  req_user : pystr;
  req_label : pystr
}.

(* ===================================================================== *)
(** ** The world of a run *)
(* ===================================================================== *)

(** The files (by resolved path), the backend calls made so far, oldest
    first, and the number of clock readings taken. *)
Record world := {
  files : gmap pystr pystr;
  calls : list request;
  ticks : nat
}.

(** What a run cannot decide: the working directory, the Unicode
    database, the backend (its answer may depend on the calls before),
    the clock, and the standard output: [stdout obj] tells whether its
    encoding has every character of [str(obj)], so that [print(obj)]
    succeeds. *)
Record env := {
  cwd : pystr;
  unicode : unicode_db;
  backend : list request -> request -> response;
  clock : nat -> datetime;
  stdout : json -> bool
}.

Inductive result (A : Type) :=
| Ok (a : A)
| Fail (f : failure).
Arguments Ok {A} a.
Arguments Fail {A} f.

(** A computation that reads and changes the world and may fail. *)
Definition M (A : Type) : Type := world -> result A * world.

Definition ret {A} (a : A) : M A := fun w => (Ok a, w).

Definition bind {A B} (c : M A) (k : A -> M B) : M B :=
  fun w =>
    match c w with
    | (Ok a, w') => k a w'
    | (Fail f, w') => (Fail f, w')
    end.

Definition fail {A} (f : failure) : M A := fun w => (Fail f, w).

(** [sys.exit(code)] *)
Definition sys_exit {A} (code : Z) : M A := fail (SysExit code).

Notation "'let*' x ':=' c 'in' k" := (bind c (fun x => k))
  (at level 10, x name, c at level 200, k at level 200, only parsing).

(** The world after one more backend call. *)
Definition with_call (w : world) (req : request) : world :=
  {| files := files w; calls := calls w ++ [req]; ticks := ticks w |}.

(** [print(obj)] *)
Definition py_print (E : env) (obj : json) : M unit :=
  fun w =>
    if stdout E obj then (Ok tt, w) else (Fail (Uncaught UnicodeEncodeError), w).

(** What [query_ollama] makes of the response to its request: the
    [try] around [urlopen] and the loop, the join of the tokens, and the
    check of the stripped result. *)
Definition assemble (E : env) (r : response) : result pystr :=
  match r with
  | Unreachable => Fail (SysExit 1)
  | Stream lines ending =>
      match read_stream (stdout E) lines ending [] with
      | inl e => Fail (Uncaught e)
      | inr tokens =>
          match join_tokens tokens with
          | inl e => Fail (Uncaught e)
          | inr text =>
              match strip text with
              | [] => Fail (SysExit 1)
              | result => Ok result
              end
          end
      end
  end.

(** [open(path, "r")] in universal-newlines mode: a carriage return,
    alone or before a line feed, is read as one line feed. *)
Fixpoint universal_newlines (s : pystr) : pystr :=
  match s with
  | [] => []
  | c :: s' =>
      if c =? c_cr then
        match s' with
        | d :: s'' =>
            if d =? c_lf then c_lf :: universal_newlines s''
            else c_lf :: universal_newlines s'
        | [] => [c_lf]
        end
      else c :: universal_newlines s'
  end.

Section FileSystem.
Context (E : env).

(** The key of a path in [files]. *)
Definition resolve (path : pystr) : pystr := Path.abspath (cwd E) path.

(** [os.path.exists(path)] *)
Definition path_exists (path : pystr) : M bool :=
  fun w => (Ok (bool_decide (is_Some (files w !! resolve path))), w).

(** [open(path, "r").read()] of a file that exists. *)
Definition read_text (path : pystr) : M pystr :=
  fun w => (Ok (universal_newlines (default [] (files w !! resolve path))), w).

(** [with open(path, "w", encoding="utf-8") as f: f.write(text)]:
    [open] creates the file or empties it; [write] then encodes the
    text, and the UnicodeEncodeError of a text with a lone surrogate
    leaves the file empty. *)
Definition write_text (path text : pystr) : M unit :=
  fun w =>
    if encodable text then
      (Ok tt, {| files := <[resolve path := text]> (files w);
                 calls := calls w; ticks := ticks w |})
    else
      (Fail (Uncaught UnicodeEncodeError),
       {| files := <[resolve path := []]> (files w);
          calls := calls w; ticks := ticks w |}).

(** [os.remove(path)] *)
Definition remove (path : pystr) : M unit :=
  fun w => (Ok tt, {| files := delete (resolve path) (files w);
                      calls := calls w; ticks := ticks w |}).

(** [datetime.now().strftime("%Y-%m-%d %H:%M:%S")] *)
Definition now_stamp : M pystr :=
  fun w => (Ok (strftime (clock E (ticks w))),
            {| files := files w; calls := calls w; ticks := S (ticks w) |}).

(** The body of [query_ollama], the same text in explainer.py and
    critic.py up to the model constant and the default label: the
    request is sent, and the response assembled. *)
Definition query_backend (model system_prompt user_message task_label : pystr)
    : M pystr :=
  fun w =>
    let req := {| req_model := model; req_system := system_prompt;
                  req_user := user_message; req_label := task_label |} in
    (assemble E (backend E (calls w) req), with_call w req).

(** [load_file(filepath, label)], the same checks in explainer.py and
    critic.py. *)
Definition load_file (filepath : pystr) : M pystr :=
  let* present := path_exists filepath in
  if negb present then sys_exit 1
  else
    let* raw := read_text filepath in
    let content := strip raw in
    match content with
    | [] => sys_exit 1
    | _ => ret content
    end.

(** [os.path.abspath(os.path.join(script_dir, "..", "prompts", name))]
    with [script_dir = os.path.dirname(os.path.abspath(__file__))]. *)
Definition prompt_path (file__ name : pystr) : pystr :=
  let script_dir := Path.dirname (Path.abspath (cwd E) file__) in
  Path.abspath (cwd E)
    (Path.join script_dir [[c_dot; c_dot]; str "prompts"; name]).

End FileSystem.

(** The rule of sixty box-drawing characters of the prompts,
    ['─' * 60]. *)
Definition box_rule : pystr := repeat 9472 60.

(** ['=' * 60] *)
Definition eq_rule : pystr := repeat c_eq 60.

(* ===================================================================== *)
(** ** explainer.py *)
(* ===================================================================== *)

Module Explainer.

Definition MODEL_NAME : pystr := str "llama3.2:3b".
Definition EXPLAINER_PROMPT_FILE : pystr := str "explainer_system_prompt.txt".
Definition REVISER_PROMPT_FILE : pystr := str "reviser_system_prompt.txt".

(** The prefix the revision stage looks for in the header. *)
Definition SOURCE_FIELD : pystr := str "Source    :".

(** The header written by [module_generate]. *)
Definition generated_header (timestamp source_name : pystr) : pystr :=
  str "LECTURE EXPLANATION" ++ [c_lf]
  ++ eq_rule ++ [c_lf]
  ++ str "Generated : " ++ timestamp ++ [c_lf]
  ++ str "Model     : " ++ MODEL_NAME ++ [c_lf]
  ++ str "Source    : " ++ source_name ++ [c_lf]
  ++ eq_rule ++ [c_lf; c_lf].

(** The header written by [module_revise]. *)
Definition updated_header (timestamp source_name critique_name : pystr) : pystr :=
  str "LECTURE EXPLANATION" ++ [c_lf]
  ++ eq_rule ++ [c_lf]
  ++ str "Revised   : " ++ timestamp ++ [c_lf]
  ++ str "Model     : " ++ MODEL_NAME ++ [c_lf]
  ++ str "Source    : " ++ source_name ++ [c_lf]
  ++ str "Critique  : " ++ critique_name ++ [c_lf]
  ++ eq_rule ++ [c_lf; c_lf].

(** The loop of [module_revise] over [explanation.splitlines()]: the
    first line that starts with the source field gives the name, and
    the loop breaks there. *)
Fixpoint scan_source (lines : list pystr) (source_name : pystr) : exn + pystr :=
  match lines with
  | [] => inr source_name
  | line :: rest =>
      if startswith SOURCE_FIELD line then
        match after_first c_colon line with
        | Some field => inr (strip field)
        | None => inl IndexError
        end
      else scan_source rest source_name
  end.

(** The user message of [module_generate]. *)
Definition generate_message (outline_text : pystr) : pystr :=
  str "Below is a structured lecture outline. "
  ++ str "Expand it into a full, detailed lecture explanation document."
  ++ [c_lf; c_lf]
  ++ str "Follow all formatting and content guidelines from your instructions."
  ++ [c_lf; c_lf]
  ++ str "OUTLINE:" ++ [c_lf]
  ++ box_rule ++ [c_lf]
  ++ outline_text ++ [c_lf]
  ++ box_rule.

(** The user message of [module_revise]. *)
Definition revise_message (explanation critique : pystr) : pystr :=
  str "You are given an existing lecture explanation document and a critique."
  ++ [c_lf]
  ++ str "Apply ONLY the changes the critique specifies. "
  ++ str "Return the complete revised document." ++ [c_lf; c_lf]
  ++ str "CURRENT EXPLANATION DOCUMENT:" ++ [c_lf]
  ++ box_rule ++ [c_lf]
  ++ explanation ++ [c_lf]
  ++ box_rule ++ [c_lf; c_lf]
  ++ str "CRITIQUE TO APPLY:" ++ [c_lf]
  ++ box_rule ++ [c_lf]
  ++ critique ++ [c_lf]
  ++ box_rule.

Section Run.
Context (E : env).
(** [__file__] of the running script. *)
Context (file__ : pystr).

Definition query_ollama (system_prompt user_message task_label : pystr) : M pystr :=
  query_backend E MODEL_NAME system_prompt user_message task_label.

Definition load_system_prompt (filename : pystr) : M pystr :=
  load_file E (prompt_path E file__ filename).

(** [derive_explanation_path(outline_path)] *)
Definition derive_explanation_path (outline_path : pystr) : pystr :=
  let directory := Path.dirname (Path.abspath (cwd E) outline_path) in
  let basename := Path.basename outline_path in
  if str_eqb basename (str "outline.txt") then
    Path.join directory [str "explanation.txt"]
  else
    let slug :=
      if endswith (str "-outline.txt") basename
      then take (length basename - length (str "-outline.txt")) basename
      else Path.splitext_root basename in
    Path.join directory [slug ++ str "-explanation.txt"].

(** [module_generate(outline_path)] *)
Definition module_generate (outline_path : pystr) : M unit :=
  let* outline_text := load_file E outline_path in
  let* system_prompt := load_system_prompt EXPLAINER_PROMPT_FILE in
  let user_message := generate_message outline_text in
  let* explanation := query_ollama system_prompt user_message
                      (str "Generating explanation") in
  let output_path := derive_explanation_path outline_path in
  let* timestamp := now_stamp E in
  let header := generated_header timestamp (Path.basename outline_path) in
  write_text E output_path (header ++ explanation).

(** [module_revise(explanation_path, critique_path)] *)
Definition module_revise (explanation_path critique_path : pystr) : M unit :=
  let* explanation := load_file E explanation_path in
  let* critique := load_file E critique_path in
  let* system_prompt := load_system_prompt REVISER_PROMPT_FILE in
  let user_message := revise_message explanation critique in
  let* revised := query_ollama system_prompt user_message
                  (str "Applying critique") in
  let* timestamp := now_stamp E in
  match scan_source (splitlines explanation) (Path.basename explanation_path) with
  | inl e => fail (Uncaught e)
  | inr source_name =>
      let updated_header :=
        updated_header timestamp source_name (Path.basename critique_path) in
      write_text E explanation_path (updated_header ++ revised)
  end.

(** [main()] with [sys.argv = file__ :: args]. *)
Definition main (args : list pystr) : M unit :=
  match args with
  | [] => sys_exit 1
  | mode :: rest =>
      let mode := lower (unicode E) mode in
      if str_eqb mode (str "generate") then
        match rest with
        | outline_path :: _ => module_generate outline_path
        | [] => sys_exit 1
        end
      else if str_eqb mode (str "revise") then
        match rest with
        | explanation_path :: critique_path :: _ =>
            module_revise explanation_path critique_path
        | _ => sys_exit 1
        end
      else sys_exit 1
  end.
End Run.

End Explainer.

(* ===================================================================== *)
(** ** critic.py *)
(* ===================================================================== *)

Module Critic.

Definition MODEL_NAME : pystr := str "llama3.2:3b".
Definition CRITIC_PROMPT_FILE : pystr := str "critic_system_prompt.txt".
Definition ACTIVE_CRITIQUE_FILE : pystr := str "active_critique.txt".
Definition MAX_ITERATIONS : nat := 4.
Definition APPROVED_SIGNAL : pystr := str "VERDICT: APPROVED".

(** [is_approved(critique_text)] *)
Definition is_approved (critique_text : pystr) : bool :=
  contains APPROVED_SIGNAL critique_text.

(** The label of a critique call,
    [f"Reviewing (iteration {iteration})"]. *)
Definition review_label (iteration : nat) : pystr :=
  str "Reviewing (iteration " ++ str_of_nat iteration ++ str ")".

(** The user message of [generate_critique]. *)
Definition critique_message (explanation filename : pystr) (iteration : nat)
    (previous_critique : pystr) : pystr :=
  if (iteration =? 1)%nat then
    str "Please review the following lecture explanation document." ++ [c_lf]
    ++ str "Filename: " ++ filename ++ [c_lf; c_lf]
    ++ str "EXPLANATION DOCUMENT:" ++ [c_lf]
    ++ box_rule ++ [c_lf]
    ++ explanation ++ [c_lf]
    ++ box_rule ++ [c_lf; c_lf]
    ++ str "Produce your critique report following all instructions."
  else
    str "You are reviewing a REVISED version of a lecture explanation." ++ [c_lf]
    ++ str "Filename: " ++ filename ++ [c_lf; c_lf]
    ++ str "YOUR PREVIOUS CRITIQUE (what you asked to be fixed):" ++ [c_lf]
    ++ box_rule ++ [c_lf]
    ++ previous_critique ++ [c_lf]
    ++ box_rule ++ [c_lf; c_lf]
    ++ str "THE UPDATED EXPLANATION DOCUMENT (after revision):" ++ [c_lf]
    ++ box_rule ++ [c_lf]
    ++ explanation ++ [c_lf]
    ++ box_rule ++ [c_lf; c_lf]
    ++ str "IMPORTANT INSTRUCTIONS FOR THIS RE-REVIEW:" ++ [c_lf]
    ++ str "1. First check each issue from your previous critique "
    ++ [8212] ++ str " is it now resolved?" ++ [c_lf]
    ++ str "2. If an issue is resolved, do NOT raise it again" ++ [c_lf]
    ++ str "3. Only raise an issue again if it is genuinely still present and unaddressed"
    ++ [c_lf]
    ++ str "4. You may also raise NEW issues if they are significant (max 4 total)"
    ++ [c_lf]
    ++ str "5. If all previous issues are fixed and there are no new significant ones, "
    ++ str "output VERDICT: APPROVED" ++ [c_lf; c_lf]
    ++ str "Produce your critique report following all instructions.".

(** The header of the critique artifact, written by [save_critique]. *)
Definition critique_header (iteration : nat) (timestamp : pystr) : pystr :=
  str "ACTIVE CRITIQUE " ++ [8212] ++ str " Iteration " ++ str_of_nat iteration
  ++ [c_lf]
  ++ str "Generated: " ++ timestamp ++ [c_lf]
  ++ eq_rule ++ [c_lf; c_lf].

(** How the controller ends when it does not fail: the two places of
    [sys.exit(0)] in [main]. *)
Inductive terminal :=
| Approved (iteration : nat)
| Capped.

Section Run.
Context (E : env).
(** [__file__] of the running script. *)
Context (file__ : pystr).

Definition query_ollama (system_prompt user_message task_label : pystr) : M pystr :=
  query_backend E MODEL_NAME system_prompt user_message task_label.

Definition load_system_prompt : M pystr :=
  load_file E (prompt_path E file__ CRITIC_PROMPT_FILE).

(** [generate_critique(...)] *)
Definition generate_critique (system_prompt explanation filename : pystr)
    (iteration : nat) (previous_critique : pystr) : M pystr :=
  query_ollama system_prompt
    (critique_message explanation filename iteration previous_critique)
    (review_label iteration).

(** The path of the single critique artifact of a run. *)
Definition critique_path_of (explanation_path : pystr) : pystr :=
  let critique_dir := Path.dirname (Path.abspath (cwd E) explanation_path) in
  Path.join critique_dir [ACTIVE_CRITIQUE_FILE].

(** [save_critique(critique_text, iteration, explanation_path)] *)
Definition save_critique (critique_text : pystr) (iteration : nat)
    (explanation_path : pystr) : M pystr :=
  let critique_path := critique_path_of explanation_path in
  let* timestamp := now_stamp E in
  let header := critique_header iteration timestamp in
  let* _ := write_text E critique_path (header ++ critique_text) in
  ret critique_path.

(** The script [explainer.py] next to [critic.py]. *)
Definition explainer_py : pystr :=
  let script_dir := Path.dirname (Path.abspath (cwd E) file__) in
  Path.join script_dir [str "explainer.py"].

(** [call_explainer_revise(explanation_path, critique_path)]: the
    child process runs [explainer.py revise ...] on the same files;
    any non-zero status of the child ends the controller with 1. *)
Definition call_explainer_revise (explanation_path critique_path : pystr) : M unit :=
  let* present := path_exists E explainer_py in
  if negb present then sys_exit 1
  else
    fun w =>
      match Explainer.main E explainer_py
              [str "revise"; explanation_path; critique_path] w with
      | (Ok _, w') => (Ok tt, w')
      | (Fail f, w') =>
          if (exit_code f =? 0)%Z then (Ok tt, w') else (Fail (SysExit 1), w')
      end.

(** The controller's loop, [for iteration in range(1, cap + 1)],
    over the iterations still to run. *)
Fixpoint main_loop (explanation_path system_prompt filename : pystr)
    (iterations : list nat) (previous_critique : pystr) : M terminal :=
  match iterations with
  | [] => ret Capped
  | iteration :: later =>
      let* explanation := load_file E explanation_path in
      let* critique := generate_critique system_prompt explanation filename
                       iteration previous_critique in
      if is_approved critique then
        let critique_path := critique_path_of explanation_path in
        let* present := path_exists E critique_path in
        let* _ := (if present then remove E critique_path else ret tt) in
        ret (Approved iteration)
      else
        let* critique_path := save_critique critique iteration explanation_path in
        let previous_critique := critique in
        let* _ := call_explainer_revise explanation_path critique_path in
        main_loop explanation_path system_prompt filename later previous_critique
  end.

(** [main()] with [sys.argv = file__ :: args], for an iteration cap. *)
Definition main_capped (cap : nat) (args : list pystr) : M terminal :=
  match args with
  | [] => sys_exit 1
  | explanation_path :: _ =>
      let* present := path_exists E explanation_path in
      if negb present then sys_exit 1
      else
        let* system_prompt := load_system_prompt in
        let filename := Path.basename explanation_path in
        let previous_critique := [] in
        main_loop explanation_path system_prompt filename
          (seq 1 cap) previous_critique
  end.

(** [main()] *)
Definition main (args : list pystr) : M terminal :=
  main_capped MAX_ITERATIONS args.
End Run.

(** The exit status of a finished run of the controller. *)
Definition status (r : result terminal) : Z :=
  match r with
  | Ok _ => 0%Z
  | Fail f => exit_code f
  end.

End Critic.

(* ===================================================================== *)
(** ** notes_creator.py *)
(* ===================================================================== *)

Module NotesCreator.
  Section Run.
Context (E : env).

(** [derive_outline_path(explanation_path)] *)
Definition derive_outline_path (explanation_path : pystr) : pystr :=
  let directory := Path.dirname (Path.abspath (cwd E) explanation_path) in
  let basename := Path.basename explanation_path in
  if str_eqb basename (str "explanation.txt") then
    Path.join directory [str "outline.txt"]
  else if endswith (str "-explanation.txt") basename then
    let slug := take (length basename - length (str "-explanation.txt")) basename in
    Path.join directory [slug ++ str "-outline.txt"]
  else Path.join directory [str "outline.txt"].
  End Run.
End NotesCreator.


(* ===================================================================== *)
(** ** The backend protocol, in the spec's words *)
(* ===================================================================== *)

(** The token fragment of a chunk of the protocol: an object whose
    ["message"], when present, is an object whose ["content"], when
    present, is a string. A chunk without either carries the empty
    fragment; [None] for any other JSON value. *)
Definition chunk_token (chunk : json) : option pystr :=
  match chunk with
  | JObj fields =>
      match lookup_field (str "message") fields with
      | None => Some []
      | Some (JObj message) =>
          match lookup_field (str "content") message with
          | None => Some []
          | Some (JStr token) => Some token
          | Some _ => None
          end
      | Some _ => None
      end
  | _ => None
  end.

(** The completion flag of a chunk is set. *)
Definition chunk_done (chunk : json) : bool :=
  match chunk with
  | JObj fields =>
      match lookup_field (str "done") fields with
      | Some flag => truthy flag
      | None => false
      end
  | _ => false
  end.

(** The concatenation, in arrival order, of the token fragments of the
    parseable chunks up to and including the first one whose completion
    flag is set, or up to the end of the stream; blank and unparseable
    lines contribute nothing. *)
Fixpoint tokens_until_done (lines : list response_line) : pystr :=
  match lines with
  | [] => []
  | Chunk chunk :: rest =>
      default [] (chunk_token chunk)
      ++ (if chunk_done chunk then [] else tokens_until_done rest)
  | _ :: rest => tokens_until_done rest
  end.

(** Every line up to the first chunk whose completion flag is set is
    blank, unparseable or a chunk of the protocol. *)
Fixpoint follows_protocol (lines : list response_line) : bool :=
  match lines with
  | [] => true
  | BadBytes :: _ => false
  | Chunk chunk :: rest =>
      match chunk_token chunk with
      | Some _ => chunk_done chunk || follows_protocol rest
      | None => false
      end
  | _ :: rest => follows_protocol rest
  end.

(** Some chunk that is read has its completion flag set. *)
Fixpoint reaches_done (lines : list response_line) : bool :=
  match lines with
  | [] => false
  | Chunk chunk :: rest => chunk_done chunk || reaches_done rest
  | _ :: rest => reaches_done rest
  end.

(** Standard output takes every fragment the adapter prints: the
    fragments that are not empty, up to and including the first chunk
    whose completion flag is set. *)
Fixpoint printable_fragments (E : env) (lines : list response_line) : bool :=
  match lines with
  | [] => true
  | Chunk chunk :: rest =>
      match chunk_token chunk with
      | Some (c :: token) => stdout E (JStr (c :: token))
      | _ => true
      end
      && (chunk_done chunk || printable_fragments E rest)
  | _ :: rest => printable_fragments E rest
  end.

(** The ways a backend call fails: the connection cannot be made, the
    body times out before a chunk with the completion flag, or the
    fragments of a body that follows the protocol concatenate to nothing
    but white space. *)
Definition backend_fails (r : response) : bool :=
  match r with
  | Unreachable => true
  | Stream lines ReadTimeout =>
      negb (reaches_done lines)
      || (follows_protocol lines
          && match strip (tokens_until_done lines) with [] => true | _ => false end)
  | Stream lines EndOfStream =>
      follows_protocol lines
      && match strip (tokens_until_done lines) with [] => true | _ => false end
  end.

(** The text a file gives to [load_file]: read in universal-newlines
    mode, then stripped. *)
Definition loaded (content : pystr) : pystr := strip (universal_newlines content).

(** No occurrence of [c]. *)
Abbreviation without c s := (forallb (fun x => negb (x =? c)) s).

(** A file or directory name: not empty, without a slash, and neither
    ["."] nor [".."]. *)
Definition is_name (s : pystr) : bool :=
  match s with [] => false | _ => true end
  && forallb (fun c => negb (c =? c_slash)) s
  && negb (str_eqb s [c_dot]) && negb (str_eqb s [c_dot; c_dot]).

(** The text of a normalised absolute directory, ready for a file name:
    the leading slashes, then every component followed by a slash. *)
Definition dir_text (slashes : nat) (comps : list pystr) : pystr :=
  repeat c_slash slashes ++ concat (map (fun comp => comp ++ [c_slash]) comps).

(** The text of a normalised absolute path: the leading slashes, then
    the components with a slash between them. *)
Definition abs_text (slashes : nat) (comps : list pystr) : pystr :=
  repeat c_slash slashes ++ join_with c_slash comps.

(** Lines, each ended by a line feed, followed by more text. *)
Definition lines_then (lines : list pystr) (more : pystr) : pystr :=
  fold_right (fun line text => line ++ c_lf :: text) more lines.

(** A string that is one line: no line boundary of [splitlines] in it. *)
Definition one_line (s : pystr) : bool :=
  forallb (fun c => negb (is_linebreak c)) s.

(** The source-outline reference of an explanation text, read the way
    the revision stage reads it: the first line that starts with the
    source field, after its first colon, stripped. *)
Definition source_reference (explanation : pystr) : option pystr :=
  match find (startswith Explainer.SOURCE_FIELD) (splitlines explanation) with
  | Some line =>
      match after_first c_colon line with
      | Some field => Some (strip field)
      | None => None
      end
  | None => None
  end.

(** What an explanation artifact is after some revisions of [original]
    with the given critiques: the original itself while none has
    succeeded, and then a revised header that carries the source
    reference, followed by the revised text. *)
Definition revision_of (original source : pystr) (critique_paths : list pystr)
    (content : pystr) : Prop :=
  content = original
  \/ exists stamp critique_path revised,
       In critique_path critique_paths
       /\ content = Explainer.updated_header stamp source
                      (Path.basename critique_path) ++ revised.

(** [k] consecutive invocations of the revision stage on one
    explanation, one per critique path, whatever each returns: the world
    after the last one. *)
Definition revise_all (E : env) (file__ explanation_path : pystr)
    (critique_paths : list pystr) (w : world) : world :=
  fold_left
    (fun w critique_path =>
       snd (Explainer.module_revise E file__ explanation_path critique_path w))
    critique_paths w.

(** What those invocations return, oldest first. *)
Fixpoint revision_results (E : env) (file__ explanation_path : pystr)
    (critique_paths : list pystr) (w : world) : list (result unit) :=
  match critique_paths with
  | [] => []
  | critique_path :: later =>
      let run := Explainer.module_revise E file__ explanation_path critique_path w in
      fst run :: revision_results E file__ explanation_path later (snd run)
  end.

(** The iteration number recorded in the header of a critique artifact:
    the decimal number that ends the first line. *)
Definition recorded_iteration (content : pystr) : option nat :=
  let title := str "ACTIVE CRITIQUE " ++ [8212] ++ str " Iteration " in
  if startswith title content then
    match splitlines (drop (length title) content) with
    | number :: _ => nat_of_str number
    | [] => None
    end
  else None.

(** A call of the critique stage, and a call of the revision stage, by
    the label of the request. *)
Definition is_review_call (req : request) : bool :=
  startswith (str "Reviewing (iteration ") (req_label req).

Definition is_revision_call (req : request) : bool :=
  str_eqb (req_label req) (str "Applying critique").

(** A file is there and [load_file] accepts it. *)
Definition nonblank_at (E : env) (w : world) (path : pystr) : Prop :=
  exists content, files w !! resolve E path = Some content /\ loaded content <> [].

(** What the revision stage needs when the controller starts it: the
    script [explainer.py] next to [critic.py], the reviser prompt, and an
    explanation to revise. *)
Definition revision_ready (E : env) (file__ explanation_path : pystr) (w : world) : Prop :=
  is_Some (files w !! resolve E (Critic.explainer_py E file__))
  /\ nonblank_at E w
       (prompt_path E (Critic.explainer_py E file__) Explainer.REVISER_PROMPT_FILE)
  /\ nonblank_at E w explanation_path.

(** A backend that answers every call with a text, and never puts the
    approval sentinel in a critique. *)
Definition never_approves (E : env) : Prop :=
  forall history req,
    exists text,
      assemble E (backend E history req) = Ok text
      /\ (is_review_call req = true -> Critic.is_approved text = false).

(** A backend whose answers can be written to a file: the text the
    adapter returns has no lone surrogate. *)
Definition wellformed_answers (E : env) : Prop :=
  forall history req text,
    assemble E (backend E history req) = Ok text -> encodable text = true.

(** A file whose text can be written back under a new header: neither
    the text nor the name of the file has a lone surrogate. *)
Definition wellformed_at (E : env) (w : world) (path : pystr) : Prop :=
  encodable (Path.basename path) = true
  /\ forall content,
       files w !! resolve E path = Some content -> encodable content = true.

(** A standard output that takes every text UTF-8 can encode. *)
Definition utf8_stdout (E : env) : Prop :=
  forall text, encodable text = true -> stdout E (JStr text) = true.

(** The labels of the backend calls of the given iterations when each
    one critiques and then revises. *)
Definition critique_then_revise (iterations : list nat) : list pystr :=
  flat_map (fun iteration => [Critic.review_label iteration; str "Applying critique"])
           iterations.

(* ===================================================================== *)
(** ** A scripted environment for concrete runs *)
(* ===================================================================== *)

Module Mock.

Definition noon : datetime :=
  {| year := 2025; month := 1; day := 2; hour := 12; minute := 0; second := 0 |}.

(** One chunk carrying [token], with the completion flag set. *)
Definition final_chunk (token : pystr) : response_line :=
  Chunk (JObj [(str "message", JObj [(str "role", JStr (str "assistant"));
                                      (str "content", JStr token)]);
               (str "done", JBool true)]).

(** A standard output in UTF-8 with the strict error handler: a string
    with a lone surrogate is refused; the text of any other object has
    none, [repr] escapes them. *)
Definition utf8_strict (obj : json) : bool :=
  match obj with
  | JStr s => encodable s
  | _ => true
  end.

(** An environment in [/work] whose backend answers by [answer], on a
    strict UTF-8 terminal. *)
Definition env_of (answer : list request -> request -> response) : env :=
  {| cwd := str "/work"; unicode := latin1; backend := answer;
     clock := fun _ => noon; stdout := utf8_strict |}.

(** The same with a standard output that takes everything, lone
    surrogates included (an error handler such as [surrogatepass]). *)
Definition lenient (answer : list request -> request -> response) : env :=
  {| cwd := str "/work"; unicode := latin1; backend := answer;
     clock := fun _ => noon; stdout := fun _ => true |}.

(** A text with a lone surrogate, as [json.loads] returns it for
    ["a\udc80b"]. *)
Definition lone_surrogate : pystr := [97; 56448; 98].

(** A backend that says the same thing to every call. *)
Definition always (text : pystr) : list request -> request -> response :=
  fun _ _ => Stream [final_chunk text] EndOfStream.

Definition world_of (fs : list (pystr * pystr)) : world :=
  {| files := list_to_map fs; calls := []; ticks := 0 |}.

(** The files of a run in [/work] on the topic [x]: the explanation,
    the prompts and the explainer script. *)
Definition project_files : list (pystr * pystr) :=
  [(str "/work/outputs/x/explanation.txt",
    Explainer.generated_header (strftime noon) (str "outline.txt") ++ str "Body.");
   (str "/work/prompts/critic_system_prompt.txt", str "Review.");
   (str "/work/prompts/reviser_system_prompt.txt", str "Revise.");
   (str "/work/prompts/explainer_system_prompt.txt", str "Explain.");
   (str "/work/src/explainer.py", str "#!/usr/bin/env python3")].

(** [__file__] of critic.py, and the explanation path given to it. *)
Definition critic_py : pystr := str "/work/src/critic.py".
Definition explanation_txt : pystr := str "outputs/x/explanation.txt".

(** The critique slot of that run, and the files with a critique in it. *)
Definition critique_txt : pystr := str "outputs/x/active_critique.txt".

Definition revision_files : list (pystr * pystr) :=
  (str "/work/outputs/x/active_critique.txt", str "Fix the intro.") :: project_files.

(** An environment in [/work] whose backend is never asked. *)
Definition quiet : env := env_of (always []).

End Mock.

(* ===================================================================== *)
(** ** planner.py: the script *)
(* ===================================================================== *)

Module PlannerRun.

Definition MODEL_NAME : pystr := str "llama3.2:3b".
Definition SYSTEM_PROMPT_FILE : pystr := str "system_prompt.txt".

(** [build_user_message(topic)] *)
Definition build_user_message (topic : pystr) : pystr :=
  str "Create a detailed 1-hour lecture outline for the following topic:"
  ++ [c_lf; c_lf]
  ++ str "TOPIC: " ++ topic ++ [c_lf; c_lf]
  ++ str "Please follow all formatting and structural guidelines in your instructions. "
  ++ str "Make the outline comprehensive, time-boxed, and ready for an instructor to use.".

(** The header written by [save_outline]. *)
Definition outline_header (topic : pystr) : pystr :=
  str "LECTURE OUTLINE" ++ [c_lf]
  ++ eq_rule ++ [c_lf]
  ++ str "Topic  : " ++ topic ++ [c_lf]
  ++ str "Model  : " ++ MODEL_NAME ++ [c_lf]
  ++ eq_rule ++ [c_lf; c_lf].

(** What the planner's [query_ollama] makes of the response: the same
    [try] and loop as in the other scripts, but the join of the tokens
    is returned as it is, neither stripped nor checked. *)
Definition gather (E : env) (r : response) : result pystr :=
  match r with
  | Unreachable => Fail (SysExit 1)
  | Stream lines ending =>
      match read_stream (stdout E) lines ending [] with
      | inl e => Fail (Uncaught e)
      | inr tokens =>
          match join_tokens tokens with
          | inl e => Fail (Uncaught e)
          | inr text => Ok text
          end
      end
  end.

(** The topic of [main]: the arguments joined, or else the line
    [input] returns, stripped. *)
Definition topic_of_run (args : list pystr) (typed : pystr) : pystr :=
  match args with
  | [] => strip typed
  | _ => Planner.topic_of args
  end.

Section Run.
Context (E : env).
(** [__file__] of the running script. *)
Context (file__ : pystr).

(** [load_system_prompt(filepath)]: the file must exist, but may be
    blank. *)
Definition load_system_prompt (filepath : pystr) : M pystr :=
  let* present := path_exists E filepath in
  if negb present then sys_exit 1
  else
    let* raw := read_text E filepath in
    ret (strip raw).

(** [query_ollama(system_prompt, user_message)] *)
Definition query_ollama (system_prompt user_message : pystr) : M pystr :=
  fun w =>
    let req := {| req_model := MODEL_NAME; req_system := system_prompt;
                  req_user := user_message;
                  req_label := str "Generating outline" |} in
    (gather E (backend E (calls w) req), with_call w req).

(** [save_outline(topic, content)]; the directories [os.makedirs]
    creates are not files. *)
Definition save_outline (topic content : pystr) : M pystr :=
  let filename := Planner.outline_file (unicode E) (cwd E) file__ topic in
  let header := outline_header topic in
  let* _ := write_text E filename (header ++ content) in
  ret filename.

(** [main()] with [sys.argv = file__ :: args]; [typed] is the line
    [input] returns when it is asked. *)
Definition main (args : list pystr) (typed : pystr) : M unit :=
  let topic := topic_of_run args typed in
  match topic with
  | [] => sys_exit 1
  | _ =>
      let* system_prompt :=
        load_system_prompt (prompt_path E file__ SYSTEM_PROMPT_FILE) in
      let user_message := build_user_message topic in
      let* outline_text := query_ollama system_prompt user_message in
      match strip outline_text with
      | [] => sys_exit 1
      | _ =>
          let* _ := save_outline topic outline_text in
          ret tt
      end
  end.
End Run.

End PlannerRun.

(* ===================================================================== *)
(** ** notes_creator.py: the output path, escaping, and [main] *)
(* ===================================================================== *)

(** [s.replace(old, new)] for a single character [old]. *)
Definition replace_char (old : char) (new : pystr) (s : pystr) : pystr :=
  flat_map (fun c => if c =? old then new else [c]) s.

Definition c_amp : char := 38.
Definition c_lt : char := 60.
Definition c_gt : char := 62.

(** What [safe] puts for one character. *)
Definition escape_char (c : char) : pystr :=
  if c =? c_amp then str "&amp;"
  else if c =? c_lt then str "&lt;"
  else if c =? c_gt then str "&gt;"
  else [c].

Module NotesCreatorRun.

(** [safe(text)] of a string. *)
Definition safe (text : pystr) : pystr :=
  replace_char c_gt (str "&gt;")
    (replace_char c_lt (str "&lt;")
       (replace_char c_amp (str "&amp;") text)).

(** [is_meta_line(s)], local to [parse_explanation]. *)
Definition is_meta_line (s : pystr) : bool :=
  existsb (fun prefix => startswith prefix s)
    [str "Generated :"; str "Revised   :"; str "Model     :"; str "Source    :";
     str "Critique  :"].

(** [re.match(r"^[=]{4,}$", s)]: four or more equals signs and nothing
    else; [$] also matches before one final line feed. *)
Definition is_rule (s : pystr) : bool :=
  let body := if endswith [c_lf] s then removelast s else s in
  (4 <=? length body)%nat && forallb (N.eqb c_eq) body.

(** The first loop of [parse_explanation], which strips the file header:
    over the lines still to read, with the loop's variables
    [in_header], [eq_count], [meta_parts] and [body_lines]; the result
    is the last two when the loop ends. *)
Fixpoint header_loop (lines : list pystr) (in_header : bool) (eq_count : nat)
    (meta_parts body_lines : list pystr) : list pystr * list pystr :=
  match lines with
  | [] => (meta_parts, body_lines)
  | line :: rest =>
      let stripped := strip line in
      if in_header then
        if is_rule stripped then
          let eq_count := S eq_count in
          header_loop rest (negb (2 <=? eq_count)%nat) eq_count meta_parts body_lines
        else if is_meta_line stripped then
          header_loop rest true eq_count (meta_parts ++ [stripped]) body_lines
        else header_loop rest true eq_count meta_parts body_lines
      else if is_meta_line stripped then
        header_loop rest false eq_count meta_parts body_lines
      else if str_eqb stripped (str "LECTURE EXPLANATION") then
        header_loop rest false eq_count meta_parts body_lines
      else header_loop rest false eq_count meta_parts (body_lines ++ [line])
  end.

(** The value of [topic] that the loop of [parse_outline] computes, over
    the lines still to read; the branches of the loop that collect the
    objectives and the sections assign nothing to it. *)
Fixpoint outline_topic (lines : list pystr) (topic : pystr) : pystr :=
  match lines with
  | [] => topic
  | line :: rest =>
      let s := strip line in
      if startswith (str "Topic") s then
        match after_first c_colon s with
        | Some field => outline_topic rest (strip field)
        | None => outline_topic rest topic
        end
      else outline_topic rest topic
  end.

Section Run.
Context (E : env).

(** The ["topic"] of [parse_outline(outline_path)], and [None] when the
    function returns [None]. *)
Definition parse_outline_topic (outline_path : pystr) : M (option pystr) :=
  match outline_path with
  | [] => ret None
  | _ =>
      let* present := path_exists E outline_path in
      if negb present then ret None
      else
        let* raw := read_text E outline_path in
        ret (Some (outline_topic (splitlines raw) []))
  end.

(** [derive_output_path(explanation_path)] *)
Definition derive_output_path (explanation_path : pystr) : pystr :=
  let directory := Path.dirname (Path.abspath (cwd E) explanation_path) in
  let basename := Path.basename explanation_path in
  if str_eqb basename (str "explanation.txt") then
    Path.join directory [str "notes.pdf"]
  else
    let slug :=
      if endswith (str "-explanation.txt") basename
      then take (length basename - length (str "-explanation.txt")) basename
      else Path.splitext_root basename in
    Path.join directory [slug ++ str "-notes.pdf"].

(** [main()] with [sys.argv = file__ :: args]. [render_pdf] draws the
    document with reportlab, which lies outside this development: it is
    a parameter. *)
Definition main (render_pdf : pystr -> pystr -> M unit) (args : list pystr)
    : M unit :=
  match args with
  | [] => sys_exit 1
  | explanation_path :: _ =>
      let* present := path_exists E explanation_path in
      if negb present then sys_exit 1
      else
        let output_path := derive_output_path explanation_path in
        render_pdf explanation_path output_path
  end.
End Run.

End NotesCreatorRun.

(* ===================================================================== *)
(** ** orchestrator.py: the pipeline *)
(* ===================================================================== *)

Module OrchestratorRun.

(** The environment of a child process started with [cwd=directory]. *)
Definition in_directory (E : env) (directory : pystr) : env :=
  {| cwd := directory; unicode := unicode E; backend := backend E;
     clock := clock E; stdout := stdout E |}.

(** The topic of [main]: the arguments joined, or else the line
    [input] returns, stripped. *)
Definition topic_of_run (args : list pystr) (typed : pystr) : pystr :=
  match args with
  | [] => strip typed
  | _ => Orchestrator.topic_of args
  end.

(** [run_step(cmd, cwd, label)] around the process [child]: a non-zero
    status of the child ends the orchestrator with that status. *)
Definition run_step {A} (child : M A) : M unit :=
  fun w =>
    match child w with
    | (Ok _, w') => (Ok tt, w')
    | (Fail f, w') =>
        if (exit_code f =? 0)%Z then (Ok tt, w')
        else (Fail (SysExit (exit_code f)), w')
    end.

Section Run.
Context (E : env).
(** [__file__] of the running script. *)
Context (file__ : pystr).
(** The renderer of notes_creator.py, for each environment it may be
    started in. *)
Context (render_pdf : env -> pystr -> pystr -> M unit).

Definition project_root : pystr := Orchestrator.project_root (cwd E) file__.
Definition src_dir : pystr := Path.join project_root [str "src"].
Definition planner_py : pystr := Path.join src_dir [str "planner.py"].
Definition explainer_py : pystr := Path.join src_dir [str "explainer.py"].
Definition critic_py : pystr := Path.join src_dir [str "critic.py"].
Definition notes_py : pystr := Path.join src_dir [str "notes_creator.py"].

Definition output_dir (topic : pystr) : pystr :=
  Path.join project_root
    [str "outputs"; Orchestrator.sanitize_filename (unicode E) topic].
Definition outline_path (topic : pystr) : pystr :=
  Path.join (output_dir topic) [str "outline.txt"].
Definition explanation_path (topic : pystr) : pystr :=
  Path.join (output_dir topic) [str "explanation.txt"].
Definition notes_path (topic : pystr) : pystr :=
  Path.join (output_dir topic) [str "notes.pdf"].

(** The loop [for path in (planner_py, ...)] of [main]. *)
Fixpoint require_scripts (paths : list pystr) : M unit :=
  match paths with
  | [] => ret tt
  | path :: rest =>
      let* present := path_exists E path in
      if negb present then sys_exit 1 else require_scripts rest
  end.

(** [if not os.path.exists(path): sys.exit(1)] after a step. *)
Definition require_output (path : pystr) : M unit :=
  let* present := path_exists E path in
  if negb present then sys_exit 1 else ret tt.

(** [print_file_contents(label, path)]: the text of the file, without
    its trailing white space, is printed; [except OSError] does not
    catch the UnicodeEncodeError of [print]. *)
Definition print_file_contents (path : pystr) : M unit :=
  let* present := path_exists E path in
  if negb present then ret tt
  else
    let* raw := read_text E path in
    py_print E (JStr (rstrip raw)).

(** [main()] with [sys.argv = file__ :: args]; [typed] is the line
    [input] returns when it is asked. The four children run in the
    project root. *)
Definition main (args : list pystr) (typed : pystr) : M unit :=
  let topic := topic_of_run args typed in
  match topic with
  | [] => sys_exit 1
  | _ =>
      let child := in_directory E project_root in
      let* _ := require_scripts [planner_py; explainer_py; critic_py; notes_py] in
      let* _ := run_step (PlannerRun.main child planner_py [topic] []) in
      let* _ := require_output (outline_path topic) in
      let* _ := print_file_contents (outline_path topic) in
      let* _ := run_step (Explainer.main child explainer_py
                            [str "generate"; outline_path topic]) in
      let* _ := require_output (explanation_path topic) in
      let* _ := print_file_contents (explanation_path topic) in
      let* _ := run_step (Critic.main child critic_py [explanation_path topic]) in
      let* _ := require_output (explanation_path topic) in
      let* _ := print_file_contents (explanation_path topic) in
      run_step (NotesCreatorRun.main child (render_pdf child)
                  [explanation_path topic])
  end.
End Run.

End OrchestratorRun.

(* ===================================================================== *)
(** ** More scripted files for concrete runs *)
(* ===================================================================== *)

Module MockRun.

(** The outline of the topic [x], as the planner saves it. *)
Definition outline_txt : pystr := str "outputs/x/outline.txt".

Definition outline_files : list (pystr * pystr) :=
  (str "/work/outputs/x/outline.txt",
   PlannerRun.outline_header (str "x") ++ str "I. Introduction (10 min)")
  :: Mock.project_files.

End MockRun.

(* ===================================================================== *)
(** ** What a run of the controller may do to the files *)
(* ===================================================================== *)

(** What [write_text] leaves in the file it writes: the text, or nothing
    when the text cannot be encoded. *)
Definition written (text : pystr) : pystr :=
  if encodable text then text else [].

(** Between two worlds of a run of the controller on [explanation_path]:
    no file other than the explanation and the critique slot has
    changed, and the explanation is as it was or has been written by the
    revision stage: the answer of the backend under a header that
    carries the source name the stage found in the text it replaced. *)
Definition controller_touched (E : env) (explanation_path : pystr)
    (w w1 : world) : Prop :=
  let rep := resolve E explanation_path in
  let rcp := resolve E (Critic.critique_path_of E explanation_path) in
  (forall p, p <> rcp -> p <> rep -> files w1 !! p = files w !! p)
  /\ (rep <> rcp ->
      files w1 !! rep = files w !! rep
      \/ exists explanation stamp source_name revised history req,
           files w !! rep = Some explanation
           /\ loaded explanation <> []
           /\ Explainer.scan_source (splitlines (loaded explanation))
                (Path.basename explanation_path) = inr source_name
           /\ assemble E (backend E history req) = Ok revised
           /\ files w1 !! rep
              = Some (written (Explainer.updated_header (strftime stamp) source_name
                                 (str "active_critique.txt") ++ revised))).

(* ===================================================================== *)
(** ** A scripted backend that approves late *)
(* ===================================================================== *)

Module MockBackend.

(** A backend that asks for changes in its first two answers and
    approves from the third on: the first review rejects, the revision
    is answered, and the second review approves. *)
Definition approves_second : list request -> request -> response :=
  fun history _ =>
    if (length history <? 2)%nat
    then Stream [Mock.final_chunk (str "Fix the intro.")] EndOfStream
    else Stream [Mock.final_chunk (str "VERDICT: APPROVED")] EndOfStream.

End MockBackend.

(* ===================================================================== *)
(** ** A scripted project for runs of the whole pipeline *)
(* ===================================================================== *)

Module MockProject.

(** [__file__] of orchestrator.py. *)
Definition orchestrator_py : pystr := str "/work/src/orchestrator.py".

(** The four scripts and the four prompts of a project in [/work]. *)
Definition files : list (pystr * pystr) :=
  [(str "/work/src/planner.py", str "#!/usr/bin/env python3");
   (str "/work/src/explainer.py", str "#!/usr/bin/env python3");
   (str "/work/src/critic.py", str "#!/usr/bin/env python3");
   (str "/work/src/notes_creator.py", str "#!/usr/bin/env python3");
   (str "/work/prompts/system_prompt.txt", str "Plan.");
   (str "/work/prompts/explainer_system_prompt.txt", str "Explain.");
   (str "/work/prompts/critic_system_prompt.txt", str "Review.");
   (str "/work/prompts/reviser_system_prompt.txt", str "Revise.")].

(** A renderer that writes a token PDF at the output path. *)
Definition render_pdf (E : env) (explanation_path output_path : pystr) : M unit :=
  write_text E output_path (str "%PDF-1.4").

End MockProject.

(** A line after the header that the first loop of [parse_explanation]
    keeps: not a header field and not the title line. *)
Definition kept_body_line (line : pystr) : bool :=
  negb (NotesCreatorRun.is_meta_line (strip line))
  && negb (str_eqb (strip line) (str "LECTURE EXPLANATION")).

(** No header-like topic line: the line, stripped, does not start with
    [Topic]. *)
Definition no_topic_line (line : pystr) : bool :=
  negb (startswith (str "Topic") (strip line)).

(** A line of the response body the adapter skips: blank or not JSON. *)
Definition skipped_line (line : response_line) : bool :=
  match line with
  | Blank | Malformed => true
  | _ => false
  end.

(* ===================================================================== *)
(** * Properties *)
(* ===================================================================== *)

(* --------------------------------------------------------------------- *)
(** ** Concrete checks of the embedding *)
(* --------------------------------------------------------------------- *)

Example slug_photosynthesis :
  Planner.sanitize_filename latin1 (str "Photosynthesis") = str "photosynthesis".
Proof. reflexivity. Qed.

Example slug_spaces :
  Planner.sanitize_filename latin1 (str "  Machine Learning: Basics! ")
  = str "machine-learning-basics".
Proof. reflexivity. Qed.

Example slug_empty : Planner.sanitize_filename latin1 (str "?!") = lecture.
Proof. reflexivity. Qed.

Example path_examples :
  Path.basename (str "outputs/ml/outline.txt") = str "outline.txt"
  /\ Path.dirname (str "/a/b/outline.txt") = str "/a/b"
  /\ Path.dirname (str "/outline.txt") = str "/"
  /\ Path.abspath (str "/home/u") (str "outputs/../x//./y.txt") = str "/home/u/x/y.txt"
  /\ Path.abspath (str "/home/u") (str "//a/../../b") = str "//b"
  /\ Path.abspath (str "/home/u") (str "///a/") = str "/a"
  /\ Path.normpath (str "../a/../../b") = str "../../b"
  /\ Path.splitext_root (str "a/.hidden") = str "a/.hidden"
  /\ Path.splitext_root (str "a/x.tar.gz") = str "a/x.tar"
  /\ Path.splitext_root (str "a.b/x") = str "a.b/x"
  /\ Path.splitext_root (str "..x.y") = str "..x"
  /\ Path.splitext_root (str "...") = str "..."
  /\ Path.join (str "/r") [str "outputs"; str "slug"; str "outline.txt"] = str "/r/outputs/slug/outline.txt"
  /\ splitlines (str "a" ++ [13;10] ++ str "b" ++ [10;10] ++ str "c" ++ [13]) = [str "a"; str "b"; []; str "c"]
  /\ str_of_nat 0 = str "0" /\ str_of_nat 42 = str "42" /\ nat_of_str (str "42") = Some 42%nat
  /\ strftime {| year := 2026; month := 3; day := 9; hour := 7; minute := 0; second := 59 |} = str "2026-03-09 07:00:59".
Proof. repeat split; reflexivity. Qed.

(* --------------------------------------------------------------------- *)
(** ** Strings *)
(* --------------------------------------------------------------------- *)

Lemma str_eqb_eq (a b : pystr) : str_eqb a b = true <-> a = b.
Proof.
  revert b; induction a as [|x a IH]; intros [|y b]; simpl; try easy.
  rewrite andb_true_iff, N.eqb_eq, IH. split.
  - intros [-> ->]; reflexivity.
  - intros [= -> ->]; auto.
Qed.

Lemma str_eqb_refl (a : pystr) : str_eqb a a = true.
Proof. apply str_eqb_eq; reflexivity. Qed.

Lemma str_eqb_neq (a b : pystr) : str_eqb a b = false <-> a <> b.
Proof.
  rewrite <- str_eqb_eq. destruct (str_eqb a b); split; congruence.
Qed.

Lemma startswith_spec (p s : pystr) :
  startswith p s = true <-> exists post, s = p ++ post.
Proof.
  revert s; induction p as [|x p IH]; intros s; simpl.
  - split; [exists s; reflexivity | reflexivity].
  - destruct s as [|y s].
    + split; [discriminate | intros [post H]; discriminate H].
    + rewrite andb_true_iff, N.eqb_eq, IH. split.
      * intros [-> [post ->]]. exists post; reflexivity.
      * intros [post [= -> ->]]. split; [reflexivity | exists post; reflexivity].
Qed.

Lemma startswith_app (p post : pystr) : startswith p (p ++ post) = true.
Proof. apply startswith_spec; exists post; reflexivity. Qed.

Lemma endswith_spec (p s : pystr) :
  endswith p s = true <-> exists pre, s = pre ++ p.
Proof.
  unfold endswith. rewrite startswith_spec. split.
  - intros [post H]. exists (rev post).
    rewrite <- (rev_involutive s), H, rev_app_distr, rev_involutive; reflexivity.
  - intros [pre ->]. exists (rev pre). apply rev_app_distr.
Qed.

Lemma contains_spec (p s : pystr) :
  contains p s = true <-> exists pre post, s = pre ++ p ++ post.
Proof.
  induction s as [|c s IH]; simpl.
  - rewrite orb_false_r, startswith_spec. split.
    + intros [post H]. exists [], post; exact H.
    + intros [pre [post H]]. destruct pre as [|x pre]; [|discriminate].
      exists post; exact H.
  - rewrite orb_true_iff, startswith_spec, IH. split.
    + intros [[post H] | [pre [post ->]]].
      * exists [], post; exact H.
      * exists (c :: pre), post; reflexivity.
    + intros [[|x pre] [post H]].
      * left; exists post; exact H.
      * right. injection H as -> ->. exists pre, post; reflexivity.
Qed.

Lemma lstrip_suffix (s : pystr) : exists pre, s = pre ++ lstrip s.
Proof.
  induction s as [|c s [pre IH]]; simpl.
  - exists []; reflexivity.
  - destruct (isspace c).
    + exists (c :: pre). simpl; congruence.
    + exists []; reflexivity.
Qed.

Lemma rstrip_prefix (s : pystr) : exists post, s = rstrip s ++ post.
Proof.
  unfold rstrip. destruct (lstrip_suffix (rev s)) as [pre H].
  exists (rev pre).
  rewrite <- rev_app_distr, <- H, rev_involutive; reflexivity.
Qed.

Lemma strip_infix (s : pystr) : exists pre post, s = pre ++ strip s ++ post.
Proof.
  unfold strip. destruct (lstrip_suffix s) as [pre H].
  destruct (rstrip_prefix (lstrip s)) as [post H'].
  exists pre, post. rewrite <- H', <- H; reflexivity.
Qed.

Lemma forallb_strip (P : char -> bool) (s : pystr) :
  forallb P s = true -> forallb P (strip s) = true.
Proof.
  destruct (strip_infix s) as [pre [post H]]. rewrite H at 1.
  rewrite !forallb_app, !andb_true_iff. tauto.
Qed.

(** *** Text that is not blank *)

Lemma lstrip_app_nonspace (l : pystr) (c : char) :
  isspace c = false -> lstrip (l ++ [c]) <> [].
Proof.
  intros Hc. induction l as [|x l IH]; simpl.
  - rewrite Hc. discriminate.
  - destruct (isspace x); [exact IH | discriminate].
Qed.

Lemma strip_head_nonspace (c : char) (s : pystr) :
  isspace c = false -> strip (c :: s) <> [].
Proof.
  intros Hc. unfold strip, rstrip. simpl. rewrite Hc. simpl.
  intros H. apply (f_equal (@rev N)) in H. rewrite rev_involutive in H.
  exact (lstrip_app_nonspace (rev s) c Hc H).
Qed.

Lemma isspace_cr (c : char) : isspace c = false -> (c =? c_cr) = false.
Proof.
  intros H. destruct (N.eqb_spec c c_cr) as [->|]; [discriminate H | reflexivity].
Qed.

Lemma loaded_head_nonspace (c : char) (s : pystr) :
  isspace c = false -> loaded (c :: s) <> [].
Proof.
  intros Hc. unfold loaded. simpl. rewrite (isspace_cr c Hc).
  apply strip_head_nonspace, Hc.
Qed.

(** *** Lines and decimal numbers *)

Lemma splitlines_from_line (cur line more : pystr) :
  forallb (fun c => negb (is_linebreak c)) line = true ->
  splitlines_from cur (line ++ c_lf :: more)
  = (rev cur ++ line) :: splitlines_from [] more.
Proof.
  revert cur. induction line as [|c line IH]; intros cur Hline.
  - rewrite app_nil_r. reflexivity.
  - cbn [forallb] in Hline. apply andb_true_iff in Hline. destruct Hline as [Hc Hline].
    cbn [app splitlines_from].
    assert (Hcr : (c =? c_cr) = false).
    { destruct (N.eqb_spec c c_cr) as [->|]; [discriminate Hc | reflexivity]. }
    rewrite Hcr. apply negb_true_iff in Hc. rewrite Hc.
    rewrite (IH (c :: cur) Hline). cbn [rev]. rewrite <- app_assoc. reflexivity.
Qed.

Lemma splitlines_line (line more : pystr) :
  forallb (fun c => negb (is_linebreak c)) line = true ->
  splitlines (line ++ c_lf :: more) = line :: splitlines more.
Proof. intros H. exact (splitlines_from_line [] line more H). Qed.

Lemma forallb_impl {A} (P Q : A -> bool) (l : list A) :
  (forall a, P a = true -> Q a = true) ->
  forallb P l = true -> forallb Q l = true.
Proof.
  intros HPQ. induction l as [|a l IH]; simpl; [reflexivity |].
  rewrite !andb_true_iff. intros [Ha Hl]. auto.
Qed.

Lemma str_of_uint_digits (d : Decimal.uint) :
  forallb ascii_isdigit (str (NilEmpty.string_of_uint d)) = true.
Proof. induction d; simpl; auto. Qed.

Lemma str_of_nat_digits (n : nat) : forallb ascii_isdigit (str_of_nat n) = true.
Proof. apply str_of_uint_digits. Qed.

Lemma digit_not_linebreak (c : char) :
  ascii_isdigit c = true -> negb (is_linebreak c) = true.
Proof.
  unfold ascii_isdigit, is_linebreak. intros H.
  apply andb_true_iff in H. destruct H as [H1 H2].
  apply N.leb_le in H1, H2.
  repeat match goal with
         | |- context [N.leb ?a ?b] => destruct (N.leb_spec a b); try lia
         | |- context [N.eqb ?a ?b] => destruct (N.eqb_spec a b); try lia
         end; reflexivity.
Qed.

Lemma str_roundtrip (s : string) :
  string_of_list_ascii (map ascii_of_N (str s)) = s.
Proof.
  unfold str. rewrite map_map.
  rewrite (map_ext _ (fun a => a)) by (intros a; apply ascii_N_embedding).
  rewrite map_id. apply string_of_list_ascii_of_string.
Qed.

Lemma nat_of_str_of_nat (n : nat) : nat_of_str (str_of_nat n) = Some n.
Proof.
  unfold nat_of_str, str_of_nat. rewrite str_roundtrip, NilEmpty.usu.
  f_equal. apply DecimalNat.Unsigned.of_to.
Qed.

(** *** Stripping, and headers as lines *)

Lemma lstrip_app_keep (a b : pystr) : lstrip a <> [] -> lstrip (a ++ b) = lstrip a ++ b.
Proof.
  induction a as [|c a IH]; simpl; [congruence |].
  destruct (isspace c); [exact IH | reflexivity].
Qed.

Lemma rstrip_app_keep (a b : pystr) : rstrip b <> [] -> rstrip (a ++ b) = a ++ rstrip b.
Proof.
  unfold rstrip. intros Hb. rewrite rev_app_distr, lstrip_app_keep.
  - rewrite rev_app_distr, rev_involutive. reflexivity.
  - intros H. apply Hb. rewrite H. reflexivity.
Qed.

Lemma rstrip_head_nonspace (c : char) (s : pystr) :
  isspace c = false -> rstrip (c :: s) <> [].
Proof.
  intros Hc. unfold rstrip. simpl. intros H.
  apply (f_equal (@rev N)) in H. rewrite rev_involutive in H.
  exact (lstrip_app_nonspace (rev s) c Hc H).
Qed.

Lemma lstrip_idempotent (s : pystr) : lstrip (lstrip s) = lstrip s.
Proof.
  induction s as [|c s IH]; simpl; [reflexivity |].
  destruct (isspace c) eqn:Hc; [exact IH | simpl; rewrite Hc; reflexivity].
Qed.

Lemma lstrip_last_nonspace (l : pystr) (c : char) :
  isspace c = false -> exists l', lstrip (l ++ [c]) = l' ++ [c].
Proof.
  intros Hc. induction l as [|x l IH]; simpl.
  - rewrite Hc. exists []; reflexivity.
  - destruct (isspace x); [exact IH | exists (x :: l); reflexivity].
Qed.

Lemma lstrip_head (s : pystr) :
  lstrip s = [] \/ exists c t, lstrip s = c :: t /\ isspace c = false.
Proof.
  induction s as [|c s IH]; simpl; [left; reflexivity |].
  destruct (isspace c) eqn:Hc; [exact IH | right; eauto].
Qed.

Lemma strip_idempotent (s : pystr) : strip (strip s) = strip s.
Proof.
  unfold strip, rstrip.
  destruct (lstrip_head s) as [-> | (c & t & -> & Hc)]; [reflexivity |].
  cbn [rev].
  destruct (lstrip_last_nonspace (rev t) c Hc) as [u Hu]. rewrite Hu.
  assert (Hid : lstrip (u ++ [c]) = u ++ [c])
    by (rewrite <- Hu; apply lstrip_idempotent).
  rewrite rev_app_distr. cbn [rev app lstrip]. rewrite Hc.
  cbn [rev]. rewrite rev_involutive, Hid, rev_app_distr. reflexivity.
Qed.

Lemma strip_space_head (s : pystr) : strip (c_space :: s) = strip s.
Proof. reflexivity. Qed.

Lemma universal_newlines_app (a b : pystr) :
  one_line a = true ->
  universal_newlines (a ++ b) = a ++ universal_newlines b.
Proof.
  unfold one_line. induction a as [|c a IH]; [reflexivity |].
  cbn [forallb]. rewrite andb_true_iff. intros [Hc Ha].
  cbn [app universal_newlines].
  assert (Hcr : (c =? c_cr) = false).
  { destruct (N.eqb_spec c c_cr) as [->|]; [discriminate Hc | reflexivity]. }
  rewrite Hcr, (IH Ha). reflexivity.
Qed.

Lemma universal_newlines_lines (lines : list pystr) (more : pystr) :
  forallb one_line lines = true ->
  universal_newlines (lines_then lines more)
  = lines_then lines (universal_newlines more).
Proof.
  induction lines as [|line lines IH]; [reflexivity |].
  cbn [forallb lines_then fold_right]. rewrite andb_true_iff. intros [Hline Hlines].
  rewrite (universal_newlines_app line _ Hline).
  cbn [universal_newlines]. change (c_lf =? c_cr) with false. cbn iota.
  fold (lines_then lines more). rewrite (IH Hlines). reflexivity.
Qed.

Lemma splitlines_lines (lines : list pystr) (more : pystr) :
  forallb one_line lines = true ->
  splitlines (lines_then lines more) = lines ++ splitlines more.
Proof.
  induction lines as [|line lines IH]; [reflexivity |].
  cbn [forallb lines_then fold_right]. rewrite andb_true_iff. intros [Hline Hlines].
  rewrite (splitlines_line line _ Hline).
  fold (lines_then lines more). rewrite (IH Hlines). reflexivity.
Qed.

Lemma rstrip_lines (lines : list pystr) (more : pystr) :
  rstrip more <> [] ->
  rstrip (lines_then lines more) = lines_then lines (rstrip more).
Proof.
  intros Hmore. induction lines as [|line lines IH]; [reflexivity |].
  cbn [lines_then fold_right]. fold (lines_then lines more).
  change (line ++ c_lf :: lines_then lines more)
    with (line ++ [c_lf] ++ lines_then lines more).
  rewrite app_assoc, rstrip_app_keep.
  - rewrite IH, <- app_assoc. reflexivity.
  - rewrite IH. destruct lines as [|l ls]; [exact Hmore |].
    cbn [lines_then fold_right]. clear. intros H.
    apply (f_equal (@length N)) in H. rewrite length_app in H. simpl in H. lia.
Qed.

(** The lines of a loaded text that begins with given header lines. *)
Lemma loaded_lines (c : char) (first : pystr) (lines : list pystr) (d : char)
    (more : pystr) :
  isspace c = false ->
  isspace d = false ->
  forallb one_line ((c :: first) :: lines) = true ->
  exists text,
    splitlines (loaded (lines_then ((c :: first) :: lines) (d :: more)))
    = ((c :: first) :: lines) ++ splitlines text.
Proof.
  intros Hc Hd Hlines. unfold loaded.
  rewrite (universal_newlines_lines _ _ Hlines).
  cbn [universal_newlines]. rewrite (isspace_cr d Hd).
  unfold strip.
  assert (Hl : forall text, lstrip (lines_then ((c :: first) :: lines) text)
                            = lines_then ((c :: first) :: lines) text).
  { intros text. cbn [lines_then fold_right app lstrip]. rewrite Hc. reflexivity. }
  rewrite Hl, rstrip_lines by (apply rstrip_head_nonspace, Hd).
  rewrite (splitlines_lines _ _ Hlines). eauto.
Qed.

Lemma one_line_app (a b : pystr) : one_line (a ++ b) = one_line a && one_line b.
Proof. apply forallb_app. Qed.

Lemma one_line_digits (s : pystr) : forallb ascii_isdigit s = true -> one_line s = true.
Proof. apply forallb_impl, digit_not_linebreak. Qed.

Lemma pad2_one_line (n : nat) : one_line (pad2 n) = true.
Proof.
  unfold pad2. destruct (n <? 10)%nat.
  - change (48 :: str_of_nat n) with ([48] ++ str_of_nat n).
    rewrite one_line_app, (one_line_digits _ (str_of_nat_digits n)). reflexivity.
  - apply one_line_digits, str_of_nat_digits.
Qed.

Lemma one_line_cons (c : char) (s : pystr) :
  one_line (c :: s) = negb (is_linebreak c) && one_line s.
Proof. reflexivity. Qed.

Lemma strftime_one_line (t : datetime) : one_line (strftime t) = true.
Proof.
  unfold strftime.
  repeat (rewrite one_line_app || rewrite one_line_cons).
  rewrite !pad2_one_line, (one_line_digits _ (str_of_nat_digits _)).
  reflexivity.
Qed.

Lemma one_line_rev (s : pystr) : one_line (rev s) = one_line s.
Proof.
  unfold one_line. induction s as [|c s IH]; [reflexivity |].
  cbn [rev forallb]. rewrite forallb_app, IH. cbn [forallb].
  rewrite andb_true_r. apply andb_comm.
Qed.

Lemma splitlines_from_one_line (n : nat) (s cur : pystr) (line : pystr) :
  (length s <= n)%nat ->
  one_line cur = true ->
  In line (splitlines_from cur s) ->
  one_line line = true.
Proof.
  revert s cur. induction n as [|n IH]; intros s cur Hn Hcur Hin.
  - destruct s; [|simpl in Hn; lia]. simpl in Hin.
    destruct cur; [destruct Hin |].
    destruct Hin as [<- | []]. rewrite one_line_rev. exact Hcur.
  - destruct s as [|c s].
    + simpl in Hin. destruct cur; [destruct Hin |].
      destruct Hin as [<- | []]. rewrite one_line_rev. exact Hcur.
    + simpl in Hn. cbn [splitlines_from] in Hin.
      assert (Hrec : forall t, (length t <= n)%nat ->
                In line (rev cur :: splitlines_from [] t) -> one_line line = true).
      { intros t Ht [<- | Hin']; [rewrite one_line_rev; exact Hcur |].
        exact (IH t [] Ht eq_refl Hin'). }
      destruct (c =? c_cr).
      * destruct s as [|d s']; [exact (Hrec [] ltac:(simpl; lia) Hin) |].
        destruct (d =? c_lf).
        -- apply (Hrec s'); [simpl in Hn; lia | exact Hin].
        -- apply (Hrec (d :: s')); [lia | exact Hin].
      * destruct (is_linebreak c) eqn:Hc.
        -- apply (Hrec s); [lia | exact Hin].
        -- apply (IH s (c :: cur)); [lia | | exact Hin].
           rewrite one_line_cons, Hc, Hcur. reflexivity.
Qed.

Lemma splitlines_one_line (s line : pystr) :
  In line (splitlines s) -> one_line line = true.
Proof. apply (splitlines_from_one_line (length s) s []); [lia | reflexivity]. Qed.

Lemma after_first_suffix (c : char) (s field : pystr) :
  after_first c s = Some field -> exists pre, s = pre ++ c :: field.
Proof.
  induction s as [|x s IH]; simpl; [discriminate |].
  destruct (N.eqb_spec x c) as [->|_].
  - intros [= ->]. exists []; reflexivity.
  - intros H. destruct (IH H) as [pre ->]. exists (x :: pre); reflexivity.
Qed.

(** *** Text that UTF-8 can encode *)

Lemma encodable_app (a b : pystr) : encodable (a ++ b) = encodable a && encodable b.
Proof. apply forallb_app. Qed.

Lemma encodable_cons (c : char) (s : pystr) :
  encodable (c :: s) = negb (is_surrogate c) && encodable s.
Proof. reflexivity. Qed.

Lemma ascii_not_surrogate (a : ascii) : is_surrogate (N_of_ascii a) = false.
Proof.
  assert (H : N_of_ascii a < 256) by apply N_ascii_bounded.
  unfold is_surrogate. destruct (N.leb_spec 55296 (N_of_ascii a)); [lia | reflexivity].
Qed.

(** A literal of the source has no surrogate. *)
Lemma encodable_str (s : string) : encodable (str s) = true.
Proof.
  unfold str. induction s as [|a s IH]; [reflexivity |].
  cbn [list_ascii_of_string map]. rewrite encodable_cons, ascii_not_surrogate. exact IH.
Qed.

Lemma encodable_repeat (c : char) (n : nat) :
  is_surrogate c = false -> encodable (repeat c n) = true.
Proof.
  intros Hc. induction n as [|n IH]; [reflexivity |].
  cbn [repeat]. rewrite encodable_cons, Hc. exact IH.
Qed.

Lemma encodable_digits (s : pystr) : forallb ascii_isdigit s = true -> encodable s = true.
Proof.
  apply forallb_impl. intros c Hc. unfold ascii_isdigit in Hc.
  apply andb_true_iff in Hc. destruct Hc as [_ Hc]. apply N.leb_le in Hc.
  unfold is_surrogate. destruct (N.leb_spec 55296 c); [lia | reflexivity].
Qed.

Lemma encodable_pad2 (n : nat) : encodable (pad2 n) = true.
Proof.
  unfold pad2. destruct (n <? 10)%nat.
  - rewrite encodable_cons. apply (encodable_digits _ (str_of_nat_digits n)).
  - apply encodable_digits, str_of_nat_digits.
Qed.

Lemma encodable_strftime (t : datetime) : encodable (strftime t) = true.
Proof.
  unfold strftime.
  repeat (rewrite encodable_app || rewrite encodable_cons).
  rewrite !encodable_pad2, (encodable_digits _ (str_of_nat_digits _)).
  reflexivity.
Qed.

Lemma isspace_not_surrogate (c : char) : isspace c = true -> is_surrogate c = false.
Proof.
  unfold isspace, is_surrogate. intros H.
  destruct (N.leb_spec 55296 c) as [Hc|]; [| reflexivity]. exfalso.
  repeat match type of H with
         | context [N.leb ?a ?b] => destruct (N.leb_spec a b); try lia
         | context [N.eqb ?a ?b] => destruct (N.eqb_spec a b); try lia
         end; discriminate H.
Qed.

Lemma encodable_lstrip (s : pystr) : encodable (lstrip s) = encodable s.
Proof.
  induction s as [|c s IH]; [reflexivity |]. cbn [lstrip].
  destruct (isspace c) eqn:Hc; [| reflexivity].
  rewrite encodable_cons, (isspace_not_surrogate c Hc). exact IH.
Qed.

Lemma encodable_rev (s : pystr) : encodable (rev s) = encodable s.
Proof.
  induction s as [|c s IH]; [reflexivity |].
  cbn [rev]. rewrite encodable_app, IH, !encodable_cons. cbn [encodable forallb].
  rewrite andb_true_r. apply andb_comm.
Qed.

Lemma encodable_rstrip (s : pystr) : encodable (rstrip s) = encodable s.
Proof. unfold rstrip. rewrite encodable_rev, encodable_lstrip. apply encodable_rev. Qed.

(** Stripping removes white space only, which UTF-8 encodes. *)
Lemma encodable_strip (s : pystr) : encodable (strip s) = encodable s.
Proof. unfold strip. rewrite encodable_rstrip. apply encodable_lstrip. Qed.

Lemma encodable_universal_newlines (s : pystr) :
  encodable s = true -> encodable (universal_newlines s) = true.
Proof.
  assert (H : forall n s, (length s <= n)%nat -> encodable s = true ->
                          encodable (universal_newlines s) = true).
  { clear s. induction n as [|n IH]; intros s Hn Hs.
    - destruct s; [reflexivity | simpl in Hn; lia].
    - destruct s as [|c s]; [reflexivity |].
      rewrite encodable_cons in Hs. apply andb_true_iff in Hs. destruct Hs as [Hc Hs].
      simpl in Hn. cbn [universal_newlines].
      destruct (c =? c_cr).
      + destruct s as [|d s']; [reflexivity |].
        rewrite encodable_cons in Hs. apply andb_true_iff in Hs. destruct Hs as [Hd Hs'].
        destruct (d =? c_lf); rewrite encodable_cons; cbn [negb is_surrogate andb].
        * apply IH; [simpl in Hn; lia | exact Hs'].
        * apply IH; [lia |]. rewrite encodable_cons, Hd. exact Hs'.
      + rewrite encodable_cons, Hc. apply IH; [lia | exact Hs]. }
  apply (H (length s)). lia.
Qed.

Lemma encodable_loaded (content : pystr) :
  encodable content = true -> encodable (loaded content) = true.
Proof.
  intros H. unfold loaded. rewrite encodable_strip.
  apply encodable_universal_newlines, H.
Qed.

Lemma splitlines_from_encodable (n : nat) (s cur : pystr) (line : pystr) :
  (length s <= n)%nat ->
  encodable cur = true ->
  encodable s = true ->
  In line (splitlines_from cur s) ->
  encodable line = true.
Proof.
  revert s cur. induction n as [|n IH]; intros s cur Hn Hcur Hs Hin.
  - destruct s; [|simpl in Hn; lia]. simpl in Hin.
    destruct cur; [destruct Hin |].
    destruct Hin as [<- | []]. rewrite encodable_rev. exact Hcur.
  - destruct s as [|c s].
    + simpl in Hin. destruct cur; [destruct Hin |].
      destruct Hin as [<- | []]. rewrite encodable_rev. exact Hcur.
    + simpl in Hn. cbn [splitlines_from] in Hin.
      rewrite encodable_cons in Hs. apply andb_true_iff in Hs. destruct Hs as [Hc Hs].
      assert (Hrec : forall t, (length t <= n)%nat -> encodable t = true ->
                In line (rev cur :: splitlines_from [] t) -> encodable line = true).
      { intros t Ht Henc [<- | Hin']; [rewrite encodable_rev; exact Hcur |].
        exact (IH t [] Ht eq_refl Henc Hin'). }
      destruct (c =? c_cr).
      * destruct s as [|d s']; [exact (Hrec [] ltac:(simpl; lia) eq_refl Hin) |].
        destruct (d =? c_lf).
        -- apply (Hrec s'); [simpl in Hn; lia | | exact Hin].
           rewrite encodable_cons in Hs. apply andb_true_iff in Hs. tauto.
        -- apply (Hrec (d :: s')); [lia | exact Hs | exact Hin].
      * destruct (is_linebreak c).
        -- apply (Hrec s); [lia | exact Hs | exact Hin].
        -- apply (IH s (c :: cur)); [lia | | exact Hs | exact Hin].
           rewrite encodable_cons, Hc, Hcur. reflexivity.
Qed.

Lemma splitlines_encodable (s line : pystr) :
  encodable s = true -> In line (splitlines s) -> encodable line = true.
Proof. apply (splitlines_from_encodable (length s) s []); [lia | reflexivity]. Qed.

(* --------------------------------------------------------------------- *)
(** ** The approval predicate *)
(* --------------------------------------------------------------------- *)

(** C3. [is_approved] holds of a critique exactly when the sentinel
    ["VERDICT: APPROVED"] occurs in it as a contiguous substring; a proper
    fragment of the sentinel, such as ["VERDICT:"] alone, is not
    approved. *)
Theorem is_approved_iff_sentinel (critique : pystr) :
  (Critic.is_approved critique = true
   <-> exists pre post, critique = pre ++ Critic.APPROVED_SIGNAL ++ post)
  /\ Critic.is_approved (str "VERDICT:") = false
  /\ (forall fragment pre post,
        Critic.APPROVED_SIGNAL = pre ++ fragment ++ post ->
        fragment <> Critic.APPROVED_SIGNAL ->
        Critic.is_approved fragment = false).
Proof.
  split; [apply contains_spec | split; [reflexivity |]].
  intros fragment pre post Hfrag Hne.
  destruct (Critic.is_approved fragment) eqn:Happ; [exfalso | reflexivity].
  apply contains_spec in Happ. destruct Happ as [pre' [post' H]].
  assert (Hlen : (length fragment = length fragment + length pre' + length post'
                  + length pre + length post)%nat).
  { apply (f_equal (@length N)) in Hfrag. apply (f_equal (@length N)) in H.
    rewrite !length_app in Hfrag, H. lia. }
  destruct pre', post', pre, post; simpl in Hlen; try lia.
  simpl in Hfrag. rewrite app_nil_r in Hfrag. congruence.
Qed.

Lemma is_approved_iff_sentinel_witness :
  Critic.is_approved (str "VERDICT: APPR") = false.
Proof.
  apply (proj2 (proj2 (is_approved_iff_sentinel [])) (str "VERDICT: APPR")
               [] (str "OVED")).
  - reflexivity.
  - discriminate.
Defined.

(* --------------------------------------------------------------------- *)
(** ** The slug function *)
(* --------------------------------------------------------------------- *)

(** Turns the boolean character tests of a goal into arithmetic. *)
Ltac char_arith :=
  unfold keeps, isalnum, slug_char, ascii_lower, ascii_isalnum, ascii_isdigit,
    ascii_isupper, ascii_islower, is_ascii, c_space, c_hyphen, c_underscore in *;
  repeat (match goal with
          | |- context [N.leb ?a ?b] => destruct (N.leb_spec a b)
          | |- context [N.ltb ?a ?b] => destruct (N.ltb_spec a b)
          | |- context [N.eqb ?a ?b] => destruct (N.eqb_spec a b)
          | H : context [N.leb ?a ?b] |- _ => destruct (N.leb_spec a b)
          | H : context [N.ltb ?a ?b] |- _ => destruct (N.ltb_spec a b)
          | H : context [N.eqb ?a ?b] |- _ => destruct (N.eqb_spec a b)
          end; try (exfalso; lia); cbn [andb orb negb] in *; try discriminate);
  try reflexivity; try congruence; try lia.

Lemma lower_ascii (U : unicode_db) (s : pystr) :
  forallb is_ascii s = true -> lower U s = map ascii_lower s.
Proof. unfold lower. intros ->. reflexivity. Qed.

Lemma ascii_lower_ascii (c : char) :
  is_ascii c = true ->
  is_ascii (ascii_lower c) && negb (ascii_isupper (ascii_lower c)) = true.
Proof. intros H. char_arith. Qed.

Lemma keeps_slug_char (U : unicode_db) (c : char) :
  is_ascii c && negb (ascii_isupper c) = true ->
  keeps U c = true -> slug_char c = true.
Proof. intros H1 H2. char_arith. Qed.

Lemma replace_space_hyphen_lowercase (c : char) :
  is_ascii c && negb (ascii_isupper c) = true ->
  is_ascii (if c =? c_space then c_hyphen else c)
  && negb (ascii_isupper (if c =? c_space then c_hyphen else c)) = true.
Proof. intros H. char_arith. Qed.

Lemma forallb_map_impl {A B} (P : A -> bool) (Q : B -> bool) (f : A -> B) (l : list A) :
  (forall a, P a = true -> Q (f a) = true) ->
  forallb P l = true -> forallb Q (map f l) = true.
Proof.
  intros Hf. induction l as [|a l IH]; simpl; [reflexivity |].
  rewrite !andb_true_iff. intros [Ha Hl]. auto.
Qed.

Lemma forallb_filter_impl {A} (P Q K : A -> bool) (l : list A) :
  (forall a, P a = true -> K a = true -> Q a = true) ->
  forallb P l = true -> forallb Q (List.filter K l) = true.
Proof.
  intros Himp. induction l as [|a l IH]; simpl; [reflexivity |].
  rewrite andb_true_iff. intros [Ha Hl].
  destruct (K a) eqn:HK; simpl; [rewrite (Himp a Ha HK)|]; auto.
Qed.

Lemma filter_none {A} (K : A -> bool) (l : list A) :
  forallb (fun a => negb (K a)) l = true -> List.filter K l = [].
Proof.
  induction l as [|a l IH]; simpl; [reflexivity |].
  rewrite andb_true_iff. intros [Ha Hl].
  destruct (K a); [discriminate | auto].
Qed.

Lemma str_or_nonempty (a b : pystr) : b <> [] -> str_or a b <> [].
Proof. destruct a; simpl; [auto | discriminate]. Qed.

Lemma forallb_str_or (P : char -> bool) (a b : pystr) :
  forallb P a = true -> forallb P b = true -> forallb P (str_or a b) = true.
Proof. destruct a; simpl; auto. Qed.

Lemma planner_slug_chars (U : unicode_db) (topic : pystr) :
  forallb (keeps U) (Planner.sanitize_filename U topic) = true.
Proof.
  unfold Planner.sanitize_filename. apply forallb_str_or; [|reflexivity].
  apply forallb_forall. intros c Hc. apply filter_In in Hc. tauto.
Qed.

Lemma planner_slug_ascii (U : unicode_db) (topic : pystr) :
  forallb is_ascii topic = true ->
  forallb slug_char (Planner.sanitize_filename U topic) = true.
Proof.
  intros Hascii. unfold Planner.sanitize_filename.
  apply forallb_str_or; [|reflexivity].
  rewrite (lower_ascii U topic Hascii).
  apply forallb_filter_impl
    with (P := fun c => is_ascii c && negb (ascii_isupper c)).
  { intros c; apply keeps_slug_char. }
  apply forallb_map_impl
    with (P := fun c => is_ascii c && negb (ascii_isupper c)).
  { intros c; apply replace_space_hyphen_lowercase. }
  apply forallb_strip.
  apply forallb_map_impl with (P := is_ascii); [|exact Hascii].
  intros c; apply ascii_lower_ascii.
Qed.

Lemma planner_slug_fallback (U : unicode_db) (topic : pystr) :
  forallb is_ascii topic = true ->
  forallb (fun c => negb (slug_relevant c)) topic = true ->
  Planner.sanitize_filename U topic = lecture.
Proof.
  intros Hascii Hnone. unfold Planner.sanitize_filename.
  rewrite (lower_ascii U topic Hascii).
  rewrite filter_none; [reflexivity |].
  apply forallb_map_impl
    with (P := fun c => is_ascii c && negb (slug_relevant c)).
  { intros c H. unfold slug_relevant in H. char_arith. }
  apply forallb_strip.
  apply forallb_map_impl
    with (P := fun c => is_ascii c && negb (slug_relevant c)).
  { intros c H. unfold slug_relevant in *. char_arith. }
  clear -Hascii Hnone. induction topic as [|c s IH]; simpl in *; [reflexivity |].
  apply andb_true_iff in Hascii, Hnone.
  destruct Hascii as [-> ?], Hnone as [-> ?]. simpl. auto.
Qed.

(** C1 (as the code has it). Both copies of [sanitize_filename] are
    functions of the topic, return a non-empty string, and every
    character of the result is alphanumeric in the sense of
    [str.isalnum], a hyphen or an underscore. The result is the fallback
    token ["lecture"] when no character of the lower-cased, stripped
    topic survives the filter. For a pure-ASCII topic the result is made
    of [a-z0-9_-] only, and it is the fallback token when the topic has no
    letter, digit, hyphen, underscore or space. *)
Theorem sanitize_filename_slug (U : unicode_db)
    (sanitize : unicode_db -> pystr -> pystr) (topic : pystr) :
  sanitize = Planner.sanitize_filename \/ sanitize = Orchestrator.sanitize_filename ->
  let slug := sanitize U topic in
  (forall topic', topic' = topic -> sanitize U topic' = slug)
  /\ slug <> []
  /\ forallb (keeps U) slug = true
  /\ (List.filter (keeps U) (replace_space_hyphen (strip (lower U topic))) = [] ->
      slug = lecture)
  /\ (forallb is_ascii topic = true -> forallb slug_char slug = true)
  /\ (forallb is_ascii topic = true ->
      forallb (fun c => negb (slug_relevant c)) topic = true ->
      slug = lecture).
Proof.
  intros Hsan slug.
  assert (Hslug : slug = Planner.sanitize_filename U topic)
    by (destruct Hsan; subst; reflexivity).
  rewrite Hslug. repeat split.
  - intros ? ->. rewrite <- Hslug. reflexivity.
  - apply str_or_nonempty. discriminate.
  - apply planner_slug_chars.
  - unfold Planner.sanitize_filename. intros ->. reflexivity.
  - apply planner_slug_ascii.
  - apply planner_slug_fallback.
Qed.

Lemma sanitize_filename_slug_witness :
  forallb slug_char (Orchestrator.sanitize_filename latin1 (str "Machine Learning 101"))
  = true
  /\ Planner.sanitize_filename latin1 (str "?!") = lecture.
Proof.
  split.
  - apply (sanitize_filename_slug latin1 Orchestrator.sanitize_filename
             (str "Machine Learning 101") (or_intror eq_refl)).
    reflexivity.
  - destruct (sanitize_filename_slug latin1 Planner.sanitize_filename
                (str "?!") (or_introl eq_refl)) as (_ & _ & _ & _ & _ & H).
    apply H; reflexivity.
Defined.

(** C1 as stated fails: a topic made of a hyphen has no alphanumeric
    character, yet its slug is the hyphen and not the fallback token; and
    the slug of a topic with an accented letter keeps that letter, which
    is outside [a-z0-9_-]. *)
Lemma sanitize_filename_not_always_ascii_slug :
  (forallb (fun c => negb (isalnum latin1 c)) (str "-") = true
   /\ Planner.sanitize_filename latin1 (str "-") = str "-"
   /\ str "-" <> lecture)
  /\ (Planner.sanitize_filename latin1 [99; 97; 102; 233] = [99; 97; 102; 233]
      /\ forallb slug_char [99; 97; 102; 233] = false).
Proof. repeat split; try reflexivity. discriminate. Qed.

(* --------------------------------------------------------------------- *)
(** ** The backend adapter *)
(* --------------------------------------------------------------------- *)

Lemma join_tokens_app (a b : list json) (sa sb : pystr) :
  join_tokens a = inr sa -> join_tokens b = inr sb ->
  join_tokens (a ++ b) = inr (sa ++ sb).
Proof.
  revert sa. induction a as [|j a IH]; simpl; intros sa Ha Hb.
  - injection Ha as <-. exact Hb.
  - destruct j; try discriminate.
    destruct (join_tokens a) as [e|t] eqn:Ht; [discriminate |].
    injection Ha as <-. rewrite (IH t eq_refl Hb), app_assoc. reflexivity.
Qed.

(** One chunk of the protocol: its fragment, when it is not empty, is
    appended and printed, and the loop ends at a completion flag. *)
Lemma read_stream_chunk (out : json -> bool) (chunk : json) (token : pystr)
    (rest : list response_line) (ending : stream_end) (tokens : list json) :
  chunk_token chunk = Some token ->
  read_stream out (Chunk chunk :: rest) ending tokens
  = match token with
    | [] => if chunk_done chunk then inr tokens
            else read_stream out rest ending tokens
    | _ :: _ =>
        if out (JStr token)
        then if chunk_done chunk then inr (tokens ++ [JStr token])
             else read_stream out rest ending (tokens ++ [JStr token])
        else inl UnicodeEncodeError
    end.
Proof.
  destruct chunk as [| | | | | |fields]; try discriminate.
  assert (Hdone : forall tokens1,
    match py_get (JObj fields) (str "done") (JBool false) with
    | inl e => inl e
    | inr done => if truthy done then inr tokens1
                  else read_stream out rest ending tokens1
    end
    = if chunk_done (JObj fields) then inr tokens1
      else read_stream out rest ending tokens1).
  { intros tokens1. simpl.
    destruct (lookup_field (str "done") fields) as [flag|]; reflexivity. }
  assert (Hstep : forall content : pystr,
    (if truthy (JStr content) && negb (out (JStr content))
     then inl UnicodeEncodeError
     else
       let tokens1 := if truthy (JStr content) then tokens ++ [JStr content]
                      else tokens in
       match py_get (JObj fields) (str "done") (JBool false) with
       | inl e => inl e
       | inr done => if truthy done then inr tokens1
                     else read_stream out rest ending tokens1
       end)
    = match content with
      | [] => if chunk_done (JObj fields) then inr tokens
              else read_stream out rest ending tokens
      | _ :: _ =>
          if out (JStr content)
          then if chunk_done (JObj fields) then inr (tokens ++ [JStr content])
               else read_stream out rest ending (tokens ++ [JStr content])
          else inl UnicodeEncodeError
      end).
  { intros [|c content]; cbn [truthy andb]; cbv zeta.
    - apply Hdone.
    - destruct (out (JStr (c :: content))); cbn [negb]; [apply Hdone | reflexivity]. }
  cbn [chunk_token read_stream].
  change (py_get (JObj fields) (str "message") (JObj []))
    with (@inr exn json match lookup_field (str "message") fields with
                        | Some v => v
                        | None => JObj []
                        end).
  cbv iota.
  destruct (lookup_field (str "message") fields) as [[| | | | | |mfields]|];
    try discriminate.
  - change (py_get (JObj mfields) (str "content") (JStr []))
      with (@inr exn json match lookup_field (str "content") mfields with
                          | Some v => v
                          | None => JStr []
                          end).
    cbv iota.
    destruct (lookup_field (str "content") mfields) as [[| | | |content| |]|];
      try discriminate; intros [= <-];
      lazymatch goal with
      | |- context [truthy (JStr ?c)] => exact (Hstep c)
      end.
  - intros [= <-]. exact (Hstep []).
Qed.

(** The loop of the adapter collects the fragments the protocol
    describes, when the standard output takes them. *)
Lemma read_stream_protocol (E : env) (lines : list response_line)
    (ending : stream_end) (tokens : list json) (text : pystr) :
  follows_protocol lines = true ->
  ending = EndOfStream \/ reaches_done lines = true ->
  printable_fragments E lines = true ->
  join_tokens tokens = inr text ->
  exists tokens',
    read_stream (stdout E) lines ending tokens = inr tokens'
    /\ join_tokens tokens' = inr (text ++ tokens_until_done lines).
Proof.
  revert tokens text.
  induction lines as [|line rest IH]; intros tokens text Hp He Hout Ht.
  - destruct He as [-> | He]; [|discriminate].
    exists tokens. simpl. rewrite app_nil_r. auto.
  - destruct line as [| | |chunk];
      cbn [follows_protocol reaches_done printable_fragments tokens_until_done] in *;
      try discriminate.
    1, 2: cbn [read_stream]; auto.
    destruct (chunk_token chunk) as [token|] eqn:Htoken; [|discriminate].
    rewrite (read_stream_chunk _ chunk token rest ending tokens Htoken).
    apply andb_true_iff in Hout. destruct Hout as [Hprint Hout].
    cbn [default from_option]. unfold id.
    assert (Hjoin : join_tokens (match token with
                                 | [] => tokens
                                 | _ :: _ => tokens ++ [JStr token]
                                 end) = inr (text ++ token)).
    { destruct token as [|c token]; [rewrite app_nil_r; exact Ht |].
      apply join_tokens_app; [exact Ht | simpl; rewrite app_nil_r; reflexivity]. }
    destruct (chunk_done chunk) eqn:Hdone.
    + rewrite app_nil_r.
      destruct token as [|c token]; [eauto |]. rewrite Hprint. eauto.
    + cbn [orb] in Hp, He, Hout.
      destruct token as [|c token].
      * destruct (IH tokens text Hp He Hout Ht) as (tokens' & Hr & Hj).
        exists tokens'. split; [exact Hr | exact Hj].
      * rewrite Hprint.
        destruct (IH _ _ Hp He Hout Hjoin) as (tokens' & Hr & Hj).
        exists tokens'. split; [exact Hr |]. rewrite app_assoc. exact Hj.
Qed.

(** A fragment the standard output cannot take ends the loop with the
    exception of [print]. *)
Lemma read_stream_unprintable (E : env) (lines : list response_line)
    (ending : stream_end) (tokens : list json) :
  follows_protocol lines = true ->
  printable_fragments E lines = false ->
  read_stream (stdout E) lines ending tokens = inl UnicodeEncodeError.
Proof.
  revert tokens. induction lines as [|line rest IH]; intros tokens Hp Hout.
  - discriminate.
  - destruct line as [| | |chunk];
      cbn [follows_protocol printable_fragments] in *;
      try discriminate.
    1, 2: cbn [read_stream]; auto.
    destruct (chunk_token chunk) as [token|] eqn:Htoken; [|discriminate].
    rewrite (read_stream_chunk _ chunk token rest ending tokens Htoken).
    destruct (chunk_done chunk) eqn:Hdone; cbn [orb] in Hp, Hout.
    + rewrite andb_true_r in Hout.
      destruct token as [|c token]; [discriminate | rewrite Hout; reflexivity].
    + destruct token as [|c token]; [apply IH; assumption |].
      destruct (stdout E (JStr (c :: token))); [apply IH; assumption | reflexivity].
Qed.

Lemma assemble_protocol (E : env) (lines : list response_line) (ending : stream_end) :
  follows_protocol lines = true ->
  ending = EndOfStream \/ reaches_done lines = true ->
  assemble E (Stream lines ending)
  = if printable_fragments E lines
    then match strip (tokens_until_done lines) with
         | [] => Fail (SysExit 1)
         | result => Ok result
         end
    else Fail (Uncaught UnicodeEncodeError).
Proof.
  intros Hp He. unfold assemble.
  destruct (printable_fragments E lines) eqn:Hout.
  - destruct (read_stream_protocol E lines ending [] [] Hp He Hout eq_refl)
      as [tokens [-> Hj]].
    rewrite Hj. reflexivity.
  - rewrite (read_stream_unprintable E lines ending [] Hp Hout). reflexivity.
Qed.

Lemma query_backend_protocol (E : env) (model system_prompt user_message task_label : pystr)
    (w : world) (lines : list response_line) (ending : stream_end) :
  let req := {| req_model := model; req_system := system_prompt;
                req_user := user_message; req_label := task_label |} in
  backend E (calls w) req = Stream lines ending ->
  follows_protocol lines = true ->
  ending = EndOfStream \/ reaches_done lines = true ->
  query_backend E model system_prompt user_message task_label w
  = (if printable_fragments E lines
     then match strip (tokens_until_done lines) with
          | [] => Fail (SysExit 1)
          | result => Ok result
          end
     else Fail (Uncaught UnicodeEncodeError), with_call w req).
Proof.
  intros req Hb Hp He. unfold query_backend. fold req.
  rewrite Hb, (assemble_protocol E lines ending Hp He). reflexivity.
Qed.

(** C7 (as the code has it). For a response body whose lines, up to the
    first chunk with the completion flag set, are blank, unparseable or
    chunks of the protocol, and which ends or reaches such a chunk, both
    copies of [query_ollama] print the fragments as they arrive: when the
    standard output can encode every fragment, they return the
    concatenation of the fragments up to and including that chunk with
    leading and trailing white space stripped, and otherwise the call
    ends with the uncaught UnicodeEncodeError of [print]; when nothing is
    left after stripping, the call is fatal with exit status 1. *)
Theorem query_ollama_concatenates (E : env) (system_prompt user_message task_label : pystr)
    (w : world) (lines : list response_line) (ending : stream_end)
    (query : env -> pystr -> pystr -> pystr -> M pystr) (model : pystr) :
  (query = Explainer.query_ollama /\ model = Explainer.MODEL_NAME)
  \/ (query = Critic.query_ollama /\ model = Critic.MODEL_NAME) ->
  let req := {| req_model := model; req_system := system_prompt;
                req_user := user_message; req_label := task_label |} in
  backend E (calls w) req = Stream lines ending ->
  follows_protocol lines = true ->
  ending = EndOfStream \/ reaches_done lines = true ->
  let text := strip (tokens_until_done lines) in
  query E system_prompt user_message task_label w
  = (if printable_fragments E lines
     then match text with [] => Fail (SysExit 1) | _ => Ok text end
     else Fail (Uncaught UnicodeEncodeError),
     with_call w req)
  /\ (text = [] ->
      exists f, fst (query E system_prompt user_message task_label w) = Fail f
                /\ exit_code f = 1%Z).
Proof.
  intros Hq req Hb Hp He text.
  assert (Hrun : query E system_prompt user_message task_label w
                 = query_backend E model system_prompt user_message task_label w)
    by (destruct Hq as [[-> ->] | [-> ->]]; reflexivity).
  rewrite Hrun, (query_backend_protocol E _ _ _ _ w lines ending Hb Hp He).
  fold text. split.
  - destruct (printable_fragments E lines); [destruct text |]; reflexivity.
  - intros ->. cbn [fst].
    destruct (printable_fragments E lines); eexists; split; reflexivity.
Qed.

Lemma query_ollama_concatenates_witness :
  fst (Critic.query_ollama (Mock.env_of (Mock.always (str "fine")))
         (str "sys") (str "user") (str "label") (Mock.world_of []))
  = Ok (str "fine").
Proof.
  refine (f_equal fst (proj1 (query_ollama_concatenates
            (Mock.env_of (Mock.always (str "fine")))
            (str "sys") (str "user") (str "label") (Mock.world_of [])
            [Mock.final_chunk (str "fine")] EndOfStream
            Critic.query_ollama Critic.MODEL_NAME
            (or_intror (conj eq_refl eq_refl)) eq_refl eq_refl (or_introl eq_refl)))).
Defined.

(** C7 as stated fails: the adapter does not return the concatenation of
    the fragments itself. For the single fragment [" hi"] it returns
    ["hi"]. *)
Lemma query_ollama_strips_the_concatenation :
  tokens_until_done [Mock.final_chunk (str " hi")] = str " hi"
  /\ fst (Explainer.query_ollama (Mock.env_of (Mock.always (str " hi")))
            (str "sys") (str "user") (str "label") (Mock.world_of []))
     = Ok (str "hi")
  /\ str "hi" <> str " hi".
Proof. repeat split. discriminate. Qed.

(** A parseable line that is not an object is not skipped: [chunk.get]
    raises. *)
Example read_stream_array_line :
  read_stream Mock.utf8_strict [Chunk (JArr []); Mock.final_chunk (str "hi")]
    EndOfStream []
  = inl AttributeError.
Proof. reflexivity. Qed.

(** A fragment with a lone surrogate ends the call on a strict UTF-8
    terminal, where [print] raises; a standard output that takes it lets
    the adapter return the fragment. *)
Example lone_surrogate_fragment :
  fst (Critic.query_ollama (Mock.env_of (Mock.always Mock.lone_surrogate))
         (str "sys") (str "user") (str "label") (Mock.world_of []))
  = Fail (Uncaught UnicodeEncodeError)
  /\ fst (Critic.query_ollama (Mock.lenient (Mock.always Mock.lone_surrogate))
            (str "sys") (str "user") (str "label") (Mock.world_of []))
     = Ok Mock.lone_surrogate.
Proof. split; reflexivity. Qed.
(* --------------------------------------------------------------------- *)
(** ** Running the stages *)
(* --------------------------------------------------------------------- *)

Lemma bind_run {A B} (c : M A) (k : A -> M B) (w : world) :
  bind c k w = match c w with
               | (Ok a, w') => k a w'
               | (Fail f, w') => (Fail f, w')
               end.
Proof. reflexivity. Qed.

Lemma bind_ok_inv {A B} (c : M A) (k : A -> M B) (w w' : world) (b : B) :
  bind c k w = (Ok b, w') ->
  exists a w1, c w = (Ok a, w1) /\ k a w1 = (Ok b, w').
Proof.
  unfold bind. destruct (c w) as [[a|f] w1]; [eauto | discriminate].
Qed.

Lemma read_stream_timeout (out : json -> bool) (lines : list response_line)
    (tokens tokens' : list json) :
  read_stream out lines ReadTimeout tokens = inr tokens' -> reaches_done lines = true.
Proof.
  revert tokens. induction lines as [|line rest IH]; intros tokens; simpl.
  - discriminate.
  - destruct line as [| | |chunk]; try discriminate; eauto.
    destruct chunk as [| | | | | |fields]; simpl; try discriminate.
    destruct (lookup_field (str "message") fields) as [[| | | | | |mfields]|];
      simpl; try discriminate;
      match goal with
      | |- context [if ?b then inl UnicodeEncodeError else _] =>
          destruct b; [discriminate |]
      | _ => idtac
      end;
      (destruct (lookup_field (str "done") fields) as [flag|]; simpl;
       [destruct (truthy flag); [reflexivity | eauto] | eauto]).
Qed.

Lemma assemble_exit_code (E : env) (r : response) (f : failure) :
  assemble E r = Fail f -> exit_code f = 1%Z.
Proof.
  unfold assemble. destruct r as [|lines ending]; [intros [= <-]; reflexivity |].
  destruct (read_stream (stdout E) lines ending []) as [e|tokens];
    [intros [= <-]; reflexivity |].
  destruct (join_tokens tokens) as [e|text]; [intros [= <-]; reflexivity |].
  destruct (strip text); [intros [= <-]; reflexivity | discriminate].
Qed.

Lemma assemble_ok (E : env) (r : response) (text : pystr) :
  assemble E r = Ok text -> text <> [] /\ exists raw, text = strip raw.
Proof.
  unfold assemble. destruct r as [|lines ending]; [discriminate |].
  destruct (read_stream (stdout E) lines ending []) as [e|tokens]; [discriminate |].
  destruct (join_tokens tokens) as [e|raw]; [discriminate |].
  destruct (strip raw) eqn:Hs; [discriminate |].
  intros [= <-]. split; [discriminate | exists raw; congruence].
Qed.

Lemma assemble_fails (E : env) (r : response) :
  backend_fails r = true -> exists f, assemble E r = Fail f /\ exit_code f = 1%Z.
Proof.
  intros Hf.
  destruct (assemble E r) as [text|f] eqn:Ha;
    [exfalso | exists f; split; [reflexivity | exact (assemble_exit_code E r f Ha)]].
  destruct r as [|lines ending]; [discriminate |].
  assert (Hblank : follows_protocol lines = true ->
                   ending = EndOfStream \/ reaches_done lines = true ->
                   strip (tokens_until_done lines) <> []).
  { intros Hp He. rewrite (assemble_protocol E lines ending Hp He) in Ha.
    destruct (printable_fragments E lines); [| discriminate].
    destruct (strip (tokens_until_done lines)); [discriminate | discriminate]. }
  destruct ending; simpl in Hf.
  - apply andb_true_iff in Hf. destruct Hf as [Hp Hb].
    specialize (Hblank Hp (or_introl eq_refl)).
    destruct (strip (tokens_until_done lines)); [congruence | discriminate].
  - assert (Hd : reaches_done lines = true).
    { unfold assemble in Ha.
      destruct (read_stream (stdout E) lines ReadTimeout []) as [e|tokens] eqn:Hr;
        [discriminate | exact (read_stream_timeout _ lines [] tokens Hr)]. }
    rewrite Hd in Hf. simpl in Hf.
    apply andb_true_iff in Hf. destruct Hf as [Hp Hb].
    specialize (Hblank Hp (or_intror Hd)).
    destruct (strip (tokens_until_done lines)); [congruence | discriminate].
Qed.

(** [load_file] leaves the world as it is, and gives the loaded text of a
    file that is there and not blank. *)
Lemma load_file_run (E : env) (filepath : pystr) (w : world) :
  load_file E filepath w
  = (match files w !! resolve E filepath with
     | Some content =>
         match loaded content with
         | [] => Fail (SysExit 1)
         | text => Ok text
         end
     | None => Fail (SysExit 1)
     end, w).
Proof.
  unfold load_file, bind, path_exists, read_text, sys_exit, fail, ret, loaded.
  destruct (files w !! resolve E filepath) as [content|] eqn:Hc; simpl.
  - rewrite ?Hc. simpl.
    destruct (strip (universal_newlines content)); reflexivity.
  - reflexivity.
Qed.

Lemma load_file_cases (E : env) (filepath : pystr) (w : world) :
  (exists content, files w !! resolve E filepath = Some content
                   /\ loaded content <> []
                   /\ load_file E filepath w = (Ok (loaded content), w))
  \/ load_file E filepath w = (Fail (SysExit 1), w).
Proof.
  rewrite load_file_run.
  destruct (files w !! resolve E filepath) as [content|]; [|right; reflexivity].
  destruct (loaded content) eqn:Hl; [right; reflexivity |].
  left. exists content. rewrite Hl. repeat split; discriminate || reflexivity.
Qed.

Lemma query_backend_fails (E : env) (model system_prompt user_message task_label : pystr)
    (w : world) :
  (forall req, backend_fails (backend E (calls w) req) = true) ->
  exists f w',
    query_backend E model system_prompt user_message task_label w = (Fail f, w')
    /\ exit_code f = 1%Z /\ files w' = files w.
Proof.
  intros Hfail. unfold query_backend.
  destruct (assemble_fails E _ (Hfail
    {| req_model := model; req_system := system_prompt;
       req_user := user_message; req_label := task_label |})) as [f [Hf Hcode]].
  rewrite Hf. eexists _, _. repeat split. exact Hcode.
Qed.

(** Closes the goal of a stage that fails before it writes. *)
Ltac stage_fails :=
  eexists _, _; split; [reflexivity | split; [discriminate | reflexivity]].

(** Loads a file: the stage ends there with status 1 and the world as it
    was, or goes on with the text. *)
Ltac load_or_fail E path w :=
  rewrite bind_run;
  destruct (load_file_cases E path w) as [(? & _ & _ & ->) | ->];
  [| stage_fails].

(** C6. When the backend call of a stage invocation fails (the
    connection cannot be made, the body times out, or the response
    concatenates to nothing but white space), the generation stage, the
    revision stage, the critique stage and the controller's iteration that
    runs it end fatally with a non-zero exit status, and no file has been
    written or changed. *)
Theorem failed_backend_call_writes_nothing (E : env) (file__ : pystr) (w : world) :
  (forall req, backend_fails (backend E (calls w) req) = true) ->
  (forall outline_path, exists f w',
      Explainer.module_generate E file__ outline_path w = (Fail f, w')
      /\ exit_code f <> 0%Z /\ files w' = files w)
  /\ (forall explanation_path critique_path, exists f w',
      Explainer.module_revise E file__ explanation_path critique_path w = (Fail f, w')
      /\ exit_code f <> 0%Z /\ files w' = files w)
  /\ (forall system_prompt explanation filename iteration previous_critique,
      exists f w',
        Critic.generate_critique E system_prompt explanation filename iteration
          previous_critique w = (Fail f, w')
        /\ exit_code f <> 0%Z /\ files w' = files w)
  /\ (forall explanation_path system_prompt filename iteration later previous_critique,
      exists f w',
        Critic.main_loop E file__ explanation_path system_prompt filename
          (iteration :: later) previous_critique w = (Fail f, w')
        /\ Critic.status (Fail f) <> 0%Z /\ files w' = files w).
Proof.
  intros Hfail.
  assert (Hquery : forall model system_prompt user_message task_label,
    exists f w',
      query_backend E model system_prompt user_message task_label w = (Fail f, w')
      /\ exit_code f <> 0%Z /\ files w' = files w).
  { intros. destruct (query_backend_fails E model system_prompt user_message
                        task_label w Hfail) as (f & w' & Hq & Hcode & Hfiles).
    exists f, w'. rewrite Hcode. repeat split; [exact Hq | discriminate | exact Hfiles]. }
  repeat split.
  - intros outline_path. unfold Explainer.module_generate.
    load_or_fail E outline_path w.
    unfold Explainer.load_system_prompt.
    load_or_fail E (prompt_path E file__ Explainer.EXPLAINER_PROMPT_FILE) w.
    rewrite bind_run. unfold Explainer.query_ollama.
    match goal with
    | |- context [query_backend E ?m ?s ?u ?l w] =>
        destruct (Hquery m s u l) as (f & w' & -> & Hcode & Hfiles)
    end.
    eauto.
  - intros explanation_path critique_path. unfold Explainer.module_revise.
    load_or_fail E explanation_path w.
    load_or_fail E critique_path w.
    unfold Explainer.load_system_prompt.
    load_or_fail E (prompt_path E file__ Explainer.REVISER_PROMPT_FILE) w.
    rewrite bind_run. unfold Explainer.query_ollama.
    match goal with
    | |- context [query_backend E ?m ?s ?u ?l w] =>
        destruct (Hquery m s u l) as (f & w' & -> & Hcode & Hfiles)
    end.
    eauto.
  - intros. unfold Critic.generate_critique, Critic.query_ollama. apply Hquery.
  - intros. simpl.
    load_or_fail E explanation_path w.
    rewrite bind_run. unfold Critic.generate_critique, Critic.query_ollama.
    match goal with
    | |- context [query_backend E ?m ?s ?u ?l w] =>
        destruct (Hquery m s u l) as (f & w' & -> & Hcode & Hfiles)
    end.
    eauto.
Qed.

Lemma failed_backend_call_writes_nothing_witness :
  exists f w',
    Explainer.module_revise (Mock.env_of (Mock.always (str "  ")))
      (str "/work/src/explainer.py") Mock.explanation_txt Mock.critique_txt
      (Mock.world_of Mock.revision_files)
    = (Fail f, w')
    /\ exit_code f <> 0%Z
    /\ files w' = files (Mock.world_of Mock.revision_files).
Proof.
  apply (failed_backend_call_writes_nothing
           (Mock.env_of (Mock.always (str "  ")))
           (str "/work/src/explainer.py")
           (Mock.world_of Mock.revision_files)).
  intros req. reflexivity.
Defined.

(** On those files the call is made, and it is its blank answer that
    ends the revision. *)
Example blank_answer_ends_revision :
  map req_label
    (calls (snd (Explainer.module_revise (Mock.env_of (Mock.always (str "  ")))
                   (str "/work/src/explainer.py") Mock.explanation_txt
                   Mock.critique_txt (Mock.world_of Mock.revision_files))))
  = [str "Applying critique"].
Proof. vm_compute. reflexivity. Qed.

(* --------------------------------------------------------------------- *)
(** ** The iteration controller: approval *)
(* --------------------------------------------------------------------- *)

Lemma main_loop_approved (E : env) (file__ explanation_path system_prompt filename : pystr)
    (iterations : list nat) (previous_critique : pystr) (w w' : world) (iteration : nat) :
  Critic.main_loop E file__ explanation_path system_prompt filename iterations
    previous_critique w = (Ok (Critic.Approved iteration), w') ->
  In iteration iterations
  /\ files w' !! resolve E (Critic.critique_path_of E explanation_path) = None.
Proof.
  revert previous_critique w.
  induction iterations as [|i later IH]; intros previous_critique w Hrun; simpl in Hrun.
  - discriminate.
  - apply bind_ok_inv in Hrun. destruct Hrun as (explanation & w1 & _ & Hrun).
    apply bind_ok_inv in Hrun. destruct Hrun as (critique & w2 & _ & Hrun).
    destruct (Critic.is_approved critique).
    + unfold bind, path_exists, remove, ret in Hrun.
      destruct (files w2 !! resolve E (Critic.critique_path_of E explanation_path))
        as [stale|] eqn:Hstale; simpl in Hrun.
      * rewrite ?Hstale in Hrun. simpl in Hrun.
        injection Hrun as <- <-. split; [left; reflexivity |]. simpl.
        apply lookup_delete_eq.
      * rewrite ?Hstale in Hrun. simpl in Hrun.
        injection Hrun as <- <-. split; [left; reflexivity | exact Hstale].
    + apply bind_ok_inv in Hrun. destruct Hrun as (critique_path & w3 & _ & Hrun).
      apply bind_ok_inv in Hrun. destruct Hrun as (? & w4 & _ & Hrun).
      destruct (IH _ _ Hrun) as [Hin Hnone]. split; [right; exact Hin | exact Hnone].
Qed.

(** C4. A run of the controller that ends approved has exit status 0,
    was approved at one of the iterations 1..cap, and leaves no critique
    artifact: there is no file [active_critique.txt] in the directory of
    the explanation. *)
Theorem approved_run_leaves_no_critique (E : env) (file__ : pystr) (cap : nat)
    (explanation_path : pystr) (more_args : list pystr) (w w' : world)
    (iteration : nat) :
  Critic.main_capped E file__ cap (explanation_path :: more_args) w
  = (Ok (Critic.Approved iteration), w') ->
  Critic.status (Ok (Critic.Approved iteration)) = 0%Z
  /\ (1 <= iteration <= cap)%nat
  /\ files w' !! resolve E
                   (Path.join (Path.dirname (Path.abspath (cwd E) explanation_path))
                      [str "active_critique.txt"]) = None.
Proof.
  intros Hrun. split; [reflexivity |].
  unfold Critic.main_capped in Hrun.
  apply bind_ok_inv in Hrun. destruct Hrun as (present & w1 & _ & Hrun).
  destruct (negb present); [discriminate |].
  apply bind_ok_inv in Hrun. destruct Hrun as (system_prompt & w2 & _ & Hrun).
  apply main_loop_approved in Hrun. destruct Hrun as [Hin Hnone].
  split; [|exact Hnone].
  apply in_seq in Hin. lia.
Qed.

Lemma approved_run_leaves_no_critique_witness :
  let E := Mock.env_of (Mock.always (str "All good. VERDICT: APPROVED")) in
  let w := Mock.world_of
             ((str "/work/outputs/x/active_critique.txt", str "stale")
              :: Mock.project_files) in
  files w !! str "/work/outputs/x/active_critique.txt" = Some (str "stale")
  /\ files (snd (Critic.main_capped E Mock.critic_py Critic.MAX_ITERATIONS
                   [Mock.explanation_txt] w))
     !! str "/work/outputs/x/active_critique.txt" = None.
Proof.
  intros E w. split; [vm_compute; reflexivity |].
  assert (Hrun : fst (Critic.main_capped E Mock.critic_py Critic.MAX_ITERATIONS
                        [Mock.explanation_txt] w)
                 = Ok (Critic.Approved 1)) by (vm_compute; reflexivity).
  apply (approved_run_leaves_no_critique E Mock.critic_py Critic.MAX_ITERATIONS
           Mock.explanation_txt [] w
           (snd (Critic.main_capped E Mock.critic_py Critic.MAX_ITERATIONS
                   [Mock.explanation_txt] w)) 1).
  rewrite <- Hrun. apply surjective_pairing.
Defined.

(* --------------------------------------------------------------------- *)
(** ** The iteration controller: reaching the cap *)
(* --------------------------------------------------------------------- *)

Lemma load_file_ok (E : env) (filepath : pystr) (w : world) (content : pystr) :
  files w !! resolve E filepath = Some content ->
  loaded content <> [] ->
  load_file E filepath w = (Ok (loaded content), w).
Proof.
  intros Hc Hl. rewrite load_file_run, Hc.
  destruct (loaded content); [congruence | reflexivity].
Qed.

Lemma nonblank_insert (E : env) (w w' : world) (path key text : pystr) :
  nonblank_at E w path ->
  loaded text <> [] ->
  files w' = <[key := text]> (files w) ->
  nonblank_at E w' path.
Proof.
  intros [content [Hc Hl]] Ht Hw. unfold nonblank_at. rewrite Hw.
  destruct (decide (key = resolve E path)) as [->|Hne].
  - exists text. rewrite lookup_insert_eq. auto.
  - exists content. rewrite lookup_insert_ne by exact Hne. auto.
Qed.

Lemma is_Some_insert (m : gmap pystr pystr) (key path text : pystr) :
  is_Some (m !! path) -> is_Some (<[key := text]> m !! path).
Proof.
  intros H. destruct (decide (key = path)) as [->|Hne].
  - rewrite lookup_insert_eq. eauto.
  - rewrite lookup_insert_ne by exact Hne. exact H.
Qed.

Lemma source_field_has_colon (line : pystr) :
  startswith Explainer.SOURCE_FIELD line = true ->
  exists post, line = Explainer.SOURCE_FIELD ++ post
               /\ after_first c_colon line = Some post.
Proof.
  intros H. apply startswith_spec in H. destruct H as [post ->].
  exists post. split; reflexivity.
Qed.

Lemma scan_source_total (lines : list pystr) (source_name : pystr) :
  exists name, Explainer.scan_source lines source_name = inr name.
Proof.
  induction lines as [|line rest IH]; cbn [Explainer.scan_source].
  - eauto.
  - destruct (startswith Explainer.SOURCE_FIELD line) eqn:Hs; [|exact IH].
    destruct (source_field_has_colon line Hs) as [post [_ ->]]. eauto.
Qed.

Lemma lower_revise (U : unicode_db) : lower U (str "revise") = str "revise".
Proof. reflexivity. Qed.

Lemma after_last_without (c : char) (s : pystr) :
  without c s = true -> after_last c s = O.
Proof.
  induction s as [|x s IH]; [reflexivity |].
  cbn [forallb after_last]. rewrite andb_true_iff. intros [Hx Hs].
  rewrite (IH Hs). apply negb_true_iff in Hx. rewrite Hx. reflexivity.
Qed.

Lemma after_last_app (c : char) (a b : pystr) :
  without c b = true -> after_last c (a ++ c :: b) = S (length a).
Proof.
  intros Hb. induction a as [|x a IH]; cbn [app after_last length].
  - rewrite (after_last_without c b Hb), N.eqb_refl. reflexivity.
  - rewrite IH. reflexivity.
Qed.

(** *** Writing and encoding *)

Lemma write_text_ok (E : env) (path text : pystr) (w : world) :
  encodable text = true ->
  write_text E path text w
  = (Ok tt, {| files := <[resolve E path := text]> (files w);
               calls := calls w; ticks := ticks w |}).
Proof. intros H. unfold write_text. rewrite H. reflexivity. Qed.

Lemma write_text_fails (E : env) (path text : pystr) (w : world) :
  encodable text = false ->
  write_text E path text w
  = (Fail (Uncaught UnicodeEncodeError),
     {| files := <[resolve E path := []]> (files w);
        calls := calls w; ticks := ticks w |}).
Proof. intros H. unfold write_text. rewrite H. reflexivity. Qed.

Lemma write_text_ok_inv (E : env) (path text : pystr) (w w' : world) (u : unit) :
  write_text E path text w = (Ok u, w') ->
  encodable text = true
  /\ w' = {| files := <[resolve E path := text]> (files w);
             calls := calls w; ticks := ticks w |}.
Proof.
  unfold write_text. destruct (encodable text); [| discriminate].
  intros [= _ <-]. split; reflexivity.
Qed.

Lemma encodable_revised (stamp : datetime)
    (source_name critique_name revised : pystr) :
  encodable source_name = true ->
  encodable critique_name = true ->
  encodable revised = true ->
  encodable (Explainer.updated_header (strftime stamp) source_name critique_name
             ++ revised) = true.
Proof.
  intros Hs Hc Hr. unfold Explainer.updated_header.
  repeat rewrite encodable_app.
  rewrite Hs, Hc, Hr, encodable_strftime, !encodable_str. reflexivity.
Qed.

Lemma encodable_generated (stamp : datetime) (source_name text : pystr) :
  encodable source_name = true ->
  encodable text = true ->
  encodable (Explainer.generated_header (strftime stamp) source_name ++ text) = true.
Proof.
  intros Hs Ht. unfold Explainer.generated_header.
  repeat rewrite encodable_app.
  rewrite Hs, Ht, encodable_strftime, !encodable_str. reflexivity.
Qed.

Lemma encodable_critique (iteration : nat) (stamp critique : pystr) :
  encodable stamp = true ->
  encodable critique = true ->
  encodable (Critic.critique_header iteration stamp ++ critique) = true.
Proof.
  intros Hs Hc. unfold Critic.critique_header.
  repeat rewrite encodable_app.
  rewrite Hs, Hc, (encodable_digits _ (str_of_nat_digits iteration)), !encodable_str.
  reflexivity.
Qed.

(** The source name the revision stage finds in a text free of lone
    surrogates has none. *)
Lemma scan_source_encodable (text fallback name : pystr) :
  encodable text = true ->
  encodable fallback = true ->
  Explainer.scan_source (splitlines text) fallback = inr name ->
  encodable name = true.
Proof.
  intros Htext Hfallback.
  assert (Hlines : forall line, In line (splitlines text) -> encodable line = true)
    by (intros line; apply splitlines_encodable, Htext).
  induction (splitlines text) as [|line rest IH]; cbn [Explainer.scan_source].
  - intros [= <-]. exact Hfallback.
  - destruct (startswith Explainer.SOURCE_FIELD line).
    + destruct (after_first c_colon line) as [field|] eqn:Hfield; [| discriminate].
      intros [= <-]. rewrite encodable_strip.
      apply after_first_suffix in Hfield. destruct Hfield as [pre Hline].
      assert (H := Hlines line (or_introl eq_refl)).
      rewrite Hline, encodable_app, encodable_cons in H.
      apply andb_true_iff in H. destruct H as [_ H].
      apply andb_true_iff in H. tauto.
    + apply IH. intros l Hl. apply Hlines. right. exact Hl.
Qed.

Lemma drop_after (a : pystr) (c : char) (b : pystr) :
  drop (S (length a)) (a ++ c :: b) = b.
Proof. induction a as [|x a IH]; [reflexivity | exact IH]. Qed.

(** The name joined to a directory is the base name of the result. *)
Lemma basename_join2 (d name : pystr) :
  without c_slash name = true -> Path.basename (Path.join2 d name) = name.
Proof.
  intros Hname. unfold Path.join2.
  assert (Hplain : Path.basename name = name).
  { unfold Path.basename. rewrite (after_last_without _ _ Hname). reflexivity. }
  destruct (startswith [c_slash] name); [exact Hplain |].
  destruct d as [|x d]; [exact Hplain |].
  destruct (endswith [c_slash] (x :: d)) eqn:Hends.
  - apply endswith_spec in Hends. destruct Hends as [pre ->].
    rewrite <- app_assoc. cbn [app]. unfold Path.basename.
    rewrite (after_last_app _ pre name Hname). apply drop_after.
  - unfold Path.basename.
    rewrite (after_last_app _ (x :: d) name Hname). apply (drop_after (x :: d)).
Qed.

Lemma basename_critique_path (E : env) (explanation_path : pystr) :
  Path.basename (Critic.critique_path_of E explanation_path)
  = str "active_critique.txt".
Proof. unfold Critic.critique_path_of. apply basename_join2. reflexivity. Qed.

(** The revision stage on files that are there, with a backend that
    answers text free of lone surrogates: the explanation is overwritten
    with the new header and the revised text. *)
Lemma module_revise_ok (E : env) (file__ explanation_path critique_path : pystr)
    (w : world) (explanation critique prompt : pystr) :
  files w !! resolve E explanation_path = Some explanation ->
  loaded explanation <> [] ->
  files w !! resolve E critique_path = Some critique ->
  loaded critique <> [] ->
  files w !! resolve E (prompt_path E file__ Explainer.REVISER_PROMPT_FILE) = Some prompt ->
  loaded prompt <> [] ->
  encodable explanation = true ->
  encodable (Path.basename explanation_path) = true ->
  encodable (Path.basename critique_path) = true ->
  (forall req, exists text, assemble E (backend E (calls w) req) = Ok text
                            /\ encodable text = true) ->
  exists req revised source_name,
    req_label req = str "Applying critique"
    /\ assemble E (backend E (calls w) req) = Ok revised
    /\ Explainer.scan_source (splitlines (loaded explanation))
         (Path.basename explanation_path) = inr source_name
    /\ encodable (Explainer.updated_header (strftime (clock E (ticks w))) source_name
                    (Path.basename critique_path) ++ revised) = true
    /\ Explainer.module_revise E file__ explanation_path critique_path w
       = (Ok tt,
          {| files :=
               <[resolve E explanation_path :=
                   Explainer.updated_header (strftime (clock E (ticks w))) source_name
                     (Path.basename critique_path) ++ revised]> (files w);
             calls := calls w ++ [req];
             ticks := S (ticks w) |}).
Proof.
  intros He Hle Hc Hlc Hp Hlp Henc Hname Hcname Hback.
  unfold Explainer.module_revise, Explainer.load_system_prompt, Explainer.query_ollama.
  rewrite bind_run, (load_file_ok E _ w _ He Hle).
  rewrite bind_run, (load_file_ok E _ w _ Hc Hlc).
  rewrite bind_run, (load_file_ok E _ w _ Hp Hlp).
  rewrite bind_run. unfold query_backend.
  match goal with
  | |- context [assemble E (backend E (calls w) ?r)] =>
      destruct (Hback r) as [revised [Hrev Hrevised]]; exists r, revised
  end.
  destruct (scan_source_total (splitlines (loaded explanation))
              (Path.basename explanation_path)) as [source_name Hscan].
  assert (Hheader :
            encodable (Explainer.updated_header (strftime (clock E (ticks w)))
                         source_name (Path.basename critique_path) ++ revised) = true).
  { apply encodable_revised; [| exact Hcname | exact Hrevised].
    exact (scan_source_encodable _ _ _ (encodable_loaded _ Henc) Hname Hscan). }
  exists source_name. rewrite Hrev.
  split; [reflexivity |]. split; [reflexivity |]. split; [exact Hscan |].
  split; [exact Hheader |].
  rewrite bind_run. unfold now_stamp. cbn [with_call files calls ticks].
  rewrite Hscan, (write_text_ok E _ _ _ Hheader). reflexivity.
Qed.

Lemma call_explainer_revise_ok (E : env) (file__ explanation_path critique_path : pystr)
    (w : world) (explanation critique prompt : pystr) :
  is_Some (files w !! resolve E (Critic.explainer_py E file__)) ->
  files w !! resolve E explanation_path = Some explanation ->
  loaded explanation <> [] ->
  files w !! resolve E critique_path = Some critique ->
  loaded critique <> [] ->
  files w !! resolve E (prompt_path E (Critic.explainer_py E file__)
                          Explainer.REVISER_PROMPT_FILE) = Some prompt ->
  loaded prompt <> [] ->
  encodable explanation = true ->
  encodable (Path.basename explanation_path) = true ->
  encodable (Path.basename critique_path) = true ->
  (forall req, exists text, assemble E (backend E (calls w) req) = Ok text
                            /\ encodable text = true) ->
  exists req revised source_name,
    req_label req = str "Applying critique"
    /\ encodable (Explainer.updated_header (strftime (clock E (ticks w))) source_name
                    (Path.basename critique_path) ++ revised) = true
    /\ Critic.call_explainer_revise E file__ explanation_path critique_path w
       = (Ok tt,
          {| files :=
               <[resolve E explanation_path :=
                   Explainer.updated_header (strftime (clock E (ticks w))) source_name
                     (Path.basename critique_path) ++ revised]> (files w);
             calls := calls w ++ [req];
             ticks := S (ticks w) |}).
Proof.
  intros Hx He Hle Hc Hlc Hp Hlp Henc Hname Hcname Hback.
  destruct (module_revise_ok E (Critic.explainer_py E file__) explanation_path
              critique_path w explanation critique prompt He Hle Hc Hlc Hp Hlp
              Henc Hname Hcname Hback)
    as (req & revised & source_name & Hlabel & _ & _ & Hheader & Hrun).
  exists req, revised, source_name. split; [exact Hlabel |]. split; [exact Hheader |].
  unfold Critic.call_explainer_revise. rewrite bind_run. unfold path_exists.
  rewrite bool_decide_eq_true_2 by exact Hx. cbn [negb].
  unfold Explainer.main. rewrite lower_revise.
  change (str_eqb (str "revise") (str "generate")) with false.
  change (str_eqb (str "revise") (str "revise")) with true.
  cbn iota. rewrite Hrun. reflexivity.
Qed.

Lemma wellformed_insert (E : env) (w w' : world) (path key text : pystr) :
  wellformed_at E w path ->
  encodable text = true ->
  files w' = <[key := text]> (files w) ->
  wellformed_at E w' path.
Proof.
  intros [Hname Hfile] Htext Hw. split; [exact Hname |].
  intros content. rewrite Hw.
  destruct (decide (key = resolve E path)) as [->|Hne].
  - rewrite lookup_insert_eq. intros [= <-]. exact Htext.
  - rewrite lookup_insert_ne by exact Hne. apply Hfile.
Qed.

Section Controller.
Context (E : env) (file__ explanation_path : pystr).
Hypothesis backend_never_approves : never_approves E.
Hypothesis backend_wellformed : wellformed_answers E.

Let cpath := Critic.critique_path_of E explanation_path.

Lemma critique_artifact_nonblank (iteration : nat) (stamp critique : pystr) :
  loaded (Critic.critique_header iteration stamp ++ critique) <> [].
Proof. apply (loaded_head_nonspace 65). reflexivity. Qed.

Lemma revised_artifact_nonblank (stamp source_name critique_name revised : pystr) :
  loaded (Explainer.updated_header stamp source_name critique_name ++ revised) <> [].
Proof. apply (loaded_head_nonspace 76). reflexivity. Qed.

(** One iteration that is not approved: the critique is saved, the
    explanation revised, and the loop goes on. *)
Lemma iteration_step (system_prompt filename : pystr) (iteration : nat)
    (previous_critique : pystr) (w : world) :
  revision_ready E file__ explanation_path w ->
  wellformed_at E w explanation_path ->
  exists critique stamp w1,
    (forall later,
        Critic.main_loop E file__ explanation_path system_prompt filename
          (iteration :: later) previous_critique w
        = Critic.main_loop E file__ explanation_path system_prompt filename
            later critique w1)
    /\ revision_ready E file__ explanation_path w1
    /\ wellformed_at E w1 explanation_path
    /\ (exists r1 r2, calls w1 = calls w ++ [r1; r2]
                      /\ req_label r1 = Critic.review_label iteration
                      /\ req_label r2 = str "Applying critique")
    /\ (forall p, p <> resolve E cpath -> p <> resolve E explanation_path ->
                  files w1 !! p = files w !! p)
    /\ (forall p, is_Some (files w !! p) -> is_Some (files w1 !! p))
    /\ is_Some (files w1 !! resolve E cpath)
    /\ (resolve E explanation_path <> resolve E cpath ->
        files w1 !! resolve E cpath
        = Some (Critic.critique_header iteration stamp ++ critique)).
Proof.
  intros (Hx & Hprompt & Hexp) Hwell.
  destruct Hexp as [explanation [He Hle]].
  set (req1 := {| req_model := Critic.MODEL_NAME; req_system := system_prompt;
                  req_user := Critic.critique_message (loaded explanation) filename
                                iteration previous_critique;
                  req_label := Critic.review_label iteration |}).
  destruct (backend_never_approves (calls w) req1) as [critique [Hcrit Hnot]].
  assert (Hrej : Critic.is_approved critique = false).
  { apply Hnot. unfold is_review_call.
    change (req_label req1)
      with (str "Reviewing (iteration " ++ (str_of_nat iteration ++ str ")")).
    apply startswith_app. }
  set (stamp := strftime (clock E (ticks w))).
  set (saved := Critic.critique_header iteration stamp ++ critique).
  set (w2 := {| files := <[resolve E cpath := saved]> (files w);
                calls := calls w ++ [req1]; ticks := S (ticks w) |}).
  assert (Hsaved : loaded saved <> []) by apply critique_artifact_nonblank.
  assert (Hsaved_enc : encodable saved = true).
  { apply encodable_critique; [apply encodable_strftime |].
    exact (backend_wellformed _ _ _ Hcrit). }
  destruct (nonblank_insert E w w2 explanation_path (resolve E cpath) saved
              (ex_intro _ explanation (conj He Hle)) Hsaved eq_refl)
    as [explanation2 [He2 Hle2]].
  destruct (nonblank_insert E w w2 _ (resolve E cpath) saved Hprompt Hsaved eq_refl)
    as [prompt2 [Hp2 Hlp2]].
  assert (Hwell2 : wellformed_at E w2 explanation_path)
    by exact (wellformed_insert E w w2 _ _ saved Hwell Hsaved_enc eq_refl).
  assert (Hx2 : is_Some (files w2 !! resolve E (Critic.explainer_py E file__)))
    by (apply is_Some_insert, Hx).
  assert (Hc2 : files w2 !! resolve E cpath = Some saved)
    by apply lookup_insert_eq.
  assert (Hback2 : forall req, exists text,
             assemble E (backend E (calls w2) req) = Ok text /\ encodable text = true).
  { intros req. destruct (backend_never_approves (calls w2) req) as [text [Ht _]].
    exists text. split; [exact Ht | exact (backend_wellformed _ _ _ Ht)]. }
  assert (Hcname : encodable (Path.basename cpath) = true).
  { unfold cpath. rewrite basename_critique_path. reflexivity. }
  destruct (call_explainer_revise_ok E file__ explanation_path cpath w2
              explanation2 saved prompt2 Hx2 He2 Hle2 Hc2 Hsaved Hp2 Hlp2
              (proj2 Hwell2 _ He2) (proj1 Hwell2) Hcname Hback2)
    as (req2 & revised & source_name & Hlabel2 & Hheader & Hrevise).
  set (rewritten := Explainer.updated_header (strftime (clock E (ticks w2)))
                      source_name (Path.basename cpath) ++ revised) in *.
  set (w3 := {| files := <[resolve E explanation_path := rewritten]> (files w2);
                calls := calls w2 ++ [req2]; ticks := S (ticks w2) |}) in *.
  assert (Hrewritten : loaded rewritten <> []) by apply revised_artifact_nonblank.
  exists critique, stamp, w3.
  split; [|split; [repeat split | split; [|split; [|repeat split]]]].
  - intros later. cbn [Critic.main_loop].
    rewrite bind_run, (load_file_ok E _ w _ He Hle).
    rewrite bind_run. unfold Critic.generate_critique, Critic.query_ollama, query_backend.
    fold req1. rewrite Hcrit, Hrej.
    rewrite bind_run. unfold Critic.save_critique.
    rewrite bind_run. unfold now_stamp.
    rewrite bind_run. cbn [with_call files calls ticks].
    fold stamp. fold cpath. fold saved.
    rewrite (write_text_ok E _ _ _ Hsaved_enc). unfold ret.
    cbn [files calls ticks]. fold w2.
    rewrite bind_run, Hrevise. reflexivity.
  - apply is_Some_insert, Hx2.
  - apply (nonblank_insert E w2 w3 _ (resolve E explanation_path) rewritten
             (ex_intro _ prompt2 (conj Hp2 Hlp2)) Hrewritten eq_refl).
  - exists rewritten. split; [apply lookup_insert_eq | exact Hrewritten].
  - exact (wellformed_insert E w2 w3 _ _ rewritten Hwell2 Hheader eq_refl).
  - exists req1, req2. split; [|split; [reflexivity | exact Hlabel2]].
    simpl. rewrite <- app_assoc. reflexivity.
  - intros p Hp1 Hp2'. simpl.
    rewrite lookup_insert_ne by congruence.
    rewrite lookup_insert_ne by congruence. reflexivity.
  - intros p Hsome. simpl. apply is_Some_insert, is_Some_insert, Hsome.
  - simpl. apply is_Some_insert. rewrite lookup_insert_eq. eauto.
  - intros Hne. simpl. rewrite lookup_insert_ne by exact Hne.
    apply lookup_insert_eq.
Qed.

(** The loop with a backend that never approves runs every iteration
    and ends at the cap. *)
Lemma main_loop_capped (system_prompt filename : pystr) (iterations : list nat)
    (previous_critique : pystr) (w : world) :
  revision_ready E file__ explanation_path w ->
  wellformed_at E w explanation_path ->
  exists w',
    Critic.main_loop E file__ explanation_path system_prompt filename
      iterations previous_critique w = (Ok Critic.Capped, w')
    /\ revision_ready E file__ explanation_path w'
    /\ wellformed_at E w' explanation_path
    /\ (exists new, calls w' = calls w ++ new
                    /\ map req_label new = critique_then_revise iterations)
    /\ (forall p, p <> resolve E cpath -> p <> resolve E explanation_path ->
                  files w' !! p = files w !! p)
    /\ (forall p, is_Some (files w !! p) -> is_Some (files w' !! p))
    /\ (iterations <> [] -> is_Some (files w' !! resolve E cpath))
    /\ (iterations <> [] ->
        resolve E explanation_path <> resolve E cpath ->
        exists stamp critique,
          files w' !! resolve E cpath
          = Some (Critic.critique_header (List.last iterations O) stamp ++ critique)).
Proof.
  revert previous_critique w.
  induction iterations as [|iteration later IH]; intros previous_critique w Hready Hwell.
  - exists w. split; [reflexivity |]. split; [exact Hready |]. split; [exact Hwell |].
    split; [exists []; rewrite app_nil_r; split; reflexivity |].
    repeat split; try tauto; congruence.
  - destruct (iteration_step system_prompt filename iteration previous_critique w
                Hready Hwell)
      as (critique & stamp & w1 & Hstep & Hready1 & Hwell1
          & (r1 & r2 & Hcalls1 & Hl1 & Hl2) & Hframe1 & Hmono1 & Hsome1 & Hlast1).
    destruct (IH critique w1 Hready1 Hwell1)
      as (w' & Hrun & Hready' & Hwell' & (new & Hcalls & Hlabels) & Hframe & Hmono
          & Hsome & Hlast).
    exists w'. rewrite Hstep.
    split; [exact Hrun |]. split; [exact Hready' |]. split; [exact Hwell' |].
    split; [|repeat split].
    + exists (r1 :: r2 :: new). split.
      * rewrite Hcalls, Hcalls1, <- app_assoc. reflexivity.
      * simpl. rewrite Hl1, Hl2, Hlabels. reflexivity.
    + intros p Hp1 Hp2. rewrite (Hframe p Hp1 Hp2). apply Hframe1; assumption.
    + intros p Hp. apply Hmono, Hmono1, Hp.
    + intros _. apply Hmono, Hsome1.
    + intros _ Hne. destruct later as [|next later'].
      * simpl in Hrun. injection Hrun as <-. exists stamp, critique.
        apply Hlast1, Hne.
      * destruct (Hlast ltac:(discriminate) Hne) as (stamp' & critique' & Hfinal).
        exists stamp', critique'. exact Hfinal.
Qed.
End Controller.

Lemma seq_last (cap : nat) : (1 <= cap)%nat -> List.last (seq 1 cap) O = cap.
Proof.
  destruct cap as [|n]; [lia |]. intros _.
  rewrite seq_S. apply last_last.
Qed.

Lemma count_stage_calls (iterations : list nat) (new : list request) :
  map req_label new = critique_then_revise iterations ->
  length (List.filter is_review_call new) = length iterations
  /\ length (List.filter is_revision_call new) = length iterations.
Proof.
  revert new. induction iterations as [|iteration later IH]; intros new Hnew.
  - destruct new; [split; reflexivity | discriminate].
  - destruct new as [|r1 [|r2 new']]; try discriminate.
    cbn [critique_then_revise flat_map map app] in Hnew.
    injection Hnew as Hl1 Hl2 Hrest.
    destruct (IH new' Hrest) as [IH1 IH2].
    cbn [List.filter]. unfold is_review_call, is_revision_call.
    rewrite Hl1, Hl2.
    change (Critic.review_label iteration)
      with (str "Reviewing (iteration " ++ (str_of_nat iteration ++ str ")")).
    rewrite startswith_app.
    change (startswith (str "Reviewing (iteration ") (str "Applying critique"))
      with false.
    change (str_eqb (str "Applying critique") (str "Applying critique")) with true.
    change (str_eqb (str "Reviewing (iteration " ++ (str_of_nat iteration ++ str ")"))
              (str "Applying critique")) with false.
    cbn [length]. fold is_review_call is_revision_call.
    split; congruence.
Qed.

(** C2 (as the code has it). With a backend that answers every call
    with a text free of lone surrogates and never puts the sentinel in a
    critique, and with the files of the run in place, the controller ends
    at the cap with exit status 0, after exactly [cap] critique calls and
    exactly [cap] revision calls, a revision following each critique, the
    last one included; the critique artifact, [active_critique.txt] in
    the directory of the explanation, and the explanation artifact are
    both on disk. *)
Theorem never_approved_run_is_capped (E : env) (file__ explanation_path : pystr)
    (more_args : list pystr) (cap : nat) (w : world) :
  never_approves E ->
  wellformed_answers E ->
  nonblank_at E w (prompt_path E file__ Critic.CRITIC_PROMPT_FILE) ->
  revision_ready E file__ explanation_path w ->
  wellformed_at E w explanation_path ->
  (1 <= cap)%nat ->
  exists w' new,
    Critic.main_capped E file__ cap (explanation_path :: more_args) w
    = (Ok Critic.Capped, w')
    /\ Critic.status (Ok Critic.Capped) = 0%Z
    /\ calls w' = calls w ++ new
    /\ map req_label new = critique_then_revise (seq 1 cap)
    /\ length (List.filter is_review_call new) = cap
    /\ length (List.filter is_revision_call new) = cap
    /\ is_Some (files w' !! resolve E
                  (Path.join (Path.dirname (Path.abspath (cwd E) explanation_path))
                     [str "active_critique.txt"]))
    /\ is_Some (files w' !! resolve E explanation_path).
Proof.
  intros Hback Hwellformed [prompt [Hp Hlp]] Hready Hwell Hcap.
  destruct (main_loop_capped E file__ explanation_path Hback Hwellformed (loaded prompt)
              (Path.basename explanation_path) (seq 1 cap) [] w Hready Hwell)
    as (w' & Hrun & Hready' & _ & (new & Hcalls & Hlabels) & _ & _ & Hsome & _).
  exists w', new.
  destruct (count_stage_calls (seq 1 cap) new Hlabels) as [Hn1 Hn2].
  rewrite length_seq in Hn1, Hn2.
  assert (Hexp : is_Some (files w' !! resolve E explanation_path)).
  { destruct Hready' as (_ & _ & [content [Hc _]]). eauto. }
  assert (Hcrit : is_Some (files w' !! resolve E (Critic.critique_path_of E explanation_path))).
  { apply Hsome. destruct cap; [lia | discriminate]. }
  repeat split; try assumption.
  unfold Critic.main_capped, Critic.load_system_prompt.
  rewrite bind_run. unfold path_exists.
  destruct Hready as (_ & _ & [content [Hc _]]).
  rewrite bool_decide_eq_true_2 by eauto. cbn [negb].
  rewrite bind_run, (load_file_ok E _ w prompt Hp Hlp). exact Hrun.
Qed.

Lemma never_approved_run_is_capped_witness :
  exists w' new,
    Critic.main (Mock.env_of (Mock.always (str "Still wrong."))) Mock.critic_py
      [Mock.explanation_txt] (Mock.world_of Mock.project_files)
    = (Ok Critic.Capped, w')
    /\ Critic.status (Ok Critic.Capped) = 0%Z
    /\ calls w' = [] ++ new
    /\ map req_label new = critique_then_revise (seq 1 4)
    /\ length (List.filter is_review_call new) = 4%nat
    /\ length (List.filter is_revision_call new) = 4%nat
    /\ is_Some (files w' !! str "/work/outputs/x/active_critique.txt")
    /\ is_Some (files w' !! str "/work/outputs/x/explanation.txt").
Proof.
  apply (never_approved_run_is_capped
           (Mock.env_of (Mock.always (str "Still wrong."))) Mock.critic_py
           Mock.explanation_txt [] 4 (Mock.world_of Mock.project_files)).
  - intros history req. exists (str "Still wrong."). split; reflexivity.
  - intros history req text Htext. vm_compute in Htext.
    injection Htext as <-. reflexivity.
  - exists (str "Review."). split; [vm_compute; reflexivity | discriminate].
  - repeat split.
    + exists (str "#!/usr/bin/env python3"). vm_compute. reflexivity.
    + exists (str "Revise."). split; [vm_compute; reflexivity | discriminate].
    + eexists. split; [vm_compute; reflexivity | discriminate].
  - split; [reflexivity |]. intros content Hcontent. vm_compute in Hcontent.
    injection Hcontent as <-. reflexivity.
  - lia.
Defined.

(** C2 as stated fails: a backend that never puts the sentinel in a
    critique may answer a text with a lone surrogate. On a standard
    output that takes it, the controller gets the critique and fails when
    it saves it: the run ends with an uncaught [UnicodeEncodeError],
    status 1, after one backend call and no revision, and the critique
    file is left empty. *)
Lemma never_approving_backend_with_a_lone_surrogate :
  let E := Mock.lenient (Mock.always Mock.lone_surrogate) in
  let w := Mock.world_of Mock.project_files in
  let run := Critic.main E Mock.critic_py [Mock.explanation_txt] w in
  never_approves E
  /\ nonblank_at E w (prompt_path E Mock.critic_py Critic.CRITIC_PROMPT_FILE)
  /\ revision_ready E Mock.critic_py Mock.explanation_txt w
  /\ fst run = Fail (Uncaught UnicodeEncodeError)
  /\ exit_code (Uncaught UnicodeEncodeError) = 1%Z
  /\ map req_label (calls (snd run)) = [str "Reviewing (iteration 1)"]
  /\ files (snd run) !! str "/work/outputs/x/active_critique.txt" = Some []
  /\ files (snd run) !! str "/work/outputs/x/explanation.txt"
     = files w !! str "/work/outputs/x/explanation.txt".
Proof.
  cbv zeta. split; [| split; [| split]].
  - intros history req. exists Mock.lone_surrogate. split; reflexivity.
  - exists (str "Review."). split; [vm_compute; reflexivity | discriminate].
  - repeat split.
    + exists (str "#!/usr/bin/env python3"). vm_compute. reflexivity.
    + exists (str "Revise."). split; [vm_compute; reflexivity | discriminate].
    + eexists. split; [vm_compute; reflexivity | discriminate].
  - repeat split; vm_compute; reflexivity.
Qed.

(* --------------------------------------------------------------------- *)
(** ** The revision stage and the files it touches *)
(* --------------------------------------------------------------------- *)

(** The revision stage either fails with status 1 before it writes, or
    makes its backend call and writes the explanation: the new header,
    built from the source name scanned in the explanation it loaded, and
    the revised text. *)
Lemma module_revise_effect (E : env) (file__ explanation_path critique_path : pystr)
    (w : world) :
  (exists f w',
      Explainer.module_revise E file__ explanation_path critique_path w = (Fail f, w')
      /\ exit_code f = 1%Z /\ files w' = files w
      /\ (calls w' = calls w
          \/ exists req, calls w' = calls w ++ [req]
                         /\ req_label req = str "Applying critique"))
  \/ (exists explanation revised source_name req,
        files w !! resolve E explanation_path = Some explanation
        /\ loaded explanation <> []
        /\ Explainer.scan_source (splitlines (loaded explanation))
             (Path.basename explanation_path) = inr source_name
        /\ assemble E (backend E (calls w) req) = Ok revised
        /\ req_label req = str "Applying critique"
        /\ Explainer.module_revise E file__ explanation_path critique_path w
           = write_text E explanation_path
               (Explainer.updated_header (strftime (clock E (ticks w))) source_name
                  (Path.basename critique_path) ++ revised)
               {| files := files w; calls := calls w ++ [req];
                  ticks := S (ticks w) |}).
Proof.
  unfold Explainer.module_revise, Explainer.load_system_prompt, Explainer.query_ollama.
  rewrite bind_run.
  destruct (load_file_cases E explanation_path w)
    as [(explanation & He & Hle & ->) | ->];
    [| left; eexists _, _; repeat split; left; reflexivity].
  rewrite bind_run.
  destruct (load_file_cases E critique_path w) as [(? & _ & _ & ->) | ->];
    [| left; eexists _, _; repeat split; left; reflexivity].
  rewrite bind_run.
  destruct (load_file_cases E (prompt_path E file__ Explainer.REVISER_PROMPT_FILE) w)
    as [(? & _ & _ & ->) | ->];
    [| left; eexists _, _; repeat split; left; reflexivity].
  rewrite bind_run. unfold query_backend.
  match goal with
  | |- context [assemble E ?r] => destruct (assemble E r) as [revised|f] eqn:Hrev
  end.
  - destruct (scan_source_total (splitlines (loaded explanation))
                (Path.basename explanation_path)) as [source_name Hscan].
    right.
    match type of Hrev with
    | assemble E (backend E (calls w) ?req) = _ =>
        exists explanation, revised, source_name, req
    end.
    split; [exact He |]. split; [exact Hle |]. split; [exact Hscan |].
    split; [exact Hrev |]. split; [reflexivity |].
    rewrite bind_run. unfold now_stamp. cbn [with_call files calls ticks].
    rewrite Hscan. reflexivity.
  - left. eexists _, _. split; [reflexivity |].
    split; [exact (assemble_exit_code _ _ _ Hrev) |]. split; [reflexivity |].
    right. eexists. split; reflexivity.
Qed.

(** Whatever the revision stage returns, it has written to the
    explanation path or nowhere, and it fails with status 1. *)
Lemma module_revise_files (E : env) (file__ explanation_path critique_path : pystr)
    (w : world) :
  let run := Explainer.module_revise E file__ explanation_path critique_path w in
  (files (snd run) = files w
   \/ exists text, files (snd run) = <[resolve E explanation_path := text]> (files w))
  /\ (forall f, fst run = Fail f -> exit_code f = 1%Z).
Proof.
  cbv zeta.
  destruct (module_revise_effect E file__ explanation_path critique_path w)
    as [(f & w1 & -> & Hcode & Hfiles & _)
       | (explanation & revised & source_name & req & _ & _ & _ & _ & _ & ->)].
  - cbn [fst snd]. split; [left; exact Hfiles |]. intros f' [= <-]. exact Hcode.
  - unfold write_text. destruct (encodable _); cbn [fst snd files].
    + split; [right; eauto | discriminate].
    + split; [right; eauto |]. intros f [= <-]. reflexivity.
Qed.

(** Whatever the revision started by the controller returns, it has
    written to the explanation path or nowhere. *)
Lemma call_explainer_revise_files (E : env) (file__ explanation_path critique_path : pystr)
    (w w' : world) (r : result unit) :
  Critic.call_explainer_revise E file__ explanation_path critique_path w = (r, w') ->
  files w' = files w
  \/ exists text, files w' = <[resolve E explanation_path := text]> (files w).
Proof.
  unfold Critic.call_explainer_revise. rewrite bind_run. unfold path_exists.
  destruct (bool_decide _); cbn [negb].
  - unfold Explainer.main. rewrite lower_revise.
    change (str_eqb (str "revise") (str "generate")) with false.
    change (str_eqb (str "revise") (str "revise")) with true.
    cbn iota.
    destruct (module_revise_files E (Critic.explainer_py E file__) explanation_path
                critique_path w) as [Hfiles _].
    destruct (Explainer.module_revise E (Critic.explainer_py E file__) explanation_path
                critique_path w) as [[u|f] w1]; cbn [snd] in Hfiles.
    + intros [= _ <-]. exact Hfiles.
    + destruct (exit_code f =? 0)%Z; intros [= _ <-]; exact Hfiles.
  - intros [= _ <-]. left; reflexivity.
Qed.

Section CappedRun.
Context (E : env) (file__ explanation_path : pystr).

Let cpath := Critic.critique_path_of E explanation_path.

(** A loop that ends at the cap has written to the critique path and
    the explanation path only, and the critique artifact is the one
    saved by the last iteration. *)
Lemma main_loop_capped_inv (system_prompt filename : pystr) (iterations : list nat)
    (previous_critique : pystr) (w w' : world) :
  Critic.main_loop E file__ explanation_path system_prompt filename
    iterations previous_critique w = (Ok Critic.Capped, w') ->
  (forall p, p <> resolve E cpath -> p <> resolve E explanation_path ->
             files w' !! p = files w !! p)
  /\ (iterations <> [] ->
      resolve E explanation_path <> resolve E cpath ->
      exists stamp critique,
        files w' !! resolve E cpath
        = Some (Critic.critique_header (List.last iterations O) stamp ++ critique)).
Proof.
  revert previous_critique w.
  induction iterations as [|iteration later IH]; intros previous_critique w Hrun.
  - injection Hrun as <-. split; [reflexivity | congruence].
  - cbn [Critic.main_loop] in Hrun.
    apply bind_ok_inv in Hrun. destruct Hrun as (explanation & w1 & Hload & Hrun).
    rewrite load_file_run in Hload. injection Hload as _ <-.
    apply bind_ok_inv in Hrun. destruct Hrun as (critique & w2 & Hquery & Hrun).
    unfold Critic.generate_critique, Critic.query_ollama, query_backend in Hquery.
    injection Hquery as _ <-.
    destruct (Critic.is_approved critique).
    { apply bind_ok_inv in Hrun. destruct Hrun as (? & ? & _ & Hrun).
      apply bind_ok_inv in Hrun. destruct Hrun as (? & ? & _ & Hrun).
      discriminate Hrun. }
    apply bind_ok_inv in Hrun. destruct Hrun as (critique_path & w3 & Hsave & Hrun).
    unfold Critic.save_critique in Hsave.
    apply bind_ok_inv in Hsave. destruct Hsave as (stamp & w2' & Hstamp & Hsave).
    unfold now_stamp in Hstamp. cbn [files calls ticks with_call] in Hstamp.
    injection Hstamp as <- <-.
    apply bind_ok_inv in Hsave. destruct Hsave as (u & w2'' & Hwrite & Hsave).
    apply write_text_ok_inv in Hwrite. destruct Hwrite as [_ ->].
    unfold ret in Hsave. cbn [files calls ticks] in Hsave.
    injection Hsave as <- <-. fold cpath in Hrun.
    apply bind_ok_inv in Hrun. destruct Hrun as (? & w4 & Hrevise & Hrun).
    apply call_explainer_revise_files in Hrevise. cbn [files] in Hrevise.
    destruct (IH _ _ Hrun) as [Hframe Hlast].
    set (saved := Critic.critique_header iteration
                    (strftime (clock E (ticks w))) ++ critique) in *.
    assert (Hw4 : forall p, p <> resolve E explanation_path ->
              files w4 !! p = <[resolve E cpath := saved]> (files w) !! p).
    { intros p Hp. destruct Hrevise as [-> | [text ->]]; [reflexivity |].
      rewrite lookup_insert_ne by congruence. reflexivity. }
    split.
    + intros p Hp1 Hp2. rewrite (Hframe p Hp1 Hp2), (Hw4 p Hp2).
      rewrite lookup_insert_ne by congruence. reflexivity.
    + intros _ Hne. destruct later as [|next later'].
      * injection Hrun as <-. exists (strftime (clock E (ticks w))), critique.
        cbn [List.last]. rewrite (Hw4 _ (not_eq_sym Hne)).
        apply lookup_insert_eq.
      * apply Hlast; [discriminate | exact Hne].
Qed.
End CappedRun.

Lemma recorded_iteration_header (iteration : nat) (stamp critique : pystr) :
  recorded_iteration (Critic.critique_header iteration stamp ++ critique)
  = Some iteration.
Proof.
  unfold recorded_iteration, Critic.critique_header.
  set (title := str "ACTIVE CRITIQUE " ++ [8212] ++ str " Iteration ").
  rewrite !app_assoc. rewrite <- !app_assoc.
  change (str "ACTIVE CRITIQUE " ++ [8212] ++ str " Iteration " ++ ?x)
    with (title ++ x).
  rewrite startswith_app, drop_app_length.
  cbn [app]. rewrite splitlines_line.
  - apply nat_of_str_of_nat.
  - apply (forallb_impl ascii_isdigit); [apply digit_not_linebreak |].
    apply str_of_nat_digits.
Qed.

(** C8 (as the code has it). A run of the controller that ends at the
    cap [cap], on an explanation that is not itself the critique slot,
    leaves the critique artifact at its one path, the file
    [active_critique.txt] in the directory of the explanation, with [cap]
    as the iteration number recorded in its header; apart from that path
    and the explanation, the files are those the run started with. *)
Theorem capped_run_leaves_last_critique (E : env) (file__ : pystr) (cap : nat)
    (explanation_path : pystr) (more_args : list pystr) (w w' : world) :
  let slot := Path.join (Path.dirname (Path.abspath (cwd E) explanation_path))
                [str "active_critique.txt"] in
  Critic.main_capped E file__ cap (explanation_path :: more_args) w
  = (Ok Critic.Capped, w') ->
  (1 <= cap)%nat ->
  resolve E explanation_path <> resolve E slot ->
  (exists content,
      files w' !! resolve E slot = Some content
      /\ recorded_iteration content = Some cap)
  /\ (forall p,
        p <> resolve E slot ->
        p <> resolve E explanation_path ->
        files w' !! p = files w !! p).
Proof.
  intros slot Hrun Hcap Hne. unfold Critic.main_capped in Hrun.
  apply bind_ok_inv in Hrun. destruct Hrun as (present & w1 & Hexists & Hrun).
  injection Hexists as _ <-.
  destruct (negb present); [discriminate |].
  apply bind_ok_inv in Hrun. destruct Hrun as (system_prompt & w2 & Hload & Hrun).
  unfold Critic.load_system_prompt in Hload. rewrite load_file_run in Hload.
  injection Hload as _ <-.
  apply main_loop_capped_inv in Hrun. destruct Hrun as [Hframe Hlast].
  split; [|exact Hframe].
  destruct Hlast as (stamp & critique & Hfinal); [destruct cap; [lia | discriminate] | exact Hne |].
  rewrite (seq_last cap Hcap) in Hfinal.
  eexists. split; [exact Hfinal | apply recorded_iteration_header].
Qed.

Lemma capped_run_leaves_last_critique_witness :
  let E := Mock.env_of (Mock.always (str "Still wrong.")) in
  let w := Mock.world_of Mock.project_files in
  exists content,
    files (snd (Critic.main_capped E Mock.critic_py 4 [Mock.explanation_txt] w))
      !! str "/work/outputs/x/active_critique.txt" = Some content
    /\ recorded_iteration content = Some 4%nat.
Proof.
  intros E w.
  assert (Hrun : fst (Critic.main_capped E Mock.critic_py 4 [Mock.explanation_txt] w)
                 = Ok Critic.Capped) by (vm_compute; reflexivity).
  apply (capped_run_leaves_last_critique E Mock.critic_py 4 Mock.explanation_txt [] w
           (snd (Critic.main_capped E Mock.critic_py 4 [Mock.explanation_txt] w))).
  - rewrite <- Hrun. apply surjective_pairing.
  - lia.
  - vm_compute. discriminate.
Defined.

(** C8 as stated fails: when the explanation given to the controller is
    the file [active_critique.txt] itself, the run ends at the cap, and
    the one file at the critique path is the revised explanation, whose
    header records no iteration number. *)
Lemma capped_run_on_the_critique_slot :
  let E := Mock.env_of (Mock.always (str "Still wrong.")) in
  let run := Critic.main E Mock.critic_py [Mock.critique_txt]
               (Mock.world_of Mock.revision_files) in
  fst run = Ok Critic.Capped
  /\ resolve E Mock.critique_txt = str "/work/outputs/x/active_critique.txt"
  /\ files (snd run) !! str "/work/outputs/x/active_critique.txt"
     = Some (Explainer.updated_header (strftime Mock.noon) (str "active_critique.txt")
               (str "active_critique.txt") ++ str "Still wrong.")
  /\ recorded_iteration
       (Explainer.updated_header (strftime Mock.noon) (str "active_critique.txt")
          (str "active_critique.txt") ++ str "Still wrong.") = None.
Proof. repeat split; vm_compute; reflexivity. Qed.

(* --------------------------------------------------------------------- *)
(** ** The source reference across revisions *)
(* --------------------------------------------------------------------- *)

Lemma scan_source_find (lines : list pystr) (source_name : pystr) :
  Explainer.scan_source lines source_name
  = match find (startswith Explainer.SOURCE_FIELD) lines with
    | Some line =>
        match after_first c_colon line with
        | Some field => inr (strip field)
        | None => inl IndexError
        end
    | None => inr source_name
    end.
Proof.
  induction lines as [|line rest IH]; cbn [Explainer.scan_source find]; [reflexivity |].
  destruct (startswith Explainer.SOURCE_FIELD line); [reflexivity | exact IH].
Qed.

(** A source reference read from a text is what the scan of the revision
    stage finds; it is one line, and stripped. *)
Lemma source_reference_scan (text source source_name : pystr) :
  source_reference text = Some source ->
  Explainer.scan_source (splitlines text) source_name = inr source
  /\ one_line source = true
  /\ strip source = source.
Proof.
  unfold source_reference. rewrite scan_source_find.
  destruct (find (startswith Explainer.SOURCE_FIELD) (splitlines text))
    as [line|] eqn:Hfind; [|discriminate].
  destruct (after_first c_colon line) as [field|] eqn:Hfield; [|discriminate].
  intros [= <-]. split; [reflexivity |]. split; [|apply strip_idempotent].
  apply find_some in Hfind. destruct Hfind as [Hin _].
  apply splitlines_one_line in Hin.
  apply after_first_suffix in Hfield. destruct Hfield as [pre ->].
  rewrite one_line_app, one_line_cons, !andb_true_iff in Hin.
  apply forallb_strip. tauto.
Qed.

(** The explanation written by a revision, as header lines and the
    rest. *)
Lemma revised_explanation_lines (stamp source_name critique_name revised : pystr) :
  Explainer.updated_header stamp source_name critique_name ++ revised
  = lines_then
      [str "LECTURE EXPLANATION"; eq_rule; str "Revised   : " ++ stamp;
       str "Model     : " ++ Explainer.MODEL_NAME; str "Source    : " ++ source_name]
      (str "Critique  : " ++ critique_name ++ c_lf :: eq_rule
       ++ c_lf :: c_lf :: revised).
Proof.
  unfold Explainer.updated_header, lines_then. cbn [fold_right].
  repeat (rewrite <- app_assoc; cbn [app]). reflexivity.
Qed.

Lemma revised_explanation_source (stamp source critique_name revised : pystr) :
  one_line stamp = true ->
  one_line source = true ->
  strip source = source ->
  source_reference
    (loaded (Explainer.updated_header stamp source critique_name ++ revised))
  = Some source.
Proof.
  intros Hstamp Hsource Hstrip. rewrite revised_explanation_lines.
  destruct (loaded_lines 76 (str "ECTURE EXPLANATION")
              [eq_rule; str "Revised   : " ++ stamp;
               str "Model     : " ++ Explainer.MODEL_NAME;
               str "Source    : " ++ source]
              67 (str "ritique  : " ++ critique_name ++ c_lf :: eq_rule
                  ++ c_lf :: c_lf :: revised) eq_refl eq_refl) as [text Hlines].
  { cbn [forallb]. rewrite !one_line_app, Hstamp, Hsource. reflexivity. }
  unfold source_reference.
  change (76 :: str "ECTURE EXPLANATION") with (str "LECTURE EXPLANATION") in Hlines.
  change (67 :: str "ritique  : " ++ ?x) with (str "Critique  : " ++ x) in Hlines.
  rewrite Hlines. cbn [app find].
  change (startswith Explainer.SOURCE_FIELD (str "LECTURE EXPLANATION")) with false.
  change (startswith Explainer.SOURCE_FIELD eq_rule) with false.
  change (startswith Explainer.SOURCE_FIELD (str "Revised   : " ++ stamp)) with false.
  change (startswith Explainer.SOURCE_FIELD
            (str "Model     : " ++ Explainer.MODEL_NAME)) with false.
  change (str "Source    : " ++ source)
    with (Explainer.SOURCE_FIELD ++ c_space :: source).
  rewrite startswith_app. cbn iota.
  change (after_first c_colon (Explainer.SOURCE_FIELD ++ c_space :: source))
    with (Some (c_space :: source)).
  cbn iota. rewrite strip_space_head, Hstrip. reflexivity.
Qed.

Section Revisions.
Context (E : env) (file__ explanation_path : pystr).
Context (original source : pystr).

Let revision_of := revision_of original source.

Lemma revise_all_keeps_source (earlier critique_paths : list pystr) (w : world)
    (content : pystr) :
  files w !! resolve E explanation_path = Some content ->
  source_reference (loaded content) = Some source ->
  revision_of earlier content ->
  ~ In (Fail (Uncaught UnicodeEncodeError))
       (revision_results E file__ explanation_path critique_paths w) ->
  exists content',
    files (revise_all E file__ explanation_path critique_paths w)
      !! resolve E explanation_path = Some content'
    /\ source_reference (loaded content') = Some source
    /\ revision_of (earlier ++ critique_paths) content'.
Proof.
  revert earlier w content.
  induction critique_paths as [|critique_path later IH];
    intros earlier w content Hfile Hsource Hrev Hresults.
  - exists content. rewrite app_nil_r. auto.
  - cbn [revise_all fold_left]. fold (revise_all E file__ explanation_path later).
    replace (earlier ++ critique_path :: later)
      with ((earlier ++ [critique_path]) ++ later)
      by (rewrite <- app_assoc; reflexivity).
    cbn [revision_results] in Hresults.
    assert (Hhead : fst (Explainer.module_revise E file__ explanation_path
                           critique_path w) <> Fail (Uncaught UnicodeEncodeError))
      by (intros Heq; apply Hresults; left; exact Heq).
    assert (Htail : ~ In (Fail (Uncaught UnicodeEncodeError))
                         (revision_results E file__ explanation_path later
                            (snd (Explainer.module_revise E file__ explanation_path
                                    critique_path w))))
      by (intros Hin; apply Hresults; right; exact Hin).
    destruct (module_revise_effect E file__ explanation_path critique_path w)
      as [(f & w' & Hrun & _ & Hfiles & _)
         | (explanation & revised & source_name & req & He & _ & Hscan & _ & _ & Hrun)];
      rewrite Hrun in Hhead, Htail |- *.
    + cbn [snd] in *. apply (IH (earlier ++ [critique_path]) w' content).
      * rewrite Hfiles. exact Hfile.
      * exact Hsource.
      * destruct Hrev as [-> | (stamp & cp & revised & Hin & ->)];
          [left; reflexivity | right].
        exists stamp, cp, revised. split; [apply in_or_app; auto | reflexivity].
      * exact Htail.
    + assert (explanation = content) by congruence. subst explanation.
      destruct (source_reference_scan (loaded content) source
                  (Path.basename explanation_path) Hsource)
        as (Hscan' & Hline & Hstrip).
      assert (source_name = source) by congruence. subst source_name.
      unfold write_text in Hhead, Htail |- *.
      destruct (encodable _); cbn [fst snd] in *; [| congruence].
      eapply (IH (earlier ++ [critique_path])).
      * apply lookup_insert_eq.
      * apply revised_explanation_source;
          [apply strftime_one_line | exact Hline | exact Hstrip].
      * right. eexists _, critique_path, revised.
        split; [apply in_or_app; right; left; reflexivity | reflexivity].
      * exact Htail.
Qed.
End Revisions.

(** C5 (as the code has it). After any number of consecutive invocations
    of the revision stage on an explanation whose header has a
    source-outline reference, none of which ends in an encoding error,
    the explanation is still on disk and the reference read from it is
    the original one. Unless no invocation has succeeded and the file is
    the original, its header is the revised header with that reference,
    and only the time stamp and the name of the critique applied vary. *)
Theorem revisions_keep_source_reference (E : env) (file__ explanation_path : pystr)
    (critique_paths : list pystr) (w : world) (original source : pystr) :
  files w !! resolve E explanation_path = Some original ->
  source_reference (loaded original) = Some source ->
  ~ In (Fail (Uncaught UnicodeEncodeError))
       (revision_results E file__ explanation_path critique_paths w) ->
  exists content,
    files (revise_all E file__ explanation_path critique_paths w)
      !! resolve E explanation_path = Some content
    /\ source_reference (loaded content) = Some source
    /\ (content = original
        \/ exists stamp critique_path revised,
             In critique_path critique_paths
             /\ content = Explainer.updated_header stamp source
                            (Path.basename critique_path) ++ revised).
Proof.
  intros Hfile Hsource Hresults.
  exact (revise_all_keeps_source E file__ explanation_path original source
           [] critique_paths w original Hfile Hsource (or_introl eq_refl) Hresults).
Qed.

Lemma revisions_keep_source_reference_witness :
  let E := Mock.env_of (Mock.always (str "Revised body.")) in
  let w := Mock.world_of Mock.revision_files in
  exists content,
    files (revise_all E (str "/work/src/explainer.py") Mock.explanation_txt
             [Mock.critique_txt; Mock.critique_txt; Mock.critique_txt] w)
      !! resolve E Mock.explanation_txt = Some content
    /\ source_reference (loaded content) = Some (str "outline.txt").
Proof.
  intros E w.
  destruct (revisions_keep_source_reference E (str "/work/src/explainer.py")
              Mock.explanation_txt
              [Mock.critique_txt; Mock.critique_txt; Mock.critique_txt] w
              (Explainer.generated_header (strftime Mock.noon) (str "outline.txt")
               ++ str "Body.")
              (str "outline.txt"))
    as (content & Hfile & Hsource & _).
  - vm_compute. reflexivity.
  - vm_compute. reflexivity.
  - assert (Hresults : revision_results E (str "/work/src/explainer.py")
                         Mock.explanation_txt
                         [Mock.critique_txt; Mock.critique_txt; Mock.critique_txt] w
                       = [Ok tt; Ok tt; Ok tt]) by (vm_compute; reflexivity).
    rewrite Hresults. intros [H | [H | [H | []]]]; discriminate H.
  - exists content. split; assumption.
Defined.

(** C5 as stated fails: a revision whose text cannot be encoded fails
    after [open] has emptied the explanation, and the source reference
    is lost with the header. Here the standard output takes the lone
    surrogate of the answer, so that the call returns and the stage goes
    on to write. *)
Lemma failed_revision_loses_the_source_reference :
  let E := Mock.lenient (Mock.always Mock.lone_surrogate) in
  let w := Mock.world_of Mock.revision_files in
  let original := Explainer.generated_header (strftime Mock.noon) (str "outline.txt")
                  ++ str "Body." in
  files w !! resolve E Mock.explanation_txt = Some original
  /\ source_reference (loaded original) = Some (str "outline.txt")
  /\ Explainer.module_revise E (str "/work/src/explainer.py") Mock.explanation_txt
       Mock.critique_txt w
     = (Fail (Uncaught UnicodeEncodeError),
        snd (Explainer.module_revise E (str "/work/src/explainer.py")
               Mock.explanation_txt Mock.critique_txt w))
  /\ files (revise_all E (str "/work/src/explainer.py") Mock.explanation_txt
              [Mock.critique_txt] w)
     !! resolve E Mock.explanation_txt = Some []
  /\ source_reference (loaded []) = None.
Proof.
  cbv zeta.
  assert (Hrun : fst (Explainer.module_revise
                        (Mock.lenient (Mock.always Mock.lone_surrogate))
                        (str "/work/src/explainer.py") Mock.explanation_txt
                        Mock.critique_txt (Mock.world_of Mock.revision_files))
                 = Fail (Uncaught UnicodeEncodeError)) by (vm_compute; reflexivity).
  split; [vm_compute; reflexivity |]. split; [vm_compute; reflexivity |].
  split; [rewrite <- Hrun; apply surjective_pairing |].
  split; vm_compute; reflexivity.
Qed.

(** Three revisions in a row on the files of the mock project: the
    explanation has been rewritten, and names its outline as before. *)
Example three_revisions :
  let E := Mock.env_of (Mock.always (str "Revised body.")) in
  let w := Mock.world_of Mock.revision_files in
  files (revise_all E (str "/work/src/explainer.py") Mock.explanation_txt
           [Mock.critique_txt; Mock.critique_txt; Mock.critique_txt] w)
    !! str "/work/outputs/x/explanation.txt"
  = Some (Explainer.updated_header (strftime Mock.noon) (str "outline.txt")
            (str "active_critique.txt") ++ str "Revised body.").
Proof. vm_compute. reflexivity. Qed.

(* --------------------------------------------------------------------- *)
(** ** Paths *)
(* --------------------------------------------------------------------- *)

(** A path splits at its last slash into a head that is empty or ends
    with the slash, and a tail without one. *)
Lemma after_last_split (c : char) (p : pystr) :
  exists h b,
    p = h ++ b /\ after_last c p = length h /\ without c b = true
    /\ (h = [] \/ exists h', h = h' ++ [c]).
Proof.
  induction p as [|x p (h & b & Hp & Hn & Hb & Hh)].
  - exists [], []. repeat split. left; reflexivity.
  - cbn [after_last]. rewrite Hn. destruct Hh as [-> | [h' ->]].
    + simpl in Hp. subst p. cbn [length]. destruct (N.eqb_spec x c) as [->|Hx].
      * exists [c], b. split; [reflexivity |]. split; [reflexivity |].
        split; [exact Hb | right; exists []; reflexivity].
      * exists [], (x :: b). split; [reflexivity |]. split; [reflexivity |].
        split; [|left; reflexivity].
        cbn [forallb]. rewrite Hb, andb_true_r.
        apply negb_true_iff, N.eqb_neq, Hx.
    + exists (x :: h' ++ [c]), b. subst p.
      split; [reflexivity |].
      split; [cbn [length]; rewrite length_app, Nat.add_comm; reflexivity |].
      split; [exact Hb | right; exists (x :: h'); reflexivity].
Qed.

Lemma split_on_cons_nonempty (sep : char) (s : pystr) : split_on sep s <> [].
Proof.
  induction s as [|c s IH]; simpl; [discriminate |].
  destruct (c =? sep); [discriminate |].
  destruct (split_on sep s); [discriminate | discriminate].
Qed.

Lemma split_on_without (sep : char) (s : pystr) :
  without sep s = true -> split_on sep s = [s].
Proof.
  induction s as [|c s IH]; [reflexivity |].
  cbn [forallb split_on]. rewrite andb_true_iff. intros [Hc Hs].
  apply negb_true_iff in Hc. rewrite Hc, (IH Hs). reflexivity.
Qed.

Lemma split_on_app (sep : char) (a b : pystr) :
  split_on sep (a ++ sep :: b) = split_on sep a ++ split_on sep b.
Proof.
  induction a as [|c a IH]; cbn [app split_on].
  - rewrite N.eqb_refl. reflexivity.
  - destruct (c =? sep); [rewrite IH; reflexivity |].
    rewrite IH. destruct (split_on sep a) eqn:Ha; [|reflexivity].
    exfalso. exact (split_on_cons_nonempty sep a Ha).
Qed.

Lemma split_on_components (sep : char) (s comp : pystr) :
  In comp (split_on sep s) -> without sep comp = true.
Proof.
  revert comp. induction s as [|c s IH]; intros comp; cbn [split_on].
  - intros [<- | []]. reflexivity.
  - destruct (N.eqb_spec c sep) as [->|Hc].
    + intros [<- | Hin]; [reflexivity | exact (IH comp Hin)].
    + destruct (split_on sep s) as [|w ws] eqn:Hs.
      * intros [<- | []]. cbn [forallb].
        apply andb_true_iff. split; [apply negb_true_iff, N.eqb_neq, Hc | reflexivity].
      * intros [<- | Hin].
        -- cbn [forallb]. rewrite (IH w (or_introl eq_refl)), andb_true_r.
           apply negb_true_iff, N.eqb_neq, Hc.
        -- apply IH. right; exact Hin.
Qed.

Lemma join_with_snoc (sep : char) (comps : list pystr) (name : pystr) :
  join_with sep (comps ++ [name])
  = concat (map (fun comp => comp ++ [sep]) comps) ++ name.
Proof.
  induction comps as [|comp comps IH]; [reflexivity |].
  cbn [app map concat]. rewrite <- !app_assoc, <- IH. cbn [app].
  destruct (comps ++ [name]) eqn:Hc; [destruct comps; discriminate | reflexivity].
Qed.

Lemma is_name_spec (s : pystr) :
  is_name s = true <->
  s <> [] /\ without c_slash s = true /\ s <> [c_dot] /\ s <> [c_dot; c_dot].
Proof.
  unfold is_name. rewrite !andb_true_iff, !negb_true_iff, !str_eqb_neq.
  destruct s; split; intros; intuition (discriminate || congruence).
Qed.

(** A name goes on the stack of [normpath] as it is, when the path is
    absolute. *)
Lemma normpath_step_name (k : nat) (stack : list pystr) (name : pystr) :
  is_name name = true -> Path.normpath_step k stack name = name :: stack.
Proof.
  intros Hn. apply is_name_spec in Hn. destruct Hn as (Hne & _ & Hdot & Hdots).
  unfold Path.normpath_step.
  apply str_eqb_neq in Hdot, Hdots.
  assert (H0 : str_eqb name [] = false) by (apply str_eqb_neq; exact Hne).
  rewrite H0, Hdot, Hdots. reflexivity.
Qed.

Lemma normpath_fold_names (k : nat) (comps stack : list pystr) :
  forallb is_name comps = true ->
  fold_left (Path.normpath_step k) comps stack = rev comps ++ stack.
Proof.
  revert stack. induction comps as [|comp comps IH]; intros stack; [reflexivity |].
  cbn [forallb fold_left rev]. rewrite andb_true_iff. intros [Hc Hcs].
  rewrite (normpath_step_name k stack comp Hc), (IH _ Hcs), <- app_assoc.
  reflexivity.
Qed.

Lemma normpath_fold_empty (k j : nat) (comps stack : list pystr) :
  fold_left (Path.normpath_step k) (repeat [] j ++ comps) stack
  = fold_left (Path.normpath_step k) comps stack.
Proof. induction j as [|j IH]; [reflexivity | exact IH]. Qed.

(** On an absolute path the stack of [normpath] holds names only. *)
Lemma normpath_fold_stack (k : nat) (comps stack : list pystr) :
  (1 <= k)%nat ->
  forallb (fun comp => without c_slash comp) comps = true ->
  forallb is_name stack = true ->
  forallb is_name (fold_left (Path.normpath_step k) comps stack) = true.
Proof.
  intros Hk. revert stack.
  induction comps as [|comp comps IH]; intros stack Hcomps Hstack; [exact Hstack |].
  cbn [forallb fold_left] in *. apply andb_true_iff in Hcomps.
  destruct Hcomps as [Hcomp Hcomps]. apply IH; [exact Hcomps |].
  unfold Path.normpath_step.
  destruct (str_eqb comp []) eqn:H0; [exact Hstack |].
  destruct (str_eqb comp [c_dot]) eqn:H1; [exact Hstack |]. cbn [orb].
  destruct (str_eqb comp [c_dot; c_dot]) eqn:H2; cbn [negb orb].
  - replace (k =? 0)%nat with false by (symmetry; apply Nat.eqb_neq; lia).
    cbn [andb orb].
    destruct stack as [|top rest]; [reflexivity |].
    cbn [forallb] in Hstack. apply andb_true_iff in Hstack.
    destruct Hstack as [Htop Hrest].
    assert (Hnot : str_eqb top [c_dot; c_dot] = false).
    { apply is_name_spec in Htop. apply str_eqb_neq. tauto. }
    rewrite Hnot. exact Hrest.
  - cbn [forallb]. rewrite Hstack, andb_true_r.
    apply is_name_spec. apply str_eqb_neq in H0, H1, H2. tauto.
Qed.

(** *** Normalised directories *)

Lemma name_head (name : pystr) :
  is_name name = true -> exists c rest, name = c :: rest /\ (c =? c_slash) = false.
Proof.
  intros Hn. apply is_name_spec in Hn. destruct Hn as (Hne & Hs & _).
  destruct name as [|c rest]; [congruence |]. exists c, rest.
  cbn [forallb] in Hs. apply andb_true_iff in Hs. destruct Hs as [Hc _].
  apply negb_true_iff in Hc. auto.
Qed.

Lemma name_last (name : pystr) :
  is_name name = true -> exists init c, name = init ++ [c] /\ (c =? c_slash) = false.
Proof.
  intros Hn. apply is_name_spec in Hn. destruct Hn as (Hne & Hs & _).
  destruct (exists_last Hne) as (init & c & ->). exists init, c.
  rewrite forallb_app in Hs. apply andb_true_iff in Hs. destruct Hs as [_ Hc].
  cbn [forallb] in Hc. rewrite andb_true_r in Hc. apply negb_true_iff in Hc. auto.
Qed.

Lemma name_without_slash (name : pystr) :
  is_name name = true -> without c_slash name = true.
Proof. intros Hn. apply is_name_spec in Hn. tauto. Qed.

(** The components of a normalised directory followed by a name. *)
Lemma split_on_dir_text (k : nat) (comps : list pystr) (name : pystr) :
  forallb is_name comps = true ->
  is_name name = true ->
  split_on c_slash (dir_text k comps ++ name) = repeat [] k ++ comps ++ [name].
Proof.
  intros Hcomps Hname. unfold dir_text. rewrite <- app_assoc.
  induction k as [|k IH]; cbn [repeat app].
  - clear -Hcomps Hname. induction comps as [|comp comps IH]; cbn [map concat app].
    + apply split_on_without, name_without_slash, Hname.
    + cbn [forallb] in Hcomps. apply andb_true_iff in Hcomps.
      destruct Hcomps as [Hcomp Hcomps].
      rewrite <- !app_assoc. cbn [app]. rewrite split_on_app, (IH Hcomps).
      rewrite (split_on_without _ _ (name_without_slash comp Hcomp)). reflexivity.
  - cbn [split_on]. rewrite N.eqb_refl, IH. reflexivity.
Qed.

(** What follows the leading slashes begins with a character that is
    not a slash. *)
Lemma dir_text_body_head (comps : list pystr) (name : pystr) :
  forallb is_name comps = true ->
  is_name name = true ->
  exists c rest,
    concat (map (fun comp => comp ++ [c_slash]) comps) ++ name = c :: rest
    /\ (c =? c_slash) = false.
Proof.
  intros Hcomps Hname. destruct comps as [|comp comps]; cbn [map concat app].
  - exact (name_head name Hname).
  - cbn [forallb] in Hcomps. apply andb_true_iff in Hcomps.
    destruct Hcomps as [Hcomp _].
    destruct (name_head comp Hcomp) as (c & rest & -> & Hc).
    exists c. eexists. split; [reflexivity | exact Hc].
Qed.

Lemma initial_slashes_dir_text (k : nat) (comps : list pystr) (name : pystr) :
  k = 1%nat \/ k = 2%nat ->
  forallb is_name comps = true ->
  is_name name = true ->
  Path.initial_slashes (dir_text k comps ++ name) = k.
Proof.
  intros Hk Hcomps Hname. unfold dir_text. rewrite <- app_assoc.
  destruct (dir_text_body_head comps name Hcomps Hname) as (c & rest & -> & Hc).
  assert (Hc' : (c_slash =? c) = false) by (rewrite N.eqb_sym; exact Hc).
  unfold Path.initial_slashes.
  destruct Hk as [-> | ->]; cbn [repeat app startswith];
    rewrite ?N.eqb_refl, ?Hc'; reflexivity.
Qed.

Lemma dir_text_nonempty (k : nat) (comps : list pystr) (name : pystr) :
  (1 <= k)%nat -> dir_text k comps ++ name <> [].
Proof. destruct k; [lia | discriminate]. Qed.

(** A normalised directory followed by a name is its own normal form. *)
Lemma normpath_dir_text (k : nat) (comps : list pystr) (name : pystr) :
  k = 1%nat \/ k = 2%nat ->
  forallb is_name comps = true ->
  is_name name = true ->
  Path.normpath (dir_text k comps ++ name) = dir_text k comps ++ name.
Proof.
  intros Hk Hcomps Hname.
  assert (Hne : dir_text k comps ++ name <> []) by (apply dir_text_nonempty; lia).
  unfold Path.normpath.
  destruct (dir_text k comps ++ name) as [|c rest] eqn:Htext; [congruence |].
  rewrite <- Htext. clear c rest Htext Hne.
  rewrite (initial_slashes_dir_text k comps name Hk Hcomps Hname).
  rewrite (split_on_dir_text k comps name Hcomps Hname).
  rewrite normpath_fold_empty, normpath_fold_names.
  - rewrite app_nil_r, rev_involutive, join_with_snoc.
    unfold dir_text. rewrite <- app_assoc.
    destruct Hk as [-> | ->]; reflexivity.
  - rewrite forallb_app, Hcomps. cbn [forallb]. rewrite Hname. reflexivity.
Qed.

Lemma dir_text_ends_with_slash (k : nat) (comps : list pystr) :
  (1 <= k)%nat ->
  forallb is_name comps = true ->
  (comps = [] /\ dir_text k comps = repeat c_slash (k - 1) ++ [c_slash])
  \/ exists before c,
       dir_text k comps = before ++ [c; c_slash] /\ (c =? c_slash) = false.
Proof.
  intros Hk Hcomps. induction comps as [|last init _] using rev_ind.
  - left. split; [reflexivity |]. unfold dir_text. cbn [map concat].
    rewrite app_nil_r. destruct k as [|k]; [lia |].
    replace (S k - 1)%nat with k by lia.
    change [c_slash] with (repeat c_slash 1). rewrite <- repeat_app.
    f_equal. lia.
  - right. rewrite forallb_app in Hcomps. apply andb_true_iff in Hcomps.
    destruct Hcomps as [_ Hlast]. cbn [forallb] in Hlast.
    rewrite andb_true_r in Hlast.
    destruct (name_last last Hlast) as (l & c & -> & Hc).
    exists (repeat c_slash k ++ concat (map (fun comp => comp ++ [c_slash]) init) ++ l), c.
    split; [|exact Hc].
    unfold dir_text. rewrite map_app, concat_app. cbn [map concat].
    rewrite app_nil_r, <- !app_assoc. reflexivity.
Qed.

Lemma dir_text_slash_last (k : nat) (comps : list pystr) :
  (1 <= k)%nat ->
  forallb is_name comps = true ->
  exists before, dir_text k comps = before ++ [c_slash].
Proof.
  intros Hk Hcomps.
  destruct (dir_text_ends_with_slash k comps Hk Hcomps)
    as [[_ ->] | (before & c & -> & _)].
  - eauto.
  - exists (before ++ [c]). rewrite <- app_assoc. reflexivity.
Qed.

Lemma after_last_dir_text (k : nat) (comps : list pystr) (name : pystr) :
  (1 <= k)%nat ->
  forallb is_name comps = true ->
  is_name name = true ->
  after_last c_slash (dir_text k comps ++ name) = length (dir_text k comps).
Proof.
  intros Hk Hcomps Hname.
  destruct (dir_text_slash_last k comps Hk Hcomps) as [before ->].
  rewrite <- app_assoc. cbn [app].
  rewrite (after_last_app c_slash before name (name_without_slash name Hname)).
  rewrite length_app. cbn [length]. lia.
Qed.

Lemma basename_dir_text (k : nat) (comps : list pystr) (name : pystr) :
  (1 <= k)%nat ->
  forallb is_name comps = true ->
  is_name name = true ->
  Path.basename (dir_text k comps ++ name) = name.
Proof.
  intros Hk Hcomps Hname. unfold Path.basename.
  rewrite (after_last_dir_text k comps name Hk Hcomps Hname).
  apply drop_app_length.
Qed.

Lemma rstrip_char_last (c x : char) (before : pystr) :
  (x =? c) = false -> rstrip_char c (before ++ [x; c]) = before ++ [x].
Proof.
  intros Hx. unfold rstrip_char. rewrite rev_app_distr. cbn [rev app lstrip_char].
  rewrite N.eqb_refl, Hx. cbn [rev]. rewrite rev_involutive. reflexivity.
Qed.

(** Joining a name to the directory of a path in a normalised directory
    puts the name in that directory. *)
Lemma join_dirname_dir_text (k : nat) (comps : list pystr) (name name' : pystr) :
  (1 <= k)%nat ->
  forallb is_name comps = true ->
  is_name name = true ->
  startswith [c_slash] name' = false ->
  Path.join (Path.dirname (dir_text k comps ++ name)) [name']
  = dir_text k comps ++ name'.
Proof.
  intros Hk Hcomps Hname Hrel. cbn [Path.join fold_left].
  unfold Path.dirname.
  rewrite (after_last_dir_text k comps name Hk Hcomps Hname), take_app_length.
  unfold Path.join2. rewrite Hrel.
  destruct (dir_text_ends_with_slash k comps Hk Hcomps)
    as [[_ Htext] | (before & c & Htext & Hc)]; rewrite Htext.
  - assert (Hall : forallb (N.eqb c_slash) (repeat c_slash (k - 1) ++ [c_slash]) = true).
    { rewrite forallb_app. cbn [forallb]. rewrite N.eqb_refl, andb_true_r.
      clear. induction (k - 1)%nat as [|n IH]; [reflexivity |].
      cbn [repeat forallb]. rewrite N.eqb_refl. exact IH. }
    rewrite Hall.
    assert (Hend : endswith [c_slash] (repeat c_slash (k - 1) ++ [c_slash]) = true)
      by (apply endswith_spec; eauto).
    rewrite Hend.
    destruct (repeat c_slash (k - 1) ++ [c_slash]) eqn:Hr; [|reflexivity].
    destruct (repeat c_slash (k - 1)); discriminate.
  - assert (Hall : forallb (N.eqb c_slash) (before ++ [c; c_slash]) = false).
    { rewrite forallb_app. cbn [forallb]. rewrite (N.eqb_sym c_slash c), Hc.
      apply andb_false_r. }
    rewrite Hall, (rstrip_char_last c_slash c before Hc).
    assert (Hend : endswith [c_slash] (before ++ [c]) = false).
    { unfold endswith. rewrite rev_app_distr. cbn [rev app startswith].
      rewrite (N.eqb_sym c_slash c), Hc. reflexivity. }
    rewrite Hend.
    destruct (before ++ [c]) eqn:Hb; [destruct before; discriminate |].
    rewrite <- Hb, <- !app_assoc. reflexivity.
Qed.

Lemma initial_slashes_name (x name : pystr) :
  startswith [c_slash] x = true ->
  is_name name = true ->
  Path.initial_slashes (x ++ name) = Path.initial_slashes (x ++ [c_dot])
  /\ (Path.initial_slashes (x ++ name) = 1%nat
      \/ Path.initial_slashes (x ++ name) = 2%nat).
Proof.
  intros Hx Hname. destruct (name_head name Hname) as (c & rest & -> & Hc).
  assert (Hc' : (c_slash =? c) = false) by (rewrite N.eqb_sym; exact Hc).
  unfold Path.initial_slashes.
  destruct x as [|a [|b [|d x]]]; cbn [app startswith] in *; [discriminate | | |];
    rewrite ?Hx, ?Hc'; change (c_slash =? c_dot) with false; cbn [andb negb];
    repeat match goal with
           | |- context [c_slash =? ?y] => destruct (c_slash =? y)
           end; cbn [andb negb]; auto.
Qed.

(** An absolute path that ends with a slash normalises, with any name
    after it, to one normalised directory followed by that name. *)
Lemma normpath_in_directory (x : pystr) :
  startswith [c_slash] x = true ->
  endswith [c_slash] x = true ->
  exists k comps,
    (k = 1%nat \/ k = 2%nat)
    /\ forallb is_name comps = true
    /\ forall name, is_name name = true ->
                    Path.normpath (x ++ name) = dir_text k comps ++ name.
Proof.
  intros Hstart Hend. apply endswith_spec in Hend. destruct Hend as [x' ->].
  set (k := Path.initial_slashes ((x' ++ [c_slash]) ++ [c_dot])).
  set (stack := fold_left (Path.normpath_step k) (split_on c_slash x') []).
  assert (Hk : k = 1%nat \/ k = 2%nat).
  { destruct (initial_slashes_name (x' ++ [c_slash]) [c_dot; 120] Hstart eq_refl)
      as [Heq Hk]. rewrite Heq in Hk. exact Hk. }
  assert (Hstack : forallb is_name stack = true).
  { apply normpath_fold_stack; [lia | | reflexivity].
    apply forallb_forall. intros comp Hin.
    exact (split_on_components c_slash x' comp Hin). }
  exists k, (rev stack). split; [exact Hk |]. split.
  { rewrite forallb_forall. intros comp Hin. apply in_rev in Hin.
    rewrite forallb_forall in Hstack. exact (Hstack comp Hin). }
  intros name Hname. unfold Path.normpath.
  destruct ((x' ++ [c_slash]) ++ name) as [|c rest] eqn:Htext.
  { destruct x'; discriminate. }
  rewrite <- Htext. clear c rest Htext.
  destruct (initial_slashes_name (x' ++ [c_slash]) name Hstart Hname) as [-> _].
  fold k. rewrite <- app_assoc. cbn [app].
  rewrite split_on_app, (split_on_without _ _ (name_without_slash name Hname)).
  rewrite fold_left_app. fold stack. cbn [fold_left].
  rewrite (normpath_step_name k stack name Hname). cbn [rev].
  rewrite join_with_snoc. unfold dir_text. rewrite <- app_assoc.
  destruct Hk as [-> | ->]; reflexivity.
Qed.

(** *** The outline path and back *)

Lemma name_is_relative (name : pystr) :
  is_name name = true -> startswith [c_slash] name = false.
Proof.
  intros Hn. destruct (name_head name Hn) as (c & rest & -> & Hc).
  cbn [startswith]. rewrite N.eqb_sym, Hc. reflexivity.
Qed.

Lemma is_name_suffixed (slug suffix : pystr) :
  without c_slash slug = true ->
  without c_slash suffix = true ->
  (3 <= length suffix)%nat ->
  is_name (slug ++ suffix) = true.
Proof.
  intros Hslug Hsuffix Hlen. apply is_name_spec.
  assert (Hl : (3 <= length (slug ++ suffix))%nat) by (rewrite length_app; lia).
  split; [|split; [|split]].
  - intros H. rewrite H in Hl. simpl in Hl. lia.
  - rewrite forallb_app, Hslug, Hsuffix. reflexivity.
  - intros H. rewrite H in Hl. simpl in Hl. lia.
  - intros H. rewrite H in Hl. simpl in Hl. lia.
Qed.

Lemma dir_text_absolute (k : nat) (comps : list pystr) (name : pystr) :
  (1 <= k)%nat -> startswith [c_slash] (dir_text k comps ++ name) = true.
Proof. destruct k; [lia | reflexivity]. Qed.

(** The path handed to [normpath] by [abspath] is an absolute directory
    prefix followed by the base name. *)
Lemma abspath_argument (cwd p h b : pystr) :
  startswith [c_slash] cwd = true ->
  p = h ++ b ->
  h = [] \/ (exists h', h = h' ++ [c_slash]) ->
  is_name b = true ->
  exists x,
    startswith [c_slash] x = true /\ endswith [c_slash] x = true
    /\ (if startswith [c_slash] p then p else Path.join2 cwd p) = x ++ b.
Proof.
  intros Hcwd -> Hh Hb.
  destruct (startswith [c_slash] (h ++ b)) eqn:Habs.
  - destruct Hh as [-> | [h' ->]].
    + cbn [app] in Habs. rewrite (name_is_relative b Hb) in Habs. discriminate.
    + exists (h' ++ [c_slash]). split; [|split; [|reflexivity]].
      * destruct h'; [reflexivity | exact Habs].
      * apply endswith_spec. eauto.
  - unfold Path.join2. rewrite Habs.
    destruct cwd as [|c0 cwd']; [discriminate |].
    destruct (endswith [c_slash] (c0 :: cwd')) eqn:Hend.
    + exists ((c0 :: cwd') ++ h). split; [exact Hcwd |]. split.
      * destruct Hh as [-> | [h' ->]]; [rewrite app_nil_r; exact Hend |].
        apply endswith_spec. exists ((c0 :: cwd') ++ h'). apply app_assoc.
      * apply app_assoc.
    + exists ((c0 :: cwd') ++ c_slash :: h). split; [exact Hcwd |]. split.
      * apply endswith_spec. destruct Hh as [-> | [h' ->]].
        -- exists (c0 :: cwd'). reflexivity.
        -- exists ((c0 :: cwd') ++ c_slash :: h').
           rewrite <- !app_assoc. reflexivity.
      * rewrite <- !app_assoc. reflexivity.
Qed.

(** The absolute form of a path with a proper base name: a normalised
    directory followed by that base name. *)
Lemma abspath_file (cwd p : pystr) :
  startswith [c_slash] cwd = true ->
  is_name (Path.basename p) = true ->
  exists k comps,
    (k = 1%nat \/ k = 2%nat)
    /\ forallb is_name comps = true
    /\ Path.abspath cwd p = dir_text k comps ++ Path.basename p.
Proof.
  intros Hcwd Hname.
  destruct (after_last_split c_slash p) as (h & b & Hp & Hn & _ & Hh).
  assert (Hb : Path.basename p = b).
  { unfold Path.basename. rewrite Hn, Hp. apply drop_app_length. }
  rewrite Hb in *.
  destruct (abspath_argument cwd p h b Hcwd Hp Hh Hname) as (x & Hx1 & Hx2 & Harg).
  destruct (normpath_in_directory x Hx1 Hx2) as (k & comps & Hk & Hcomps & Hnorm).
  exists k, comps. split; [exact Hk |]. split; [exact Hcomps |].
  unfold Path.abspath. rewrite Harg. apply Hnorm, Hname.
Qed.

Lemma basename_without_slash (p : pystr) : without c_slash (Path.basename p) = true.
Proof.
  destruct (after_last_split c_slash p) as (h & b & Hp & Hn & Hb & _).
  unfold Path.basename. rewrite Hn, Hp, drop_app_length. exact Hb.
Qed.

Lemma take_suffix_length (slug suffix : pystr) :
  take (length (slug ++ suffix) - length suffix) (slug ++ suffix) = slug.
Proof.
  rewrite length_app. replace (length slug + length suffix - length suffix)%nat
    with (length slug) by lia.
  apply take_app_length.
Qed.

Lemma str_eqb_length (a b : pystr) : length a <> length b -> str_eqb a b = false.
Proof. intros H. apply str_eqb_neq. congruence. Qed.

Section RoundTrip.
Context (E : env).
Hypothesis cwd_absolute : startswith [c_slash] (cwd E) = true.

(** The explanation path of an outline in a normalised directory, and
    the outline path found from it. *)
Lemma outline_round_trip_plain (outline_path : pystr) :
  Path.basename outline_path = str "outline.txt" ->
  NotesCreator.derive_outline_path E
    (Explainer.derive_explanation_path E outline_path)
  = Path.abspath (cwd E) outline_path.
Proof.
  intros Hbase.
  destruct (abspath_file (cwd E) outline_path cwd_absolute)
    as (k & comps & Hk & Hcomps & Habs); [rewrite Hbase; reflexivity |].
  assert (Hk1 : (1 <= k)%nat) by lia.
  unfold Explainer.derive_explanation_path. rewrite Habs, Hbase.
  change (str_eqb (str "outline.txt") (str "outline.txt")) with true. cbn iota.
  rewrite (join_dirname_dir_text k comps (str "outline.txt") (str "explanation.txt")
             Hk1 Hcomps eq_refl eq_refl).
  unfold NotesCreator.derive_outline_path, Path.abspath.
  rewrite (dir_text_absolute k comps (str "explanation.txt") Hk1).
  rewrite (normpath_dir_text k comps (str "explanation.txt") Hk Hcomps eq_refl).
  rewrite (basename_dir_text k comps (str "explanation.txt") Hk1 Hcomps eq_refl).
  change (str_eqb (str "explanation.txt") (str "explanation.txt")) with true.
  cbn iota.
  apply (join_dirname_dir_text k comps (str "explanation.txt") (str "outline.txt")
           Hk1 Hcomps eq_refl eq_refl).
Qed.

Lemma outline_round_trip_slug (outline_path : pystr) :
  endswith (str "-outline.txt") (Path.basename outline_path) = true ->
  NotesCreator.derive_outline_path E
    (Explainer.derive_explanation_path E outline_path)
  = Path.abspath (cwd E) outline_path.
Proof.
  intros Hends.
  assert (Hwithout := basename_without_slash outline_path).
  apply endswith_spec in Hends. destruct Hends as [slug Hbase].
  rewrite Hbase, forallb_app in Hwithout. apply andb_true_iff in Hwithout.
  destruct Hwithout as [Hslug _].
  assert (Hname : is_name (slug ++ str "-outline.txt") = true)
    by (apply is_name_suffixed; [exact Hslug | reflexivity | simpl; lia]).
  assert (Hname' : is_name (slug ++ str "-explanation.txt") = true)
    by (apply is_name_suffixed; [exact Hslug | reflexivity | simpl; lia]).
  destruct (abspath_file (cwd E) outline_path cwd_absolute)
    as (k & comps & Hk & Hcomps & Habs); [rewrite Hbase; exact Hname |].
  assert (Hk1 : (1 <= k)%nat) by lia.
  unfold Explainer.derive_explanation_path. rewrite Habs, Hbase.
  rewrite (str_eqb_length (slug ++ str "-outline.txt") (str "outline.txt"))
    by (rewrite length_app; simpl; lia).
  assert (Hend : endswith (str "-outline.txt") (slug ++ str "-outline.txt") = true)
    by (apply endswith_spec; eauto).
  rewrite Hend, take_suffix_length.
  rewrite (join_dirname_dir_text k comps _ _ Hk1 Hcomps Hname
             (name_is_relative _ Hname')).
  unfold NotesCreator.derive_outline_path, Path.abspath.
  rewrite (dir_text_absolute k comps _ Hk1).
  rewrite (normpath_dir_text k comps _ Hk Hcomps Hname').
  rewrite (basename_dir_text k comps _ Hk1 Hcomps Hname').
  rewrite (str_eqb_length (slug ++ str "-explanation.txt") (str "explanation.txt"))
    by (rewrite length_app; simpl; lia).
  assert (Hend' : endswith (str "-explanation.txt")
                    (slug ++ str "-explanation.txt") = true)
    by (apply endswith_spec; eauto).
  rewrite Hend', take_suffix_length.
  apply (join_dirname_dir_text k comps _ _ Hk1 Hcomps Hname'
           (name_is_relative _ Hname)).
Qed.
End RoundTrip.

(** C10 (as the code has it). For an outline path whose base name is
    ["outline.txt"] or ends in ["-outline.txt"], the outline path the
    notes creator derives from the explanation path the explainer derives
    is the absolute, normalised form of the outline path; it is the
    outline path itself when that is already absolute and normalised. *)
Theorem derive_outline_path_of_explanation_path (E : env) (outline_path : pystr) :
  startswith [c_slash] (cwd E) = true ->
  Path.basename outline_path = str "outline.txt"
  \/ endswith (str "-outline.txt") (Path.basename outline_path) = true ->
  NotesCreator.derive_outline_path E (Explainer.derive_explanation_path E outline_path)
  = Path.abspath (cwd E) outline_path
  /\ (Path.abspath (cwd E) outline_path = outline_path ->
      NotesCreator.derive_outline_path E
        (Explainer.derive_explanation_path E outline_path) = outline_path).
Proof.
  intros Hcwd Hbase.
  assert (Hround : NotesCreator.derive_outline_path E
                     (Explainer.derive_explanation_path E outline_path)
                   = Path.abspath (cwd E) outline_path).
  { destruct Hbase as [Hplain | Hslug].
    - apply outline_round_trip_plain; assumption.
    - apply outline_round_trip_slug; assumption. }
  split; [exact Hround | intros Hnorm; rewrite Hround; exact Hnorm].
Qed.

Lemma derive_outline_path_of_explanation_path_witness :
  NotesCreator.derive_outline_path Mock.quiet
    (Explainer.derive_explanation_path Mock.quiet (str "/work/outputs/x/ml-outline.txt"))
  = str "/work/outputs/x/ml-outline.txt".
Proof.
  apply (derive_outline_path_of_explanation_path Mock.quiet
           (str "/work/outputs/x/ml-outline.txt")).
  - reflexivity.
  - right. reflexivity.
  - reflexivity.
Defined.

(** C10 as stated fails: for a relative outline path the composition
    returns the absolute path, which is another string. *)
Lemma derive_outline_path_not_identity :
  Path.basename (str "outputs/x/outline.txt") = str "outline.txt"
  /\ NotesCreator.derive_outline_path Mock.quiet
       (Explainer.derive_explanation_path Mock.quiet (str "outputs/x/outline.txt"))
     = str "/work/outputs/x/outline.txt"
  /\ str "/work/outputs/x/outline.txt" <> str "outputs/x/outline.txt".
Proof. repeat split. discriminate. Qed.

(** *** The project root *)

Lemma split_on_dir_text_tail (k : nat) (comps : list pystr) (tail : pystr) :
  forallb is_name comps = true ->
  without c_slash tail = true ->
  split_on c_slash (dir_text k comps ++ tail) = repeat [] k ++ comps ++ [tail].
Proof.
  intros Hcomps Htail. unfold dir_text. rewrite <- app_assoc.
  induction k as [|k IH]; cbn [repeat app].
  - clear -Hcomps Htail. induction comps as [|comp comps IH]; cbn [map concat app].
    + apply split_on_without, Htail.
    + cbn [forallb] in Hcomps. apply andb_true_iff in Hcomps.
      destruct Hcomps as [Hcomp Hcomps].
      rewrite <- !app_assoc. cbn [app]. rewrite split_on_app, (IH Hcomps).
      rewrite (split_on_without _ _ (name_without_slash comp Hcomp)). reflexivity.
  - cbn [split_on]. rewrite N.eqb_refl, IH. reflexivity.
Qed.

Lemma initial_slashes_absolute (x : pystr) :
  startswith [c_slash] x = true ->
  Path.initial_slashes x = 1%nat \/ Path.initial_slashes x = 2%nat.
Proof.
  intros Hx. unfold Path.initial_slashes. rewrite Hx.
  destruct (_ && _); auto.
Qed.

(** The normal form of an absolute path. *)
Lemma normpath_absolute (x : pystr) :
  startswith [c_slash] x = true ->
  exists k comps,
    (k = 1%nat \/ k = 2%nat)
    /\ forallb is_name comps = true
    /\ Path.normpath x = abs_text k comps.
Proof.
  intros Hx.
  set (k := Path.initial_slashes x).
  set (stack := fold_left (Path.normpath_step k) (split_on c_slash x) []).
  assert (Hk : k = 1%nat \/ k = 2%nat) by exact (initial_slashes_absolute x Hx).
  assert (Hstack : forallb is_name stack = true).
  { apply normpath_fold_stack; [lia | | reflexivity].
    apply forallb_forall. intros comp Hin.
    exact (split_on_components c_slash x comp Hin). }
  exists k, (rev stack). split; [exact Hk |]. split.
  { rewrite forallb_forall. intros comp Hin. apply in_rev in Hin.
    rewrite forallb_forall in Hstack. exact (Hstack comp Hin). }
  unfold Path.normpath. destruct x as [|c x']; [discriminate |].
  fold k. fold stack. unfold abs_text.
  destruct Hk as [-> | ->]; reflexivity.
Qed.

Lemma abs_text_snoc (k : nat) (comps : list pystr) (name : pystr) :
  abs_text k (comps ++ [name]) = dir_text k comps ++ name.
Proof. unfold abs_text, dir_text. rewrite join_with_snoc, app_assoc. reflexivity. Qed.

Lemma repeat_slash_ends (k : nat) :
  (1 <= k)%nat -> endswith [c_slash] (repeat c_slash k) = true.
Proof.
  intros Hk. apply endswith_spec. exists (repeat c_slash (k - 1)).
  change [c_slash] with (repeat c_slash 1). rewrite <- repeat_app.
  f_equal. lia.
Qed.

(** Joining a name to a normalised absolute path. *)
Lemma join2_abs_text (k : nat) (comps : list pystr) (name : pystr) :
  (1 <= k)%nat ->
  forallb is_name comps = true ->
  is_name name = true ->
  Path.join2 (abs_text k comps) name = abs_text k (comps ++ [name]).
Proof.
  intros Hk Hcomps Hname. rewrite abs_text_snoc.
  unfold Path.join2. rewrite (name_is_relative name Hname).
  induction comps as [|last init _] using rev_ind.
  - unfold abs_text, dir_text. cbn [join_with map concat]. rewrite !app_nil_r.
    rewrite (repeat_slash_ends k Hk).
    destruct (repeat c_slash k) eqn:Hr; [destruct k; [lia | discriminate] | reflexivity].
  - rewrite forallb_app in Hcomps. apply andb_true_iff in Hcomps.
    destruct Hcomps as [_ Hlast]. cbn [forallb] in Hlast.
    rewrite andb_true_r in Hlast.
    destruct (name_last last Hlast) as (l & c & -> & Hc).
    rewrite abs_text_snoc.
    assert (Hend : endswith [c_slash] (dir_text k init ++ l ++ [c]) = false).
    { unfold endswith. rewrite app_assoc, rev_app_distr. cbn [rev app startswith].
      rewrite (N.eqb_sym c_slash c), Hc. reflexivity. }
    rewrite Hend.
    destruct (dir_text k init ++ l ++ [c]) eqn:Htext.
    { destruct k; [lia | discriminate]. }
    rewrite <- Htext. unfold dir_text. rewrite map_app, concat_app.
    cbn [map concat]. rewrite app_nil_r, <- !app_assoc. reflexivity.
Qed.

(** The parent of a directory in a normalised absolute path. *)
Lemma normpath_parent (k : nat) (comps : list pystr) (name : pystr) :
  k = 1%nat \/ k = 2%nat ->
  forallb is_name comps = true ->
  is_name name = true ->
  Path.normpath (dir_text k (comps ++ [name]) ++ [c_dot; c_dot]) = abs_text k comps.
Proof.
  intros Hk Hcomps Hname.
  assert (Hall : forallb is_name (comps ++ [name]) = true).
  { rewrite forallb_app, Hcomps. cbn [forallb]. rewrite Hname. reflexivity. }
  assert (Hinit : Path.initial_slashes (dir_text k (comps ++ [name]) ++ [c_dot; c_dot]) = k).
  { unfold dir_text. rewrite <- app_assoc.
    destruct (dir_text_body_head (comps ++ [name]) [c_dot; c_dot; c_dot] Hall eq_refl)
      as (c & rest & Hbody & Hc).
    assert (Hc' : (c_slash =? c) = false) by (rewrite N.eqb_sym; exact Hc).
    destruct (comps ++ [name]) as [|comp more] eqn:Hcs; [destruct comps; discriminate |].
    cbn [map concat app] in *. rewrite <- !app_assoc in *.
    destruct comp as [|c0 comp']; [discriminate Hall |].
    cbn [app] in *. injection Hbody as -> _.
    unfold Path.initial_slashes.
    destruct Hk as [-> | ->]; cbn [repeat app startswith];
      rewrite ?N.eqb_refl, ?Hc'; reflexivity. }
  unfold Path.normpath.
  destruct (dir_text k (comps ++ [name]) ++ [c_dot; c_dot]) as [|c rest] eqn:Htext.
  { destruct Hk as [-> | ->]; discriminate. }
  rewrite <- Htext in Hinit |- *. clear c rest Htext. rewrite Hinit.
  rewrite (split_on_dir_text_tail k (comps ++ [name]) [c_dot; c_dot] Hall eq_refl).
  rewrite normpath_fold_empty, fold_left_app, (normpath_fold_names k _ [] Hall).
  rewrite app_nil_r, rev_app_distr. cbn [rev app fold_left].
  assert (Hpop : Path.normpath_step k (name :: rev comps) [c_dot; c_dot] = rev comps).
  { unfold Path.normpath_step.
    change (str_eqb [c_dot; c_dot] []) with false.
    change (str_eqb [c_dot; c_dot] [c_dot]) with false.
    change (str_eqb [c_dot; c_dot] [c_dot; c_dot]) with true.
    replace (k =? 0)%nat with false by (destruct Hk as [-> | ->]; reflexivity).
    assert (Hn : str_eqb name [c_dot; c_dot] = false).
    { apply is_name_spec in Hname. apply str_eqb_neq. tauto. }
    rewrite Hn. reflexivity. }
  rewrite Hpop, rev_involutive. unfold abs_text.
  destruct Hk as [-> | ->]; reflexivity.
Qed.

(** The planner, started from the coordinator's project root, finds
    the same project root. *)
Lemma planner_project_root (cwd cwd' file__ : pystr) :
  startswith [c_slash] cwd = true ->
  Planner.project_root cwd' (Orchestrator.planner_py cwd file__)
  = Orchestrator.project_root cwd file__.
Proof.
  intros Hcwd. unfold Orchestrator.planner_py.
  assert (Habs : exists k comps,
             (k = 1%nat \/ k = 2%nat) /\ forallb is_name comps = true
             /\ Orchestrator.project_root cwd file__ = abs_text k comps).
  { unfold Orchestrator.project_root, Path.abspath. apply normpath_absolute.
    set (up := Path.join (Path.dirname file__) [[c_dot; c_dot]]).
    destruct (startswith [c_slash] up) eqn:Hrel; [exact Hrel |].
    unfold Path.join2. rewrite Hrel.
    destruct cwd as [|c0 cwd0]; [discriminate |].
    destruct (endswith [c_slash] (c0 :: cwd0)); exact Hcwd. }
  destruct Habs as (k & comps & Hk & Hcomps & ->).
  assert (Hk1 : (1 <= k)%nat) by lia.
  assert (Hsrc : forallb is_name (comps ++ [str "src"]) = true).
  { rewrite forallb_app, Hcomps. reflexivity. }
  cbn [Path.join fold_left].
  rewrite (join2_abs_text k comps (str "src") Hk1 Hcomps eq_refl).
  rewrite (join2_abs_text k _ (str "planner.py") Hk1 Hsrc eq_refl), abs_text_snoc.
  unfold Planner.project_root.
  rewrite (join_dirname_dir_text k _ (str "planner.py") [c_dot; c_dot]
             Hk1 Hsrc eq_refl eq_refl).
  unfold Path.abspath. rewrite (dir_text_absolute k _ _ Hk1).
  apply (normpath_parent k comps (str "src") Hk Hcomps eq_refl).
Qed.

(** C9. For every topic the coordinator's slug function and the
    planner's return the same string. The planner, started by the
    coordinator as [src/planner.py] under its project root with the topic
    as argument, therefore writes the outline to the path the coordinator
    checks, [outputs/<slug>/outline.txt] under that root. *)
Theorem orchestrator_slug_is_planner_slug (U : unicode_db) (topic : pystr)
    (cwd cwd' file__ : pystr) (args : list pystr) :
  startswith [c_slash] cwd = true ->
  Orchestrator.sanitize_filename U topic = Planner.sanitize_filename U topic
  /\ Planner.outline_file U cwd' (Orchestrator.planner_py cwd file__)
       (Planner.topic_of (Orchestrator.planner_args (Orchestrator.topic_of args)))
     = Orchestrator.outline_path U cwd file__ (Orchestrator.topic_of args).
Proof.
  intros Hcwd. split; [reflexivity |].
  unfold Planner.outline_file, Orchestrator.outline_path.
  rewrite (planner_project_root cwd cwd' file__ Hcwd).
  unfold Planner.topic_of, Orchestrator.planner_args, Orchestrator.topic_of.
  cbn [join_with]. rewrite strip_idempotent. reflexivity.
Qed.

Lemma orchestrator_slug_is_planner_slug_witness :
  Planner.outline_file latin1 (str "/tmp")
    (Orchestrator.planner_py (str "/work") (str "src/orchestrator.py"))
    (Planner.topic_of
       (Orchestrator.planner_args
          (Orchestrator.topic_of [str "Machine"; str "Learning "])))
  = str "/work/outputs/machine-learning/outline.txt".
Proof.
  rewrite (proj2 (orchestrator_slug_is_planner_slug latin1 [] (str "/work")
                    (str "/tmp") (str "src/orchestrator.py")
                    [str "Machine"; str "Learning "] eq_refl)).
  reflexivity.
Defined.

(* ===================================================================== *)
(** ** The slug as a directory name *)
(* ===================================================================== *)

Lemma keeps_not_separator (U : unicode_db) (c : char) :
  keeps U c = true -> (c =? c_slash) = false /\ (c =? c_dot) = false.
Proof.
  intros H. split.
  - destruct (N.eqb_spec c c_slash) as [-> |]; [vm_compute in H; discriminate | reflexivity].
  - destruct (N.eqb_spec c c_dot) as [-> |]; [vm_compute in H; discriminate | reflexivity].
Qed.

Lemma kept_text_is_name (U : unicode_db) (s : pystr) :
  s <> [] -> forallb (keeps U) s = true -> is_name s = true.
Proof.
  intros Hne Hkeeps. apply is_name_spec.
  split; [exact Hne |]. split.
  - revert Hkeeps. apply forallb_impl. intros c Hc.
    destruct (keeps_not_separator U c Hc) as [-> _]. reflexivity.
  - destruct s as [|c s']; [contradiction |].
    cbn [forallb] in Hkeeps. apply andb_true_iff in Hkeeps as [Hc _].
    destruct (keeps_not_separator U c Hc) as [_ Hdot].
    apply N.eqb_neq in Hdot. split; intros Heq; injection Heq; intros; contradiction.
Qed.

Lemma lecture_kept (U : unicode_db) : forallb (keeps U) lecture = true.
Proof. reflexivity. Qed.

Lemma slug_is_name (U : unicode_db) (topic : pystr) :
  is_name (Planner.sanitize_filename U topic) = true.
Proof.
  apply (kept_text_is_name U).
  - unfold Planner.sanitize_filename. apply str_or_nonempty. discriminate.
  - apply planner_slug_chars.
Qed.

(** X1. The slug of any topic is a single directory name: it is not
    empty, has no slash, and is neither [.] nor [..]; so is any
    non-empty text that passes the filter of the slug function. *)
Theorem sanitize_filename_is_directory_name (U : unicode_db) (topic : pystr) :
  is_name (Planner.sanitize_filename U topic) = true
  /\ is_name (Orchestrator.sanitize_filename U topic) = true
  /\ without c_slash (Planner.sanitize_filename U topic) = true
  /\ without c_dot (Orchestrator.sanitize_filename U topic) = true.
Proof.
  split; [apply slug_is_name |]. split; [apply slug_is_name |]. split.
  - apply name_without_slash, slug_is_name.
  - generalize (planner_slug_chars U topic). apply forallb_impl. intros c Hc.
    destruct (keeps_not_separator U c Hc) as [_ ->]. reflexivity.
Qed.

Lemma slug_char_kept (U : unicode_db) (c : char) :
  slug_char c = true -> keeps U c = true.
Proof. intros H. char_arith. Qed.

Lemma slug_char_fixed (c : char) :
  slug_char c = true ->
  is_ascii c = true /\ ascii_lower c = c /\ isspace c = false
  /\ (c =? c_space) = false.
Proof.
  intros H. unfold isspace.
  repeat split; char_arith.
Qed.

Lemma lstrip_fixed (s : pystr) :
  forallb (fun c => negb (isspace c)) s = true -> lstrip s = s.
Proof.
  destruct s as [|c s']; [reflexivity |].
  cbn [forallb lstrip]. intros H. apply andb_true_iff in H as [Hc _].
  destruct (isspace c); [discriminate | reflexivity].
Qed.

Lemma strip_fixed (s : pystr) :
  forallb (fun c => negb (isspace c)) s = true -> strip s = s.
Proof.
  intros H. unfold strip, rstrip. rewrite (lstrip_fixed s H).
  rewrite lstrip_fixed; [apply rev_involutive |].
  rewrite forallb_forall in *. intros c Hc. apply H, in_rev, Hc.
Qed.

Lemma map_fixed {A} (P : A -> bool) (f : A -> A) (l : list A) :
  (forall a, P a = true -> f a = a) -> forallb P l = true -> map f l = l.
Proof.
  intros Hf. induction l as [|a l IH]; [reflexivity |].
  cbn. intros H. apply andb_true_iff in H as [Ha Hl].
  rewrite (Hf a Ha), (IH Hl). reflexivity.
Qed.

Lemma filter_all {A} (K : A -> bool) (l : list A) :
  forallb K l = true -> List.filter K l = l.
Proof.
  induction l as [|a l IH]; [reflexivity |].
  cbn. intros H. apply andb_true_iff in H as [-> Hl]. rewrite (IH Hl). reflexivity.
Qed.

(** X2. The slug function changes nothing in a non-empty text over
    [a-z0-9_-]; so the slug of the slug of a pure-ASCII topic is that
    slug, in the planner and in the orchestrator. *)
Theorem sanitize_filename_idempotent (U : unicode_db) :
  (forall s, s <> [] -> forallb slug_char s = true ->
             Planner.sanitize_filename U s = s
             /\ Orchestrator.sanitize_filename U s = s)
  /\ (forall topic, forallb is_ascii topic = true ->
        Planner.sanitize_filename U (Planner.sanitize_filename U topic)
        = Planner.sanitize_filename U topic
        /\ Orchestrator.sanitize_filename U (Orchestrator.sanitize_filename U topic)
           = Orchestrator.sanitize_filename U topic).
Proof.
  assert (Hfix : forall s, s <> [] -> forallb slug_char s = true ->
                           Planner.sanitize_filename U s = s).
  { intros s Hne Hs. unfold Planner.sanitize_filename.
    rewrite lower_ascii
      by (revert Hs; apply forallb_impl; intros c Hc; apply (slug_char_fixed c Hc)).
    rewrite (map_fixed slug_char ascii_lower s)
      by (try exact Hs; intros c Hc; apply (slug_char_fixed c Hc)).
    rewrite strip_fixed
      by (revert Hs; apply forallb_impl; intros c Hc;
          destruct (slug_char_fixed c Hc) as (_ & _ & -> & _); reflexivity).
    unfold replace_space_hyphen.
    rewrite (map_fixed slug_char (fun c => if c =? c_space then c_hyphen else c) s)
      by (try exact Hs; intros c Hc;
          destruct (slug_char_fixed c Hc) as (_ & _ & _ & ->); reflexivity).
    rewrite filter_all
      by (revert Hs; apply forallb_impl; intros c Hc; apply slug_char_kept, Hc).
    destruct s; [contradiction | reflexivity]. }
  split.
  - intros s Hne Hs. split; exact (Hfix s Hne Hs).
  - intros topic Hascii.
    assert (Hslug : Planner.sanitize_filename U (Planner.sanitize_filename U topic)
                    = Planner.sanitize_filename U topic).
    { apply Hfix; [| apply planner_slug_ascii, Hascii].
      unfold Planner.sanitize_filename. apply str_or_nonempty. discriminate. }
    split; exact Hslug.
Qed.

Lemma sanitize_filename_idempotent_witness :
  Planner.sanitize_filename latin1
    (Planner.sanitize_filename latin1 (str "Machine Learning: Basics!"))
  = str "machine-learning-basics"
  /\ Orchestrator.sanitize_filename latin1 (str "a_b-9") = str "a_b-9".
Proof.
  split.
  - rewrite (proj1 (proj2 (sanitize_filename_idempotent latin1)
                      (str "Machine Learning: Basics!") eq_refl)).
    reflexivity.
  - apply (proj1 (sanitize_filename_idempotent latin1) (str "a_b-9"));
      [discriminate | reflexivity].
Defined.
(* ===================================================================== *)
(** ** The paths the stages derive *)
(* ===================================================================== *)

Lemma splitext_root_split (p : pystr) :
  exists ext,
    p = Path.splitext_root p ++ ext /\ (ext = [] \/ exists t, ext = c_dot :: t).
Proof.
  unfold Path.splitext_root.
  destruct ((after_last c_slash p <? after_last c_dot p)%nat
            && Path.has_stem p (after_last c_slash p) (after_last c_dot p - 1)) eqn:Hcond.
  - apply andb_true_iff in Hcond as [Hlt _]. apply Nat.ltb_lt in Hlt.
    destruct (after_last_split c_dot p) as (h & b & Hp & Hn & _ & Hh).
    destruct Hh as [-> | [h' ->]]; [simpl in Hn; lia |].
    exists (c_dot :: b). split; [| right; eauto].
    rewrite Hn, length_app. cbn [length].
    replace (length h' + 1 - 1)%nat with (length h') by lia.
    rewrite Hp at 2. rewrite <- !app_assoc. rewrite take_app_length.
    rewrite Hp at 1. rewrite <- app_assoc. reflexivity.
  - exists []. split; [symmetry; apply app_nil_r | left; reflexivity].
Qed.

Lemma splitext_root_without (c : char) (p : pystr) :
  without c p = true -> without c (Path.splitext_root p) = true.
Proof.
  intros H. destruct (splitext_root_split p) as (ext & Hp & _).
  rewrite Hp, forallb_app in H. apply andb_true_iff in H as [H _]. exact H.
Qed.

Lemma dirname_dir_text (k : nat) (comps : list pystr) (name name' : pystr) :
  (1 <= k)%nat ->
  forallb is_name comps = true ->
  is_name name = true ->
  is_name name' = true ->
  Path.dirname (dir_text k comps ++ name) = Path.dirname (dir_text k comps ++ name').
Proof.
  intros Hk Hcomps Hname Hname'. unfold Path.dirname.
  rewrite !after_last_dir_text by assumption.
  rewrite !take_app_length. reflexivity.
Qed.

Lemma abspath_dir_text (cwd : pystr) (k : nat) (comps : list pystr) (name : pystr) :
  k = 1%nat \/ k = 2%nat ->
  forallb is_name comps = true ->
  is_name name = true ->
  Path.abspath cwd (dir_text k comps ++ name) = dir_text k comps ++ name.
Proof.
  intros Hk Hcomps Hname. unfold Path.abspath.
  rewrite dir_text_absolute by lia. apply normpath_dir_text; assumption.
Qed.

Section DerivedName.
(** The file names a stage reads, and the ones it derives from them. *)
Context (plain dashed plain' dashed' : pystr).
Hypothesis plain_differs : plain' <> plain.
Hypothesis dashed_differs : dashed' <> dashed.
Hypothesis plain_name : is_name plain' = true.
Hypothesis dashed_ends : dashed' = c_hyphen :: plain'.
Hypothesis dashed_without_slash : without c_slash dashed' = true.
Hypothesis dashed_long : (3 <= length dashed')%nat.

Lemma derived_name (b : pystr) :
  without c_slash b = true ->
  exists name,
    (forall directory,
        (if str_eqb b plain then Path.join directory [plain']
         else Path.join directory
                [(if endswith dashed b then take (length b - length dashed) b
                  else Path.splitext_root b) ++ dashed'])
        = Path.join directory [name])
    /\ is_name name = true
    /\ endswith plain' name = true
    /\ name <> b.
Proof.
  intros Hb. destruct (str_eqb b plain) eqn:Hplain.
  - apply str_eqb_eq in Hplain. subst b. exists plain'.
    split; [reflexivity |]. split; [exact plain_name |].
    split; [apply endswith_spec; exists []; reflexivity | exact plain_differs].
  - assert (Hends : forall slug, endswith plain' (slug ++ dashed') = true).
    { intros slug. apply endswith_spec. exists (slug ++ [c_hyphen]).
      rewrite dashed_ends, <- app_assoc. reflexivity. }
    destruct (endswith dashed b) eqn:Hdashed.
    + apply endswith_spec in Hdashed as [slug ->].
      rewrite take_suffix_length. exists (slug ++ dashed').
      split; [reflexivity |].
      rewrite forallb_app in Hb. apply andb_true_iff in Hb as [Hslug _].
      split; [apply is_name_suffixed; assumption |].
      split; [apply Hends |].
      intros Heq. apply app_inv_head in Heq. contradiction.
    + exists (Path.splitext_root b ++ dashed').
      split; [reflexivity |].
      split; [apply is_name_suffixed; [apply splitext_root_without |..]; assumption |].
      split; [apply Hends |].
      destruct (splitext_root_split b) as (ext & Hsplit & Hext).
      intros Heq. rewrite Hsplit in Heq at 2. apply app_inv_head in Heq.
      rewrite dashed_ends in Heq.
      destruct Hext as [-> | [t ->]]; discriminate.
Qed.
End DerivedName.

Section Beside.
Context (E : env).
Hypothesis cwd_absolute : startswith [c_slash] (cwd E) = true.

Lemma derived_beside (p name : pystr) :
  is_name (Path.basename p) = true ->
  is_name name = true ->
  let q := Path.join (Path.dirname (Path.abspath (cwd E) p)) [name] in
  Path.dirname q = Path.dirname (Path.abspath (cwd E) p)
  /\ Path.basename q = name
  /\ resolve E q = q
  /\ (name <> Path.basename p -> q <> resolve E p).
Proof.
  intros Hbase Hname.
  destruct (abspath_file (cwd E) p cwd_absolute Hbase)
    as (k & comps & Hk & Hcomps & Habs).
  assert (Hk1 : (1 <= k)%nat) by lia.
  cbv zeta. unfold resolve. rewrite Habs.
  rewrite (join_dirname_dir_text k comps _ _ Hk1 Hcomps Hbase
             (name_is_relative _ Hname)).
  split; [apply dirname_dir_text; assumption |].
  split; [apply basename_dir_text; assumption |].
  split; [apply abspath_dir_text; assumption |].
  intros Hne Heq. apply app_inv_head in Heq. contradiction.
Qed.
End Beside.

(** X3. The explanation path derived from an outline path lies in the
    outline's directory, has a name that ends in [explanation.txt], is
    already resolved, and is never the outline itself: the generation
    stage cannot overwrite the outline it reads. *)
Theorem derive_explanation_path_beside_outline (E : env) (outline_path : pystr) :
  startswith [c_slash] (cwd E) = true ->
  is_name (Path.basename outline_path) = true ->
  let explanation_path := Explainer.derive_explanation_path E outline_path in
  Path.dirname explanation_path = Path.dirname (Path.abspath (cwd E) outline_path)
  /\ endswith (str "explanation.txt") (Path.basename explanation_path) = true
  /\ resolve E explanation_path = explanation_path
  /\ explanation_path <> resolve E outline_path.
Proof.
  intros Hcwd Hbase.
  destruct (derived_name (str "outline.txt") (str "-outline.txt")
              (str "explanation.txt") (str "-explanation.txt")
              ltac:(discriminate) ltac:(discriminate) eq_refl eq_refl eq_refl
              ltac:(simpl; lia) (Path.basename outline_path)
              (basename_without_slash outline_path))
    as (name & Hjoin & Hname & Hends & Hne).
  cbv zeta. unfold Explainer.derive_explanation_path. rewrite Hjoin.
  destruct (derived_beside E Hcwd outline_path name Hbase Hname)
    as (Hdir & Hbasename & Hres & Hdiff).
  split; [exact Hdir |]. rewrite Hbasename.
  split; [exact Hends |]. split; [exact Hres |]. exact (Hdiff Hne).
Qed.

Lemma derive_explanation_path_beside_outline_witness :
  Explainer.derive_explanation_path Mock.quiet (str "outputs/x/notes.v1.md")
  <> resolve Mock.quiet (str "outputs/x/notes.v1.md").
Proof.
  apply (derive_explanation_path_beside_outline Mock.quiet
           (str "outputs/x/notes.v1.md") eq_refl eq_refl).
Defined.

(** X4. The PDF path derived from an explanation path lies in the
    explanation's directory, has a name that ends in [notes.pdf], is
    already resolved, and is never the explanation itself. *)
Theorem derive_output_path_beside_explanation (E : env) (explanation_path : pystr) :
  startswith [c_slash] (cwd E) = true ->
  is_name (Path.basename explanation_path) = true ->
  let output_path := NotesCreatorRun.derive_output_path E explanation_path in
  Path.dirname output_path = Path.dirname (Path.abspath (cwd E) explanation_path)
  /\ endswith (str "notes.pdf") (Path.basename output_path) = true
  /\ resolve E output_path = output_path
  /\ output_path <> resolve E explanation_path.
Proof.
  intros Hcwd Hbase.
  destruct (derived_name (str "explanation.txt") (str "-explanation.txt")
              (str "notes.pdf") (str "-notes.pdf")
              ltac:(discriminate) ltac:(discriminate) eq_refl eq_refl eq_refl
              ltac:(simpl; lia) (Path.basename explanation_path)
              (basename_without_slash explanation_path))
    as (name & Hjoin & Hname & Hends & Hne).
  cbv zeta. unfold NotesCreatorRun.derive_output_path. rewrite Hjoin.
  destruct (derived_beside E Hcwd explanation_path name Hbase Hname)
    as (Hdir & Hbasename & Hres & Hdiff).
  split; [exact Hdir |]. rewrite Hbasename.
  split; [exact Hends |]. split; [exact Hres |]. exact (Hdiff Hne).
Qed.

Lemma derive_output_path_beside_explanation_witness :
  NotesCreatorRun.derive_output_path Mock.quiet (str "outputs/x/ml-explanation.txt")
  = str "/work/outputs/x/ml-notes.pdf"
  /\ resolve Mock.quiet (str "/work/outputs/x/ml-notes.pdf")
     = str "/work/outputs/x/ml-notes.pdf".
Proof.
  assert (H : NotesCreatorRun.derive_output_path Mock.quiet
                (str "outputs/x/ml-explanation.txt")
              = str "/work/outputs/x/ml-notes.pdf") by reflexivity.
  split; [exact H |]. rewrite <- H.
  apply (derive_output_path_beside_explanation Mock.quiet
           (str "outputs/x/ml-explanation.txt") eq_refl eq_refl).
Defined.
(* ===================================================================== *)
(** ** The layout of the project, as the orchestrator sees it *)
(* ===================================================================== *)

Lemma project_root_normal (cwd file__ : pystr) :
  startswith [c_slash] cwd = true ->
  exists k comps,
    (k = 1%nat \/ k = 2%nat) /\ forallb is_name comps = true
    /\ Orchestrator.project_root cwd file__ = abs_text k comps.
Proof.
  intros Hcwd. unfold Orchestrator.project_root, Path.abspath.
  apply normpath_absolute.
  set (up := Path.join (Path.dirname file__) [[c_dot; c_dot]]).
  destruct (startswith [c_slash] up) eqn:Hrel; [exact Hrel |].
  unfold Path.join2. rewrite Hrel.
  destruct cwd as [|c0 cwd0]; [discriminate |].
  destruct (endswith [c_slash] (c0 :: cwd0)); exact Hcwd.
Qed.

Lemma join_abs_text (k : nat) (names comps : list pystr) :
  (1 <= k)%nat ->
  forallb is_name comps = true ->
  forallb is_name names = true ->
  Path.join (abs_text k comps) names = abs_text k (comps ++ names).
Proof.
  intros Hk. revert comps.
  induction names as [|name names IH]; intros comps Hcomps Hnames.
  - rewrite app_nil_r. reflexivity.
  - cbn [forallb] in Hnames. apply andb_true_iff in Hnames as [Hname Hnames].
    change (Path.join (abs_text k comps) (name :: names))
      with (Path.join (Path.join2 (abs_text k comps) name) names).
    rewrite (join2_abs_text k comps name Hk Hcomps Hname).
    rewrite IH; [rewrite <- app_assoc; reflexivity | | exact Hnames].
    rewrite forallb_app, Hcomps. cbn [forallb]. rewrite Hname. reflexivity.
Qed.

Section Layout.
Context (E : env) (file__ : pystr).
Hypothesis cwd_absolute : startswith [c_slash] (cwd E) = true.

Lemma pipeline_layout :
  exists k comps,
    (k = 1%nat \/ k = 2%nat)
    /\ forallb is_name comps = true
    /\ OrchestratorRun.project_root E file__ = abs_text k comps
    /\ (forall name, is_name name = true ->
          Path.join (OrchestratorRun.src_dir E file__) [name]
          = dir_text k (comps ++ [str "src"]) ++ name)
    /\ (forall topic name, is_name name = true ->
          Path.join (OrchestratorRun.output_dir E file__ topic) [name]
          = dir_text k (comps ++ [str "outputs";
                                  Orchestrator.sanitize_filename (unicode E) topic])
            ++ name).
Proof.
  destruct (project_root_normal (cwd E) file__ cwd_absolute)
    as (k & comps & Hk & Hcomps & Hroot).
  assert (Hk1 : (1 <= k)%nat) by lia.
  exists k, comps. split; [exact Hk |]. split; [exact Hcomps |].
  split; [exact Hroot |]. split.
  - intros name Hname.
    unfold OrchestratorRun.src_dir, OrchestratorRun.project_root. rewrite Hroot.
    rewrite (join_abs_text k [str "src"] comps Hk1 Hcomps eq_refl).
    rewrite (join_abs_text k [name] _ Hk1).
    + apply abs_text_snoc.
    + rewrite forallb_app, Hcomps. reflexivity.
    + cbn [forallb]. rewrite Hname. reflexivity.
  - intros topic name Hname.
    unfold OrchestratorRun.output_dir, OrchestratorRun.project_root. rewrite Hroot.
    assert (Hdirs : forallb is_name
                      [str "outputs"; Orchestrator.sanitize_filename (unicode E) topic]
                    = true).
    { cbn [forallb].
      change (Orchestrator.sanitize_filename (unicode E) topic)
        with (Planner.sanitize_filename (unicode E) topic).
      rewrite slug_is_name. reflexivity. }
    rewrite (join_abs_text k _ comps Hk1 Hcomps Hdirs).
    rewrite (join_abs_text k [name] _ Hk1).
    + apply abs_text_snoc.
    + rewrite forallb_app, Hcomps, Hdirs. reflexivity.
    + cbn [forallb]. rewrite Hname. reflexivity.
Qed.

End Layout.

Lemma stage_paths (E E' : env) (file__ topic : pystr) :
  startswith [c_slash] (cwd E) = true ->
  Explainer.derive_explanation_path E' (OrchestratorRun.outline_path E file__ topic)
  = OrchestratorRun.explanation_path E file__ topic
  /\ NotesCreatorRun.derive_output_path E'
       (OrchestratorRun.explanation_path E file__ topic)
     = OrchestratorRun.notes_path E file__ topic
  /\ NotesCreator.derive_outline_path E'
       (OrchestratorRun.explanation_path E file__ topic)
     = OrchestratorRun.outline_path E file__ topic
  /\ resolve E' (OrchestratorRun.outline_path E file__ topic)
     = OrchestratorRun.outline_path E file__ topic
  /\ resolve E' (OrchestratorRun.explanation_path E file__ topic)
     = OrchestratorRun.explanation_path E file__ topic.
Proof.
  intros Hcwd.
  destruct (pipeline_layout E file__ Hcwd)
    as (k & comps & Hk & Hcomps & _ & _ & Hout).
  assert (Hk1 : (1 <= k)%nat) by lia.
  set (dirs := comps ++ [str "outputs";
                         Orchestrator.sanitize_filename (unicode E) topic]) in *.
  assert (Hdirs : forallb is_name dirs = true).
  { unfold dirs. rewrite forallb_app, Hcomps. cbn [forallb].
    change (Orchestrator.sanitize_filename (unicode E) topic)
      with (Planner.sanitize_filename (unicode E) topic).
    rewrite slug_is_name. reflexivity. }
  unfold OrchestratorRun.outline_path, OrchestratorRun.explanation_path,
    OrchestratorRun.notes_path.
  rewrite !(Hout topic) by reflexivity. fold dirs.
  unfold Explainer.derive_explanation_path, NotesCreatorRun.derive_output_path,
    NotesCreator.derive_outline_path, resolve.
  rewrite !(abspath_dir_text (cwd E') k dirs _ Hk Hdirs) by reflexivity.
  rewrite !(basename_dir_text k dirs _ Hk1 Hdirs) by reflexivity.
  change (str_eqb (str "outline.txt") (str "outline.txt")) with true.
  change (str_eqb (str "explanation.txt") (str "explanation.txt")) with true.
  cbn iota.
  rewrite !(join_dirname_dir_text k dirs _ _ Hk1 Hdirs) by reflexivity.
  repeat split.
Qed.

(** X5. The paths the orchestrator checks after each step are the paths
    the stages derive, in whatever directory a stage is started: the
    explanation path the explainer derives from the orchestrator's
    outline path, the PDF path and the outline path the notes creator
    derives from the orchestrator's explanation path. *)
Theorem orchestrator_paths_are_stage_paths (E E' : env) (file__ topic : pystr) :
  startswith [c_slash] (cwd E) = true ->
  Explainer.derive_explanation_path E' (OrchestratorRun.outline_path E file__ topic)
  = OrchestratorRun.explanation_path E file__ topic
  /\ NotesCreatorRun.derive_output_path E'
       (OrchestratorRun.explanation_path E file__ topic)
     = OrchestratorRun.notes_path E file__ topic
  /\ NotesCreator.derive_outline_path E'
       (OrchestratorRun.explanation_path E file__ topic)
     = OrchestratorRun.outline_path E file__ topic
  /\ resolve E' (OrchestratorRun.outline_path E file__ topic)
     = OrchestratorRun.outline_path E file__ topic
  /\ resolve E' (OrchestratorRun.explanation_path E file__ topic)
     = OrchestratorRun.explanation_path E file__ topic.
Proof. apply stage_paths. Qed.

Lemma orchestrator_paths_are_stage_paths_witness :
  NotesCreatorRun.derive_output_path Mock.quiet
    (OrchestratorRun.explanation_path Mock.quiet (str "src/orchestrator.py")
       (str "Graph Theory"))
  = str "/work/outputs/graph-theory/notes.pdf".
Proof.
  rewrite (proj1 (proj2 (orchestrator_paths_are_stage_paths Mock.quiet Mock.quiet
                           (str "src/orchestrator.py") (str "Graph Theory") eq_refl))).
  reflexivity.
Defined.

Lemma critic_paths (E E' : env) (file__ topic : pystr) :
  startswith [c_slash] (cwd E) = true ->
  Critic.critique_path_of E' (OrchestratorRun.explanation_path E file__ topic)
  = Path.join (OrchestratorRun.output_dir E file__ topic) [Critic.ACTIVE_CRITIQUE_FILE]
  /\ resolve E' (OrchestratorRun.explanation_path E file__ topic)
     <> resolve E' (Critic.critique_path_of E'
                      (OrchestratorRun.explanation_path E file__ topic))
  /\ Critic.explainer_py E' (OrchestratorRun.critic_py E file__)
     = OrchestratorRun.explainer_py E file__
  /\ resolve E' (OrchestratorRun.explainer_py E file__)
     = OrchestratorRun.explainer_py E file__.
Proof.
  intros Hcwd.
  destruct (pipeline_layout E file__ Hcwd)
    as (k & comps & Hk & Hcomps & _ & Hsrc & Hout).
  assert (Hk1 : (1 <= k)%nat) by lia.
  set (dirs := comps ++ [str "outputs";
                         Orchestrator.sanitize_filename (unicode E) topic]) in *.
  assert (Hdirs : forallb is_name dirs = true).
  { unfold dirs. rewrite forallb_app, Hcomps. cbn [forallb].
    change (Orchestrator.sanitize_filename (unicode E) topic)
      with (Planner.sanitize_filename (unicode E) topic).
    rewrite slug_is_name. reflexivity. }
  assert (Hsrcs : forallb is_name (comps ++ [str "src"]) = true)
    by (rewrite forallb_app, Hcomps; reflexivity).
  unfold OrchestratorRun.explanation_path, OrchestratorRun.explainer_py,
    OrchestratorRun.critic_py, Critic.critique_path_of, Critic.explainer_py.
  rewrite !(Hout topic) by reflexivity. rewrite !Hsrc by reflexivity. fold dirs.
  unfold resolve.
  rewrite !(abspath_dir_text (cwd E') k dirs _ Hk Hdirs) by reflexivity.
  rewrite !(abspath_dir_text (cwd E') k _ _ Hk Hsrcs) by reflexivity.
  rewrite (join_dirname_dir_text k dirs _ Critic.ACTIVE_CRITIQUE_FILE Hk1 Hdirs)
    by reflexivity.
  rewrite (join_dirname_dir_text k _ _ (str "explainer.py") Hk1 Hsrcs)
    by reflexivity.
  rewrite (abspath_dir_text (cwd E') k dirs Critic.ACTIVE_CRITIQUE_FILE Hk Hdirs)
    by reflexivity.
  split; [reflexivity |]. split; [| split; reflexivity].
  intros Heq. apply app_inv_head in Heq. discriminate.
Qed.

(** X6. In a pipeline run the controller's critique slot is
    [active_critique.txt] in the output directory, a file other than the
    explanation; and the explainer script the controller starts is the
    one the orchestrator has checked. *)
Theorem orchestrator_critic_paths (E E' : env) (file__ topic : pystr) :
  startswith [c_slash] (cwd E) = true ->
  Critic.critique_path_of E' (OrchestratorRun.explanation_path E file__ topic)
  = Path.join (OrchestratorRun.output_dir E file__ topic) [Critic.ACTIVE_CRITIQUE_FILE]
  /\ resolve E' (OrchestratorRun.explanation_path E file__ topic)
     <> resolve E' (Critic.critique_path_of E'
                      (OrchestratorRun.explanation_path E file__ topic))
  /\ Critic.explainer_py E' (OrchestratorRun.critic_py E file__)
     = OrchestratorRun.explainer_py E file__
  /\ resolve E' (OrchestratorRun.explainer_py E file__)
     = OrchestratorRun.explainer_py E file__.
Proof. apply critic_paths. Qed.

Lemma orchestrator_critic_paths_witness :
  Critic.critique_path_of Mock.quiet
    (OrchestratorRun.explanation_path Mock.quiet (str "src/orchestrator.py")
       (str "Graph Theory"))
  = str "/work/outputs/graph-theory/active_critique.txt".
Proof.
  rewrite (proj1 (orchestrator_critic_paths Mock.quiet Mock.quiet
                    (str "src/orchestrator.py") (str "Graph Theory") eq_refl)).
  reflexivity.
Defined.
(* ===================================================================== *)
(** ** Escaping for the PDF markup (notes_creator.py) *)
(* ===================================================================== *)

Lemma replace_char_app (old : char) (new a b : pystr) :
  replace_char old new (a ++ b) = replace_char old new a ++ replace_char old new b.
Proof. unfold replace_char. apply flat_map_app. Qed.

Lemma replace_char_absent (old : char) (new s : pystr) :
  without old s = true -> replace_char old new s = s.
Proof.
  induction s as [|c s IH]; [reflexivity |].
  cbn [forallb]. intros H. apply andb_true_iff in H as [Hc Hs].
  unfold replace_char in *. cbn [flat_map].
  destruct (c =? old); [discriminate |]. rewrite (IH Hs). reflexivity.
Qed.

Lemma safe_cons (c : char) (text : pystr) :
  NotesCreatorRun.safe (c :: text) = escape_char c ++ NotesCreatorRun.safe text.
Proof.
  unfold NotesCreatorRun.safe.
  change (replace_char c_amp (str "&amp;") (c :: text))
    with ((if c =? c_amp then str "&amp;" else [c])
          ++ replace_char c_amp (str "&amp;") text).
  rewrite !replace_char_app. f_equal. unfold escape_char.
  destruct (N.eqb_spec c c_amp) as [-> |Hamp]; [reflexivity |].
  change (replace_char c_lt (str "&lt;") [c])
    with ((if c =? c_lt then str "&lt;" else [c]) ++ []).
  rewrite app_nil_r.
  destruct (N.eqb_spec c c_lt) as [-> |Hlt]; [reflexivity |].
  change (replace_char c_gt (str "&gt;") [c])
    with ((if c =? c_gt then str "&gt;" else [c]) ++ []).
  rewrite app_nil_r. reflexivity.
Qed.

Lemma safe_escapes (text : pystr) :
  NotesCreatorRun.safe text = flat_map escape_char text.
Proof.
  induction text as [|c text IH]; [reflexivity |].
  rewrite safe_cons, IH. reflexivity.
Qed.

Lemma escape_char_cases (c : char) :
  (c = c_amp /\ escape_char c = str "&amp;")
  \/ (c = c_lt /\ escape_char c = str "&lt;")
  \/ (c = c_gt /\ escape_char c = str "&gt;")
  \/ (c <> c_amp /\ c <> c_lt /\ c <> c_gt /\ escape_char c = [c]).
Proof.
  unfold escape_char.
  destruct (N.eqb_spec c c_amp) as [-> |]; [left; split; reflexivity |].
  destruct (N.eqb_spec c c_lt) as [-> |]; [right; left; split; reflexivity |].
  destruct (N.eqb_spec c c_gt) as [-> |]; [right; right; left; split; reflexivity |].
  right; right; right. repeat split; assumption.
Qed.

(** X7. [safe] escapes every character once, in one pass: an ampersand,
    a less-than and a greater-than sign become their entities and every
    other character stays, so that the ampersand of an entity is not
    escaped again; the result has no angle bracket, and a text without
    the three characters is returned as it is. *)
Theorem safe_escapes_each_character_once (text : pystr) :
  NotesCreatorRun.safe text = flat_map escape_char text
  /\ without c_lt (NotesCreatorRun.safe text) = true
  /\ without c_gt (NotesCreatorRun.safe text) = true
  /\ (without c_amp text && without c_lt text && without c_gt text = true ->
      NotesCreatorRun.safe text = text).
Proof.
  split; [apply safe_escapes |].
  assert (Hno : forall c, forallb (fun x => negb (x =? c_lt) && negb (x =? c_gt))
                            (escape_char c) = true).
  { intros c.
    destruct (escape_char_cases c)
      as [[_ ->] | [[_ ->] | [[_ ->] | (_ & Hlt & Hgt & ->)]]]; try reflexivity.
    cbn [forallb]. apply N.eqb_neq in Hlt, Hgt. rewrite Hlt, Hgt. reflexivity. }
  assert (Hall : forallb (fun x => negb (x =? c_lt) && negb (x =? c_gt))
                   (NotesCreatorRun.safe text) = true).
  { rewrite safe_escapes. induction text as [|c text IH]; [reflexivity |].
    cbn [flat_map]. rewrite forallb_app, Hno, IH. reflexivity. }
  split; [| split].
  - revert Hall. apply forallb_impl. intros c Hc.
    apply andb_true_iff in Hc as [Hc _]. exact Hc.
  - revert Hall. apply forallb_impl. intros c Hc.
    apply andb_true_iff in Hc as [_ Hc]. exact Hc.
  - intros H. apply andb_true_iff in H as [H Hgt].
    apply andb_true_iff in H as [Hamp Hlt].
    unfold NotesCreatorRun.safe.
    rewrite (replace_char_absent c_amp _ text Hamp).
    rewrite (replace_char_absent c_lt _ text Hlt).
    apply (replace_char_absent c_gt _ text Hgt).
Qed.

Lemma safe_escapes_each_character_once_witness :
  NotesCreatorRun.safe (str "x = y") = str "x = y"
  /\ NotesCreatorRun.safe (str "a<b & c") = str "a&lt;b &amp; c".
Proof.
  split; [| reflexivity].
  apply (safe_escapes_each_character_once (str "x = y")). reflexivity.
Defined.

Lemma escape_char_shape (c : char) :
  (c = c_amp /\ escape_char c = c_amp :: 97 :: str "mp;")
  \/ (c = c_lt /\ escape_char c = c_amp :: 108 :: str "t;")
  \/ (c = c_gt /\ escape_char c = c_amp :: 103 :: str "t;")
  \/ (c <> c_amp /\ escape_char c = [c]).
Proof.
  destruct (escape_char_cases c)
    as [[-> _] | [[-> _] | [[-> _] | (Ha & _ & _ & Hc)]]];
    [left | right; left | right; right; left | right; right; right];
    split; solve [reflexivity | assumption].
Qed.

(** X8. [safe] loses nothing: two texts with the same escaped form are
    the same text. *)
Theorem safe_injective (a b : pystr) :
  NotesCreatorRun.safe a = NotesCreatorRun.safe b -> a = b.
Proof.
  rewrite !safe_escapes. revert b.
  induction a as [|x a IH]; intros [|y b] H.
  - reflexivity.
  - exfalso. cbn [flat_map] in H.
    destruct (escape_char_shape y) as [[_ Hy] | [[_ Hy] | [[_ Hy] | [_ Hy]]]];
      rewrite Hy in H; discriminate.
  - exfalso. cbn [flat_map] in H.
    destruct (escape_char_shape x) as [[_ Hx] | [[_ Hx] | [[_ Hx] | [_ Hx]]]];
      rewrite Hx in H; discriminate.
  - cbn [flat_map] in H.
    destruct (escape_char_shape x) as [[Ex Hx] | [[Ex Hx] | [[Ex Hx] | [Xa Hx]]]];
      destruct (escape_char_shape y) as [[Ey Hy] | [[Ey Hy] | [[Ey Hy] | [Ya Hy]]]];
      rewrite Hx, Hy in H;
      first [ subst x y; apply app_inv_head in H; rewrite (IH b H); reflexivity
            | cbn [app] in H; discriminate H
            | cbn [app] in H; injection H as Hhead Htail; subst y;
              rewrite (IH b Htail); reflexivity
            | cbn [app] in H; injection H as Hhead Htail; congruence ].
Qed.

Lemma safe_injective_witness : str "a<b" = str "a<b".
Proof. apply safe_injective. reflexivity. Defined.
(* ===================================================================== *)
(** ** The generation stage *)
(* ===================================================================== *)

Lemma generated_explanation_lines (stamp source_name text : pystr) :
  Explainer.generated_header stamp source_name ++ text
  = lines_then
      [str "LECTURE EXPLANATION"; eq_rule; str "Generated : " ++ stamp;
       str "Model     : " ++ Explainer.MODEL_NAME; str "Source    : " ++ source_name]
      (eq_rule ++ c_lf :: c_lf :: text).
Proof.
  unfold Explainer.generated_header, lines_then. cbn [fold_right].
  repeat (rewrite <- app_assoc; cbn [app]). reflexivity.
Qed.

Lemma generated_explanation_source (stamp source_name text : pystr) :
  one_line stamp = true ->
  one_line source_name = true ->
  source_reference
    (loaded (Explainer.generated_header stamp source_name ++ text))
  = Some (strip source_name).
Proof.
  intros Hstamp Hsource. rewrite generated_explanation_lines.
  destruct (loaded_lines 76 (str "ECTURE EXPLANATION")
              [eq_rule; str "Generated : " ++ stamp;
               str "Model     : " ++ Explainer.MODEL_NAME;
               str "Source    : " ++ source_name]
              c_eq (repeat c_eq 59 ++ c_lf :: c_lf :: text) eq_refl eq_refl)
    as [rest Hlines].
  { cbn [forallb]. rewrite !one_line_app, Hstamp, Hsource. reflexivity. }
  unfold source_reference.
  change (76 :: str "ECTURE EXPLANATION") with (str "LECTURE EXPLANATION") in Hlines.
  change (c_eq :: repeat c_eq 59 ++ ?x) with (eq_rule ++ x) in Hlines.
  rewrite Hlines. cbn [app find].
  change (startswith Explainer.SOURCE_FIELD (str "LECTURE EXPLANATION")) with false.
  change (startswith Explainer.SOURCE_FIELD eq_rule) with false.
  change (startswith Explainer.SOURCE_FIELD (str "Generated : " ++ stamp)) with false.
  change (startswith Explainer.SOURCE_FIELD
            (str "Model     : " ++ Explainer.MODEL_NAME)) with false.
  change (str "Source    : " ++ source_name)
    with (Explainer.SOURCE_FIELD ++ c_space :: source_name).
  rewrite startswith_app. cbn iota.
  change (after_first c_colon (Explainer.SOURCE_FIELD ++ c_space :: source_name))
    with (Some (c_space :: source_name)).
  cbn iota. rewrite strip_space_head. reflexivity.
Qed.

Lemma generated_artifact_nonblank (stamp source_name text : pystr) :
  loaded (Explainer.generated_header stamp source_name ++ text) <> [].
Proof. apply (loaded_head_nonspace 76). reflexivity. Qed.

(** How a run of the generation stage ends: with status 1 before it
    writes, or by writing the explanation after its backend call. *)
Lemma module_generate_cases (E : env) (file__ outline_path : pystr) (w : world) :
  (exists f w',
      Explainer.module_generate E file__ outline_path w = (Fail f, w')
      /\ exit_code f = 1%Z /\ files w' = files w)
  \/ (exists outline prompt text,
        files w !! resolve E outline_path = Some outline
        /\ loaded outline <> []
        /\ files w !! resolve E (prompt_path E file__ Explainer.EXPLAINER_PROMPT_FILE)
           = Some prompt
        /\ loaded prompt <> []
        /\ let req := {| req_model := Explainer.MODEL_NAME;
                         req_system := loaded prompt;
                         req_user := Explainer.generate_message (loaded outline);
                         req_label := str "Generating explanation" |} in
           assemble E (backend E (calls w) req) = Ok text
           /\ Explainer.module_generate E file__ outline_path w
              = write_text E (Explainer.derive_explanation_path E outline_path)
                  (Explainer.generated_header (strftime (clock E (ticks w)))
                     (Path.basename outline_path) ++ text)
                  {| files := files w; calls := calls w ++ [req];
                     ticks := S (ticks w) |}).
Proof.
  unfold Explainer.module_generate, Explainer.load_system_prompt, Explainer.query_ollama.
  rewrite bind_run.
  destruct (load_file_cases E outline_path w)
    as [(outline & Ho & Hlo & ->) | ->];
    [| left; eexists _, _; repeat split].
  rewrite bind_run.
  destruct (load_file_cases E (prompt_path E file__ Explainer.EXPLAINER_PROMPT_FILE) w)
    as [(prompt & Hp & Hlp & ->) | ->];
    [| left; eexists _, _; repeat split].
  rewrite bind_run. unfold query_backend.
  match goal with
  | |- context [assemble E ?r] => destruct (assemble E r) as [text|f] eqn:Htext
  end.
  - right. exists outline, prompt, text.
    split; [exact Ho |]. split; [exact Hlo |]. split; [exact Hp |].
    split; [exact Hlp |]. cbv zeta. split; [exact Htext | reflexivity].
  - left. eexists _, _. repeat split. exact (assemble_exit_code _ _ _ Htext).
Qed.

(** X9. A successful run of the generation stage makes one backend
    call, writes one file, the explanation at the derived path, and
    leaves every other file as it was; the new explanation is not blank
    and names the outline it was generated from in its source field. *)
Theorem generated_explanation_names_its_outline (E : env)
    (file__ outline_path : pystr) (w w' : world) :
  Explainer.module_generate E file__ outline_path w = (Ok tt, w') ->
  one_line (Path.basename outline_path) = true ->
  (exists content,
      files w' !! resolve E (Explainer.derive_explanation_path E outline_path)
      = Some content
      /\ loaded content <> []
      /\ source_reference (loaded content) = Some (strip (Path.basename outline_path)))
  /\ (forall p, p <> resolve E (Explainer.derive_explanation_path E outline_path) ->
                files w' !! p = files w !! p)
  /\ (exists req, calls w' = calls w ++ [req]
                  /\ req_label req = str "Generating explanation").
Proof.
  intros Hrun Hname.
  destruct (module_generate_cases E file__ outline_path w)
    as [(f & w1 & Hfail & _) | (outline & prompt & text & _ & _ & _ & _ & Hok)].
  { rewrite Hfail in Hrun. discriminate. }
  cbv zeta in Hok. destruct Hok as [_ Hok].
  rewrite Hok in Hrun. apply write_text_ok_inv in Hrun. destruct Hrun as [_ ->].
  cbn [files calls].
  split; [| split].
  - eexists. split; [apply lookup_insert_eq |].
    split; [apply generated_artifact_nonblank |].
    apply generated_explanation_source; [apply strftime_one_line | exact Hname].
  - intros p Hp. apply lookup_insert_ne. congruence.
  - eexists. split; reflexivity.
Qed.

Lemma generated_explanation_names_its_outline_witness :
  let E := Mock.env_of (Mock.always (str "Body.")) in
  let w' := snd (Explainer.module_generate E (str "/work/src/explainer.py")
                   MockRun.outline_txt (Mock.world_of MockRun.outline_files)) in
  exists content,
    files w' !! resolve E (Explainer.derive_explanation_path E MockRun.outline_txt)
    = Some content
    /\ loaded content <> []
    /\ source_reference (loaded content) = Some (strip (str "outline.txt")).
Proof.
  cbv zeta.
  assert (Hrun : fst (Explainer.module_generate (Mock.env_of (Mock.always (str "Body.")))
                        (str "/work/src/explainer.py") MockRun.outline_txt
                        (Mock.world_of MockRun.outline_files)) = Ok tt)
    by (vm_compute; reflexivity).
  refine (proj1 (generated_explanation_names_its_outline
                   (Mock.env_of (Mock.always (str "Body.")))
                   (str "/work/src/explainer.py") MockRun.outline_txt
                   (Mock.world_of MockRun.outline_files) _ _ eq_refl)).
  rewrite <- Hrun. apply surjective_pairing.
Defined.
(* ===================================================================== *)
(** ** Every outcome of the revision stage and of an iteration *)
(* ===================================================================== *)

(** How the revision started by the controller ends: with status 1
    before it writes, or by writing the explanation after its backend
    call; a write that fails leaves the explanation empty, and the
    controller sees status 1. *)
Lemma call_explainer_revise_effect (E : env)
    (file__ explanation_path critique_path : pystr) (w : world) :
  (exists w',
      Critic.call_explainer_revise E file__ explanation_path critique_path w
      = (Fail (SysExit 1), w')
      /\ files w' = files w
      /\ (calls w' = calls w
          \/ exists req, calls w' = calls w ++ [req]
                         /\ req_label req = str "Applying critique"))
  \/ (exists explanation revised source_name req,
        files w !! resolve E explanation_path = Some explanation
        /\ loaded explanation <> []
        /\ Explainer.scan_source (splitlines (loaded explanation))
             (Path.basename explanation_path) = inr source_name
        /\ assemble E (backend E (calls w) req) = Ok revised
        /\ req_label req = str "Applying critique"
        /\ let text := Explainer.updated_header (strftime (clock E (ticks w)))
                         source_name (Path.basename critique_path) ++ revised in
           Critic.call_explainer_revise E file__ explanation_path critique_path w
           = (if encodable text then Ok tt else Fail (SysExit 1),
              {| files := <[resolve E explanation_path := written text]> (files w);
                 calls := calls w ++ [req];
                 ticks := S (ticks w) |})).
Proof.
  unfold Critic.call_explainer_revise. rewrite bind_run. unfold path_exists.
  destruct (bool_decide _); cbn [negb].
  - unfold Explainer.main. rewrite lower_revise.
    change (str_eqb (str "revise") (str "generate")) with false.
    change (str_eqb (str "revise") (str "revise")) with true.
    cbn iota.
    destruct (module_revise_effect E (Critic.explainer_py E file__) explanation_path
                critique_path w)
      as [(f & w1 & -> & Hcode & Hfiles & Hcalls)
         | (explanation & revised & source_name & req & He & Hle & Hscan & Hrev
            & Hlabel & ->)].
    + rewrite Hcode. cbn. left. eexists. split; [reflexivity |]. split; assumption.
    + right. exists explanation, revised, source_name, req.
      split; [exact He |]. split; [exact Hle |]. split; [exact Hscan |].
      split; [exact Hrev |]. split; [exact Hlabel |].
      cbv zeta. unfold write_text, written.
      destruct (encodable _); reflexivity.
  - left. eexists. split; [reflexivity |]. split; [reflexivity | left; reflexivity].
Qed.

Lemma controller_touched_refl (E : env) (explanation_path : pystr) (w w1 : world) :
  files w1 = files w -> controller_touched E explanation_path w w1.
Proof. intros H. split; [intros; rewrite H; reflexivity | left; rewrite H; reflexivity]. Qed.

Lemma controller_touched_delete (E : env) (explanation_path : pystr) (w w1 : world) :
  files w1 = delete (resolve E (Critic.critique_path_of E explanation_path)) (files w) ->
  controller_touched E explanation_path w w1.
Proof.
  intros H. split; [| intros Hne; left]; rewrite H; intros;
    rewrite lookup_delete_ne by congruence; reflexivity.
Qed.

Lemma controller_touched_critique (E : env) (explanation_path text : pystr)
    (w w1 : world) :
  files w1
  = <[resolve E (Critic.critique_path_of E explanation_path) := text]> (files w) ->
  controller_touched E explanation_path w w1.
Proof.
  intros H. split; [| intros Hne; left]; rewrite H; intros;
    rewrite lookup_insert_ne by congruence; reflexivity.
Qed.

Ltac stopped_with new :=
  match goal with
  | |- exists w1 _, _ /\ _ /\ ((?T = w1 /\ _) \/ _) => exists T, new
  end.

Section Iteration.
Context (E : env) (file__ explanation_path : pystr).
Let cpath := Critic.critique_path_of E explanation_path.

(** Every way one iteration of the controller can go. *)
Lemma iteration_outcomes (system_prompt filename : pystr) (iteration : nat)
    (later : list nat) (previous_critique : pystr) (w w' : world)
    (r : result Critic.terminal) :
  Critic.main_loop E file__ explanation_path system_prompt filename
    (iteration :: later) previous_critique w = (r, w') ->
  exists w1 new,
    calls w1 = calls w ++ new
    /\ controller_touched E explanation_path w w1
    /\ ((w' = w1
         /\ ((exists f, r = Fail f /\ exit_code f = 1%Z)
             \/ (r = Ok (Critic.Approved iteration)
                 /\ map req_label new = [Critic.review_label iteration]
                 /\ forall p, p <> resolve E cpath -> files w1 !! p = files w !! p)))
        \/ (exists critique,
              Critic.main_loop E file__ explanation_path system_prompt filename
                later critique w1 = (r, w')
              /\ map req_label new
                 = [Critic.review_label iteration; str "Applying critique"])).
Proof.
  cbn [Critic.main_loop]. rewrite bind_run.
  destruct (load_file_cases E explanation_path w)
    as [(explanation & He & Hle & ->) | ->].
  2:{ intros [= <- <-]. exists w, []. rewrite app_nil_r.
      split; [reflexivity |]. split; [apply controller_touched_refl; reflexivity |].
      left. split; [reflexivity |]. left. eexists. split; reflexivity. }
  rewrite bind_run.
  unfold Critic.generate_critique, Critic.query_ollama, query_backend.
  set (req1 := {| req_model := Critic.MODEL_NAME; req_system := system_prompt;
                  req_user := Critic.critique_message (loaded explanation) filename
                                iteration previous_critique;
                  req_label := Critic.review_label iteration |}).
  destruct (assemble E (backend E (calls w) req1)) as [critique|f] eqn:Hcrit.
  2:{ intros [= <- <-]. exists (with_call w req1), [req1].
      split; [reflexivity |]. split; [apply controller_touched_refl; reflexivity |].
      left. split; [reflexivity |]. left. exists f.
      split; [reflexivity | exact (assemble_exit_code _ _ _ Hcrit)]. }
  destruct (Critic.is_approved critique) eqn:Happ.
  - rewrite bind_run. unfold path_exists. fold cpath.
    cbn [with_call files calls ticks].
    rewrite bind_run.
    destruct (bool_decide (is_Some (files w !! resolve E cpath))).
    + unfold remove, ret. cbn [files calls ticks]. intros [= <- <-].
      stopped_with [req1]. split; [reflexivity |]. split.
      * apply controller_touched_delete. reflexivity.
      * left. split; [reflexivity |]. right.
        split; [reflexivity |]. split; [reflexivity |].
        intros p Hp. cbn [files]. apply lookup_delete_ne.
        intros Heq. apply Hp. symmetry. exact Heq.
    + unfold ret. intros [= <- <-].
      stopped_with [req1]. split; [reflexivity |].
      split; [apply controller_touched_refl; reflexivity |].
      left. split; [reflexivity |]. right.
      split; [reflexivity |]. split; [reflexivity |]. intros; reflexivity.
  - rewrite bind_run. unfold Critic.save_critique.
    rewrite bind_run. unfold now_stamp.
    rewrite bind_run. cbn [with_call files calls ticks].
    fold cpath.
    set (saved := Critic.critique_header iteration (strftime (clock E (ticks w)))
                  ++ critique).
    unfold write_text. destruct (encodable saved); cbn [files calls ticks].
    2:{ intros [= <- <-].
        stopped_with [req1]. split; [reflexivity |].
        split; [apply (controller_touched_critique E explanation_path []);
                reflexivity |].
        left. split; [reflexivity |]. left. eexists. split; reflexivity. }
    unfold ret.
    set (w2 := {| files := <[resolve E cpath := saved]> (files w);
                  calls := calls w ++ [req1]; ticks := S (ticks w) |}).
    rewrite bind_run.
    destruct (call_explainer_revise_effect E file__ explanation_path cpath w2)
      as [(w3 & -> & Hfiles & Hcalls)
         | (explanation2 & revised & source_name & req2 & He2 & Hle2 & Hscan
            & Hrevised & Hlabel & Hrevise)].
    + intros [= <- <-].
      assert (Htouched : controller_touched E explanation_path w w3)
        by (apply (controller_touched_critique E explanation_path saved);
            exact Hfiles).
      destruct Hcalls as [Hcalls | (req2 & Hcalls & _)].
      * exists w3, [req1]. split; [rewrite Hcalls; reflexivity |].
        split; [exact Htouched |]. left. split; [reflexivity |]. left.
        eexists. split; reflexivity.
      * exists w3, [req1; req2].
        split; [rewrite Hcalls; cbn [calls w2]; rewrite <- app_assoc; reflexivity |].
        split; [exact Htouched |]. left. split; [reflexivity |]. left.
        eexists. split; reflexivity.
    + cbv zeta in Hrevise.
      assert (Hname := basename_critique_path E explanation_path).
      fold cpath in Hname. rewrite Hname in Hrevise. rewrite Hrevise.
      set (text := Explainer.updated_header (strftime (clock E (ticks w2)))
                     source_name (str "active_critique.txt") ++ revised).
      set (w3 := {| files := <[resolve E explanation_path := written text]> (files w2);
                    calls := calls w2 ++ [req2]; ticks := S (ticks w2) |}).
      assert (Hcalls3 : calls w3 = calls w ++ [req1; req2])
        by (cbn [calls w3 w2]; rewrite <- app_assoc; reflexivity).
      assert (Htouched : controller_touched E explanation_path w w3).
      { split; cbn [files w3 w2].
        - intros p Hp1 Hp2.
          rewrite lookup_insert_ne by (intros Heq; apply Hp2; symmetry; exact Heq).
          apply lookup_insert_ne. intros Heq; apply Hp1; symmetry; exact Heq.
        - intros Hne. right.
          exists explanation2, (clock E (ticks w2)), source_name, revised,
            (calls w2), req2.
          cbn [files w2] in He2.
          rewrite lookup_insert_ne in He2
            by (intros Heq; apply Hne; symmetry; exact Heq).
          split; [exact He2 |]. split; [exact Hle2 |]. split; [exact Hscan |].
          split; [exact Hrevised |]. apply lookup_insert_eq. }
      destruct (encodable text).
      * intros Hrest. exists w3, [req1; req2].
        split; [exact Hcalls3 |]. split; [exact Htouched |].
        right. exists critique. split; [exact Hrest |].
        cbn [map]. rewrite Hlabel. reflexivity.
      * intros [= <- <-]. exists w3, [req1; req2].
        split; [exact Hcalls3 |]. split; [exact Htouched |].
        left. split; [reflexivity |]. left. eexists. split; reflexivity.
Qed.

End Iteration.
(* ===================================================================== *)
(** ** What every run of the controller preserves *)
(* ===================================================================== *)

Lemma source_reference_nonblank (text source : pystr) :
  source_reference text = Some source -> text <> [].
Proof. intros H ->. discriminate. Qed.

Section Preserved.
Context (E : env) (file__ explanation_path : pystr).
Context (source : pystr).
Hypothesis slots_differ :
  resolve E explanation_path
  <> resolve E (Critic.critique_path_of E explanation_path).
Hypothesis backend_wellformed : wellformed_answers E.

Lemma touched_keeps_source (w w1 : world) (content : pystr) :
  controller_touched E explanation_path w w1 ->
  files w !! resolve E explanation_path = Some content ->
  source_reference (loaded content) = Some source ->
  encodable content = true ->
  exists content1,
    files w1 !! resolve E explanation_path = Some content1
    /\ source_reference (loaded content1) = Some source
    /\ encodable content1 = true.
Proof.
  intros [_ Hexp] Hc Hsource Henc.
  destruct (Hexp slots_differ)
    as [Hsame | (explanation & stamp & source_name & revised & history & req
                 & He & _ & Hscan & Hrevised & Hnew)].
  - exists content. rewrite Hsame. repeat split; assumption.
  - rewrite Hc in He. injection He as <-.
    destruct (source_reference_scan (loaded content) source
                (Path.basename explanation_path) Hsource)
      as (Hscan' & Hline & Hstrip).
    rewrite Hscan' in Hscan. injection Hscan as <-.
    assert (Hsource_enc : encodable source = true).
    { destruct (source_reference_scan (loaded content) source [] Hsource)
        as (Hscan0 & _).
      exact (scan_source_encodable (loaded content) [] source
               (encodable_loaded _ Henc) eq_refl Hscan0). }
    assert (Htext : encodable (Explainer.updated_header (strftime stamp) source
                                 (str "active_critique.txt") ++ revised) = true).
    { apply encodable_revised; [exact Hsource_enc | reflexivity |].
      exact (backend_wellformed _ _ _ Hrevised). }
    unfold written in Hnew. rewrite Htext in Hnew.
    eexists. split; [exact Hnew |]. split; [| exact Htext].
    apply revised_explanation_source; [apply strftime_one_line | assumption ..].
Qed.

Lemma main_loop_keeps_source (system_prompt filename : pystr) (iterations : list nat) :
  forall (previous_critique : pystr) (w w' : world) (r : result Critic.terminal)
         (content : pystr),
    Critic.main_loop E file__ explanation_path system_prompt filename
      iterations previous_critique w = (r, w') ->
    files w !! resolve E explanation_path = Some content ->
    source_reference (loaded content) = Some source ->
    encodable content = true ->
    (exists content',
        files w' !! resolve E explanation_path = Some content'
        /\ source_reference (loaded content') = Some source
        /\ encodable content' = true)
    /\ (forall p,
          p <> resolve E (Critic.critique_path_of E explanation_path) ->
          p <> resolve E explanation_path ->
          files w' !! p = files w !! p).
Proof.
  induction iterations as [|iteration later IH];
    intros previous_critique w w' r content Hrun Hc Hsource Henc.
  - cbn in Hrun. injection Hrun as _ <-. split; [eauto | reflexivity].
  - destruct (iteration_outcomes E file__ explanation_path system_prompt filename
                iteration later previous_critique w w' r Hrun)
      as (w1 & new & _ & Htouched & Hnext).
    destruct (touched_keeps_source w w1 content Htouched Hc Hsource Henc)
      as (content1 & Hc1 & Hsource1 & Henc1).
    destruct Hnext as [[-> _] | (critique & Hrest & _)].
    + split; [eauto | exact (proj1 Htouched)].
    + destruct (IH critique w1 w' r content1 Hrest Hc1 Hsource1 Henc1)
        as [Hkept Hframe].
      split; [exact Hkept |].
      intros p Hp1 Hp2. rewrite (Hframe p Hp1 Hp2).
      exact (proj1 Htouched p Hp1 Hp2).
Qed.

End Preserved.

Lemma main_capped_keeps_source (E : env) (file__ : pystr) (cap : nat)
    (explanation_path : pystr) (more_args : list pystr) (w w' : world)
    (r : result Critic.terminal) (original source : pystr) :
  Critic.main_capped E file__ cap (explanation_path :: more_args) w = (r, w') ->
  resolve E explanation_path <> resolve E (Critic.critique_path_of E explanation_path) ->
  files w !! resolve E explanation_path = Some original ->
  source_reference (loaded original) = Some source ->
  wellformed_answers E ->
  encodable original = true ->
  (exists content,
      files w' !! resolve E explanation_path = Some content
      /\ loaded content <> []
      /\ source_reference (loaded content) = Some source
      /\ encodable content = true)
  /\ (forall p,
        p <> resolve E (Critic.critique_path_of E explanation_path) ->
        p <> resolve E explanation_path ->
        files w' !! p = files w !! p).
Proof.
  intros Hrun Hne Ho Hsource Hback Henc.
  assert (Hgoal :
            (exists content,
                files w' !! resolve E explanation_path = Some content
                /\ source_reference (loaded content) = Some source
                /\ encodable content = true)
            /\ (forall p,
                  p <> resolve E (Critic.critique_path_of E explanation_path) ->
                  p <> resolve E explanation_path ->
                  files w' !! p = files w !! p)).
  { unfold Critic.main_capped in Hrun. rewrite bind_run in Hrun.
    unfold path_exists in Hrun.
    destruct (bool_decide (is_Some (files w !! resolve E explanation_path)));
      cbn [negb] in Hrun.
    2:{ injection Hrun as _ <-. split; [eauto | reflexivity]. }
    rewrite bind_run in Hrun. unfold Critic.load_system_prompt in Hrun.
    destruct (load_file_cases E (prompt_path E file__ Critic.CRITIC_PROMPT_FILE) w)
      as [(prompt & _ & _ & Hload) | Hload]; rewrite Hload in Hrun.
    2:{ injection Hrun as _ <-. split; [eauto | reflexivity]. }
    exact (main_loop_keeps_source E file__ explanation_path source Hne Hback
             _ _ _ _ _ _ _ original Hrun Ho Hsource Henc). }
  destruct Hgoal as [(content & Hc & Hs & He) Hframe].
  split; [| exact Hframe].
  exists content. split; [exact Hc |].
  split; [exact (source_reference_nonblank _ _ Hs) |]. split; [exact Hs | exact He].
Qed.

(** X10. With a backend whose answers hold no lone surrogate, and an
    explanation that holds none, however a run of the controller ends,
    by approval, at the cap or by a failure in the middle, it leaves an
    explanation that still names the source outline the explanation
    named at the start, and it leaves every file other than the
    explanation and the critique slot, [active_critique.txt] in the
    directory of the explanation, as it was (the explanation not being
    the critique slot itself). *)
Theorem controller_keeps_source_reference (E : env) (file__ : pystr) (cap : nat)
    (explanation_path : pystr) (more_args : list pystr) (w w' : world)
    (r : result Critic.terminal) (original source : pystr) :
  let slot := Path.join (Path.dirname (Path.abspath (cwd E) explanation_path))
                [str "active_critique.txt"] in
  Critic.main_capped E file__ cap (explanation_path :: more_args) w = (r, w') ->
  resolve E explanation_path <> resolve E slot ->
  files w !! resolve E explanation_path = Some original ->
  source_reference (loaded original) = Some source ->
  wellformed_answers E ->
  encodable original = true ->
  (exists content,
      files w' !! resolve E explanation_path = Some content
      /\ loaded content <> []
      /\ source_reference (loaded content) = Some source)
  /\ (forall p,
        p <> resolve E slot ->
        p <> resolve E explanation_path ->
        files w' !! p = files w !! p).
Proof.
  cbv zeta. intros Hrun Hne Ho Hsource Hback Henc.
  destruct (main_capped_keeps_source E file__ cap explanation_path more_args w w' r
              original source Hrun Hne Ho Hsource Hback Henc)
    as [(content & Hc & Hl & Hs & _) Hframe].
  split; [exists content; auto | exact Hframe].
Qed.

Lemma controller_keeps_source_reference_witness :
  let E := Mock.env_of (Mock.always (str "Still wrong.")) in
  let w := Mock.world_of Mock.project_files in
  exists content,
    files (snd (Critic.main_capped E Mock.critic_py 2 [Mock.explanation_txt] w))
      !! resolve E Mock.explanation_txt = Some content
    /\ loaded content <> []
    /\ source_reference (loaded content) = Some (str "outline.txt").
Proof.
  cbv zeta.
  refine (proj1 (controller_keeps_source_reference
                   (Mock.env_of (Mock.always (str "Still wrong."))) Mock.critic_py 2
                   Mock.explanation_txt [] (Mock.world_of Mock.project_files) _ _
                   (Explainer.generated_header (strftime Mock.noon) (str "outline.txt")
                    ++ str "Body.")
                   (str "outline.txt") (surjective_pairing _) _ _ _ _ _)).
  - vm_compute. discriminate.
  - vm_compute. reflexivity.
  - vm_compute. reflexivity.
  - intros history req text Htext. vm_compute in Htext.
    injection Htext as <-. reflexivity.
  - vm_compute. reflexivity.
Defined.
(* ===================================================================== *)
(** ** The calls of an approved run *)
(* ===================================================================== *)

Lemma seq_split (before after : list nat) (i : nat) :
  forall start len,
    seq start len = before ++ i :: after ->
    i = (start + length before)%nat /\ before = seq start (length before).
Proof.
  induction before as [|b before IH]; intros start len H.
  - destruct len as [|len]; [discriminate |].
    cbn in H. injection H as <- _. split; [cbn; lia | reflexivity].
  - destruct len as [|len]; [discriminate |].
    cbn in H. injection H as <- H.
    destruct (IH _ _ H) as [-> Hbefore].
    split; [cbn; lia |]. cbn. rewrite <- Hbefore. reflexivity.
Qed.

Lemma review_label_is_review (iteration : nat) (req : request) :
  req_label req = Critic.review_label iteration ->
  is_review_call req = true /\ is_revision_call req = false.
Proof.
  intros H. unfold is_review_call, is_revision_call. rewrite H.
  unfold Critic.review_label. split; [apply startswith_app | reflexivity].
Qed.

Section ApprovedRun.
Context (E : env) (file__ explanation_path : pystr).

Lemma main_loop_approved_calls (system_prompt filename : pystr)
    (iterations : list nat) :
  forall (previous_critique : pystr) (w w' : world) (iteration : nat),
    Critic.main_loop E file__ explanation_path system_prompt filename
      iterations previous_critique w = (Ok (Critic.Approved iteration), w') ->
    exists before after new,
      iterations = before ++ iteration :: after
      /\ calls w' = calls w ++ new
      /\ map req_label new
         = critique_then_revise before ++ [Critic.review_label iteration]
      /\ (before = [] ->
          forall p, p <> resolve E (Critic.critique_path_of E explanation_path) ->
                    files w' !! p = files w !! p).
Proof.
  induction iterations as [|first later IH];
    intros previous_critique w w' iteration Hrun.
  - cbn in Hrun. discriminate.
  - destruct (iteration_outcomes E file__ explanation_path system_prompt filename
                first later previous_critique w w' _ Hrun)
      as (w1 & new & Hcalls & _ & Hnext).
    destruct Hnext as [[-> [(f & Hf & _) | (Hr & Hlabels & Hframe)]]
                      | (critique & Hrest & Hlabels)].
    + discriminate.
    + injection Hr as ->. exists [], later, new.
      split; [reflexivity |]. split; [exact Hcalls |].
      split; [exact Hlabels |]. intros _. exact Hframe.
    + destruct (IH critique w1 w' iteration Hrest)
        as (before & after & new' & -> & Hcalls' & Hlabels' & _).
      exists (first :: before), after, (new ++ new').
      split; [reflexivity |].
      split; [rewrite Hcalls', Hcalls, <- app_assoc; reflexivity |].
      split; [| discriminate].
      rewrite map_app, Hlabels, Hlabels'. reflexivity.
Qed.

End ApprovedRun.

(** X11. A run of the controller that ends by approval at iteration
    [i] has made exactly [i] critique calls and [i - 1] revision calls,
    in turn: a critique and a revision for each of the iterations
    [1 .. i-1], then the approving critique; when the first critique
    approves, no file other than the critique slot is changed. *)
Theorem approved_run_calls (E : env) (file__ : pystr) (cap : nat)
    (explanation_path : pystr) (more_args : list pystr) (w w' : world)
    (iteration : nat) :
  Critic.main_capped E file__ cap (explanation_path :: more_args) w
  = (Ok (Critic.Approved iteration), w') ->
  exists new,
    calls w' = calls w ++ new
    /\ map req_label new
       = critique_then_revise (seq 1 (iteration - 1))
         ++ [Critic.review_label iteration]
    /\ length (List.filter is_review_call new) = iteration
    /\ length (List.filter is_revision_call new) = (iteration - 1)%nat
    /\ (iteration = 1%nat ->
        forall p, p <> resolve E (Critic.critique_path_of E explanation_path) ->
                  files w' !! p = files w !! p).
Proof.
  intros Hrun. unfold Critic.main_capped in Hrun.
  apply bind_ok_inv in Hrun as (present & w0 & Hpresent & Hrun).
  unfold path_exists in Hpresent. injection Hpresent as _ <-.
  destruct (negb present); [discriminate |].
  apply bind_ok_inv in Hrun as (system_prompt & w1 & Hprompt & Hrun).
  unfold Critic.load_system_prompt in Hprompt.
  rewrite load_file_run in Hprompt. injection Hprompt as _ <-.
  destruct (main_loop_approved_calls E file__ explanation_path _ _ _ _ _ _ _ Hrun)
    as (before & after & new & Hseq & Hcalls & Hlabels & Hframe).
  destruct (seq_split before after iteration 1 cap Hseq) as [Hi Hbefore].
  assert (Hlen : length before = (iteration - 1)%nat) by lia.
  rewrite Hlen in Hbefore.
  exists new. split; [exact Hcalls |].
  split; [rewrite <- Hbefore; exact Hlabels |].
  apply map_eq_app in Hlabels as (new1 & new2 & -> & Hlabels1 & Hlabels2).
  destruct new2 as [|last [|]]; try discriminate.
  injection Hlabels2 as Hlast.
  destruct (review_label_is_review iteration last Hlast) as [Hreview Hrevision].
  destruct (count_stage_calls before new1 Hlabels1) as [Hcount1 Hcount2].
  rewrite !List.filter_app, !length_app, Hcount1, Hcount2.
  cbn [List.filter]. rewrite Hreview, Hrevision. cbn [length].
  split; [lia |]. split; [lia |].
  intros Hone. apply Hframe. destruct before; [reflexivity | cbn in Hlen; lia].
Qed.

Lemma approved_run_calls_witness :
  let E := Mock.env_of MockBackend.approves_second in
  let w := Mock.world_of Mock.project_files in
  exists new,
    calls (snd (Critic.main E Mock.critic_py [Mock.explanation_txt] w))
    = calls w ++ new
    /\ map req_label new
       = [Critic.review_label 1; str "Applying critique"; Critic.review_label 2]
    /\ length (List.filter is_review_call new) = 2%nat
    /\ length (List.filter is_revision_call new) = 1%nat.
Proof.
  cbv zeta.
  assert (Hrun : fst (Critic.main_capped (Mock.env_of MockBackend.approves_second)
                        Mock.critic_py Critic.MAX_ITERATIONS [Mock.explanation_txt]
                        (Mock.world_of Mock.project_files))
                 = Ok (Critic.Approved 2))
    by (vm_compute; reflexivity).
  destruct (approved_run_calls (Mock.env_of MockBackend.approves_second)
              Mock.critic_py Critic.MAX_ITERATIONS Mock.explanation_txt []
              (Mock.world_of Mock.project_files)
              (snd (Critic.main_capped (Mock.env_of MockBackend.approves_second)
                      Mock.critic_py Critic.MAX_ITERATIONS [Mock.explanation_txt]
                      (Mock.world_of Mock.project_files)))
              2)
    as (new & Hcalls & Hlabels & Hreviews & Hrevisions & _).
  { rewrite <- Hrun. apply surjective_pairing. }
  exists new. split; [exact Hcalls |]. split; [exact Hlabels |].
  split; assumption.
Defined.
(* ===================================================================== *)
(** ** Missing inputs *)
(* ===================================================================== *)

Lemma load_file_blank (E : env) (filepath : pystr) (w : world) :
  ~ nonblank_at E w filepath -> load_file E filepath w = (Fail (SysExit 1), w).
Proof.
  intros Hblank.
  destruct (load_file_cases E filepath w) as [(content & Hc & Hl & _) | H];
    [| exact H].
  exfalso. apply Hblank. exists content. split; assumption.
Qed.

Lemma load_file_outcome (E : env) (filepath : pystr) (w : world) :
  exists r, load_file E filepath w = (r, w).
Proof. rewrite load_file_run. eauto. Qed.

Lemma lower_generate (U : unicode_db) : lower U (str "generate") = str "generate".
Proof. reflexivity. Qed.

(** X12. The explainer stops with status 1, before any backend call,
    clock reading or write, when an input is missing or blank: the
    outline or the explainer prompt for the generation stage; the
    explanation, the critique or the reviser prompt for the revision
    stage; and when the command line names no mode, an unknown mode, or
    a mode without its paths. *)
Theorem explainer_needs_its_inputs (E : env) (file__ : pystr) (w : world) :
  (forall outline_path,
      ~ nonblank_at E w outline_path
      \/ ~ nonblank_at E w (prompt_path E file__ Explainer.EXPLAINER_PROMPT_FILE) ->
      Explainer.module_generate E file__ outline_path w = (Fail (SysExit 1), w))
  /\ (forall explanation_path critique_path,
        ~ nonblank_at E w explanation_path
        \/ ~ nonblank_at E w critique_path
        \/ ~ nonblank_at E w (prompt_path E file__ Explainer.REVISER_PROMPT_FILE) ->
        Explainer.module_revise E file__ explanation_path critique_path w
        = (Fail (SysExit 1), w))
  /\ (forall args, (length args <= 1)%nat ->
        Explainer.main E file__ args w = (Fail (SysExit 1), w))
  /\ (forall mode rest,
        lower (unicode E) mode <> str "generate" ->
        lower (unicode E) mode <> str "revise" ->
        Explainer.main E file__ (mode :: rest) w = (Fail (SysExit 1), w))
  /\ (forall explanation_path,
        Explainer.main E file__ [str "revise"; explanation_path] w
        = (Fail (SysExit 1), w)).
Proof.
  split; [| split; [| split; [| split]]].
  - intros outline_path Hblank. unfold Explainer.module_generate.
    rewrite bind_run.
    destruct (load_file_cases E outline_path w) as [(outline & Ho & Hlo & ->) | ->];
      [| reflexivity].
    destruct Hblank as [Hblank | Hblank];
      [exfalso; apply Hblank; exists outline; split; assumption |].
    rewrite bind_run. unfold Explainer.load_system_prompt.
    rewrite (load_file_blank E _ w Hblank). reflexivity.
  - intros explanation_path critique_path Hblank. unfold Explainer.module_revise.
    rewrite bind_run.
    destruct (load_file_cases E explanation_path w)
      as [(explanation & He & Hle & ->) | ->]; [| reflexivity].
    destruct Hblank as [Hblank | Hblank];
      [exfalso; apply Hblank; exists explanation; split; assumption |].
    rewrite bind_run.
    destruct (load_file_cases E critique_path w)
      as [(critique & Hc & Hlc & ->) | ->]; [| reflexivity].
    destruct Hblank as [Hblank | Hblank];
      [exfalso; apply Hblank; exists critique; split; assumption |].
    rewrite bind_run. unfold Explainer.load_system_prompt.
    rewrite (load_file_blank E _ w Hblank). reflexivity.
  - intros [|mode [|second rest]] Hlen; [reflexivity | | cbn in Hlen; lia].
    unfold Explainer.main.
    destruct (str_eqb (lower (unicode E) mode) (str "generate")); [reflexivity |].
    destruct (str_eqb (lower (unicode E) mode) (str "revise")); reflexivity.
  - intros mode rest Hgenerate Hrevise. unfold Explainer.main.
    apply str_eqb_neq in Hgenerate, Hrevise. rewrite Hgenerate, Hrevise.
    reflexivity.
  - intros explanation_path. unfold Explainer.main. rewrite lower_revise.
    reflexivity.
Qed.

Lemma explainer_needs_its_inputs_witness :
  Explainer.main Mock.quiet (str "/work/src/explainer.py")
    [str "generate"; str "outputs/x/outline.txt"] (Mock.world_of Mock.project_files)
  = (Fail (SysExit 1), Mock.world_of Mock.project_files)
  /\ Explainer.main Mock.quiet (str "/work/src/explainer.py")
       [str "Critique"; str "outputs/x/explanation.txt"]
       (Mock.world_of Mock.project_files)
     = (Fail (SysExit 1), Mock.world_of Mock.project_files).
Proof.
  split.
  - apply (proj1 (explainer_needs_its_inputs Mock.quiet (str "/work/src/explainer.py")
                    (Mock.world_of Mock.project_files))).
    left. intros (content & Hc & _). vm_compute in Hc. discriminate.
  - apply (proj1 (proj2 (proj2 (proj2
             (explainer_needs_its_inputs Mock.quiet (str "/work/src/explainer.py")
                (Mock.world_of Mock.project_files)))))).
    + vm_compute. discriminate.
    + vm_compute. discriminate.
Defined.

(** X13. The controller stops with status 1, before any backend call,
    clock reading or write, when it is given no path, or when the
    explanation or the critic prompt is missing or blank. *)
Theorem controller_needs_its_inputs (E : env) (file__ : pystr)
    (args : list pystr) (w : world) :
  args = []
  \/ (exists explanation_path more_args,
        args = explanation_path :: more_args
        /\ (~ nonblank_at E w explanation_path
            \/ ~ nonblank_at E w (prompt_path E file__ Critic.CRITIC_PROMPT_FILE))) ->
  Critic.main E file__ args w = (Fail (SysExit 1), w)
  /\ Critic.status (fst (Critic.main E file__ args w)) = 1%Z.
Proof.
  intros Hargs.
  assert (Hrun : Critic.main E file__ args w = (Fail (SysExit 1), w)).
  { destruct Hargs as [-> | (explanation_path & more_args & -> & Hblank)];
      [reflexivity |].
    unfold Critic.main, Critic.main_capped. rewrite bind_run. unfold path_exists.
    destruct (bool_decide (is_Some (files w !! resolve E explanation_path)));
      cbn [negb]; [| reflexivity].
    rewrite bind_run. unfold Critic.load_system_prompt.
    destruct (load_file_cases E (prompt_path E file__ Critic.CRITIC_PROMPT_FILE) w)
      as [(prompt & Hp & Hlp & ->) | ->]; [| reflexivity].
    destruct Hblank as [Hblank | Hblank];
      [| exfalso; apply Hblank; exists prompt; split; assumption].
    change (seq 1 Critic.MAX_ITERATIONS) with (1%nat :: seq 2 3).
    cbn [Critic.main_loop]. rewrite bind_run.
    rewrite (load_file_blank E _ w Hblank). reflexivity. }
  rewrite Hrun. split; reflexivity.
Qed.

Lemma controller_needs_its_inputs_witness :
  Critic.main Mock.quiet Mock.critic_py [str "outputs/y/explanation.txt"]
    (Mock.world_of Mock.project_files)
  = (Fail (SysExit 1), Mock.world_of Mock.project_files).
Proof.
  apply (controller_needs_its_inputs Mock.quiet Mock.critic_py
           [str "outputs/y/explanation.txt"] (Mock.world_of Mock.project_files)).
  right. exists (str "outputs/y/explanation.txt"), []. split; [reflexivity |].
  left. intros (content & Hc & _). vm_compute in Hc. discriminate.
Defined.
(* ===================================================================== *)
(** ** The planner *)
(* ===================================================================== *)

Lemma gather_exit_code (E : env) (r : response) (f : failure) :
  PlannerRun.gather E r = Fail f -> exit_code f = 1%Z.
Proof.
  unfold PlannerRun.gather. destruct r as [|lines ending]; [intros [= <-]; reflexivity |].
  destruct (read_stream (stdout E) lines ending []) as [e|tokens];
    [intros [= <-]; reflexivity |].
  destruct (join_tokens tokens) as [e|text]; [intros [= <-]; reflexivity | discriminate].
Qed.

(** The two adapters on one response: the other scripts return the
    planner's text stripped, and refuse it when nothing is left. *)
Lemma assemble_gather (E : env) (r : response) :
  assemble E r = match PlannerRun.gather E r with
                 | Ok text => match strip text with
                              | [] => Fail (SysExit 1)
                              | result => Ok result
                              end
                 | Fail f => Fail f
                 end.
Proof.
  unfold assemble, PlannerRun.gather. destruct r as [|lines ending]; [reflexivity |].
  destruct (read_stream (stdout E) lines ending []) as [e|tokens]; [reflexivity |].
  destruct (join_tokens tokens) as [e|text]; reflexivity.
Qed.

(** What the planner's adapter returns is, stripped, what the adapter of
    the other scripts returns; with a backend whose answers hold no lone
    surrogate it holds none. *)
Lemma gather_wellformed (E : env) (history : list request) (req : request)
    (text : pystr) :
  wellformed_answers E ->
  PlannerRun.gather E (backend E history req) = Ok text ->
  strip text <> [] ->
  encodable text = true.
Proof.
  intros Hback Htext Hstrip. rewrite <- encodable_strip.
  apply (Hback history req). rewrite assemble_gather, Htext.
  destruct (strip text); [congruence | reflexivity].
Qed.

Lemma outline_artifact_nonblank (topic text : pystr) :
  loaded (PlannerRun.outline_header topic ++ text) <> [].
Proof. apply (loaded_head_nonspace 76). reflexivity. Qed.

Lemma encodable_outline (topic text : pystr) :
  encodable topic = true ->
  encodable text = true ->
  encodable (PlannerRun.outline_header topic ++ text) = true.
Proof.
  intros Htopic Htext. unfold PlannerRun.outline_header.
  repeat rewrite encodable_app.
  rewrite Htopic, Htext, !encodable_str. reflexivity.
Qed.

(** X14. For a response that follows the protocol, the planner's
    adapter prints the token fragments as they arrive: when the standard
    output can encode every fragment it returns their concatenation as
    it is, neither stripped nor refused when blank, and otherwise the
    call ends with the uncaught UnicodeEncodeError of [print]; the
    adapter of the other scripts returns that text stripped. *)
Theorem planner_query_returns_the_concatenation (E : env)
    (system_prompt user_message : pystr) (w : world)
    (lines : list response_line) (ending : stream_end) :
  let req := {| req_model := PlannerRun.MODEL_NAME; req_system := system_prompt;
                req_user := user_message;
                req_label := str "Generating outline" |} in
  backend E (calls w) req = Stream lines ending ->
  follows_protocol lines = true ->
  ending = EndOfStream \/ reaches_done lines = true ->
  PlannerRun.query_ollama E system_prompt user_message w
  = (if printable_fragments E lines
     then Ok (tokens_until_done lines)
     else Fail (Uncaught UnicodeEncodeError),
     with_call w req)
  /\ assemble E (Stream lines ending)
     = if printable_fragments E lines
       then match strip (tokens_until_done lines) with
            | [] => Fail (SysExit 1)
            | result => Ok result
            end
       else Fail (Uncaught UnicodeEncodeError).
Proof.
  intros req Hresponse Hprotocol Hending.
  split; [| apply assemble_protocol; assumption].
  unfold PlannerRun.query_ollama. fold req. rewrite Hresponse.
  unfold PlannerRun.gather.
  destruct (printable_fragments E lines) eqn:Hout.
  - destruct (read_stream_protocol E lines ending [] [] Hprotocol Hending Hout eq_refl)
      as (tokens & -> & Hjoin).
    rewrite Hjoin. reflexivity.
  - rewrite (read_stream_unprintable E lines ending [] Hprotocol Hout). reflexivity.
Qed.

Lemma planner_query_returns_the_concatenation_witness :
  fst (PlannerRun.query_ollama (Mock.env_of (Mock.always (str " hi ")))
         (str "sys") (str "user") (Mock.world_of []))
  = Ok (str " hi ")
  /\ fst (PlannerRun.query_ollama (Mock.env_of (Mock.always Mock.lone_surrogate))
            (str "sys") (str "user") (Mock.world_of []))
     = Fail (Uncaught UnicodeEncodeError).
Proof.
  split.
  - rewrite (proj1 (planner_query_returns_the_concatenation
                      (Mock.env_of (Mock.always (str " hi "))) (str "sys") (str "user")
                      (Mock.world_of []) [Mock.final_chunk (str " hi ")] EndOfStream
                      eq_refl eq_refl (or_introl eq_refl))).
    reflexivity.
  - rewrite (proj1 (planner_query_returns_the_concatenation
                      (Mock.env_of (Mock.always Mock.lone_surrogate))
                      (str "sys") (str "user") (Mock.world_of [])
                      [Mock.final_chunk Mock.lone_surrogate] EndOfStream
                      eq_refl eq_refl (or_introl eq_refl))).
    reflexivity.
Defined.

Section PlannerMain.
Context (E : env) (file__ : pystr).

(** How a run of the planner ends: with status 1 before it writes, or
    by writing the outline after its backend call. *)
Lemma planner_main_cases (args : list pystr) (typed : pystr) (w : world) :
  (exists f w',
      PlannerRun.main E file__ args typed w = (Fail f, w')
      /\ exit_code f = 1%Z /\ files w' = files w)
  \/ (exists prompt text,
        PlannerRun.topic_of_run args typed <> []
        /\ files w !! resolve E (prompt_path E file__ PlannerRun.SYSTEM_PROMPT_FILE)
           = Some prompt
        /\ strip text <> []
        /\ let req := {| req_model := PlannerRun.MODEL_NAME;
                         req_system := loaded prompt;
                         req_user :=
                           PlannerRun.build_user_message (PlannerRun.topic_of_run args typed);
                         req_label := str "Generating outline" |} in
           let outline := PlannerRun.outline_header (PlannerRun.topic_of_run args typed)
                          ++ text in
           PlannerRun.gather E (backend E (calls w) req) = Ok text
           /\ PlannerRun.main E file__ args typed w
              = (if encodable outline then Ok tt
                 else Fail (Uncaught UnicodeEncodeError),
                 {| files :=
                      <[resolve E (Planner.outline_file (unicode E) (cwd E) file__
                                     (PlannerRun.topic_of_run args typed)) :=
                          written outline]> (files w);
                    calls := calls w ++ [req];
                    ticks := ticks w |})).
Proof.
  unfold PlannerRun.main. cbv zeta.
  destruct (PlannerRun.topic_of_run args typed) as [|c topic] eqn:Htopic.
  { left. eexists _, _. repeat split. }
  rewrite bind_run. unfold PlannerRun.load_system_prompt.
  rewrite bind_run. unfold path_exists.
  destruct (files w !! resolve E (prompt_path E file__ PlannerRun.SYSTEM_PROMPT_FILE))
    as [prompt|] eqn:Hprompt.
  2:{ left. rewrite bool_decide_eq_false_2 by (intros [? ?]; discriminate).
      eexists _, _. repeat split. }
  rewrite bool_decide_eq_true_2 by eauto. cbn [negb].
  rewrite bind_run. unfold read_text, ret. rewrite Hprompt. cbn [default].
  fold (loaded prompt).
  rewrite bind_run. unfold PlannerRun.query_ollama.
  match goal with
  | |- context [PlannerRun.gather E ?r] =>
      destruct (PlannerRun.gather E r) as [text|f] eqn:Htext
  end.
  2:{ left. eexists _, _. split; [reflexivity |].
      split; [exact (gather_exit_code _ _ _ Htext) | reflexivity]. }
  destruct (strip text) as [|d stripped] eqn:Hstrip.
  { left. eexists _, _. repeat split. }
  right. exists prompt, text.
  split; [discriminate |]. split; [reflexivity |].
  split; [rewrite Hstrip; discriminate |]. cbv zeta.
  split; [exact Htext |].
  rewrite bind_run. unfold PlannerRun.save_outline. rewrite bind_run.
  unfold write_text, written. cbn [with_call files calls ticks].
  destruct (encodable _); reflexivity.
Qed.

End PlannerMain.

(** A failing run of the planner: its status, and what it may have done
    to the files. *)
Lemma planner_failure_cases (E : env) (file__ : pystr)
    (args : list pystr) (typed : pystr) (w : world) :
  (forall f w',
      PlannerRun.main E file__ args typed w = (Fail f, w') ->
      exit_code f = 1%Z
      /\ (files w' = files w
          \/ f = Uncaught UnicodeEncodeError
             /\ files w'
                = <[resolve E (Planner.outline_file (unicode E) (cwd E) file__
                                 (PlannerRun.topic_of_run args typed)) := []]>
                    (files w)))
  /\ (wellformed_answers E ->
      encodable (PlannerRun.topic_of_run args typed) = true ->
      forall f w',
        PlannerRun.main E file__ args typed w = (Fail f, w') -> files w' = files w).
Proof.
  split.
  - intros f w' Hrun.
    destruct (planner_main_cases E file__ args typed w)
      as [(f0 & w0 & Hfail & Hcode & Hfiles) | (prompt & text & _ & _ & _ & Hok)].
    + rewrite Hfail in Hrun. injection Hrun as <- <-. split; [exact Hcode |].
      left. exact Hfiles.
    + cbv zeta in Hok. destruct Hok as [_ Hok]. rewrite Hok in Hrun.
      unfold written in Hrun. destruct (encodable _); [discriminate |].
      injection Hrun as <- <-. split; [reflexivity |]. right. split; reflexivity.
  - intros Hback Htopic f w' Hrun.
    destruct (planner_main_cases E file__ args typed w)
      as [(f0 & w0 & Hfail & Hcode & Hfiles)
         | (prompt & text & _ & _ & Hstrip & Hok)].
    + rewrite Hfail in Hrun. injection Hrun as _ <-. exact Hfiles.
    + cbv zeta in Hok. destruct Hok as [Htext Hok]. rewrite Hok in Hrun.
      rewrite (encodable_outline _ _ Htopic
                 (gather_wellformed E _ _ text Hback Htext Hstrip)) in Hrun.
      discriminate.
Qed.

(** X15. A run of the planner that fails ends with status 1; it has
    written nothing, unless it failed with the UnicodeEncodeError of a
    text that cannot be encoded, which may leave the outline file empty
    and changes no other file. With a topic and a backend whose answers
    hold no lone surrogate, a failing run has written nothing. The run
    fails without a backend call when the topic is blank or the system
    prompt file is missing. *)
Theorem planner_failure_effect (E : env) (file__ : pystr)
    (args : list pystr) (typed : pystr) (w : world) :
  let topic := PlannerRun.topic_of_run args typed in
  let outline_path := Planner.outline_file (unicode E) (cwd E) file__ topic in
  (forall f w',
      PlannerRun.main E file__ args typed w = (Fail f, w') ->
      exit_code f = 1%Z
      /\ (files w' = files w
          \/ f = Uncaught UnicodeEncodeError
             /\ files w' = <[resolve E outline_path := []]> (files w)))
  /\ (wellformed_answers E ->
      encodable topic = true ->
      forall f w',
        PlannerRun.main E file__ args typed w = (Fail f, w') -> files w' = files w)
  /\ (topic = [] ->
      PlannerRun.main E file__ args typed w = (Fail (SysExit 1), w))
  /\ (files w !! resolve E (prompt_path E file__ PlannerRun.SYSTEM_PROMPT_FILE) = None ->
      PlannerRun.main E file__ args typed w = (Fail (SysExit 1), w)).
Proof.
  cbv zeta. split; [| split; [| split]].
  - exact (proj1 (planner_failure_cases E file__ args typed w)).
  - exact (proj2 (planner_failure_cases E file__ args typed w)).
  - intros Htopic. unfold PlannerRun.main. cbv zeta. rewrite Htopic. reflexivity.
  - intros Hprompt. unfold PlannerRun.main. cbv zeta.
    destruct (PlannerRun.topic_of_run args typed); [reflexivity |].
    rewrite bind_run. unfold PlannerRun.load_system_prompt.
    rewrite bind_run. unfold path_exists. rewrite Hprompt.
    rewrite bool_decide_eq_false_2 by (intros [? ?]; discriminate). reflexivity.
Qed.

Lemma planner_failure_effect_witness :
  PlannerRun.main Mock.quiet (str "/work/src/planner.py") [str "  "; str " "] (str "x")
    (Mock.world_of Mock.project_files)
  = (Fail (SysExit 1), Mock.world_of Mock.project_files)
  /\ PlannerRun.main Mock.quiet (str "/work/src/planner.py") [str "x"] []
       (Mock.world_of Mock.project_files)
     = (Fail (SysExit 1), Mock.world_of Mock.project_files).
Proof.
  split.
  - apply (proj1 (proj2 (proj2 (planner_failure_effect Mock.quiet
                                  (str "/work/src/planner.py") [str "  "; str " "]
                                  (str "x") (Mock.world_of Mock.project_files))))).
    reflexivity.
  - apply (proj2 (proj2 (proj2 (planner_failure_effect Mock.quiet
                                  (str "/work/src/planner.py") [str "x"] []
                                  (Mock.world_of Mock.project_files))))).
    vm_compute. reflexivity.
Defined.

(** On a standard output that takes a lone surrogate, the planner goes
    on to write the answer that holds one, and fails after [open] has
    created the outline: the file is left empty. *)
Example planner_leaves_an_empty_outline :
  let run := PlannerRun.main (Mock.lenient (Mock.always Mock.lone_surrogate))
               (str "/work/src/planner.py") [str "x"] []
               (Mock.world_of [(str "/work/prompts/system_prompt.txt", str "Plan.")]) in
  fst run = Fail (Uncaught UnicodeEncodeError)
  /\ files (snd run) !! str "/work/outputs/x/outline.txt" = Some [].
Proof. split; vm_compute; reflexivity. Qed.

(** X16. A successful run of the planner has made one backend call,
    with the topic in the user message, and has written one file: the
    outline of the topic's slug, which holds the header with the topic
    and then the backend's text as it came, and which the generation
    stage will accept as not blank. *)
Theorem planner_success_writes_the_outline (E : env) (file__ : pystr)
    (args : list pystr) (typed : pystr) (w w' : world) :
  PlannerRun.main E file__ args typed w = (Ok tt, w') ->
  let topic := PlannerRun.topic_of_run args typed in
  let outline_path := Planner.outline_file (unicode E) (cwd E) file__ topic in
  topic <> []
  /\ (exists text req,
        PlannerRun.gather E (backend E (calls w) req) = Ok text
        /\ strip text <> []
        /\ req_user req = PlannerRun.build_user_message topic
        /\ calls w' = calls w ++ [req]
        /\ files w' = <[resolve E outline_path :=
                          PlannerRun.outline_header topic ++ text]> (files w))
  /\ nonblank_at E w' outline_path
  /\ (forall p, p <> resolve E outline_path -> files w' !! p = files w !! p).
Proof.
  intros Hrun.
  destruct (planner_main_cases E file__ args typed w)
    as [(f0 & w0 & Hfail & _) | (prompt & text & Htopic & _ & Hstrip & Hok)].
  { rewrite Hfail in Hrun. discriminate. }
  cbv zeta in Hok |- *. destruct Hok as [Htext Hok].
  rewrite Hok in Hrun. unfold written in Hrun.
  destruct (encodable _); [| discriminate].
  injection Hrun as <-. cbn [files calls].
  split; [exact Htopic |]. split; [| split].
  - eexists text, _. split; [exact Htext |]. split; [exact Hstrip |].
    split; [reflexivity |]. split; reflexivity.
  - eexists. split; [apply lookup_insert_eq | apply outline_artifact_nonblank].
  - intros p Hp. apply lookup_insert_ne. congruence.
Qed.

Lemma planner_success_writes_the_outline_witness :
  let E := Mock.env_of (Mock.always (str " I. Introduction (10 min)")) in
  let w := Mock.world_of [(str "/work/prompts/system_prompt.txt", str "Plan.")] in
  files (snd (PlannerRun.main E (str "/work/src/planner.py")
                [str "Graph"; str "Theory"] [] w))
    !! str "/work/outputs/graph-theory/outline.txt"
  = Some (PlannerRun.outline_header (str "Graph Theory")
          ++ str " I. Introduction (10 min)").
Proof.
  cbv zeta.
  assert (Hrun : fst (PlannerRun.main
                        (Mock.env_of (Mock.always (str " I. Introduction (10 min)")))
                        (str "/work/src/planner.py") [str "Graph"; str "Theory"] []
                        (Mock.world_of [(str "/work/prompts/system_prompt.txt",
                                         str "Plan.")]))
                 = Ok tt)
    by (vm_compute; reflexivity).
  destruct (planner_success_writes_the_outline
              (Mock.env_of (Mock.always (str " I. Introduction (10 min)")))
              (str "/work/src/planner.py") [str "Graph"; str "Theory"] []
              (Mock.world_of [(str "/work/prompts/system_prompt.txt", str "Plan.")])
              (snd (PlannerRun.main
                      (Mock.env_of (Mock.always (str " I. Introduction (10 min)")))
                      (str "/work/src/planner.py") [str "Graph"; str "Theory"] []
                      (Mock.world_of [(str "/work/prompts/system_prompt.txt",
                                       str "Plan.")]))))
    as (_ & (text & req & Htext & _ & _ & _ & Hfiles) & _).
  { rewrite <- Hrun. apply surjective_pairing. }
  rewrite Hfiles.
  assert (Hanswer : text = str " I. Introduction (10 min)").
  { vm_compute in Htext. injection Htext as <-. reflexivity. }
  rewrite Hanswer. apply lookup_insert_eq.
Defined.
(* ===================================================================== *)
(** ** The orchestrator *)
(* ===================================================================== *)

Lemma require_scripts_ok (E : env) (paths : list pystr) (w : world) :
  (forall path, In path paths -> is_Some (files w !! resolve E path)) ->
  OrchestratorRun.require_scripts E paths w = (Ok tt, w).
Proof.
  induction paths as [|path rest IH]; intros Hall; [reflexivity |].
  cbn [OrchestratorRun.require_scripts]. rewrite bind_run. unfold path_exists.
  rewrite bool_decide_eq_true_2 by (apply Hall; left; reflexivity).
  cbn [negb]. apply IH. intros p Hp. apply Hall. right. exact Hp.
Qed.

Lemma require_scripts_missing (E : env) (paths : list pystr) (w : world) :
  (exists path, In path paths /\ files w !! resolve E path = None) ->
  OrchestratorRun.require_scripts E paths w = (Fail (SysExit 1), w).
Proof.
  induction paths as [|path rest IH]; intros (missing & Hin & Hnone);
    [destruct Hin |].
  cbn [OrchestratorRun.require_scripts]. rewrite bind_run. unfold path_exists.
  destruct (files w !! resolve E path) as [content|] eqn:Hpath.
  - rewrite bool_decide_eq_true_2 by eauto. cbn [negb]. apply IH.
    exists missing. split; [| exact Hnone].
    destruct Hin as [<- | Hin]; [congruence | exact Hin].
  - rewrite bool_decide_eq_false_2 by (intros [? ?]; discriminate). reflexivity.
Qed.

Lemma require_output_ok (E : env) (path : pystr) (w : world) :
  is_Some (files w !! resolve E path) ->
  OrchestratorRun.require_output E path w = (Ok tt, w).
Proof.
  intros Hsome. unfold OrchestratorRun.require_output. rewrite bind_run.
  unfold path_exists. rewrite bool_decide_eq_true_2 by exact Hsome. reflexivity.
Qed.

Lemma assemble_ok_gather (E : env) (r : response) (answer : pystr) :
  assemble E r = Ok answer ->
  exists text, PlannerRun.gather E r = Ok text /\ strip text <> []
               /\ answer = strip text.
Proof.
  rewrite assemble_gather. destruct (PlannerRun.gather E r) as [text|f]; [| discriminate].
  intros H. exists text. split; [reflexivity |].
  destruct (strip text); [discriminate |]. injection H as <-.
  split; [discriminate | reflexivity].
Qed.

(** [print_file_contents] on a file whose text has no lone surrogate, on
    a standard output that takes such text. *)
Lemma print_file_contents_ok (E : env) (path : pystr) (w : world) (content : pystr) :
  utf8_stdout E ->
  files w !! resolve E path = Some content ->
  encodable content = true ->
  OrchestratorRun.print_file_contents E path w = (Ok tt, w).
Proof.
  intros Hout Hfile Hcontent. unfold OrchestratorRun.print_file_contents.
  rewrite bind_run. unfold path_exists.
  rewrite bool_decide_eq_true_2 by eauto. cbn [negb].
  rewrite bind_run. unfold read_text, py_print. rewrite Hfile. cbn [default from_option].
  unfold id. rewrite Hout; [reflexivity |].
  rewrite encodable_rstrip. apply encodable_universal_newlines, Hcontent.
Qed.

(** A run of the planner whose inputs are there and whose backend
    answers text that can be written. *)
Lemma planner_main_ok (E : env) (file__ : pystr) (args : list pystr)
    (typed : pystr) (w : world) (prompt : pystr) :
  let topic := PlannerRun.topic_of_run args typed in
  topic <> [] ->
  encodable topic = true ->
  files w !! resolve E (prompt_path E file__ PlannerRun.SYSTEM_PROMPT_FILE)
  = Some prompt ->
  (forall req, exists text, assemble E (backend E (calls w) req) = Ok text
                            /\ encodable text = true) ->
  exists text req,
    req_label req = str "Generating outline"
    /\ encodable (PlannerRun.outline_header topic ++ text) = true
    /\ PlannerRun.main E file__ args typed w
       = (Ok tt,
          {| files :=
               <[resolve E (Planner.outline_file (unicode E) (cwd E) file__ topic) :=
                   PlannerRun.outline_header topic ++ text]> (files w);
             calls := calls w ++ [req];
             ticks := ticks w |}).
Proof.
  intros topic Htopic Htopic_enc Hprompt Hanswers.
  destruct (planner_main_cases E file__ args typed w)
    as [(f & w' & Hfail & _) | (prompt' & text & _ & _ & Hstrip & Hok)].
  - exfalso. revert Hfail. unfold PlannerRun.main. cbv zeta. fold topic.
    destruct topic as [|c t]; [contradiction |].
    rewrite bind_run. unfold PlannerRun.load_system_prompt.
    rewrite bind_run. unfold path_exists. rewrite Hprompt.
    rewrite bool_decide_eq_true_2 by eauto. cbn [negb].
    rewrite bind_run. unfold read_text, ret. rewrite Hprompt. cbn [default].
    rewrite bind_run. unfold PlannerRun.query_ollama.
    match goal with
    | |- context [PlannerRun.gather E (backend E (calls w) ?req)] =>
        destruct (Hanswers req) as [answer [Hanswer Hanswer_enc]];
        destruct (assemble_ok_gather _ _ _ Hanswer) as (text & -> & Hstrip & ->)
    end.
    rewrite encodable_strip in Hanswer_enc.
    destruct (strip text); [contradiction |].
    rewrite bind_run. unfold PlannerRun.save_outline. rewrite bind_run.
    rewrite write_text_ok
      by (apply encodable_outline; [exact Htopic_enc | exact Hanswer_enc]).
    discriminate.
  - cbv zeta in Hok. destruct Hok as [Htext Hok]. fold topic in Hok.
    assert (Henc : encodable (PlannerRun.outline_header topic ++ text) = true).
    { apply encodable_outline; [exact Htopic_enc |].
      match type of Htext with
      | PlannerRun.gather E (backend E (calls w) ?req) = _ =>
          destruct (Hanswers req) as [answer [Hanswer Hanswer_enc]];
          destruct (assemble_ok_gather _ _ _ Hanswer) as (text' & Htext' & _ & ->)
      end.
      rewrite Htext in Htext'. injection Htext' as <-.
      rewrite encodable_strip in Hanswer_enc. exact Hanswer_enc. }
    unfold written in Hok. rewrite Henc in Hok.
    eexists text, _. split; [| split; [exact Henc | exact Hok]]. reflexivity.
Qed.

(** A run of the generation stage whose inputs are there and whose
    backend answers text that can be written. *)
Lemma module_generate_ok (E : env) (file__ outline_path : pystr) (w : world) :
  nonblank_at E w outline_path ->
  nonblank_at E w (prompt_path E file__ Explainer.EXPLAINER_PROMPT_FILE) ->
  encodable (Path.basename outline_path) = true ->
  (forall req, exists text, assemble E (backend E (calls w) req) = Ok text
                            /\ encodable text = true) ->
  exists text req,
    req_label req = str "Generating explanation"
    /\ encodable (Explainer.generated_header (strftime (clock E (ticks w)))
                    (Path.basename outline_path) ++ text) = true
    /\ Explainer.module_generate E file__ outline_path w
       = (Ok tt,
          {| files :=
               <[resolve E (Explainer.derive_explanation_path E outline_path) :=
                   Explainer.generated_header (strftime (clock E (ticks w)))
                     (Path.basename outline_path) ++ text]> (files w);
             calls := calls w ++ [req];
             ticks := S (ticks w) |}).
Proof.
  intros (outline & Ho & Hlo) (prompt & Hp & Hlp) Hname Hanswers.
  unfold Explainer.module_generate, Explainer.load_system_prompt, Explainer.query_ollama.
  rewrite bind_run, (load_file_ok E _ w outline Ho Hlo).
  rewrite bind_run, (load_file_ok E _ w prompt Hp Hlp).
  rewrite bind_run. unfold query_backend.
  match goal with
  | |- context [assemble E (backend E (calls w) ?req)] =>
      destruct (Hanswers req) as [text [-> Htext]]; exists text, req
  end.
  assert (Henc : encodable (Explainer.generated_header (strftime (clock E (ticks w)))
                              (Path.basename outline_path) ++ text) = true)
    by (apply encodable_generated; assumption).
  split; [reflexivity |]. split; [exact Henc |].
  rewrite bind_run. unfold now_stamp. cbn [with_call files calls ticks].
  rewrite (write_text_ok E _ _ _ Henc). reflexivity.
Qed.

(** Every failure of the controller has status 1. *)
Lemma main_loop_failure_code (E : env)
    (file__ explanation_path system_prompt filename : pystr) (iterations : list nat) :
  forall (previous_critique : pystr) (w w' : world) (f : failure),
    Critic.main_loop E file__ explanation_path system_prompt filename
      iterations previous_critique w = (Fail f, w') ->
    exit_code f = 1%Z.
Proof.
  induction iterations as [|iteration later IH]; intros previous_critique w w' f Hrun.
  - discriminate.
  - destruct (iteration_outcomes E file__ explanation_path system_prompt filename
                iteration later previous_critique w w' _ Hrun)
      as (w1 & new & _ & _ & Hnext).
    destruct Hnext as [[_ [(f0 & Hf & Hcode) | (Hr & _)]] | (critique & Hrest & _)].
    + injection Hf as ->. exact Hcode.
    + discriminate.
    + exact (IH critique w1 w' f Hrest).
Qed.

Lemma main_capped_failure_code (E : env) (file__ : pystr) (cap : nat)
    (args : list pystr) (w w' : world) (f : failure) :
  Critic.main_capped E file__ cap args w = (Fail f, w') -> exit_code f = 1%Z.
Proof.
  unfold Critic.main_capped. destruct args as [|explanation_path more_args].
  { intros [= <- _]. reflexivity. }
  rewrite bind_run. unfold path_exists.
  destruct (bool_decide _); cbn [negb]; [| intros [= <- _]; reflexivity].
  rewrite bind_run. unfold Critic.load_system_prompt.
  destruct (load_file_cases E (prompt_path E file__ Critic.CRITIC_PROMPT_FILE) w)
    as [(prompt & _ & _ & ->) | ->]; [| intros [= <- _]; reflexivity].
  apply main_loop_failure_code.
Qed.

Lemma match_nonempty {A} (l : pystr) (a b : A) :
  l <> [] -> match l with [] => a | _ :: _ => b end = b.
Proof. destruct l; [contradiction | reflexivity]. Qed.

Section Pipeline.
Context (E : env) (file__ : pystr).
Context (render_pdf : env -> pystr -> pystr -> M unit).
Context (args : list pystr) (typed : pystr).

Let topic : pystr := OrchestratorRun.topic_of_run args typed.
Let child : env := OrchestratorRun.in_directory E (OrchestratorRun.project_root E file__).
Let planner_py := OrchestratorRun.planner_py E file__.
Let explainer_py := OrchestratorRun.explainer_py E file__.
Let critic_py := OrchestratorRun.critic_py E file__.
Let notes_py := OrchestratorRun.notes_py E file__.
Let outline_path := OrchestratorRun.outline_path E file__ topic.
Let explanation_path := OrchestratorRun.explanation_path E file__ topic.
Let notes_path := OrchestratorRun.notes_path E file__ topic.

Hypothesis cwd_absolute : startswith [c_slash] (cwd E) = true.
Hypothesis topic_given : topic <> [].
Hypothesis stdout_utf8 : utf8_stdout E.

Lemma topic_stripped : strip topic = topic.
Proof.
  unfold topic, OrchestratorRun.topic_of_run. destruct args; [apply strip_idempotent |].
  unfold Orchestrator.topic_of. apply strip_idempotent.
Qed.

Lemma planner_writes_the_outline_path :
  Planner.outline_file (unicode child) (cwd child) planner_py
    (Planner.topic_of [topic])
  = outline_path.
Proof.
  unfold Planner.topic_of. cbn [join_with]. rewrite topic_stripped.
  unfold Planner.outline_file, outline_path, OrchestratorRun.outline_path,
    OrchestratorRun.output_dir, OrchestratorRun.project_root.
  change planner_py with (Orchestrator.planner_py (cwd E) file__).
  rewrite (planner_project_root (cwd E) (cwd child) file__ cwd_absolute).
  reflexivity.
Qed.

(** The tail of [main] after the critic step. *)
Lemma pipeline_back (w3 : world) (content : pystr) :
  files w3 !! resolve E explanation_path = Some content ->
  encodable content = true ->
  (let* _ := OrchestratorRun.require_output E explanation_path in
   let* _ := OrchestratorRun.print_file_contents E explanation_path in
   OrchestratorRun.run_step
     (NotesCreatorRun.main child (render_pdf child) [explanation_path])) w3
  = OrchestratorRun.run_step (render_pdf child explanation_path notes_path) w3.
Proof.
  intros Hfile Hcontent.
  assert (Hsome : is_Some (files w3 !! resolve E explanation_path)) by eauto.
  destruct (stage_paths E child file__ topic cwd_absolute)
    as (_ & Hnotes & _ & _ & Hresolve).
  destruct (stage_paths E E file__ topic cwd_absolute) as (_ & _ & _ & _ & HresolveE).
  fold explanation_path notes_path in Hnotes, Hresolve, HresolveE.
  rewrite bind_run, (require_output_ok E explanation_path w3 Hsome).
  rewrite bind_run,
    (print_file_contents_ok E explanation_path w3 content stdout_utf8 Hfile Hcontent).
  unfold OrchestratorRun.run_step, NotesCreatorRun.main.
  rewrite bind_run. unfold path_exists.
  rewrite HresolveE in Hsome. rewrite Hresolve.
  rewrite bool_decide_eq_true_2 by exact Hsome. cbn [negb].
  rewrite Hnotes. reflexivity.
Qed.

Hypothesis topic_encodable : encodable topic = true.
Hypothesis backend_answers :
  forall history req, exists text, assemble E (backend E history req) = Ok text.
Hypothesis backend_wellformed : wellformed_answers E.
Context (w : world).
Hypothesis scripts_present :
  forall script, In script [planner_py; explainer_py; critic_py; notes_py] ->
                 is_Some (files w !! resolve E script).
Hypothesis planner_prompt_present :
  is_Some (files w !! resolve child (prompt_path child planner_py
                                       PlannerRun.SYSTEM_PROMPT_FILE)).
Hypothesis explainer_prompt_present :
  nonblank_at child w (prompt_path child explainer_py Explainer.EXPLAINER_PROMPT_FILE).

Lemma child_answers (history : list request) (req : request) :
  exists text, assemble child (backend child history req) = Ok text
               /\ encodable text = true.
Proof.
  destruct (backend_answers history req) as [text Htext].
  exists text. split; [exact Htext | exact (backend_wellformed _ _ _ Htext)].
Qed.

(** The head of [main] up to the critic step: the planner and the
    generation stage succeed, and their outputs pass the checks and are
    printed. *)
Lemma pipeline_front :
  exists outline explanation planned generated,
    let w2 := {| files := <[explanation_path := explanation]>
                            (<[outline_path := outline]> (files w));
                 calls := calls w ++ [planned; generated];
                 ticks := S (ticks w) |} in
    req_label planned = str "Generating outline"
    /\ req_label generated = str "Generating explanation"
    /\ loaded outline <> []
    /\ loaded explanation <> []
    /\ encodable explanation = true
    /\ source_reference (loaded explanation) = Some (str "outline.txt")
    /\ OrchestratorRun.main E file__ render_pdf args typed w
       = (let* _ := OrchestratorRun.run_step
                      (Critic.main child critic_py [explanation_path]) in
          let* _ := OrchestratorRun.require_output E explanation_path in
          let* _ := OrchestratorRun.print_file_contents E explanation_path in
          OrchestratorRun.run_step
            (NotesCreatorRun.main child (render_pdf child) [explanation_path])) w2.
Proof.
  destruct (stage_paths E child file__ topic cwd_absolute)
    as (Hderive & _ & _ & Hres_outline & Hres_explanation).
  destruct (stage_paths E E file__ topic cwd_absolute)
    as (_ & _ & _ & HresE_outline & HresE_explanation).
  fold outline_path explanation_path
    in Hderive, Hres_outline, Hres_explanation, HresE_outline, HresE_explanation.
  destruct planner_prompt_present as [prompt Hprompt].
  destruct (planner_main_ok child planner_py [topic] [] w prompt)
    as (text & planned & Hplanned & Houtline_enc & Hplan).
  { cbv zeta. unfold PlannerRun.topic_of_run, Planner.topic_of. cbn [join_with].
    rewrite topic_stripped. exact topic_given. }
  { cbv zeta. unfold PlannerRun.topic_of_run, Planner.topic_of. cbn [join_with].
    rewrite topic_stripped. exact topic_encodable. }
  { exact Hprompt. }
  { intros req. apply child_answers. }
  cbv zeta in Hplan, Houtline_enc.
  change (PlannerRun.topic_of_run [topic] []) with (Planner.topic_of [topic])
    in Hplan, Houtline_enc.
  rewrite planner_writes_the_outline_path, Hres_outline in Hplan.
  set (outline := PlannerRun.outline_header (Planner.topic_of [topic]) ++ text) in *.
  set (w1 := {| files := <[outline_path := outline]> (files w);
                calls := calls w ++ [planned]; ticks := ticks w |}) in *.
  assert (Houtline : loaded outline <> []) by apply outline_artifact_nonblank.
  assert (Hbase : Path.basename outline_path = str "outline.txt").
  { unfold outline_path, OrchestratorRun.outline_path.
    apply (basename_join2 _ (str "outline.txt")). reflexivity. }
  destruct (module_generate_ok child explainer_py outline_path w1)
    as (body & generated & Hgenerated & Hexplanation_enc & Hgen).
  { exists outline. split; [| exact Houtline].
    rewrite Hres_outline. apply lookup_insert_eq. }
  { apply (nonblank_insert child w w1 _ outline_path outline
             explainer_prompt_present Houtline eq_refl). }
  { rewrite Hbase. reflexivity. }
  { intros req. apply child_answers. }
  rewrite Hderive, Hres_explanation in Hgen. fold explanation_path in Hgen.
  set (explanation := Explainer.generated_header (strftime (clock child (ticks w1)))
                        (Path.basename outline_path) ++ body) in *.
  exists outline, explanation, planned, generated. cbv zeta.
  split; [exact Hplanned |]. split; [exact Hgenerated |].
  split; [exact Houtline |].
  split; [apply generated_artifact_nonblank |].
  split; [exact Hexplanation_enc |].
  split.
  { unfold explanation. rewrite Hbase.
    rewrite generated_explanation_source; [reflexivity | apply strftime_one_line |
                                            reflexivity]. }
  unfold OrchestratorRun.main. cbv zeta. fold topic.
  rewrite (match_nonempty topic) by exact topic_given.
  cbv zeta. fold child planner_py explainer_py critic_py notes_py
              outline_path explanation_path.
  rewrite bind_run, (require_scripts_ok E _ w scripts_present).
  rewrite bind_run. unfold OrchestratorRun.run_step at 1. rewrite Hplan.
  rewrite bind_run, (require_output_ok E outline_path w1)
    by (rewrite HresE_outline; cbn [files w1]; rewrite lookup_insert_eq; eauto).
  rewrite bind_run, (print_file_contents_ok E outline_path w1 outline stdout_utf8)
    by (try exact Houtline_enc;
        rewrite HresE_outline; cbn [files w1]; apply lookup_insert_eq).
  rewrite bind_run. unfold OrchestratorRun.run_step at 1.
  unfold Explainer.main. rewrite lower_generate.
  change (str_eqb (str "generate") (str "generate")) with true. cbn iota.
  rewrite Hgen.
  rewrite bind_run, require_output_ok
    by (rewrite HresE_explanation; cbn [files]; rewrite lookup_insert_eq; eauto).
  rewrite bind_run, (print_file_contents_ok E explanation_path _ explanation stdout_utf8)
    by (try exact Hexplanation_enc;
        rewrite HresE_explanation; cbn [files]; apply lookup_insert_eq).
  cbn [files calls ticks w1]. rewrite <- app_assoc. reflexivity.
Qed.

End Pipeline.
(** X17. With the scripts and the prompts of the first two steps in
    place, a topic and a backend whose answers hold no lone surrogate,
    and a standard output that takes such text, the orchestrator runs the
    planner and the generation stage, one backend call each, and their
    outputs pass its checks and are printed; what follows is decided by
    the controller alone: if it fails the orchestrator ends with status
    1, and if it ends by approval or at the cap the explanation is still
    there, is printed, and the renderer is started on it with the PDF
    path beside it. *)
Theorem pipeline_reaches_the_renderer (E : env) (file__ : pystr)
    (render_pdf : env -> pystr -> pystr -> M unit)
    (args : list pystr) (typed : pystr) (w : world) :
  let topic := OrchestratorRun.topic_of_run args typed in
  let child := OrchestratorRun.in_directory E (OrchestratorRun.project_root E file__) in
  let explanation_path := OrchestratorRun.explanation_path E file__ topic in
  startswith [c_slash] (cwd E) = true ->
  topic <> [] ->
  encodable topic = true ->
  utf8_stdout E ->
  (forall history req, exists text, assemble E (backend E history req) = Ok text) ->
  wellformed_answers E ->
  (forall script,
      In script [OrchestratorRun.planner_py E file__;
                 OrchestratorRun.explainer_py E file__;
                 OrchestratorRun.critic_py E file__;
                 OrchestratorRun.notes_py E file__] ->
      is_Some (files w !! resolve E script)) ->
  is_Some (files w !! resolve child
                        (prompt_path child (OrchestratorRun.planner_py E file__)
                           PlannerRun.SYSTEM_PROMPT_FILE)) ->
  nonblank_at child w
    (prompt_path child (OrchestratorRun.explainer_py E file__)
       Explainer.EXPLAINER_PROMPT_FILE) ->
  exists w2 planned generated,
    calls w2 = calls w ++ [planned; generated]
    /\ req_label planned = str "Generating outline"
    /\ req_label generated = str "Generating explanation"
    /\ (forall p, p <> OrchestratorRun.outline_path E file__ topic ->
                  p <> explanation_path ->
                  files w2 !! p = files w !! p)
    /\ OrchestratorRun.main E file__ render_pdf args typed w
       = match Critic.main child (OrchestratorRun.critic_py E file__)
                 [explanation_path] w2 with
         | (Ok _, w3) =>
             OrchestratorRun.run_step
               (render_pdf child explanation_path
                  (OrchestratorRun.notes_path E file__ topic)) w3
         | (Fail _, w3) => (Fail (SysExit 1), w3)
         end.
Proof.
  intros topic child explanation_path Hcwd Htopic Htopic_enc Hout Hanswers Hwell
    Hscripts Hplanner Hexplainer.
  destruct (pipeline_front E file__ render_pdf args typed Hcwd Htopic Hout Htopic_enc
              Hanswers Hwell w Hscripts Hplanner Hexplainer)
    as (outline & explanation & planned & generated & Hfront).
  cbv zeta in Hfront.
  destruct Hfront as (Hplanned & Hgenerated & _ & _ & Henc & Hsource & Hmain).
  fold topic child explanation_path in Hmain.
  set (w2 := {| files := <[explanation_path := explanation]>
                           (<[OrchestratorRun.outline_path E file__ topic := outline]>
                              (files w));
                calls := calls w ++ [planned; generated];
                ticks := S (ticks w) |}) in *.
  exists w2, planned, generated.
  split; [reflexivity |]. split; [exact Hplanned |]. split; [exact Hgenerated |].
  split.
  { intros p Hp1 Hp2. cbn [files w2].
    rewrite lookup_insert_ne by congruence. apply lookup_insert_ne. congruence. }
  rewrite Hmain, bind_run. unfold OrchestratorRun.run_step at 1.
  destruct (stage_paths E child file__ topic Hcwd) as (_ & _ & _ & _ & Hres).
  destruct (stage_paths E E file__ topic Hcwd) as (_ & _ & _ & _ & HresE).
  fold explanation_path in Hres, HresE.
  destruct (Critic.main child (OrchestratorRun.critic_py E file__)
              [explanation_path] w2) as [[t|f] w3] eqn:Hcritic.
  - destruct (critic_paths E child file__ topic Hcwd) as (_ & Hne & _).
    destruct (main_capped_keeps_source child (OrchestratorRun.critic_py E file__)
                Critic.MAX_ITERATIONS explanation_path [] w2 w3 (Ok t) explanation
                (str "outline.txt") Hcritic Hne)
      as [(content & Hcontent & _ & _ & Hcontent_enc) _].
    + rewrite Hres. apply lookup_insert_eq.
    + exact Hsource.
    + exact Hwell.
    + exact Henc.
    + apply (pipeline_back E file__ render_pdf args typed Hcwd Hout w3 content);
        [| exact Hcontent_enc].
      fold topic explanation_path. rewrite HresE, <- Hres. exact Hcontent.
  - rewrite (main_capped_failure_code _ _ _ _ _ _ _ Hcritic). reflexivity.
Qed.

Lemma pipeline_reaches_the_renderer_witness :
  let E := Mock.env_of (Mock.always (str "All good. VERDICT: APPROVED")) in
  exists w2 planned generated,
    calls w2 = [planned; generated]
    /\ req_label planned = str "Generating outline"
    /\ req_label generated = str "Generating explanation".
Proof.
  cbv zeta.
  destruct (pipeline_reaches_the_renderer
              (Mock.env_of (Mock.always (str "All good. VERDICT: APPROVED")))
              MockProject.orchestrator_py MockProject.render_pdf
              [str "Graph"; str "Theory"] [] (Mock.world_of MockProject.files))
    as (w2 & planned & generated & Hcalls & Hplanned & Hgenerated & _).
  - reflexivity.
  - discriminate.
  - reflexivity.
  - intros text Htext. exact Htext.
  - intros history req. eexists. reflexivity.
  - intros history req text Htext. vm_compute in Htext.
    injection Htext as <-. reflexivity.
  - intros script Hin. cbn [In] in Hin.
    destruct Hin as [<- | [<- | [<- | [<- | []]]]]; vm_compute; eauto.
  - vm_compute. eauto.
  - eexists. split; [vm_compute; reflexivity | discriminate].
  - exists w2, planned, generated. split; [exact Hcalls |]. split; assumption.
Defined.

(** X18. With all four scripts and prompts in place, a topic and a
    backend whose answers hold no lone surrogate, a standard output that
    takes such text, and a backend that answers every call and never
    approves, the orchestrator makes ten backend calls, the outline, the
    explanation, and a critique and a revision for each of the four
    iterations, and then starts the renderer on the explanation;
    outline, explanation and the last critique are on disk. *)
Theorem pipeline_with_a_critic_that_never_approves (E : env) (file__ : pystr)
    (render_pdf : env -> pystr -> pystr -> M unit)
    (args : list pystr) (typed : pystr) (w : world) :
  let topic := OrchestratorRun.topic_of_run args typed in
  let child := OrchestratorRun.in_directory E (OrchestratorRun.project_root E file__) in
  let explanation_path := OrchestratorRun.explanation_path E file__ topic in
  startswith [c_slash] (cwd E) = true ->
  topic <> [] ->
  encodable topic = true ->
  utf8_stdout E ->
  never_approves E ->
  wellformed_answers E ->
  (forall script,
      In script [OrchestratorRun.planner_py E file__;
                 OrchestratorRun.explainer_py E file__;
                 OrchestratorRun.critic_py E file__;
                 OrchestratorRun.notes_py E file__] ->
      is_Some (files w !! resolve E script)) ->
  is_Some (files w !! resolve child
                        (prompt_path child (OrchestratorRun.planner_py E file__)
                           PlannerRun.SYSTEM_PROMPT_FILE)) ->
  nonblank_at child w
    (prompt_path child (OrchestratorRun.explainer_py E file__)
       Explainer.EXPLAINER_PROMPT_FILE) ->
  nonblank_at child w
    (prompt_path child (OrchestratorRun.critic_py E file__)
       Critic.CRITIC_PROMPT_FILE) ->
  nonblank_at child w
    (prompt_path child (OrchestratorRun.explainer_py E file__)
       Explainer.REVISER_PROMPT_FILE) ->
  exists w3 new,
    OrchestratorRun.main E file__ render_pdf args typed w
    = OrchestratorRun.run_step
        (render_pdf child explanation_path
           (OrchestratorRun.notes_path E file__ topic)) w3
    /\ calls w3 = calls w ++ new
    /\ map req_label new
       = [str "Generating outline"; str "Generating explanation"]
         ++ critique_then_revise (seq 1 Critic.MAX_ITERATIONS)
    /\ length new = 10%nat
    /\ is_Some (files w3 !! OrchestratorRun.outline_path E file__ topic)
    /\ is_Some (files w3 !! explanation_path)
    /\ is_Some (files w3 !! Path.join (OrchestratorRun.output_dir E file__ topic)
                              [str "active_critique.txt"]).
Proof.
  intros topic child explanation_path Hcwd Htopic Htopic_enc Hout Hnever Hwell Hscripts
    Hplanner Hexplainer Hcritic Hreviser.
  assert (Hanswers : forall history req,
             exists text, assemble E (backend E history req) = Ok text).
  { intros history req. destruct (Hnever history req) as [text [Htext _]]. eauto. }
  destruct (pipeline_front E file__ render_pdf args typed Hcwd Htopic Hout Htopic_enc
              Hanswers Hwell w Hscripts Hplanner Hexplainer)
    as (outline & explanation & planned & generated & Hfront).
  cbv zeta in Hfront.
  destruct Hfront
    as (Hplanned & Hgenerated & Houtline & Hexplanation & Henc & _ & Hmain).
  fold topic child explanation_path in Hmain.
  set (outline_path := OrchestratorRun.outline_path E file__ topic) in *.
  set (w1 := {| files := <[outline_path := outline]> (files w);
                calls := calls w; ticks := ticks w |}).
  set (w2 := {| files := <[explanation_path := explanation]>
                           (<[outline_path := outline]> (files w));
                calls := calls w ++ [planned; generated];
                ticks := S (ticks w) |}) in *.
  destruct (stage_paths E child file__ topic Hcwd) as (_ & _ & _ & _ & Hres).
  destruct (stage_paths E E file__ topic Hcwd) as (_ & _ & _ & _ & HresE).
  destruct (critic_paths E child file__ topic Hcwd)
    as (Hcpath & Hne & Hscript & Hres_script).
  destruct (critic_paths E E file__ topic Hcwd) as (_ & _ & _ & HresE_script).
  fold explanation_path in Hres, HresE, Hcpath, Hne.
  assert (Hkeep : forall path, nonblank_at child w path -> nonblank_at child w2 path).
  { intros path Hpath.
    apply (nonblank_insert child w1 w2 path explanation_path explanation);
      [| exact Hexplanation | reflexivity].
    apply (nonblank_insert child w w1 path outline_path outline);
      [exact Hpath | exact Houtline | reflexivity]. }
  assert (Hready : revision_ready child (OrchestratorRun.critic_py E file__)
                     explanation_path w2).
  { split; [| split].
    - rewrite Hscript, Hres_script, <- HresE_script.
      cbn [files w2]. apply is_Some_insert, is_Some_insert, Hscripts.
      right; left; reflexivity.
    - rewrite Hscript. apply Hkeep, Hreviser.
    - exists explanation. split; [| exact Hexplanation].
      rewrite Hres. apply lookup_insert_eq. }
  assert (Hwell2 : wellformed_at child w2 explanation_path).
  { split.
    - replace (Path.basename explanation_path) with (str "explanation.txt");
        [reflexivity |].
      symmetry. apply (basename_join2 _ (str "explanation.txt")). reflexivity.
    - intros content. rewrite Hres. cbn [files w2]. rewrite lookup_insert_eq.
      intros [= <-]. exact Henc. }
  destruct (Hkeep _ Hcritic) as (prompt & Hprompt & Hlprompt).
  destruct (main_loop_capped child (OrchestratorRun.critic_py E file__)
              explanation_path Hnever Hwell (loaded prompt)
              (Path.basename explanation_path) (seq 1 Critic.MAX_ITERATIONS) [] w2
              Hready Hwell2)
    as (w3 & Hloop & Hready3 & Hwell3 & (new & Hcalls & Hlabels) & _ & Hsome & Hslot & _).
  assert (Hrun : Critic.main child (OrchestratorRun.critic_py E file__)
                   [explanation_path] w2 = (Ok Critic.Capped, w3)).
  { unfold Critic.main, Critic.main_capped, Critic.load_system_prompt.
    rewrite bind_run. unfold path_exists.
    destruct Hready as (_ & _ & [content [Hc _]]).
    rewrite bool_decide_eq_true_2 by eauto. cbn [negb].
    rewrite bind_run, (load_file_ok child _ w2 prompt Hprompt Hlprompt).
    exact Hloop. }
  exists w3, ([planned; generated] ++ new).
  split; [| split; [| split; [| split; [| split; [| split]]]]].
  - rewrite Hmain, bind_run. unfold OrchestratorRun.run_step at 1. rewrite Hrun.
    destruct Hready3 as (_ & _ & [content [Hc _]]).
    apply (pipeline_back E file__ render_pdf args typed Hcwd Hout w3 content).
    + fold topic explanation_path. rewrite HresE, <- Hres. exact Hc.
    + exact (proj2 Hwell3 content Hc).
  - rewrite Hcalls. cbn [calls w2]. rewrite <- app_assoc. reflexivity.
  - rewrite map_app, Hlabels. cbn [map]. rewrite Hplanned, Hgenerated. reflexivity.
  - rewrite length_app. rewrite <- (length_map req_label new), Hlabels. reflexivity.
  - apply Hsome. cbn [files w2]. apply is_Some_insert. rewrite lookup_insert_eq. eauto.
  - destruct Hready3 as (_ & _ & [content [Hc _]]). rewrite <- Hres. eauto.
  - assert (Hslot' := Hslot ltac:(discriminate)).
    rewrite Hcpath in Hslot'.
    change Critic.ACTIVE_CRITIQUE_FILE with (str "active_critique.txt") in Hslot'.
    destruct (pipeline_layout E file__ Hcwd) as (k & comps & Hk & Hcomps & _ & _ & Hout').
    rewrite (Hout' topic (str "active_critique.txt") eq_refl) in Hslot' |- *.
    unfold resolve in Hslot'.
    rewrite abspath_dir_text in Hslot'; [exact Hslot' | exact Hk | | reflexivity].
    rewrite forallb_app, Hcomps. cbn [forallb].
    change (Orchestrator.sanitize_filename (unicode E) topic)
      with (Planner.sanitize_filename (unicode E) topic).
    rewrite slug_is_name. reflexivity.
Qed.

Lemma pipeline_with_a_critic_that_never_approves_witness :
  let E := Mock.env_of (Mock.always (str "Still wrong.")) in
  exists w3 new,
    OrchestratorRun.main E MockProject.orchestrator_py MockProject.render_pdf
      [str "Graph"; str "Theory"] [] (Mock.world_of MockProject.files)
    = OrchestratorRun.run_step
        (MockProject.render_pdf
           (OrchestratorRun.in_directory E
              (OrchestratorRun.project_root E MockProject.orchestrator_py))
           (OrchestratorRun.explanation_path E MockProject.orchestrator_py
              (str "Graph Theory"))
           (OrchestratorRun.notes_path E MockProject.orchestrator_py
              (str "Graph Theory"))) w3
    /\ calls w3 = calls (Mock.world_of MockProject.files) ++ new
    /\ length new = 10%nat.
Proof.
  cbv zeta.
  destruct (pipeline_with_a_critic_that_never_approves
              (Mock.env_of (Mock.always (str "Still wrong.")))
              MockProject.orchestrator_py MockProject.render_pdf
              [str "Graph"; str "Theory"] [] (Mock.world_of MockProject.files))
    as (w3 & new & Hmain & Hcalls & _ & Hlength & _).
  - reflexivity.
  - discriminate.
  - reflexivity.
  - intros text Htext. exact Htext.
  - intros history req. exists (str "Still wrong."). split; reflexivity.
  - intros history req text Htext. vm_compute in Htext.
    injection Htext as <-. reflexivity.
  - intros script Hin. cbn [In] in Hin.
    destruct Hin as [<- | [<- | [<- | [<- | []]]]]; vm_compute; eauto.
  - vm_compute. eauto.
  - eexists. split; [vm_compute; reflexivity | discriminate].
  - eexists. split; [vm_compute; reflexivity | discriminate].
  - eexists. split; [vm_compute; reflexivity | discriminate].
  - exists w3, new. split; [exact Hmain |]. split; [exact Hcalls | exact Hlength].
Defined.
(** X19. The orchestrator stops with status 1 and an untouched world
    when the topic is blank or one of the four scripts is missing; and
    when the planner fails, it stops with status 1 in the world the
    planner left: no later step runs. In that world no file has changed,
    unless the planner failed with the UnicodeEncodeError of a text that
    cannot be encoded. *)
Theorem orchestrator_stops_at_the_first_failure (E : env) (file__ : pystr)
    (render_pdf : env -> pystr -> pystr -> M unit)
    (args : list pystr) (typed : pystr) (w : world) :
  let topic := OrchestratorRun.topic_of_run args typed in
  let child := OrchestratorRun.in_directory E (OrchestratorRun.project_root E file__) in
  let scripts := [OrchestratorRun.planner_py E file__;
                  OrchestratorRun.explainer_py E file__;
                  OrchestratorRun.critic_py E file__;
                  OrchestratorRun.notes_py E file__] in
  (topic = [] ->
   OrchestratorRun.main E file__ render_pdf args typed w = (Fail (SysExit 1), w))
  /\ ((exists script, In script scripts /\ files w !! resolve E script = None) ->
      OrchestratorRun.main E file__ render_pdf args typed w = (Fail (SysExit 1), w))
  /\ (topic <> [] ->
      (forall script, In script scripts -> is_Some (files w !! resolve E script)) ->
      forall f w1,
        PlannerRun.main child (OrchestratorRun.planner_py E file__) [topic] [] w
        = (Fail f, w1) ->
        OrchestratorRun.main E file__ render_pdf args typed w = (Fail (SysExit 1), w1)
        /\ (f <> Uncaught UnicodeEncodeError -> files w1 = files w)).
Proof.
  intros topic child scripts. subst scripts. split; [| split].
  - intros Htopic. unfold OrchestratorRun.main. cbv zeta. fold topic.
    rewrite Htopic. reflexivity.
  - intros Hmissing. unfold OrchestratorRun.main. cbv zeta. fold topic.
    destruct topic; [reflexivity |]. cbv beta iota.
    rewrite bind_run, (require_scripts_missing E _ w Hmissing). reflexivity.
  - intros Htopic Hscripts f w1 Hplanner.
    destruct (proj1 (planner_failure_cases child (OrchestratorRun.planner_py E file__)
                       [topic] [] w) f w1 Hplanner) as [Hcode Hfiles].
    split.
    + unfold OrchestratorRun.main. cbv zeta. fold topic.
      rewrite (match_nonempty topic) by exact Htopic.
      rewrite bind_run, (require_scripts_ok E _ w Hscripts).
      rewrite bind_run. unfold OrchestratorRun.run_step at 1.
      fold child. rewrite Hplanner, Hcode. reflexivity.
    + intros Hf. destruct Hfiles as [Hfiles | [Hf' _]]; [exact Hfiles | contradiction].
Qed.

Lemma orchestrator_stops_at_the_first_failure_witness :
  OrchestratorRun.main Mock.quiet MockProject.orchestrator_py MockProject.render_pdf
    [str "Graph Theory"] [] (Mock.world_of Mock.project_files)
  = (Fail (SysExit 1), Mock.world_of Mock.project_files)
  /\ OrchestratorRun.main Mock.quiet MockProject.orchestrator_py MockProject.render_pdf
       [] (str "  ") (Mock.world_of MockProject.files)
     = (Fail (SysExit 1), Mock.world_of MockProject.files).
Proof.
  split.
  - apply (proj1 (proj2 (orchestrator_stops_at_the_first_failure Mock.quiet
                           MockProject.orchestrator_py MockProject.render_pdf
                           [str "Graph Theory"] [] (Mock.world_of Mock.project_files)))).
    exists (str "/work/src/planner.py").
    split; [left; reflexivity | vm_compute; reflexivity].
  - apply (proj1 (orchestrator_stops_at_the_first_failure Mock.quiet
                    MockProject.orchestrator_py MockProject.render_pdf
                    [] (str "  ") (Mock.world_of MockProject.files))).
    reflexivity.
Defined.
(* ===================================================================== *)
(** ** The adapter on lines outside the protocol *)
(* ===================================================================== *)

Lemma read_stream_skips (out : json -> bool) (lines : list response_line)
    (ending : stream_end) :
  forall tokens,
    read_stream out (List.filter (fun line => negb (skipped_line line)) lines)
      ending tokens
    = read_stream out lines ending tokens.
Proof.
  induction lines as [|line lines IH]; intros tokens; [reflexivity |].
  destruct line as [| | |chunk]; cbn [List.filter skipped_line negb read_stream];
    try apply IH; try reflexivity.
  destruct (py_get chunk (str "message") (JObj [])) as [e|message]; [reflexivity |].
  destruct (py_get message (str "content") (JStr [])) as [e|token]; [reflexivity |].
  destruct (truthy token && negb (out token)); [reflexivity |].
  destruct (py_get chunk (str "done") (JBool false)) as [e|done]; [reflexivity |].
  destruct (truthy done); [reflexivity | apply IH].
Qed.

Lemma read_stream_done (out : json -> bool) (chunk : json)
    (rest rest' : list response_line)
    (ending ending' : stream_end) (tokens : list json) :
  chunk_done chunk = true ->
  read_stream out (Chunk chunk :: rest) ending tokens
  = read_stream out (Chunk chunk :: rest') ending' tokens.
Proof.
  intros Hdone. destruct chunk; try discriminate.
  cbn [chunk_done] in Hdone. cbn [read_stream].
  destruct (py_get (JObj fields) (str "message") (JObj [])) as [e|message];
    [reflexivity |].
  destruct (py_get message (str "content") (JStr [])) as [e|token]; [reflexivity |].
  destruct (truthy token && negb (out token)); [reflexivity |].
  cbn [py_get].
  destruct (lookup_field (str "done") fields) as [flag|]; [| discriminate].
  rewrite Hdone. reflexivity.
Qed.

Lemma read_stream_after_done (out : json -> bool) (before : list response_line)
    (chunk : json)
    (rest rest' : list response_line) (ending ending' : stream_end) :
  chunk_done chunk = true ->
  forall tokens,
    read_stream out (before ++ Chunk chunk :: rest) ending tokens
    = read_stream out (before ++ Chunk chunk :: rest') ending' tokens.
Proof.
  intros Hdone. induction before as [|line before IH]; intros tokens.
  - apply read_stream_done, Hdone.
  - destruct line as [| | |first]; cbn [app read_stream]; try apply IH;
      try reflexivity.
    destruct (py_get first (str "message") (JObj [])) as [e|message]; [reflexivity |].
    destruct (py_get message (str "content") (JStr [])) as [e|token]; [reflexivity |].
    destruct (truthy token && negb (out token)); [reflexivity |].
    destruct (py_get first (str "done") (JBool false)) as [e|done]; [reflexivity |].
    destruct (truthy done); [reflexivity | apply IH].
Qed.

(** X20. The adapter, in the planner as in the other scripts, gives
    the same result whether or not blank and unparseable lines are in
    the body, and nothing that follows a chunk whose completion flag is
    set has any effect: neither further lines nor a time-out. *)
Theorem adapter_ignores_noise_and_the_rest (E : env) (lines : list response_line)
    (ending : stream_end) :
  assemble E (Stream (List.filter (fun line => negb (skipped_line line)) lines) ending)
  = assemble E (Stream lines ending)
  /\ PlannerRun.gather E
       (Stream (List.filter (fun line => negb (skipped_line line)) lines) ending)
     = PlannerRun.gather E (Stream lines ending)
  /\ (forall before chunk rest ending',
        lines = before ++ Chunk chunk :: rest ->
        chunk_done chunk = true ->
        assemble E (Stream lines ending)
        = assemble E (Stream (before ++ [Chunk chunk]) ending')
        /\ PlannerRun.gather E (Stream lines ending)
           = PlannerRun.gather E (Stream (before ++ [Chunk chunk]) ending')).
Proof.
  split; [| split].
  - unfold assemble. rewrite read_stream_skips. reflexivity.
  - unfold PlannerRun.gather. rewrite read_stream_skips. reflexivity.
  - intros before chunk rest ending' -> Hdone.
    unfold assemble, PlannerRun.gather.
    rewrite (read_stream_after_done (stdout E) before chunk rest [] ending ending'
               Hdone).
    split; reflexivity.
Qed.

Lemma adapter_ignores_noise_and_the_rest_witness :
  assemble Mock.quiet
    (Stream [Blank; Mock.final_chunk (str "done"); BadBytes] ReadTimeout)
  = Ok (str "done").
Proof.
  rewrite (proj1 (proj2 (proj2 (adapter_ignores_noise_and_the_rest Mock.quiet
                                  [Blank; Mock.final_chunk (str "done"); BadBytes]
                                  ReadTimeout))
                   [Blank] _ [BadBytes] EndOfStream eq_refl eq_refl)).
  reflexivity.
Defined.

(* ===================================================================== *)
(** ** What the prompts carry *)
(* ===================================================================== *)

Lemma contains_here (p post : pystr) : contains p (p ++ post) = true.
Proof. apply contains_spec. exists [], post. reflexivity. Qed.

Lemma contains_later (p a b : pystr) :
  contains p b = true -> contains p (a ++ b) = true.
Proof.
  intros H. apply contains_spec in H as (pre & post & ->).
  apply contains_spec. exists (a ++ pre), post. rewrite <- app_assoc. reflexivity.
Qed.

Ltac find_part := repeat first [apply contains_here | apply contains_later].

(** X21. No stage drops or cuts what it is given when it builds its
    request: the outline request carries the topic, the generation
    request the outline, the revision request the explanation and the
    critique, and every critique request the explanation and its file
    name; a re-review also carries the previous critique, which the
    first review does not look at. *)
Theorem requests_carry_their_inputs (topic outline explanation critique filename
    previous_critique : pystr) (iteration : nat) :
  contains topic (PlannerRun.build_user_message topic) = true
  /\ contains outline (Explainer.generate_message outline) = true
  /\ contains explanation (Explainer.revise_message explanation critique) = true
  /\ contains critique (Explainer.revise_message explanation critique) = true
  /\ contains explanation
       (Critic.critique_message explanation filename iteration previous_critique)
     = true
  /\ contains filename
       (Critic.critique_message explanation filename iteration previous_critique)
     = true
  /\ (iteration <> 1%nat ->
      contains previous_critique
        (Critic.critique_message explanation filename iteration previous_critique)
      = true)
  /\ Critic.critique_message explanation filename 1 previous_critique
     = Critic.critique_message explanation filename 1 [].
Proof.
  split; [unfold PlannerRun.build_user_message; find_part |].
  split; [unfold Explainer.generate_message; find_part |].
  split; [unfold Explainer.revise_message; find_part |].
  split; [unfold Explainer.revise_message; find_part |].
  split; [unfold Critic.critique_message; destruct (iteration =? 1)%nat; find_part |].
  split; [unfold Critic.critique_message; destruct (iteration =? 1)%nat; find_part |].
  split; [| reflexivity].
  intros Hlater. unfold Critic.critique_message.
  destruct (Nat.eqb_spec iteration 1) as [-> |]; [contradiction | find_part].
Qed.

Lemma requests_carry_their_inputs_witness :
  contains (str "Fix the intro.")
    (Critic.critique_message (str "Body.") (str "explanation.txt") 2
       (str "Fix the intro."))
  = true.
Proof.
  apply (requests_carry_their_inputs [] [] (str "Body.") [] (str "explanation.txt")
           (str "Fix the intro.") 2).
  discriminate.
Defined.

(* ===================================================================== *)
(** ** Exit statuses *)
(* ===================================================================== *)

(** X22. The explainer and the controller never end with a status
    other than 0 and 1: each of their failures, a [sys.exit] or an
    uncaught exception, has status 1, and the controller ends with 0
    exactly when it ends by approval or at the cap. *)
Theorem stages_end_with_status_zero_or_one (E : env) (file__ : pystr)
    (args : list pystr) (cap : nat) (w : world) :
  (forall f w', Explainer.main E file__ args w = (Fail f, w') -> exit_code f = 1%Z)
  /\ (forall f w', Critic.main_capped E file__ cap args w = (Fail f, w') ->
                   exit_code f = 1%Z)
  /\ (Critic.status (fst (Critic.main_capped E file__ cap args w)) = 0%Z
      /\ (exists t, fst (Critic.main_capped E file__ cap args w) = Ok t)
      \/ Critic.status (fst (Critic.main_capped E file__ cap args w)) = 1%Z
         /\ exists f, fst (Critic.main_capped E file__ cap args w) = Fail f).
Proof.
  split; [| split].
  - intros f w'. unfold Explainer.main.
    destruct args as [|mode rest]; [intros [= <- _]; reflexivity |].
    destruct (str_eqb (lower (unicode E) mode) (str "generate")).
    { destruct rest as [|outline_path rest]; [intros [= <- _]; reflexivity |].
      destruct (module_generate_cases E file__ outline_path w)
        as [(f0 & w0 & -> & Hcode & _) | (outline & prompt & text & _ & _ & _ & _ & Hok)].
      - intros [= <- _]. exact Hcode.
      - cbv zeta in Hok. destruct Hok as [_ ->]. unfold write_text.
        destruct (encodable _); [discriminate | intros [= <- _]; reflexivity]. }
    destruct (str_eqb (lower (unicode E) mode) (str "revise"));
      [| intros [= <- _]; reflexivity].
    destruct rest as [|explanation_path [|critique_path rest]];
      try (intros [= <- _]; reflexivity).
    destruct (module_revise_effect E file__ explanation_path critique_path w)
      as [(f0 & w0 & -> & Hcode & _) | (? & ? & ? & ? & _ & _ & _ & _ & _ & ->)].
    + intros [= <- _]. exact Hcode.
    + unfold write_text.
      destruct (encodable _); [discriminate | intros [= <- _]; reflexivity].
  - intros f w'. apply main_capped_failure_code.
  - destruct (Critic.main_capped E file__ cap args w) as [[t|f] w'] eqn:Hrun.
    + left. split; [reflexivity | eauto].
    + right. split; [| eauto]. cbn. exact (main_capped_failure_code _ _ _ _ _ _ _ Hrun).
Qed.

Lemma stages_end_with_status_zero_or_one_witness :
  fst (Explainer.main (Mock.env_of (fun _ _ => Stream [Chunk (JArr [])] EndOfStream))
         (str "/work/src/explainer.py")
         [str "revise"; Mock.explanation_txt; Mock.critique_txt]
         (Mock.world_of Mock.revision_files))
  = Fail (Uncaught AttributeError)
  /\ exit_code (Uncaught AttributeError) = 1%Z.
Proof.
  assert (Hrun : fst (Explainer.main
                        (Mock.env_of (fun _ _ => Stream [Chunk (JArr [])] EndOfStream))
                        (str "/work/src/explainer.py")
                        [str "revise"; Mock.explanation_txt; Mock.critique_txt]
                        (Mock.world_of Mock.revision_files))
                 = Fail (Uncaught AttributeError))
    by (vm_compute; reflexivity).
  split; [exact Hrun |].
  apply (proj1 (stages_end_with_status_zero_or_one
                  (Mock.env_of (fun _ _ => Stream [Chunk (JArr [])] EndOfStream))
                  (str "/work/src/explainer.py")
                  [str "revise"; Mock.explanation_txt; Mock.critique_txt] 0
                  (Mock.world_of Mock.revision_files))
           (Uncaught AttributeError)
           (snd (Explainer.main
                   (Mock.env_of (fun _ _ => Stream [Chunk (JArr [])] EndOfStream))
                   (str "/work/src/explainer.py")
                   [str "revise"; Mock.explanation_txt; Mock.critique_txt]
                   (Mock.world_of Mock.revision_files)))).
  rewrite <- Hrun. apply surjective_pairing.
Defined.
(* ===================================================================== *)
(** ** The notes creator on the headers the other stages write *)
(* ===================================================================== *)

Lemma rstrip_head_kept (c : char) (s : pystr) :
  isspace c = false -> exists rest, rstrip (c :: s) = c :: rest.
Proof.
  intros Hc. destruct (rstrip_prefix (c :: s)) as [post Hpost].
  destruct (rstrip (c :: s)) as [|d rest] eqn:Hr.
  - exfalso. apply (rstrip_head_nonspace c s Hc). exact Hr.
  - cbn in Hpost. injection Hpost as <- _. eauto.
Qed.

(** Stripping a line that starts with a field name keeps the name. *)
Lemma strip_prefixed (h : char) (p : pystr) (c : char) (x : pystr) :
  isspace h = false ->
  isspace c = false ->
  exists rest, strip (h :: p ++ c :: x) = h :: p ++ c :: rest.
Proof.
  intros Hh Hc. unfold strip. cbn [lstrip]. rewrite Hh.
  destruct (rstrip_head_kept c x Hc) as [rest Hrest].
  exists rest.
  change (h :: p ++ c :: x) with ((h :: p) ++ c :: x).
  rewrite rstrip_app_keep by (rewrite Hrest; discriminate).
  rewrite Hrest. reflexivity.
Qed.

Lemma is_rule_head (c d : char) (s : pystr) :
  (c_eq =? c) = false -> NotesCreatorRun.is_rule (c :: d :: s) = false.
Proof.
  intros Hc. unfold NotesCreatorRun.is_rule.
  destruct (endswith [c_lf] (c :: d :: s)).
  - change (removelast (c :: d :: s)) with (c :: removelast (d :: s)).
    cbn [forallb]. rewrite Hc. apply andb_false_r.
  - cbn [forallb]. rewrite Hc. apply andb_false_r.
Qed.

Lemma is_rule_eq_rule : NotesCreatorRun.is_rule (strip eq_rule) = true.
Proof. vm_compute. reflexivity. Qed.

(** A header field, as the loop sees it: not a rule, and a meta line. *)
Lemma field_line (h : char) (p : pystr) (x : pystr) :
  isspace h = false ->
  (c_eq =? h) = false ->
  p <> [] ->
  In (h :: p ++ [c_colon]) [str "Generated :"; str "Revised   :"; str "Model     :";
                            str "Source    :"; str "Critique  :"] ->
  NotesCreatorRun.is_rule (strip (h :: p ++ c_colon :: x)) = false
  /\ NotesCreatorRun.is_meta_line (strip (h :: p ++ c_colon :: x)) = true.
Proof.
  intros Hh Heq Hp Hin.
  destruct (strip_prefixed h p c_colon x Hh eq_refl) as [rest ->].
  split.
  - destruct p as [|d p]; [contradiction |]. apply is_rule_head, Heq.
  - unfold NotesCreatorRun.is_meta_line. apply existsb_exists.
    exists (h :: p ++ [c_colon]). split; [exact Hin |].
    change (h :: p ++ c_colon :: rest) with ((h :: p) ++ [c_colon] ++ rest).
    rewrite app_assoc. apply startswith_app.
Qed.

Lemma header_loop_body (lines : list pystr) :
  forall eq_count meta_parts body_lines,
    NotesCreatorRun.header_loop lines false eq_count meta_parts body_lines
    = (meta_parts, body_lines ++ List.filter kept_body_line lines).
Proof.
  induction lines as [|line lines IH]; intros eq_count meta_parts body_lines.
  - cbn. rewrite app_nil_r. reflexivity.
  - cbn [NotesCreatorRun.header_loop List.filter]. unfold kept_body_line at 1.
    destruct (NotesCreatorRun.is_meta_line (strip line)); cbn [negb andb];
      [apply IH |].
    destruct (str_eqb (strip line) (str "LECTURE EXPLANATION")); cbn [negb];
      [apply IH |].
    rewrite IH, <- app_assoc. reflexivity.
Qed.

Lemma generated_file_lines (stamp source_name text : pystr) :
  one_line stamp = true ->
  one_line source_name = true ->
  splitlines (universal_newlines (Explainer.generated_header stamp source_name ++ text))
  = [str "LECTURE EXPLANATION"; eq_rule; str "Generated : " ++ stamp;
     str "Model     : " ++ Explainer.MODEL_NAME; str "Source    : " ++ source_name;
     eq_rule; []]
    ++ splitlines (universal_newlines text).
Proof.
  intros Hstamp Hsource.
  assert (Hshape : Explainer.generated_header stamp source_name ++ text
                   = lines_then
                       [str "LECTURE EXPLANATION"; eq_rule; str "Generated : " ++ stamp;
                        str "Model     : " ++ Explainer.MODEL_NAME;
                        str "Source    : " ++ source_name; eq_rule; []] text).
  { unfold Explainer.generated_header, lines_then. cbn [fold_right].
    repeat (rewrite <- app_assoc; cbn [app]). reflexivity. }
  assert (Hlines : forallb one_line
                     [str "LECTURE EXPLANATION"; eq_rule; str "Generated : " ++ stamp;
                      str "Model     : " ++ Explainer.MODEL_NAME;
                      str "Source    : " ++ source_name; eq_rule; []] = true).
  { cbn [forallb]. rewrite !one_line_app, Hstamp, Hsource. reflexivity. }
  rewrite Hshape, (universal_newlines_lines _ _ Hlines).
  apply splitlines_lines, Hlines.
Qed.

Lemma revised_file_lines (stamp source_name critique_name text : pystr) :
  one_line stamp = true ->
  one_line source_name = true ->
  one_line critique_name = true ->
  splitlines (universal_newlines
                (Explainer.updated_header stamp source_name critique_name ++ text))
  = [str "LECTURE EXPLANATION"; eq_rule; str "Revised   : " ++ stamp;
     str "Model     : " ++ Explainer.MODEL_NAME; str "Source    : " ++ source_name;
     str "Critique  : " ++ critique_name; eq_rule; []]
    ++ splitlines (universal_newlines text).
Proof.
  intros Hstamp Hsource Hcritique.
  assert (Hshape : Explainer.updated_header stamp source_name critique_name ++ text
                   = lines_then
                       [str "LECTURE EXPLANATION"; eq_rule; str "Revised   : " ++ stamp;
                        str "Model     : " ++ Explainer.MODEL_NAME;
                        str "Source    : " ++ source_name;
                        str "Critique  : " ++ critique_name; eq_rule; []] text).
  { unfold Explainer.updated_header, lines_then. cbn [fold_right].
    repeat (rewrite <- app_assoc; cbn [app]). reflexivity. }
  assert (Hlines : forallb one_line
                     [str "LECTURE EXPLANATION"; eq_rule; str "Revised   : " ++ stamp;
                      str "Model     : " ++ Explainer.MODEL_NAME;
                      str "Source    : " ++ source_name;
                      str "Critique  : " ++ critique_name; eq_rule; []] = true).
  { cbn [forallb]. rewrite !one_line_app, Hstamp, Hsource, Hcritique. reflexivity. }
  rewrite Hshape, (universal_newlines_lines _ _ Hlines).
  apply splitlines_lines, Hlines.
Qed.

Lemma header_fields (x : pystr) :
  (NotesCreatorRun.is_rule (strip (str "Generated : " ++ x)) = false
   /\ NotesCreatorRun.is_meta_line (strip (str "Generated : " ++ x)) = true)
  /\ (NotesCreatorRun.is_rule (strip (str "Revised   : " ++ x)) = false
      /\ NotesCreatorRun.is_meta_line (strip (str "Revised   : " ++ x)) = true)
  /\ (NotesCreatorRun.is_rule (strip (str "Model     : " ++ x)) = false
      /\ NotesCreatorRun.is_meta_line (strip (str "Model     : " ++ x)) = true)
  /\ (NotesCreatorRun.is_rule (strip (str "Source    : " ++ x)) = false
      /\ NotesCreatorRun.is_meta_line (strip (str "Source    : " ++ x)) = true)
  /\ (NotesCreatorRun.is_rule (strip (str "Critique  : " ++ x)) = false
      /\ NotesCreatorRun.is_meta_line (strip (str "Critique  : " ++ x)) = true).
Proof.
  split; [| split; [| split; [| split]]].
  - apply (field_line 71 (str "enerated ") (c_space :: x)); try reflexivity;
      [discriminate | cbn; tauto].
  - apply (field_line 82 (str "evised   ") (c_space :: x)); try reflexivity;
      [discriminate | cbn; tauto].
  - apply (field_line 77 (str "odel     ") (c_space :: x)); try reflexivity;
      [discriminate | cbn; tauto].
  - apply (field_line 83 (str "ource    ") (c_space :: x)); try reflexivity;
      [discriminate | cbn; tauto].
  - apply (field_line 67 (str "ritique  ") (c_space :: x)); try reflexivity;
      [discriminate | cbn; tauto].
Qed.

Lemma header_loop_rule (line : pystr) (rest : list pystr) (eq_count : nat)
    (meta_parts body_lines : list pystr) :
  NotesCreatorRun.is_rule (strip line) = true ->
  NotesCreatorRun.header_loop (line :: rest) true eq_count meta_parts body_lines
  = NotesCreatorRun.header_loop rest (negb (2 <=? S eq_count)%nat) (S eq_count)
      meta_parts body_lines.
Proof. intros H. cbn [NotesCreatorRun.header_loop]. rewrite H. reflexivity. Qed.

Lemma header_loop_field (line : pystr) (rest : list pystr) (eq_count : nat)
    (meta_parts body_lines : list pystr) :
  NotesCreatorRun.is_rule (strip line) = false
  /\ NotesCreatorRun.is_meta_line (strip line) = true ->
  NotesCreatorRun.header_loop (line :: rest) true eq_count meta_parts body_lines
  = NotesCreatorRun.header_loop rest true eq_count (meta_parts ++ [strip line])
      body_lines.
Proof.
  intros [Hrule Hmeta]. cbn [NotesCreatorRun.header_loop].
  rewrite Hrule, Hmeta. reflexivity.
Qed.

Lemma header_loop_other (line : pystr) (rest : list pystr) (eq_count : nat)
    (meta_parts body_lines : list pystr) :
  NotesCreatorRun.is_rule (strip line) = false ->
  NotesCreatorRun.is_meta_line (strip line) = false ->
  NotesCreatorRun.header_loop (line :: rest) true eq_count meta_parts body_lines
  = NotesCreatorRun.header_loop rest true eq_count meta_parts body_lines.
Proof.
  intros Hrule Hmeta. cbn [NotesCreatorRun.header_loop].
  rewrite Hrule, Hmeta. reflexivity.
Qed.

(** X23. The first loop of the notes creator's parser consumes exactly
    the header the explainer writes, generated or revised: the fields
    of the header are its metadata, and the body is the empty line
    after the header followed by the lines of the explanation text,
    except those that, stripped, begin like a header field or are the
    title line. *)
Theorem notes_parser_consumes_the_header (stamp source_name critique_name text : pystr) :
  one_line stamp = true ->
  one_line source_name = true ->
  one_line critique_name = true ->
  let body := [] :: List.filter kept_body_line (splitlines (universal_newlines text)) in
  NotesCreatorRun.header_loop
    (splitlines (universal_newlines
                   (Explainer.generated_header stamp source_name ++ text)))
    true 0 [] []
  = ([strip (str "Generated : " ++ stamp);
      strip (str "Model     : " ++ Explainer.MODEL_NAME);
      strip (str "Source    : " ++ source_name)], body)
  /\ NotesCreatorRun.header_loop
       (splitlines (universal_newlines
                      (Explainer.updated_header stamp source_name critique_name ++ text)))
       true 0 [] []
     = ([strip (str "Revised   : " ++ stamp);
         strip (str "Model     : " ++ Explainer.MODEL_NAME);
         strip (str "Source    : " ++ source_name);
         strip (str "Critique  : " ++ critique_name)], body).
Proof.
  intros Hstamp Hsource Hcritique body.
  assert (Htitle : forall rest n meta_parts body_lines,
             NotesCreatorRun.header_loop (str "LECTURE EXPLANATION" :: rest) true n
               meta_parts body_lines
             = NotesCreatorRun.header_loop rest true n meta_parts body_lines)
    by (intros; apply header_loop_other; vm_compute; reflexivity).
  assert (Hrule : forall rest n meta_parts body_lines,
             NotesCreatorRun.header_loop (eq_rule :: rest) true n meta_parts body_lines
             = NotesCreatorRun.header_loop rest (negb (2 <=? S n)%nat) (S n)
                 meta_parts body_lines)
    by (intros; apply header_loop_rule, is_rule_eq_rule).
  assert (Hblank : kept_body_line [] = true) by reflexivity.
  split.
  - rewrite generated_file_lines by assumption. cbn [app].
    rewrite Htitle, Hrule. cbn [Nat.leb negb].
    rewrite (header_loop_field _ _ _ _ _ (proj1 (header_fields stamp))).
    rewrite (header_loop_field _ _ _ _ _
               (proj1 (proj2 (proj2 (header_fields Explainer.MODEL_NAME))))).
    rewrite (header_loop_field _ _ _ _ _
               (proj1 (proj2 (proj2 (proj2 (header_fields source_name)))))).
    rewrite Hrule. cbn [Nat.leb negb].
    rewrite header_loop_body. cbn [List.filter]. rewrite Hblank. reflexivity.
  - rewrite revised_file_lines by assumption. cbn [app].
    rewrite Htitle, Hrule. cbn [Nat.leb negb].
    rewrite (header_loop_field _ _ _ _ _ (proj1 (proj2 (header_fields stamp)))).
    rewrite (header_loop_field _ _ _ _ _
               (proj1 (proj2 (proj2 (header_fields Explainer.MODEL_NAME))))).
    rewrite (header_loop_field _ _ _ _ _
               (proj1 (proj2 (proj2 (proj2 (header_fields source_name)))))).
    rewrite (header_loop_field _ _ _ _ _
               (proj2 (proj2 (proj2 (proj2 (header_fields critique_name)))))).
    rewrite Hrule. cbn [Nat.leb negb].
    rewrite header_loop_body. cbn [List.filter]. rewrite Hblank. reflexivity.
Qed.

Lemma notes_parser_consumes_the_header_witness :
  NotesCreatorRun.header_loop
    (splitlines (universal_newlines
                   (Explainer.generated_header (strftime Mock.noon) (str "outline.txt")
                    ++ str "Body." ++ [c_lf] ++ str "Model     : secret")))
    true 0 [] []
  = ([str "Generated : 2025-01-02 12:00:00"; str "Model     : llama3.2:3b";
      str "Source    : outline.txt"], [[]; str "Body."]).
Proof.
  rewrite (proj1 (notes_parser_consumes_the_header (strftime Mock.noon)
                    (str "outline.txt") [] (str "Body." ++ [c_lf]
                                            ++ str "Model     : secret")
                    eq_refl eq_refl eq_refl)).
  vm_compute. reflexivity.
Defined.
Lemma rstrip_idempotent (s : pystr) : rstrip (rstrip s) = rstrip s.
Proof. unfold rstrip. rewrite rev_involutive, lstrip_idempotent. reflexivity. Qed.

Lemma stripped_rstrip (s : pystr) : strip s = s -> rstrip s = s.
Proof. intros H. rewrite <- H at 1. unfold strip. rewrite rstrip_idempotent. exact H. Qed.

Lemma outline_topic_no_topic_line (lines : list pystr) (topic : pystr) :
  forallb no_topic_line lines = true ->
  NotesCreatorRun.outline_topic lines topic = topic.
Proof.
  induction lines as [|line lines IH]; [reflexivity |].
  cbn [forallb NotesCreatorRun.outline_topic]. intros H.
  apply andb_true_iff in H as [Hline Hlines]. unfold no_topic_line in Hline.
  destruct (startswith (str "Topic") (strip line)); [discriminate |].
  exact (IH Hlines).
Qed.

Lemma outline_file_lines (topic text : pystr) :
  one_line topic = true ->
  splitlines (universal_newlines (PlannerRun.outline_header topic ++ text))
  = [str "LECTURE OUTLINE"; eq_rule; str "Topic  : " ++ topic;
     str "Model  : " ++ PlannerRun.MODEL_NAME; eq_rule; []]
    ++ splitlines (universal_newlines text).
Proof.
  intros Htopic.
  assert (Hshape : PlannerRun.outline_header topic ++ text
                   = lines_then
                       [str "LECTURE OUTLINE"; eq_rule; str "Topic  : " ++ topic;
                        str "Model  : " ++ PlannerRun.MODEL_NAME; eq_rule; []] text).
  { unfold PlannerRun.outline_header, lines_then. cbn [fold_right].
    repeat (rewrite <- app_assoc; cbn [app]). reflexivity. }
  assert (Hlines : forallb one_line
                     [str "LECTURE OUTLINE"; eq_rule; str "Topic  : " ++ topic;
                      str "Model  : " ++ PlannerRun.MODEL_NAME; eq_rule; []] = true).
  { cbn [forallb]. rewrite !one_line_app, Htopic. reflexivity. }
  rewrite Hshape, (universal_newlines_lines _ _ Hlines).
  apply splitlines_lines, Hlines.
Qed.

Lemma topic_line_stripped (topic : pystr) :
  strip topic = topic -> topic <> [] ->
  strip (str "Topic  : " ++ topic) = str "Topic  : " ++ topic.
Proof.
  intros Hstrip Hne. unfold strip.
  change (lstrip (str "Topic  : " ++ topic)) with (str "Topic  : " ++ topic).
  rewrite rstrip_app_keep by (rewrite (stripped_rstrip topic Hstrip); exact Hne).
  rewrite (stripped_rstrip topic Hstrip). reflexivity.
Qed.

(** X24. The topic the notes creator reads from an outline the planner
    wrote is the planner's topic, whatever follows the header, as long
    as no later line, stripped, begins with [Topic]; in general the
    last such line with a colon decides. The planner's topic is
    stripped, not empty, and, here, free of line breaks. *)
Theorem notes_creator_reads_the_planner_topic (E : env) (outline_path topic text : pystr)
    (w : world) :
  strip topic = topic ->
  topic <> [] ->
  one_line topic = true ->
  outline_path <> [] ->
  files w !! resolve E outline_path = Some (PlannerRun.outline_header topic ++ text) ->
  NotesCreatorRun.parse_outline_topic E outline_path w
  = (Ok (Some (NotesCreatorRun.outline_topic
                 (splitlines (universal_newlines text)) topic)), w)
  /\ (forallb no_topic_line (splitlines (universal_newlines text)) = true ->
      NotesCreatorRun.parse_outline_topic E outline_path w = (Ok (Some topic), w)).
Proof.
  intros Hstrip Hne Hline Hpath Hfile.
  assert (Hrun : NotesCreatorRun.parse_outline_topic E outline_path w
                 = (Ok (Some (NotesCreatorRun.outline_topic
                                (splitlines (universal_newlines text)) topic)), w)).
  { unfold NotesCreatorRun.parse_outline_topic.
    rewrite (match_nonempty outline_path) by exact Hpath.
    rewrite bind_run. unfold path_exists.
    rewrite bool_decide_eq_true_2 by (rewrite Hfile; eauto). cbn [negb].
    rewrite bind_run. unfold read_text, ret. cbv beta iota.
    rewrite Hfile. cbn [default from_option]. unfold id.
    rewrite (outline_file_lines topic text Hline).
    cbn [app NotesCreatorRun.outline_topic].
    change (startswith (str "Topic") (strip (str "LECTURE OUTLINE"))) with false.
    change (startswith (str "Topic") (strip eq_rule)) with false.
    rewrite (topic_line_stripped topic Hstrip Hne).
    change (startswith (str "Topic") (str "Topic  : " ++ topic)) with true.
    change (after_first c_colon (str "Topic  : " ++ topic))
      with (Some (c_space :: topic)).
    change (startswith (str "Topic")
              (strip (str "Model  : " ++ PlannerRun.MODEL_NAME))) with false.
    change (startswith (str "Topic") (strip [])) with false.
    cbn iota. rewrite strip_space_head, Hstrip. reflexivity. }
  split; [exact Hrun |].
  intros Hnone. rewrite Hrun, (outline_topic_no_topic_line _ topic Hnone). reflexivity.
Qed.

Lemma notes_creator_reads_the_planner_topic_witness :
  let w := Mock.world_of [(str "/work/outputs/x/outline.txt",
                           PlannerRun.outline_header (str "Graph Theory")
                           ++ str "I. Introduction (10 min)")] in
  NotesCreatorRun.parse_outline_topic Mock.quiet (str "outputs/x/outline.txt") w
  = (Ok (Some (str "Graph Theory")), w).
Proof.
  cbv zeta.
  apply (proj2 (notes_creator_reads_the_planner_topic Mock.quiet
                  (str "outputs/x/outline.txt") (str "Graph Theory")
                  (str "I. Introduction (10 min)")
                  (Mock.world_of [(str "/work/outputs/x/outline.txt",
                                   PlannerRun.outline_header (str "Graph Theory")
                                   ++ str "I. Introduction (10 min)")])
                  eq_refl ltac:(discriminate)
                  eq_refl ltac:(discriminate) ltac:(vm_compute; reflexivity))).
  reflexivity.
Defined.
(* ===================================================================== *)
(** ** The shared loader and a successful revision *)
(* ===================================================================== *)

(** X25. [load_file], in the explainer as in the controller, changes
    nothing; it succeeds exactly when the file exists and holds more
    than white space, and then returns the text of the file, read with
    universal newlines, without its surrounding white space: the result
    is not empty and stripping it again changes nothing. In every other
    case it ends with status 1. *)
Theorem load_file_returns_the_stripped_text (E : env) (filepath : pystr) (w : world) :
  (forall text w',
      load_file E filepath w = (Ok text, w') ->
      w' = w /\ text <> [] /\ strip text = text
      /\ exists content,
           files w !! resolve E filepath = Some content
           /\ text = strip (universal_newlines content))
  /\ (nonblank_at E w filepath ->
      exists text, load_file E filepath w = (Ok text, w))
  /\ (~ nonblank_at E w filepath ->
      load_file E filepath w = (Fail (SysExit 1), w)).
Proof.
  split; [| split].
  - intros text w' Hrun.
    destruct (load_file_cases E filepath w) as [(content & Hc & Hl & Hok) | Hfail].
    + rewrite Hok in Hrun. injection Hrun as <- <-.
      split; [reflexivity |]. split; [exact Hl |].
      split; [apply strip_idempotent |]. exists content. split; [exact Hc | reflexivity].
    + rewrite Hfail in Hrun. discriminate.
  - intros (content & Hc & Hl). exists (loaded content).
    apply load_file_ok; assumption.
  - apply load_file_blank.
Qed.

Lemma load_file_returns_the_stripped_text_witness :
  load_file Mock.quiet (str "/work/prompts/none.txt") (Mock.world_of Mock.project_files)
  = (Fail (SysExit 1), Mock.world_of Mock.project_files)
  /\ exists text,
       load_file Mock.quiet (str "prompts/critic_system_prompt.txt")
         (Mock.world_of Mock.project_files)
       = (Ok text, Mock.world_of Mock.project_files).
Proof.
  split.
  - apply (proj2 (proj2 (load_file_returns_the_stripped_text Mock.quiet
                           (str "/work/prompts/none.txt")
                           (Mock.world_of Mock.project_files)))).
    intros (content & Hc & _). vm_compute in Hc. discriminate.
  - apply (proj1 (proj2 (load_file_returns_the_stripped_text Mock.quiet
                           (str "prompts/critic_system_prompt.txt")
                           (Mock.world_of Mock.project_files)))).
    exists (str "Review."). split; [vm_compute; reflexivity | discriminate].
Defined.

(** X26. A successful run of the revision stage makes exactly one
    backend call, labelled as the application of a critique, and
    writes exactly one file, the explanation, in place: the new text is
    a header that names the critique file and the source found in the
    replaced text, followed by the backend's answer, which is not
    empty. Every other file, the critique among them, is left as it
    was. *)
Theorem revision_rewrites_the_explanation_only (E : env)
    (file__ explanation_path critique_path : pystr) (w w' : world) :
  Explainer.module_revise E file__ explanation_path critique_path w = (Ok tt, w') ->
  (exists explanation revised source_name req,
      files w !! resolve E explanation_path = Some explanation
      /\ Explainer.scan_source (splitlines (loaded explanation))
           (Path.basename explanation_path) = inr source_name
      /\ assemble E (backend E (calls w) req) = Ok revised
      /\ revised <> []
      /\ req_label req = str "Applying critique"
      /\ calls w' = calls w ++ [req]
      /\ files w' !! resolve E explanation_path
         = Some (Explainer.updated_header (strftime (clock E (ticks w))) source_name
                   (Path.basename critique_path) ++ revised))
  /\ (forall p, p <> resolve E explanation_path -> files w' !! p = files w !! p)
  /\ (resolve E critique_path <> resolve E explanation_path ->
      nonblank_at E w' critique_path).
Proof.
  intros Hrun.
  assert (Hcritique : nonblank_at E w critique_path).
  { revert Hrun. unfold Explainer.module_revise. rewrite bind_run.
    destruct (load_file_cases E explanation_path w) as [(? & _ & _ & ->) | ->];
      [| discriminate].
    rewrite bind_run.
    destruct (load_file_cases E critique_path w) as [(critique & Hc & Hl & _) | ->];
      [| discriminate].
    intros _. exists critique. split; assumption. }
  destruct (module_revise_effect E file__ explanation_path critique_path w)
    as [(f & w0 & Hfail & _)
       | (explanation & revised & source_name & req & He & Hle & Hscan & Hrevised
          & Hlabel & Heq)].
  { rewrite Hfail in Hrun. discriminate. }
  rewrite Heq in Hrun. apply write_text_ok_inv in Hrun as [_ ->]. cbn [files calls].
  split; [| split].
  - exists explanation, revised, source_name, req.
    split; [exact He |]. split; [exact Hscan |]. split; [exact Hrevised |].
    split; [exact (proj1 (assemble_ok _ _ _ Hrevised)) |].
    split; [exact Hlabel |]. split; [reflexivity |]. apply lookup_insert_eq.
  - intros p Hp. apply lookup_insert_ne. congruence.
  - intros Hne. destruct Hcritique as (critique' & Hc & Hl).
    exists critique'. split; [| exact Hl]. cbn [files].
    rewrite lookup_insert_ne by congruence. exact Hc.
Qed.

Lemma revision_rewrites_the_explanation_only_witness :
  let E := Mock.env_of (Mock.always (str "Revised body.")) in
  let w := Mock.world_of Mock.revision_files in
  nonblank_at E
    (snd (Explainer.module_revise E (str "/work/src/explainer.py") Mock.explanation_txt
            Mock.critique_txt w))
    Mock.critique_txt.
Proof.
  cbv zeta.
  assert (Hrun : fst (Explainer.module_revise
                        (Mock.env_of (Mock.always (str "Revised body.")))
                        (str "/work/src/explainer.py") Mock.explanation_txt
                        Mock.critique_txt (Mock.world_of Mock.revision_files))
                 = Ok tt)
    by (vm_compute; reflexivity).
  apply (proj2 (proj2 (revision_rewrites_the_explanation_only
                         (Mock.env_of (Mock.always (str "Revised body.")))
                         (str "/work/src/explainer.py") Mock.explanation_txt
                         Mock.critique_txt (Mock.world_of Mock.revision_files)
                         (snd (Explainer.module_revise
                                 (Mock.env_of (Mock.always (str "Revised body.")))
                                 (str "/work/src/explainer.py") Mock.explanation_txt
                                 Mock.critique_txt (Mock.world_of Mock.revision_files)))
                         ltac:(rewrite <- Hrun; apply surjective_pairing)))).
  vm_compute. discriminate.
Defined.
